(** * Knowledge-Assembly-RNN: dataset construction and recurrent simulation

    A shallow embedding of [constants.py], [define_dataset.py] and
    [magnitude_network.py].  Numpy vectors are lists of integers (one-hot
    entries are 0 or 1), Python exceptions are an explicit error type, the
    pseudo-random generators are explicit streams of draws, and the network
    itself (a torch module) is an abstract step function. *)

From Stdlib Require Import String.
From Stdlib Require Import ZArith List Bool Lia QArith Arith Permutation.
Import ListNotations.
Open Scope Z_scope.

(* ================================================================== *)
(** * Part I.  Definitions                                             *)
(* ================================================================== *)

(** ** constants.py *)

Module Const.
Definition TOTALMAXNUM : nat := 8.
Definition NCONTEXTS : nat := 2.
Definition NTYPEBITS : nat := 1.

Definition FULLR_LLIM : Z := 1.
Definition FULLR_ULIM : Z := 8.
Definition LOWR_LLIM : Z := 1.
Definition LOWR_ULIM : Z := 4.
Definition HIGHR_LLIM : Z := 5.
Definition HIGHR_ULIM : Z := 8.

Definition TRIAL_FILLER : Z := 0.
Definition TRIAL_COMPARE : Z := 1.

(** [np.mean(range(a, b+1))] is the exact rational (a+b)/2. *)
Definition range_mean (a b : Z) : Q := Qmake (a + b) 2.
Definition CONTEXT_FULL_MEAN : Q := range_mean FULLR_LLIM FULLR_ULIM.
Definition CONTEXT_LOW_MEAN : Q := range_mean LOWR_LLIM LOWR_ULIM.
Definition CONTEXT_HIGH_MEAN : Q := range_mean HIGHR_LLIM HIGHR_ULIM.
Definition GLOBAL_MEAN : Q := Qmake 9 2.

Definition MTESTSETS : nat := 2.
Definition NTRAIN : Z := 2880.
Definition NTEST : Z := 480.
Definition MBLOCKS : Z := 24.
End Const.

(** ** Python exceptions and indexing *)

Inductive exn : Type :=
| IndexError
| NameError
| ZeroDivisionError
| AttributeError
| ValueError_truth              (* truth value of a non-singleton array *)
| ValueError_randrange          (* empty range for random.randint *)
| ValueError_broadcast (src dst : nat)
    (* "could not broadcast input array from shape (src,) into shape (dst,)" *)
| ValueError_negative_dimensions
| ValueError_reshape (size : Z) (shape : Z * Z * Z).
    (* "cannot reshape array of size [size] into shape [shape]" *)

(** Python's index normalisation on a sequence of length [len]:
    negative indices count from the end, anything else out of range raises. *)
Definition py_index (idx : Z) (len : nat) : option nat :=
  if (0 <=? idx) && (idx <? Z.of_nat len) then Some (Z.to_nat idx)
  else if (- Z.of_nat len <=? idx) && (idx <? 0)
       then Some (Z.to_nat (idx + Z.of_nat len))
       else None.

Fixpoint list_set {A : Type} (i : nat) (v : A) (l : list A) : list A :=
  match l, i with
  | [], _ => []
  | _ :: t, O => v :: t
  | h :: t, S j => h :: list_set j v t
  end.

Definition py_get {A : Type} (l : list A) (idx : Z) : option A :=
  match py_index idx (length l) with
  | Some i => nth_error l i
  | None => None
  end.

(** [range(a, b+1)] *)
Definition zrange_incl (a b : Z) : list Z :=
  map (fun k => a + Z.of_nat k) (seq 0 (Z.to_nat (b + 1 - a))).

Definition zeros (n : nat) : list Z := repeat 0 n.

(** ** define_dataset.py: one-hot coding *)

(** [turn_one_hot(integer, maxSize)]:
    [oneHot = np.zeros((maxSize,1)); oneHot[integer-(NCONTEXTS-1)] = 1]. *)
Definition turn_one_hot (integer : Z) (maxSize : nat) : option (list Z) :=
  match py_index (integer - (Z.of_nat Const.NCONTEXTS - 1)) maxSize with
  | Some i => Some (list_set i 1 (zeros maxSize))
  | None => None
  end.

(** [np.nonzero(v)[0]]: the indices of the nonzero entries, in order. *)
Fixpoint nonzero_from (k : nat) (v : list Z) : list nat :=
  match v with
  | [] => []
  | x :: t => if x =? 0 then nonzero_from (S k) t
              else k :: nonzero_from (S k) t
  end.

Definition nonzero (v : list Z) : list nat := nonzero_from 0 v.

(** [turn_one_hot_to_integer(onehot)]: [np.nonzero(onehot)[0] + 1],
    an array with one entry per nonzero position. *)
Definition turn_one_hot_to_integer (onehot : list Z) : list Z :=
  map (fun i => Z.of_nat i + 1) (nonzero onehot).

(** A numpy array used where Python needs one truth value or one number:
    fine for a one-element array, [ValueError] otherwise. *)
Definition as_scalar (a : list Z) : option Z :=
  match a with
  | [v] => Some v
  | _ => None
  end.

(** ** define_dataset.py: randomness

    [random.choice], [random.randint] read the interpreter's generator; the
    generator is an explicit list of raw draws, consumed left to right.  A
    [while] loop that resamples recurses on that list, so every definition
    is total: a run that needs more draws than supplied ends in
    [OutOfDraws]. *)

Inductive outcome (A : Type) : Type :=
| Ok (a : A) (rest : list nat)
| Raise (e : exn)
| OutOfDraws.
Arguments Ok {A} a rest.
Arguments Raise {A} e.
Arguments OutOfDraws {A}.

Definition Gen (A : Type) : Type := list nat -> outcome A.

Definition ret {A : Type} (a : A) : Gen A := fun d => Ok a d.

Definition bind {A B : Type} (m : Gen A) (k : A -> Gen B) : Gen B :=
  fun d => match m d with
           | Ok a rest => k a rest
           | Raise e => Raise e
           | OutOfDraws => OutOfDraws
           end.

Definition raise {A : Type} (e : exn) : Gen A := fun _ => Raise e.

Definition lift {A : Type} (e : exn) (o : option A) : Gen A :=
  match o with
  | Some a => ret a
  | None => raise e
  end.

Declare Scope gen_scope.
Delimit Scope gen_scope with gen.
Notation "x <- m ;; k" := (bind m (fun x => k))
  (at level 100, m at next level, right associativity) : gen_scope.
Notation "' p <- m ;; k" := (bind m (fun x => match x with p => k end))
  (at level 100, p pattern, m at next level, right associativity) : gen_scope.

Definition draw : Gen nat :=
  fun d => match d with
           | [] => OutOfDraws
           | r :: rest => Ok r rest
           end.

(** [random.choice(range(n))] on raw draw [r]. *)
Definition choice_of (n r : nat) : nat := (r mod n)%nat.

Definition choice (n : nat) : Gen nat :=
  match n with
  | O => raise IndexError
  | _ => bind draw (fun r => ret (choice_of n r))
  end.

(** [random.randint(a, b)] on raw draw [r]. *)
Definition randint_of (a b : Z) (r : nat) : Z := a + (Z.of_nat r) mod (b - a + 1).

Definition randint (a b : Z) : Gen Z :=
  if b <? a then raise ValueError_randrange
  else bind draw (fun r => ret (randint_of a b r)).

(** ** define_dataset.py: trial sequences *)

Inductive trial_type : Type := compare | filler.

(** [generate_trial_sequence(include_fillers)]; [permorder] is the value of
    [np.random.permutation(range(30))]. *)
Definition L3_trialtype (include_fillers : bool) : list (list trial_type) :=
  repeat (if include_fillers then [compare; filler; filler]
          else [compare; compare; compare]) 10.
Definition L4_trialtype (include_fillers : bool) : list (list trial_type) :=
  repeat (if include_fillers then [compare; filler; filler; filler]
          else [compare; compare; compare; compare]) 10.
Definition L5_trialtype (include_fillers : bool) : list (list trial_type) :=
  repeat (if include_fillers then [compare; filler; filler; filler; filler]
          else [compare; compare; compare; compare; compare]) 10.

Fixpoint pick_all {A : Type} (l : list A) (idx : list nat) : option (list A) :=
  match idx with
  | [] => Some []
  | i :: rest =>
      match nth_error l i, pick_all l rest with
      | Some x, Some xs => Some (x :: xs)
      | _, _ => None
      end
  end.

Definition generate_trial_sequence (include_fillers : bool)
    (permorder : list nat) : option (list trial_type) :=
  let type_sequence :=
    concat [L3_trialtype include_fillers; L4_trialtype include_fillers;
            L5_trialtype include_fillers] in
  match pick_all type_sequence permorder with
  | Some permuted => Some (concat permuted)
  | None => None
  end.

(** [turn_index_to_context(randind)] *)
Definition turn_index_to_context (randind : Z) : Z :=
  if randind <=? Const.LOWR_ULIM then 1 else 2.

(** ** define_dataset.py: create_separate_input_data, one trial *)

Record args : Type := {
  which_context : Z;
  train_long : bool;
  label_context : String.string;
  all_fullrange : bool;
  include_fillers : bool;
  BPTT_len : nat
}.

Inductive phase : Type := train | test.

Definition is_test (ph : phase) : bool :=
  match ph with test => true | train => false end.

(** Function-level variables that outlive one sequence; [None] is a name
    not yet bound. *)
Record vars : Type := {
  judgementValue : option Z;
  context : option Z
}.

Definition vec_eqb (u v : list Z) : bool :=
  (length u =? length v)%nat && forallb (fun p => fst p =? snd p) (combine u v).

(** [while refValue==judgementValue: randind = random.choice(indexDistribution);
     judgementValue = randNumDistribution[randind]] *)
Fixpoint resample_judgement (dist : list Z) (refValue : Z) (randind : nat)
    (jv : Z) (d : list nat) {struct d} : outcome (nat * Z) :=
  if refValue =? jv then
    match d with
    | [] => OutOfDraws
    | r :: rest =>
        let randind' := choice_of (length dist) r in
        match nth_error dist randind' with
        | Some j => resample_judgement dist refValue randind' j rest
        | None => Raise IndexError
        end
    end
  else Ok (randind, jv) d.

(** [while all(input2 == previousFillerNum):
       input2 = turn_one_hot(random.randint( *fillerRange), TOTALMAXNUM)] *)
Fixpoint resample_filler (previousFillerNum input2 : list Z) (d : list nat)
    {struct d} : outcome (list Z) :=
  if vec_eqb input2 previousFillerNum then
    match d with
    | [] => OutOfDraws
    | r :: rest =>
        match turn_one_hot (randint_of Const.FULLR_LLIM Const.FULLR_ULIM r)
                           Const.TOTALMAXNUM with
        | Some v => resample_filler previousFillerNum v rest
        | None => Raise IndexError
        end
    end
  else Ok input2 d.

(** What one pass through the body of [for item in range(args.BPTT_len)]
    appends and leaves behind. *)
Record item_result : Type := {
  ir_input2 : list Z;
  ir_context : Z;
  ir_contextinput : list Z;
  ir_vars : vars;
  ir_previousFillerNum : option (list Z)
}.

Open Scope gen_scope.

Definition gen_compare (a : args) (ph : phase) (dist : list Z)
    (firstTrialInContext : bool) (item : nat) (v : vars)
  : Gen (list Z * vars) :=
  refValue <- (if firstTrialInContext && (item =? 0)%nat
               then (randind <- choice (length dist) ;;
                     lift IndexError (nth_error dist randind))
               else lift NameError (judgementValue v)) ;;
  randind <- choice (length dist) ;;
  jv <- lift IndexError (nth_error dist randind) ;;
  '(randind, jv) <- resample_judgement dist refValue randind jv ;;
  input2 <- lift IndexError (turn_one_hot jv Const.TOTALMAXNUM) ;;
  ctx <- (if all_fullrange a || train_long a || is_test ph
          then (x <- lift IndexError (nth_error dist randind) ;;
                ret (Some (turn_index_to_context x)))
          else ret (context v)) ;;
  ret (input2, {| judgementValue := Some jv; context := ctx |}).

Definition gen_filler (a : args) (v : vars)
    (previousFillerNum : option (list Z)) (previousTrialtype : option trial_type)
  : Gen (list Z * vars) :=
  x <- randint Const.FULLR_LLIM Const.FULLR_ULIM ;;
  input2 <- lift IndexError (turn_one_hot x Const.TOTALMAXNUM) ;;
  input2 <- (match previousFillerNum, previousTrialtype with
             | Some p, Some compare => resample_filler p input2
             | _, _ => ret input2
             end) ;;
  ctx <- (if all_fullrange a
          then (c <- randint 1 (Z.of_nat Const.NCONTEXTS) ;; ret (Some c))
          else ret (context v)) ;;
  ret (input2, {| judgementValue := judgementValue v; context := ctx |}).

(** The context input fed to the network, by labelling policy.  With any
    other policy string [contextinput] is never bound. *)
Definition gen_contextinput (a : args) (v : vars) : Gen (list Z) :=
  if String.eqb (label_context a) "true"%string then
    c <- lift NameError (context v) ;;
    lift IndexError (turn_one_hot c Const.NCONTEXTS)
  else if String.eqb (label_context a) "random"%string then
    r <- randint 1 3 ;;
    lift IndexError (turn_one_hot r Const.NCONTEXTS)
  else if String.eqb (label_context a) "constant"%string then
    lift IndexError (turn_one_hot 1 Const.NCONTEXTS)
  else raise NameError.

Definition gen_item (a : args) (ph : phase) (dist : list Z)
    (firstTrialInContext : bool) (item : nat) (tt : trial_type) (v : vars)
    (previousFillerNum : option (list Z)) (previousTrialtype : option trial_type)
  : Gen item_result :=
  '(input2, v', pf) <-
     (match tt with
      | compare =>
          '(input2, v') <- gen_compare a ph dist firstTrialInContext item v ;;
          ret (input2, v', previousFillerNum)
      | filler =>
          '(input2, v') <- gen_filler a v previousFillerNum previousTrialtype ;;
          ret (input2, v', Some input2)
      end) ;;
  contextinput <- gen_contextinput a v' ;;
  c <- lift NameError (context v') ;;
  ret {| ir_input2 := input2; ir_context := c; ir_contextinput := contextinput;
         ir_vars := v'; ir_previousFillerNum := pf |}.

(** [for item in range(args.BPTT_len)]: [n] iterations are left, the next
    one is number [item]. *)
Fixpoint gen_items (a : args) (ph : phase) (dist : list Z)
    (firstTrialInContext : bool) (type_sequence : list trial_type)
    (n item : nat) (v : vars)
    (previousFillerNum : option (list Z)) (previousTrialtype : option trial_type)
  : Gen (list item_result * vars) :=
  match n with
  | O => ret ([], v)
  | S n' =>
      tt <- lift IndexError (nth_error type_sequence item) ;;
      r <- gen_item a ph dist firstTrialInContext item tt v
                    previousFillerNum previousTrialtype ;;
      '(rs, v') <- gen_items a ph dist firstTrialInContext type_sequence
                             n' (S item) (ir_vars r)
                             (ir_previousFillerNum r) (Some tt) ;;
      ret (r :: rs, v')
  end.

Close Scope gen_scope.

(** ** define_dataset.py: create_separate_input_data, labels of one sequence *)

Inductive result (A : Type) : Type :=
| Done (a : A)
| Fail (e : exn).
Arguments Done {A} a.
Arguments Fail {A} e.

Definition of_option {A : Type} (e : exn) (o : option A) : result A :=
  match o with
  | Some a => Done a
  | None => Fail e
  end.

(** An entry of the float array [target]. *)
Inductive label : Type :=
| LNaN
| LNum (z : Z).

Definition crosses_ranges (judgeValue rValue : Z) : bool :=
  ((judgeValue <=? Const.LOWR_ULIM) && (rValue >=? Const.HIGHR_LLIM))
  || ((judgeValue >=? Const.HIGHR_LLIM) && (rValue <=? Const.LOWR_ULIM)).

(** Lines 403-410: the value written to [target[block, sample, i]] when a
    reference exists. *)
Definition compare_target (train_long : bool) (judgeValue rValue : Z) : label :=
  let t := if judgeValue >? rValue then LNum 1 else LNum 0 in
  if negb train_long
  then (if crosses_ranges judgeValue rValue then LNaN else t)
  else t.

(** One position of the labelling loop.  [lr_target = None] is an entry of
    [target] left as [np.empty] allocated it (filler trials). *)
Record label_row : Type := {
  lr_target : option label;
  lr_JValue : list Z;
  lr_RValue : list Z
}.

(** [input_sequence] holds results of [turn_one_hot] only, so each decodes to
    a one-element array; on any other vector the model raises. *)
Definition decode (onehot : list Z) : result Z :=
  of_option ValueError_truth (as_scalar (turn_one_hot_to_integer onehot)).

(** [for i in range(args.BPTT_len)] of the labelling pass, with the running
    [rValue]; [trialtypeinput[i]] and [input_sequence[i]] are read in step. *)
Fixpoint label_loop (train_long : bool) (rValue : option Z)
    (trialtypeinput : list Z) (input_sequence : list (list Z))
  : result (list label_row) :=
  match input_sequence with
  | [] => Done []
  | x :: xs =>
      match trialtypeinput with
      | [] => Fail IndexError
      | trialtype :: ts =>
          match decode x with
          | Fail e => Fail e
          | Done judgeValue =>
              let tgt :=
                if trialtype =? 1 then
                  match rValue with
                  | Some r => Some (compare_target train_long judgeValue r)
                  | None => Some LNaN        (* target[...] = None *)
                  end
                else None in
              match turn_one_hot judgeValue Const.TOTALMAXNUM,
                    (match rValue with
                     | None => Some (zeros Const.TOTALMAXNUM)
                     | Some r => turn_one_hot r Const.TOTALMAXNUM
                     end) with
              | Some jrow, Some rrow =>
                  let rValue' := if trialtype =? 1 then Some judgeValue
                                 else rValue in
                  match label_loop train_long rValue' ts xs with
                  | Done rows =>
                      Done ({| lr_target := tgt; lr_JValue := jrow;
                               lr_RValue := rrow |} :: rows)
                  | Fail e => Fail e
                  end
              | _, _ => Fail IndexError
              end
          end
      end
  end.

(** The last value of [judgeValue] after the labelling pass. *)
Fixpoint last_judgeValue (judgeValue : option Z) (trialtypeinput : list Z)
    (input_sequence : list (list Z)) : option Z :=
  match input_sequence, trialtypeinput with
  | x :: xs, trialtype :: ts =>
      last_judgeValue
        (if trialtype =? 1 then as_scalar (turn_one_hot_to_integer x)
         else judgeValue) ts xs
  | _, _ => judgeValue
  end.

(** ** define_dataset.py: create_separate_input_data, sequences and blocks *)

(** One row [block, sample] of the arrays the function fills. *)
Record seq_data : Type := {
  sd_input : list (list Z);
  sd_contextdigits : list Z;
  sd_contextinputs : list (list Z);
  sd_target : list (option label);
  sd_refValues : list (list Z);
  sd_judgementValues : list (list Z);
  sd_trialTypeInputs : list Z
}.

Definition lift_result {A : Type} (r : result A) : Gen A :=
  match r with
  | Done a => ret a
  | Fail e => raise e
  end.

Definition trialtype_flag (tt : trial_type) : Z :=
  match tt with compare => 1 | filler => 0 end.

(** [trialtypeinput]: zeros over the whole [type_sequence], the first
    [BPTT_len] entries overwritten by the trial-type flag. *)
Definition trialtypeinput_of (type_sequence : list trial_type) (n : nat) : list Z :=
  map trialtype_flag (firstn n type_sequence)
  ++ repeat 0 (length type_sequence - n).

Open Scope gen_scope.

(** The body of [for sample in range(int(N/Mblocks))]. *)
Definition gen_sequence (a : args) (ph : phase) (dist : list Z)
    (firstTrialInContext : bool) (permorder : list nat) (v : vars)
  : Gen (seq_data * vars * bool) :=
  type_sequence <- lift IndexError
                     (generate_trial_sequence (include_fillers a) permorder) ;;
  let trialtypeinput := trialtypeinput_of type_sequence (BPTT_len a) in
  '(items, v1) <- gen_items a ph dist firstTrialInContext type_sequence
                            (BPTT_len a) 0 v None None ;;
  let input_sequence := map ir_input2 items in
  '(v2, first') <-
     (if firstTrialInContext
      then (lastin <- lift IndexError (py_get input_sequence (-1)) ;;
            jv <- lift_result (decode lastin) ;;
            ret ({| judgementValue := Some jv; context := context v1 |}, false)
           )
      else ret (v1, firstTrialInContext)) ;;
  rows <- lift_result (label_loop (train_long a) None trialtypeinput
                                  input_sequence) ;;
  let v3 := if (first' : bool)
            then {| judgementValue :=
                      last_judgeValue None trialtypeinput input_sequence;
                    context := context v2 |}
            else v2 in
  if (length type_sequence =? BPTT_len a)%nat then
    ret ({| sd_input := input_sequence;
            sd_contextdigits := map ir_context items;
            sd_contextinputs := map ir_contextinput items;
            sd_target := map lr_target rows;
            sd_refValues := map lr_RValue rows;
            sd_judgementValues := map lr_JValue rows;
            sd_trialTypeInputs := trialtypeinput |}, v3, first')
  else raise (ValueError_broadcast (length type_sequence) (BPTT_len a)).

(** [for sample in range(int(N/Mblocks))]; [perms] holds the permutations
    numpy's generator returns, one per sequence. *)
Fixpoint gen_samples (a : args) (ph : phase) (dist : list Z) (n : nat)
    (firstTrialInContext : bool) (perms : list (list nat)) (v : vars)
  : Gen (list seq_data * list (list nat) * vars) :=
  match n with
  | O => ret ([], perms, v)
  | S n' =>
      match perms with
      | [] => fun _ => OutOfDraws
      | permorder :: perms' =>
          '(sd, v', first') <-
             gen_sequence a ph dist firstTrialInContext permorder v ;;
          '(sds, perms'', v'') <- gen_samples a ph dist n' first' perms' v' ;;
          ret (sd :: sds, perms'', v'')
      end
  end.

Close Scope gen_scope.

(** Variables of the block loop that outlive a block. *)
Record block_vars : Type := {
  bv_vars : vars;
  minNumerosity : option Z;
  maxNumerosity : option Z
}.

Definition set_range (bv : block_vars) (c : option Z) (lo hi : Z) : block_vars :=
  {| bv_vars := {| judgementValue := judgementValue (bv_vars bv);
                   context := match c with Some _ => c
                                         | None => context (bv_vars bv) end |};
     minNumerosity := Some lo; maxNumerosity := Some hi |}.

(** Lines 261-294: the context and the range of block number [block]. *)
Definition block_setup (a : args) (ph : phase) (Mblocks block : Z)
    (bv : block_vars) : block_vars :=
  match ph with
  | train =>
      if negb (train_long a) then
        if which_context a =? 0 then
          if Z.of_nat Const.NCONTEXTS * block <? Mblocks
          then set_range bv (Some 1) Const.LOWR_LLIM Const.LOWR_ULIM
          else if block <? Mblocks
               then set_range bv (Some 2) Const.HIGHR_LLIM Const.HIGHR_ULIM
               else bv
        else if which_context a =? 1
             then set_range bv (Some 1) Const.LOWR_LLIM Const.LOWR_ULIM
        else if which_context a =? 2
             then set_range bv (Some 2) Const.HIGHR_LLIM Const.HIGHR_ULIM
        else bv
      else set_range bv None Const.LOWR_ULIM Const.HIGHR_LLIM
  | test => set_range bv None Const.FULLR_LLIM Const.FULLR_ULIM
  end.

(** Lines 297-306: [randNumDistribution]. *)
Definition randNumDistribution (a : args) (ph : phase) (bv : block_vars)
  : result (list Z) :=
  if train_long a && negb (is_test ph)
  then Done (zrange_incl Const.LOWR_ULIM Const.HIGHR_LLIM)
  else if all_fullrange a
       then Done (zrange_incl Const.FULLR_LLIM Const.FULLR_ULIM
                  ++ zrange_incl Const.LOWR_LLIM Const.LOWR_ULIM
                  ++ zrange_incl Const.HIGHR_LLIM Const.HIGHR_ULIM)
       else match minNumerosity bv, maxNumerosity bv with
            | Some lo, Some hi => Done (zrange_incl lo hi)
            | _, _ => Fail NameError
            end.

(** ** define_dataset.py: create_separate_input_data, phases *)

(** [int(N/Mblocks)] *)
Definition py_int_div (N Mblocks : Z) : result Z :=
  if Mblocks =? 0 then Fail ZeroDivisionError else Done (Z.quot N Mblocks).

(** Lines 241-254: the arrays of one phase are allocated with
    [int(N/Mblocks)] rows per block, then [range(N)] is reshaped to
    [(Mblocks, int(N/Mblocks), 1)].  Returns the rows per block. *)
Definition allocate (N Mblocks : Z) : result Z :=
  match py_int_div N Mblocks with
  | Fail e => Fail e
  | Done k =>
      if (Mblocks <? 0) || (k <? 0) then Fail ValueError_negative_dimensions
      else if Mblocks * k * 1 =? Z.max N 0 then Done k
           else Fail (ValueError_reshape (Z.max N 0) (Mblocks, k, 1))
  end.

Open Scope gen_scope.

(** [for block in range(Mblocks)]: [n] blocks are left, the next one is
    number [block]. *)
Fixpoint gen_blocks (a : args) (ph : phase) (Mblocks : Z) (nsamples n : nat)
    (block : Z) (perms : list (list nat)) (bv : block_vars)
  : Gen (list (list seq_data) * list (list nat) * block_vars) :=
  match n with
  | O => ret ([], perms, bv)
  | S n' =>
      let bv1 := block_setup a ph Mblocks block bv in
      dist <- lift_result (randNumDistribution a ph bv1) ;;
      '(sds, perms1, v1) <-
         gen_samples a ph dist nsamples true perms (bv_vars bv1) ;;
      let bv2 := {| bv_vars := v1; minNumerosity := minNumerosity bv1;
                    maxNumerosity := maxNumerosity bv1 |} in
      '(rest, perms2, bv3) <-
         gen_blocks a ph Mblocks nsamples n' (block + 1) perms1 bv2 ;;
      ret (sds :: rest, perms2, bv3)
  end.

(** The body of [for phase in phases], up to [flatten_first_dim]. *)
Definition gen_phase (a : args) (ph : phase) (N Mblocks : Z)
    (perms : list (list nat)) (bv : block_vars)
  : Gen (list seq_data * list (list nat) * block_vars) :=
  k <- lift_result (allocate N Mblocks) ;;
  '(blocks, perms1, bv1) <-
     gen_blocks a ph Mblocks (Z.to_nat k) (Z.to_nat Mblocks) 0 perms bv ;;
  ret (concat blocks, perms1, bv1).

(** Constants the function reads from [constants.py] that the module does
    not define; they are parameters here. *)
Record long_constants : Type := {
  NTRAIN_LONG : Z;
  NTEST_LONG : Z;
  MBLOCKS_LONG : Z
}.

Record dataset : Type := {
  trainset : list seq_data;
  testset : list seq_data;
  crossval_testset : list seq_data
}.

Definition phase_N (lc : long_constants) (a : args) (ph : phase) : Z :=
  match ph with
  | train => if negb (train_long a) then Const.NTRAIN else NTRAIN_LONG lc
  | test => if negb (train_long a) then Const.NTEST else NTEST_LONG lc
  end.

Definition phase_Mblocks (lc : long_constants) (a : args) (ph : phase) : Z :=
  match ph with
  | train => if train_long a then MBLOCKS_LONG lc else Const.MBLOCKS
  | test => Const.MBLOCKS
  end.

Definition unbound : block_vars :=
  {| bv_vars := {| judgementValue := None; context := None |};
     minNumerosity := None; maxNumerosity := None |}.

(** [create_separate_input_data]: phases are [train, test, test]. *)
Definition create_separate_input_data (lc : long_constants) (a : args)
    (perms : list (list nat)) : Gen dataset :=
  '(tr, perms1, bv1) <-
     gen_phase a train (phase_N lc a train) (phase_Mblocks lc a train)
               perms unbound ;;
  '(te, perms2, bv2) <-
     gen_phase a test (phase_N lc a test) (phase_Mblocks lc a test)
               perms1 bv1 ;;
  '(cv, _, _) <-
     gen_phase a test (phase_N lc a test) (phase_Mblocks lc a test)
               perms2 bv2 ;;
  ret {| trainset := tr; testset := te; crossval_testset := cv |}.

Close Scope gen_scope.

(** ** magnitude_network.py: the recurrent loops

    The torch module is abstract: weights [W], hidden tensors [H], output
    tensors [O], a forward pass, and the comparison [output > 0.5], which
    is [output_exceeds_half] when the output is taken as the number it
    holds.  Float losses are rationals, added in the order the code adds
    them.  The batch
    size is 1 (the default): the loops read labels and trial types of batch
    entry 0 only.  A sequence is a list of positions, one per trial, holding
    the entries of the dataset arrays at that index. *)

Record position : Type := {
  p_input : list Z;            (* data['input'][:, i] *)
  p_contextinput : list Z;     (* data['contextinput'][:, i] *)
  p_context : list Z;          (* data['context'][:, i] *)
  p_trialtype : Z;             (* data['trialtypeinput'][:, i] *)
  p_label : label              (* data['label'][0][i] *)
}.

Definition is_nan (l : label) : bool :=
  match l with LNaN => true | LNum _ => false end.

(** [np.isnan(labels[item_idx]) == 0 and (trialtype[0,item_idx]==1)] *)
Definition qualifies (p : position) : bool :=
  negb (is_nan (p_label p)) && (p_trialtype p =? 1).

Definition Qlt_bool (x y : Q) : bool := negb (Qle_bool y x).

(** [output[i] > 0.5] (line 69, and line 284 of the evaluate loop), for a
    network whose output tensor holds one number. *)
Definition output_exceeds_half (output : Q) : bool := Qlt_bool (1 # 2) output.

(** [torch.full_like(t, 0)] *)
Definition full_like_0 (t : list Z) : list Z := zeros (length t).

(** The context part of the input: zeroed on filler trials. *)
Definition context_in (p : position) : list Z :=
  if p_trialtype p =? 0 then full_like_0 (p_contextinput p)
  else p_contextinput p.

(** [recurrent_train], lines 131-149: the inputs of one sequence.
    [alternate] is [alternate_lesion_trial]; [rc] counts the calls of
    [random.random()] so far, whose results are [random_random]. *)
Fixpoint train_inputs (random_random : nat -> Q) (retrain_decoder : bool)
    (train_lesion_freq : Q) (ps : list position) (alternate : bool) (rc : nat)
  : list (list Z) * list Z * nat :=
  match ps with
  | [] => ([], [], rc)
  | p :: rest =>
      let '(lesioned, rc') :=
        if p_trialtype p =? 0 then (false, rc)
        else if retrain_decoder then (alternate, rc)
             else (Qlt_bool (random_random rc) train_lesion_freq, S rc) in
      let lesionedinput := if lesioned then full_like_0 (p_input p)
                           else p_input p in
      let inputX := lesionedinput ++ context_in p ++ [p_trialtype p] in
      let '(xs, record, rc'') :=
        train_inputs random_random retrain_decoder train_lesion_freq rest
                     (negb alternate) rc' in
      (inputX :: xs, (if lesioned then 1 else 0) :: record, rc'')
  end.

(** [recurrent_test], lines 241-248. *)
Definition test_inputs (ps : list position) : list (list Z) :=
  map (fun p => p_input p ++ context_in p ++ [p_trialtype p]) ps.

(** [recurrent_lesion_test], lines 377-385. *)
Definition lesion_test_inputs (ps : list position) : list (list Z) :=
  map (fun p => p_input p
                ++ (if p_trialtype p =? 0 then full_like_0 (p_contextinput p)
                    else p_contextinput p)
                ++ [p_trialtype p]) ps.

(** [get_activations], lines 681-690 (the pass that retains the hidden
    state). *)
Definition get_activations_inputs (ps : list position) : list (list Z) :=
  map (fun p => p_input p
                ++ (if p_trialtype p =? 0 then full_like_0 (p_contextinput p)
                    else p_contextinput p)
                ++ [p_trialtype p]) ps.

(** The context slice of a concatenated input vector. *)
Definition context_slice (inputX : list Z) : list Z :=
  firstn Const.NCONTEXTS (skipn Const.TOTALMAXNUM inputX).

Definition stimulus_slice (inputX : list Z) : list Z :=
  firstn Const.TOTALMAXNUM inputX.

(** ** magnitude_network.py: the hand-coded baselines *)

Definition Qgt_bool (x y : Q) : bool := negb (Qle_bool x y).

(** [1 if response == label else 0] for a label tensor of one entry. *)
Definition response_correct (response : Z) (lab : label) : Z :=
  match lab with
  | LNum z => if response =? z then 1 else 0
  | LNaN => 0
  end.

Definition localmedians : list Q :=
  [Const.CONTEXT_FULL_MEAN; Const.CONTEXT_LOW_MEAN; Const.CONTEXT_HIGH_MEAN].

(** [get_local_model_response(number, context, label)] *)
Definition get_local_model_response (number context : Z) (lab : label)
  : result Z :=
  match py_get localmedians (context - 1) with
  | None => Fail IndexError
  | Some median =>
      let response := if Qgt_bool (inject_Z number) median then 1 else 0 in
      Done (response_correct response lab)
  end.

(** [get_global_model_response(number, context, label)] *)
Definition get_global_model_response (number context : Z) (lab : label) : Z :=
  let globalmedian := Const.GLOBAL_MEAN in
  let response := if Qgt_bool (inject_Z number) globalmedian then 1 else 0 in
  response_correct response lab.

(** The local baseline as the specification words it (a second definition,
    for comparison with [get_local_model_response]): respond 1 iff the
    stimulus exceeds the mean of the trial's own context range, the
    low-range mean for context 1 and the high-range mean for context 2. *)
Definition spec_context_mean (context : Z) : option Q :=
  if context =? 1 then Some Const.CONTEXT_LOW_MEAN
  else if context =? 2 then Some Const.CONTEXT_HIGH_MEAN
  else None.

Definition spec_local_model_response (number context : Z) (lab : label)
  : result Z :=
  match spec_context_mean context with
  | None => Fail IndexError
  | Some mean =>
      let response := if Qgt_bool (inject_Z number) mean then 1 else 0 in
      Done (response_correct response lab)
  end.

(** ** magnitude_network.py: lesions *)

(** Lines 423-428: the lesion applied to [tmpinputs[trial][0]]. *)
Definition apply_lesion (whichLesion : string) (x : list Z) : list Z :=
  if String.eqb whichLesion "number"%string
  then full_like_0 (firstn Const.TOTALMAXNUM x) ++ skipn Const.TOTALMAXNUM x
  else firstn Const.TOTALMAXNUM x
       ++ full_like_0 (firstn Const.NCONTEXTS (skipn Const.TOTALMAXNUM x))
       ++ skipn (Const.TOTALMAXNUM + Const.NCONTEXTS) x.

(** Lines 402-412: walking back from the assessment trial, the nearest
    compare trial is lesioned, every earlier one with frequency
    [lesionFrequency].  [rev_prefix] is trials [assess_idx-1 .. 0]; the marks
    come out in that order. *)
Fixpoint lesion_marks (random_random : nat -> Q) (lesionFrequency : Q)
    (rev_prefix : list position) (isPrevCompareTrial : bool) (rc : nat)
  : list Z * nat :=
  match rev_prefix with
  | [] => ([], rc)
  | p :: rest =>
      if (p_trialtype p =? 1) && isPrevCompareTrial then
        let '(m, rc') := lesion_marks random_random lesionFrequency rest
                                      false rc in
        (1 :: m, rc')
      else if p_trialtype p =? 1 then
        let hit := Qlt_bool (random_random rc) lesionFrequency in
        let '(m, rc') := lesion_marks random_random lesionFrequency rest
                                      isPrevCompareTrial (S rc) in
        ((if hit then 1 else 0) :: m, rc')
      else
        let '(m, rc') := lesion_marks random_random lesionFrequency rest
                                      isPrevCompareTrial rc in
        (0 :: m, rc')
  end.

(** [lesionRecord] of one assessment: zeros, then the marks. *)
Definition lesionRecord_of (random_random : nat -> Q) (lesionFrequency : Q)
    (ps : list position) (assess_idx rc : nat) : list Z * nat :=
  let '(m, rc') := lesion_marks random_random lesionFrequency
                                (rev (firstn assess_idx ps)) true rc in
  (rev m ++ zeros (length ps - assess_idx), rc').

(** [dset.turn_one_hot_to_integer] applied to a torch tensor, as line 424
    applies it: [np.nonzero] hands a tensor over to its own [nonzero()],
    whose rows are the positions of the nonzero entries, so
    [np.nonzero(onehot)[0]] is the first of them, and IndexError when there
    is none.  On a one-hot row this is the one-element result
    [turn_one_hot_to_integer] gives. *)
Definition turn_one_hot_to_integer_tensor (onehot : list Z)
  : result (list Z) :=
  match turn_one_hot_to_integer onehot with
  | [] => Fail IndexError
  | integer :: _ => Done [integer]
  end.

Record net_args : Type := {
  retain_hidden_state : bool;
  retrain_decoder : bool;
  train_lesion_freq : Q
}.

Section Engine.

Variables W H O : Type.
Variable forward : W -> list Z -> H -> O * H.  (* model(x, hidden) *)
Variable exceeds_half : O -> bool.             (* output > 0.5 *)
Variable criterion : O -> label -> Q.          (* BCELoss *)
Variable zeros_hidden : H.      (* torch.zeros(batch_size, recurrent_size) *)
Variable add_noise : nat -> H -> H.   (* hidden plus the k-th noise sample *)
Variable optimizer_step : W -> list (list Z) -> H -> nat -> list position -> W.
      (* loss.backward(); optimizer.step() on the graph of one sequence *)
Variable random_random : nat -> Q.    (* the k-th value of random.random() *)
Variable TRIALS_DIRECTORY : option string.
      (* const.TRIALS_DIRECTORY; constants.py as it stands defines none,
         which is [None] *)

(** [answer_correct(output, label)] for one output. *)
Definition answer_correct (output : O) (lab : label) : Z :=
  let pred := if exceeds_half output then 1 else 0 in
  match lab with
  | LNum z => if pred =? z then 1 else 0
  | LNaN => 0
  end.

(** *** recurrent_train *)

(** Variables of the recurrence over one sequence. *)
Record train_acc : Type := {
  a_hidden : H;
  a_latentstate : H;
  a_loss : option Q;          (* [None] is the Python int 0 of [loss = 0] *)
  a_correct : Z;
  a_trials_counter : Z;
  a_all_trials_counter : Z;
  a_noise : nat               (* noise samples drawn so far *)
}.

Definition add_loss (loss : option Q) (c : Q) : option Q :=
  match loss with
  | None => Some (0 + c)%Q
  | Some l => Some (l + c)%Q
  end.

(** Lines 157-178: [for item_idx in range(sequenceLength)]. *)
Fixpoint train_steps (w : W) (sequenceLength item_idx : nat)
    (recurrentinputs : list (list Z)) (ps : list position) (st : train_acc)
  : train_acc :=
  match recurrentinputs, ps with
  | x :: xs, p :: ps' =>
      let hidden := add_noise (a_noise st) (a_hidden st) in
      let '(output, hidden) := forward w x hidden in
      let latentstate :=
        if (item_idx + 2 =? sequenceLength)%nat then hidden
        else a_latentstate st in
      let q := qualifies p in
      train_steps w sequenceLength (S item_idx) xs ps'
        {| a_hidden := hidden;
           a_latentstate := latentstate;
           a_loss := if q then add_loss (a_loss st)
                                        (criterion output (p_label p))
                     else a_loss st;
           a_correct := if q then a_correct st
                                  + answer_correct output (p_label p)
                        else a_correct st;
           a_trials_counter := if q then a_trials_counter st + 1
                               else a_trials_counter st;
           a_all_trials_counter := a_all_trials_counter st + 1;
           a_noise := S (a_noise st) |}
  | _, _ => st
  end.

(** Variables of [recurrent_train] that outlive a sequence. *)
Record train_state : Type := {
  ts_weights : W;
  ts_hidden : H;
  ts_latentstate : H;
  ts_train_loss : Q;
  ts_correct : Z;
  ts_trials_counter : Z;
  ts_all_trials_counter : Z;
  ts_random : nat;            (* calls of random.random() so far *)
  ts_noise : nat
}.

(** The hidden state a sequence starts from (lines 151-154). *)
Definition train_start_hidden (a : net_args) (st : train_state) : H :=
  if negb (retain_hidden_state a) then zeros_hidden else ts_latentstate st.

(** The body of [for batch_idx, data in enumerate(train_loader)]. *)
Definition train_batch (a : net_args) (st : train_state) (ps : list position)
  : result train_state :=
  let '(recurrentinputs, lesionRecord, rc) :=
    train_inputs random_random (retrain_decoder a) (train_lesion_freq a)
                 ps true (ts_random st) in
  let hidden := train_start_hidden a st in
  let r := train_steps (ts_weights st) (length ps) 0 recurrentinputs ps
             {| a_hidden := hidden; a_latentstate := ts_latentstate st;
                a_loss := None; a_correct := ts_correct st;
                a_trials_counter := ts_trials_counter st;
                a_all_trials_counter := ts_all_trials_counter st;
                a_noise := ts_noise st |} in
  match a_loss r with
  | None => Fail AttributeError     (* loss.backward() on the int 0 *)
  | Some loss =>
      Done {| ts_weights := optimizer_step (ts_weights st) recurrentinputs
                                           hidden (ts_noise st) ps;
              ts_hidden := a_hidden r;
              ts_latentstate := a_latentstate r;
              ts_train_loss := (ts_train_loss st + loss)%Q;
              ts_correct := a_correct r;
              ts_trials_counter := a_trials_counter r;
              ts_all_trials_counter := a_all_trials_counter r;
              ts_random := rc;
              ts_noise := a_noise r |}
  end.

Fixpoint train_batches (a : net_args) (st : train_state)
    (train_loader : list (list position)) : result train_state :=
  match train_loader with
  | [] => Done st
  | ps :: rest =>
      match train_batch a st ps with
      | Done st' => train_batches a st' rest
      | Fail e => Fail e
      end
  end.

Definition train_init (w : W) (rc nc : nat) : train_state :=
  {| ts_weights := w; ts_hidden := zeros_hidden;
     ts_latentstate := zeros_hidden; ts_train_loss := 0%Q;
     ts_correct := 0; ts_trials_counter := 0; ts_all_trials_counter := 0;
     ts_random := rc; ts_noise := nc |}.

(** [x / n] for a Python float [x] and int [n]. *)
Definition py_div (x : Q) (n : Z) : result Q :=
  if n =? 0 then Fail ZeroDivisionError else Done (x / inject_Z n)%Q.

(** [recurrent_train]: returns [(train_loss, accuracy)] and the trained
    weights. *)
Definition recurrent_train (a : net_args) (w : W) (rc nc : nat)
    (train_loader : list (list position)) : result (Q * Q * W) :=
  match train_batches a (train_init w rc nc) train_loader with
  | Fail e => Fail e
  | Done st =>
      match py_div (ts_train_loss st) (ts_trials_counter st) with
      | Fail e => Fail e
      | Done train_loss =>
          match py_div (100 * inject_Z (ts_correct st))%Q
                       (ts_trials_counter st) with
          | Fail e => Fail e
          | Done accuracy => Done (train_loss, accuracy, ts_weights st)
          end
      end
  end.

(** *** recurrent_test *)

(** [(v == 1).nonzero()]: the indices holding exactly 1. *)
Fixpoint ones_from (k : nat) (v : list Z) : list nat :=
  match v with
  | [] => []
  | x :: t => if x =? 1 then k :: ones_from (S k) t else ones_from (S k) t
  end.

(** Variables of the recurrence over one sequence.  [hidden.add_(noise)]
    works in place: while [t_aliased] holds, [latentstate] is the same
    tensor as [hidden] and changes with it. *)
Record test_acc : Type := {
  t_hidden : H;
  t_latentstate : H;
  t_aliased : bool;
  t_test_loss : Q;
  t_correct : Z;
  t_trials_counter : Z;
  t_noise : nat
}.

(** Lines 257-316: [for item_idx in range(sequenceLength)].  The audit
    line of a qualifying trial reads [indices_list[0]], which raises when
    the stimulus part of the input holds no 1. *)
Fixpoint test_steps (w : W) (sequenceLength item_idx : nat)
    (recurrentinputs : list (list Z)) (ps : list position) (st : test_acc)
  : result test_acc :=
  match recurrentinputs, ps with
  | x :: xs, p :: ps' =>
      let noisy := add_noise (t_noise st) (t_hidden st) in
      let latent1 := if t_aliased st then noisy else t_latentstate st in
      let '(output, hidden) := forward w x noisy in
      let capture := (item_idx + 2 =? sequenceLength)%nat in
      let latentstate := if capture then hidden else latent1 in
      if qualifies p then
        match ones_from 0 (firstn Const.TOTALMAXNUM x) with
        | [] => Fail IndexError
        | _ :: _ =>
            test_steps w sequenceLength (S item_idx) xs ps'
              {| t_hidden := hidden; t_latentstate := latentstate;
                 t_aliased := capture;
                 t_test_loss := (t_test_loss st
                                 + criterion output (p_label p))%Q;
                 t_correct := t_correct st
                              + answer_correct output (p_label p);
                 t_trials_counter := t_trials_counter st + 1;
                 t_noise := S (t_noise st) |}
        end
      else
        test_steps w sequenceLength (S item_idx) xs ps'
          {| t_hidden := hidden; t_latentstate := latentstate;
             t_aliased := capture;
             t_test_loss := t_test_loss st;
             t_correct := t_correct st;
             t_trials_counter := t_trials_counter st;
             t_noise := S (t_noise st) |}
  | _, _ => Done st
  end.

(** The hidden state a sequence starts from (lines 250-253). *)
Definition test_start_hidden (a : net_args) (st : test_acc) : H :=
  if negb (retain_hidden_state a) then zeros_hidden else t_latentstate st.

(** The body of [for batch_idx, data in enumerate(test_loader)]. *)
Definition test_batch (a : net_args) (w : W) (st : test_acc)
    (ps : list position) : result test_acc :=
  test_steps w (length ps) 0 (test_inputs ps) ps
    {| t_hidden := test_start_hidden a st;
       t_latentstate := t_latentstate st;
       t_aliased := retain_hidden_state a;
       t_test_loss := t_test_loss st;
       t_correct := t_correct st;
       t_trials_counter := t_trials_counter st;
       t_noise := t_noise st |}.

Fixpoint test_batches (a : net_args) (w : W) (st : test_acc)
    (test_loader : list (list position)) : result test_acc :=
  match test_loader with
  | [] => Done st
  | ps :: rest =>
      match test_batch a w st ps with
      | Done st' => test_batches a w st' rest
      | Fail e => Fail e
      end
  end.

Definition test_init (nc : nat) : test_acc :=
  {| t_hidden := zeros_hidden; t_latentstate := zeros_hidden;
     t_aliased := false; t_test_loss := 0%Q; t_correct := 0;
     t_trials_counter := 0; t_noise := nc |}.

(** [recurrent_test]: returns [(test_loss, accuracy)].  Line 230 reads
    [const.TRIALS_DIRECTORY] before the loader is touched, which raises
    AttributeError when the constants module has no such attribute.  The
    lines appended to the trials file (lines 307-310 and 324-325) are output
    only; the appends are taken to succeed. *)
Definition recurrent_test (a : net_args) (w : W) (nc : nat)
    (test_loader : list (list position)) : result (Q * Q) :=
  match TRIALS_DIRECTORY with
  | None => Fail AttributeError
  | Some _ =>
      match test_batches a w (test_init nc) test_loader with
      | Fail e => Fail e
      | Done st =>
          match py_div (t_test_loss st) (t_trials_counter st) with
          | Fail e => Fail e
          | Done test_loss =>
              match py_div (100 * inject_Z (t_correct st))%Q
                           (t_trials_counter st) with
              | Fail e => Fail e
              | Done accuracy => Done (test_loss, accuracy)
              end
          end
      end
  end.

(** *** recurrent_lesion_test *)

(** Variables of one assessment pass. *)
Record lesion_acc : Type := {
  l_hidden : H;
  l_overallperf : Z;
  l_ncomparetrials : Z;
  l_lesionperf : option Z;
  l_lesion_number : option (list Z);   (* [None]: not bound so far *)
  l_noise : nat
}.

(** Lines 420-444: [for trial in range(assess_idx+1)], with [n] trials
    left.  A flagged entry of [tmpinputs] is lesioned in place and the model
    is stepped on the entry as it then stands.  Returns [tmpinputs] as the
    pass leaves it. *)
Fixpoint lesion_steps (whichLesion : string) (w : W) (assess_idx : nat)
    (n trial : nat) (tmpinputs : list (list Z)) (lesionRecord : list Z)
    (ps : list position) (st : lesion_acc)
  : result (list (list Z) * lesion_acc) :=
  match n, tmpinputs, lesionRecord, ps with
  | S n', x :: xs, r :: rs, p :: ps' =>
      match (if r =? 1
             then match turn_one_hot_to_integer_tensor
                          (firstn Const.TOTALMAXNUM x) with
                  | Fail e => Fail e
                  | Done lesion_number =>
                      Done (apply_lesion whichLesion x, Some lesion_number)
                  end
             else Done (x, l_lesion_number st)) with
      | Fail e => Fail e
      | Done (x', lesion_number) =>
          let noisy := add_noise (l_noise st) (l_hidden st) in
          let '(output, hidden) := forward w x' noisy in
          let cmp := p_trialtype p =? 1 in
          let st' :=
            {| l_hidden := hidden;
               l_overallperf := if cmp then l_overallperf st
                                            + answer_correct output (p_label p)
                                else l_overallperf st;
               l_ncomparetrials := if cmp then l_ncomparetrials st + 1
                                   else l_ncomparetrials st;
               l_lesionperf := if cmp && (trial =? assess_idx)%nat
                               then Some (answer_correct output (p_label p))
                               else l_lesionperf st;
               l_lesion_number := lesion_number;
               l_noise := S (l_noise st) |} in
          match lesion_steps whichLesion w assess_idx n' (S trial)
                             xs rs ps' st' with
          | Fail e => Fail e
          | Done (rest, st'') => Done (x' :: rest, st'')
          end
      end
  | _, _, _, _ => Done (tmpinputs, st)
  end.

(** What one assessment records ([mydict], lines 449-451, without the
    activations of the module). *)
Record assessment : Type := {
  as_assess_number : Z;
  as_lesion_number : list Z;
  as_lesion_perf : option Z;
  as_overall_perf : Z;
  as_desired_lesionF : Q;
  as_underlying_context : Z;
  as_assess_idx : nat;
  as_compare_idx : Z;
  as_localmodel_perf : Z;
  as_globalmodel_perf : Z
}.

(** Variables of [recurrent_lesion_test] that outlive the iteration at one
    position.  [tmpinputs] and [lesion_number] are unbound ([None]) until
    an assessment pass binds them, and keep their values afterwards, also
    from one sequence to the next. *)
Record lesion_vars : Type := {
  lv_latentstate : H;
  lv_lesionRecord : list Z;
  lv_tmpinputs : option (list (list Z));
  lv_lesion_number : option (list Z);
  lv_random : nat;            (* calls of random.random() so far *)
  lv_noise : nat;
  lv_n_sequences : Z;
  lv_overallcomparisons : Z;
  lv_aggregateLesionPerf : Z;
  lv_aggregatePerf : Z
}.

(** The hidden state an iteration starts from (lines 393-396). *)
Definition lesion_start_hidden (a : net_args) (v : lesion_vars) : H :=
  if negb (retain_hidden_state a) then zeros_hidden else lv_latentstate v.

(** Lines 460-463: the model is stepped through the given entries of
    [tmpinputs]; the outputs are dropped. *)
Fixpoint hand_off_steps (w : W) (tmpinputs : list (list Z)) (hidden : H)
    (nc : nat) : H * nat :=
  match tmpinputs with
  | [] => (hidden, nc)
  | x :: rest =>
      let '(_, hidden') := forward w x (add_noise nc hidden) in
      hand_off_steps w rest hidden' (S nc)
  end.

(** The assessment of lines 399-455, entered for a compare trial after the
    first position.  Returns the variables, the hidden state the pass ends
    in and the record.  Under the retain policy [hidden] is the tensor
    [latentstate], which the in-place noise of the first step changes with
    it. *)
Definition assess_trial (whichLesion : string) (lesionFrequency : Q)
    (a : net_args) (w : W) (ps : list position) (assess_idx : nat)
    (pa : position) (context : Z) (v : lesion_vars)
  : result (lesion_vars * H * assessment) :=
  let '(lesionRecord, rc) :=
    lesionRecord_of random_random lesionFrequency ps assess_idx
                    (lv_random v) in
  match turn_one_hot_to_integer (p_input pa) with
  | [] => Fail IndexError
  | assess_number :: _ =>
      match lesion_steps whichLesion w assess_idx (S assess_idx) 0
                         (lesion_test_inputs ps) lesionRecord ps
                         {| l_hidden := lesion_start_hidden a v;
                            l_overallperf := 0;
                            l_ncomparetrials := 0;
                            l_lesionperf := None;
                            l_lesion_number := lv_lesion_number v;
                            l_noise := lv_noise v |} with
      | Fail e => Fail e
      | Done (tmpinputs, st) =>
          match get_local_model_response assess_number context
                                         (p_label pa) with
          | Fail e => Fail e
          | Done localmodel_perf =>
              match l_lesion_number st, l_lesionperf st with
              | Some lesion_number, Some lesionperf =>
                  Done
                    ({| lv_latentstate :=
                          if retain_hidden_state a
                          then add_noise (lv_noise v) (lv_latentstate v)
                          else lv_latentstate v;
                        lv_lesionRecord := lesionRecord;
                        lv_tmpinputs := Some tmpinputs;
                        lv_lesion_number := Some lesion_number;
                        lv_random := rc;
                        lv_noise := l_noise st;
                        lv_n_sequences := lv_n_sequences v + 1;
                        lv_overallcomparisons :=
                          lv_overallcomparisons v + l_ncomparetrials st;
                        lv_aggregateLesionPerf :=
                          lv_aggregateLesionPerf v + lesionperf;
                        lv_aggregatePerf :=
                          lv_aggregatePerf v + l_overallperf st |},
                     l_hidden st,
                     {| as_assess_number := assess_number;
                        as_lesion_number := lesion_number;
                        as_lesion_perf := Some lesionperf;
                        as_overall_perf := l_overallperf st;
                        as_desired_lesionF := lesionFrequency;
                        as_underlying_context := context;
                        as_assess_idx := assess_idx;
                        as_compare_idx := l_ncomparetrials st;
                        as_localmodel_perf := localmodel_perf;
                        as_globalmodel_perf :=
                          get_global_model_response assess_number context
                                                    (p_label pa) |})
              | _, _ => Fail NameError    (* an unbound local in [mydict] *)
              end
          end
      end
  end.

(** The body of [for assess_idx in range(sequenceLength)], lines 389-464:
    the lesion record is reset, a compare trial after the first position is
    assessed, and at the second-to-last position the model is stepped
    through [tmpinputs] once more, from the hidden state it is in, for the
    state handed to the next sequence. *)
Definition assess (whichLesion : string) (lesionFrequency : Q)
    (a : net_args) (w : W) (ps : list position) (assess_idx : nat)
    (v : lesion_vars) : result (lesion_vars * option assessment) :=
  match nth_error ps assess_idx with
  | None => Fail IndexError
  | Some pa =>
      match turn_one_hot_to_integer (p_context pa) with
      | [] => Fail IndexError
      | context :: _ =>
          match
            (if (p_trialtype pa =? 1) && (0 <? assess_idx)%nat
             then match assess_trial whichLesion lesionFrequency a w ps
                                     assess_idx pa context v with
                  | Fail e => Fail e
                  | Done (v1, hidden, r) => Done (v1, hidden, Some r)
                  end
             else Done ({| lv_latentstate := lv_latentstate v;
                           lv_lesionRecord := zeros (length ps);
                           lv_tmpinputs := lv_tmpinputs v;
                           lv_lesion_number := lv_lesion_number v;
                           lv_random := lv_random v;
                           lv_noise := lv_noise v;
                           lv_n_sequences := lv_n_sequences v;
                           lv_overallcomparisons := lv_overallcomparisons v;
                           lv_aggregateLesionPerf := lv_aggregateLesionPerf v;
                           lv_aggregatePerf := lv_aggregatePerf v |},
                        lesion_start_hidden a v, None))
          with
          | Fail e => Fail e
          | Done (v1, hidden, r) =>
              if (assess_idx + 2 =? length ps)%nat then
                match lv_tmpinputs v1 with
                | None => Fail NameError    (* no assessment so far *)
                | Some tmpinputs =>
                    if (length tmpinputs <? S assess_idx)%nat
                    then Fail IndexError    (* left by a shorter sequence *)
                    else
                      let '(hidden', nc) :=
                        hand_off_steps w (firstn (S assess_idx) tmpinputs)
                                       hidden (lv_noise v1) in
                      Done ({| lv_latentstate := hidden';
                               lv_lesionRecord := lv_lesionRecord v1;
                               lv_tmpinputs := lv_tmpinputs v1;
                               lv_lesion_number := lv_lesion_number v1;
                               lv_random := lv_random v1;
                               lv_noise := nc;
                               lv_n_sequences := lv_n_sequences v1;
                               lv_overallcomparisons :=
                                 lv_overallcomparisons v1;
                               lv_aggregateLesionPerf :=
                                 lv_aggregateLesionPerf v1;
                               lv_aggregatePerf := lv_aggregatePerf v1 |}, r)
                end
              else Done (v1, r)
          end
      end
  end.

(** Positions [assess_idx], [assess_idx+1], ... of one sequence, [n] of
    them: the records of the assessed ones, in order. *)
Fixpoint assess_from (whichLesion : string) (lesionFrequency : Q)
    (a : net_args) (w : W) (ps : list position) (n assess_idx : nat)
    (v : lesion_vars) : result (lesion_vars * list assessment) :=
  match n with
  | 0%nat => Done (v, [])
  | S n' =>
      match assess whichLesion lesionFrequency a w ps assess_idx v with
      | Fail e => Fail e
      | Done (v1, r) =>
          match assess_from whichLesion lesionFrequency a w ps n'
                            (S assess_idx) v1 with
          | Fail e => Fail e
          | Done (v2, rs) =>
              Done (v2, match r with Some r' => r' :: rs | None => rs end)
          end
      end
  end.

(** The body of [for batch_idx, data in enumerate(test_loader)]: the
    variables after the sequence and its [sequenceAssessment]. *)
Definition lesion_batch (whichLesion : string) (lesionFrequency : Q)
    (a : net_args) (w : W) (v : lesion_vars) (ps : list position)
  : result (lesion_vars * list assessment) :=
  assess_from whichLesion lesionFrequency a w ps (length ps) 0 v.

(** The variables as the first sequence starts. *)
Definition lesion_init (rc nc : nat) : lesion_vars :=
  {| lv_latentstate := zeros_hidden;
     lv_lesionRecord := [];
     lv_tmpinputs := None;
     lv_lesion_number := None;
     lv_random := rc;
     lv_noise := nc;
     lv_n_sequences := 0;
     lv_overallcomparisons := 0;
     lv_aggregateLesionPerf := 0;
     lv_aggregatePerf := 0 |}.

End Engine.

Arguments answer_correct {O}.
Arguments add_loss loss c : simpl nomatch.
Arguments train_steps {W H O}.
Arguments train_start_hidden {W H}.
Arguments train_batch {W H O}.
Arguments train_batches {W H O}.
Arguments train_init {W H}.
Arguments recurrent_train {W H O}.
Arguments test_steps {W H O}.
Arguments test_start_hidden {H}.
Arguments test_batch {W H O}.
Arguments test_batches {W H O}.
Arguments test_init {H}.
Arguments recurrent_test {W H O}.
Arguments lesion_steps {W H O}.
Arguments hand_off_steps {W H O}.
Arguments lesion_start_hidden {H}.
Arguments assess_trial {W H O}.
Arguments assess {W H O}.
Arguments assess_from {W H O}.
Arguments lesion_batch {W H O}.
Arguments lesion_init {H}.
Arguments a_hidden {H}.
Arguments a_latentstate {H}.
Arguments a_loss {H}.
Arguments a_correct {H}.
Arguments a_trials_counter {H}.
Arguments a_all_trials_counter {H}.
Arguments a_noise {H}.
Arguments ts_weights {W H}.
Arguments ts_hidden {W H}.
Arguments ts_latentstate {W H}.
Arguments ts_train_loss {W H}.
Arguments ts_correct {W H}.
Arguments ts_trials_counter {W H}.
Arguments ts_all_trials_counter {W H}.
Arguments ts_random {W H}.
Arguments ts_noise {W H}.
Arguments t_hidden {H}.
Arguments t_latentstate {H}.
Arguments t_aliased {H}.
Arguments t_test_loss {H}.
Arguments t_correct {H}.
Arguments t_trials_counter {H}.
Arguments t_noise {H}.
Arguments l_hidden {H}.
Arguments l_overallperf {H}.
Arguments l_ncomparetrials {H}.
Arguments l_lesionperf {H}.
Arguments l_lesion_number {H}.
Arguments l_noise {H}.
Arguments lv_latentstate {H}.
Arguments lv_lesionRecord {H}.
Arguments lv_tmpinputs {H}.
Arguments lv_lesion_number {H}.
Arguments lv_random {H}.
Arguments lv_noise {H}.
Arguments lv_n_sequences {H}.
Arguments lv_overallcomparisons {H}.
Arguments lv_aggregateLesionPerf {H}.
Arguments lv_aggregatePerf {H}.

(** ** What the model computes along a sequence

    Descriptions of a run, used to state what the loops accumulate: the
    outputs and hidden states the model produces when it is stepped through
    every input of a sequence in order. *)

Section Trace.

Variables W H O : Type.
Variable forward : W -> list Z -> H -> O * H.
Variable exceeds_half : O -> bool.
Variable criterion : O -> label -> Q.
Variable add_noise : nat -> H -> H.

(** Output and new hidden state of each step, from hidden state [h], the
    noise samples numbered from [nc]. *)
Fixpoint forward_trace (w : W) (nc : nat) (h : H) (xs : list (list Z))
  : list (O * H) :=
  match xs with
  | [] => []
  | x :: rest =>
      let '(output, hidden) := forward w x (add_noise nc h) in
      (output, hidden) :: forward_trace w (S nc) hidden rest
  end.

(** The outputs at the qualifying positions, each with its position. *)
Definition qualifying (outputs : list O) (ps : list position)
  : list (O * position) :=
  filter (fun op => qualifies (snd op)) (combine outputs ps).

Definition loss_at (op : O * position) : Q :=
  criterion (fst op) (p_label (snd op)).

Definition correct_at (op : O * position) : Z :=
  answer_correct exceeds_half (fst op) (p_label (snd op)).

(** The injected noise is zero ([model.hidden_noise] is 0.0): adding a noise
    sample leaves a hidden state as it is. *)
Definition zero_noise : Prop := forall (k : nat) (h : H), add_noise k h = h.

(** While the evaluate loop holds [latentstate] and [hidden] as one tensor,
    the two have one value. *)
Definition alias_sound (st : test_acc H) : Prop :=
  t_aliased st = true -> t_latentstate st = t_hidden st.

End Trace.

Arguments zero_noise {H}.
Arguments alias_sound {H}.
Arguments forward_trace {W H O}.
Arguments qualifying {O}.
Arguments loss_at {O}.
Arguments correct_at {O}.

(** ** Statements about generated sequences *)

(** The label rule in the words of the specification: 1 if the judged value
    is strictly greater than the reference value and 0 otherwise, except
    that it is undefined when one value is in the low sub-range (<= 4), the
    other in the high sub-range (>= 5) and the regime is short-sequence. *)
Definition claimed_label (train_long : bool) (judged reference : Z) : label :=
  if negb train_long
     && (((judged <=? 4) && (reference >=? 5))
         || ((judged >=? 5) && (reference <=? 4)))
  then LNaN
  else if judged >? reference then LNum 1 else LNum 0.

(** The judged value of the latest compare trial before position [i] of a
    run of trials ([rValue] if there is none). *)
Fixpoint reference_at (rValue : option Z) (trialtypeinput : list Z)
    (input_sequence : list (list Z)) (i : nat) : option Z :=
  match i, trialtypeinput, input_sequence with
  | O, _, _ => rValue
  | S i', trialtype :: ts, x :: xs =>
      reference_at (if trialtype =? 1
                    then as_scalar (turn_one_hot_to_integer x)
                    else rValue) ts xs i'
  | _, _, _ => None
  end.

(** The trials of a context block in temporal order. *)
Definition block_trialtypes (blk : list seq_data) : list Z :=
  concat (map sd_trialTypeInputs blk).
Definition block_inputs (blk : list seq_data) : list (list Z) :=
  concat (map sd_input blk).
Definition block_targets (blk : list seq_data) : list (option label) :=
  concat (map sd_target blk).

(** The label claim read over a whole context block: every compare trial
    with an earlier compare trial anywhere in its block is labelled by the
    rule, against that trial's judged value. *)
Definition label_claim_in_block (train_long : bool) (blk : list seq_data)
  : Prop :=
  forall (k : nat) (x : list Z) (j r : Z),
    nth_error (block_trialtypes blk) k = Some 1 ->
    nth_error (block_inputs blk) k = Some x ->
    decode x = Done j ->
    reference_at None (block_trialtypes blk) (block_inputs blk) k = Some r ->
    nth_error (block_targets blk) k = Some (Some (claimed_label train_long j r)).

(** Every number of a range can be one-hot coded as a stimulus. *)
Definition in_stimulus_range (dist : list Z) : Prop :=
  Forall (fun x => 1 <= x <= Z.of_nat Const.TOTALMAXNUM) dist.

(** The range variables of the block loop are unbound or hold limits that
    can be one-hot coded. *)
Definition range_ok (bv : block_vars) : Prop :=
  forall lo hi : Z,
    minNumerosity bv = Some lo -> maxNumerosity bv = Some hi ->
    1 <= lo /\ hi <= Z.of_nat Const.TOTALMAXNUM.

(** Every sequence of the three splits of a data set. *)
Definition all_sequences (ds : dataset) : list seq_data :=
  trainset ds ++ testset ds ++ crossval_testset ds.

(** No two adjacent positions of a sequence hold the same stimulus. *)
Definition no_adjacent_repeat (sd : seq_data) : Prop :=
  forall (i : nat) (u u' : list Z),
    nth_error (sd_input sd) i = Some u ->
    nth_error (sd_input sd) (S i) = Some u' ->
    u <> u'.

(** ** Statements about lesion evaluation *)

(** The lesion claim for one pass of the model: against the lesion record,
    the inputs [fed] are the inputs [original] of the sequence with every
    flagged trial lesioned (the stimulus slice zeroed when whichLesion is
    'number', the context slice otherwise) and every other trial
    unmodified. *)
Definition fed_as_recorded (whichLesion : string) (lesionRecord : list Z)
    (original fed : list (list Z)) : Prop :=
  forall (trial : nat) (x x' : list Z) (flag : Z),
    nth_error original trial = Some x ->
    nth_error fed trial = Some x' ->
    nth_error lesionRecord trial = Some flag ->
    (flag <> 1 -> x' = x) /\
    (flag = 1 -> whichLesion = "number"%string ->
     stimulus_slice x' = zeros (length (stimulus_slice x)) /\
     context_slice x' = context_slice x /\
     skipn Const.TOTALMAXNUM x' = skipn Const.TOTALMAXNUM x) /\
    (flag = 1 -> whichLesion <> "number"%string ->
     stimulus_slice x' = stimulus_slice x /\
     context_slice x' = zeros (length (context_slice x)) /\
     skipn (Const.TOTALMAXNUM + Const.NCONTEXTS) x'
     = skipn (Const.TOTALMAXNUM + Const.NCONTEXTS) x).

(** The compare trials among the outputs of a pass, each with its
    position. *)
Definition compared {O : Type} (outputs : list O) (ps : list position)
  : list (O * position) :=
  filter (fun op => p_trialtype (snd op) =? 1) (combine outputs ps).

(** ** Concrete inputs used by the examples below *)

(** A compare trial whose label is undefined: the first compare trial of
    any sequence is one. *)
Definition unlabelled_compare_trial : position :=
  {| p_input := [0; 0; 1; 0; 0; 0; 0; 0];
     p_contextinput := [1; 0];
     p_context := [1; 0];
     p_trialtype := 1;
     p_label := LNaN |}.

(** A filler trial carrying stimulus 6 and, under the "true" labelling
    policy, the context input of context 2. *)
Definition filler_trial_6 : position :=
  {| p_input := [0; 0; 0; 0; 0; 1; 0; 0];
     p_contextinput := [0; 1];
     p_context := [0; 1];
     p_trialtype := 0;
     p_label := LNaN |}.

(** A compare trial carrying stimulus 5 in context 2, labelled 1 (its
    reference, two trials back, is 3 under the long-sequence regime). *)
Definition compare_trial_5 : position :=
  {| p_input := [0; 0; 0; 0; 1; 0; 0; 0];
     p_contextinput := [0; 1];
     p_context := [0; 1];
     p_trialtype := 1;
     p_label := LNum 1 |}.

Definition example_sequence : list position :=
  [unlabelled_compare_trial; filler_trial_6; compare_trial_5].

(** A compare trial carrying stimulus 2 in context 1, labelled 0 (its
    reference is greater). *)
Definition compare_trial_2 : position :=
  {| p_input := [0; 1; 0; 0; 0; 0; 0; 0];
     p_contextinput := [1; 0];
     p_context := [1; 0];
     p_trialtype := 1;
     p_label := LNum 0 |}.

(** Three compare trials: stimulus 3 without a reference, stimulus 2
    labelled 0 and stimulus 5 labelled 1 (long-sequence regime). *)
Definition graded_sequence : list position :=
  [unlabelled_compare_trial; compare_trial_2; compare_trial_5].

(** A network that ignores its input: it always answers [true] (its output
    exceeds 0.5) and has a one-point hidden state. *)
Definition constant_forward (w : unit) (x : list Z) (h : unit) : bool * unit :=
  (true, tt).

(** A network whose hidden state counts the steps taken so far; its output
    exceeds 0.5 from the second step on.  Its loss is 1 on every trial. *)
Definition counting_forward (w : unit) (x : list Z) (h : Z) : bool * Z :=
  (0 <? h, h + 1).

(** A network whose hidden state counts the steps taken so far and whose
    output is half that count: 0, then exactly 0.5, then 1.  Its loss is 1
    on every trial. *)
Definition ramp_forward (w : unit) (x : list Z) (h : Z) : Q * Z :=
  (Qmake h 2, h + 1).

Definition retain_args : net_args :=
  {| retain_hidden_state := true; retrain_decoder := false;
     train_lesion_freq := 0%Q |}.

(** A sequence for lesion evaluation: compare trials with stimuli 3, 5 and
    2, a filler with stimulus 6 at the second-to-last position. *)
Definition lesion_example : list position :=
  [unlabelled_compare_trial; compare_trial_5; filler_trial_6;
   compare_trial_2].

(** A network that remembers what it is fed: its hidden state is the list
    of the inputs it has received since the state was reset.  It always
    answers [true]. *)
Definition logging_forward (w : unit) (x : list Z) (h : list (list Z))
  : bool * list (list Z) :=
  (true, h ++ [x]).

Definition reset_args : net_args :=
  {| retain_hidden_state := false; retrain_decoder := false;
     train_lesion_freq := 0%Q |}.

(** Short-sequence, blocked training with the true context label: without
    fillers (the command-line default) and with fillers. *)
Definition short_args : args :=
  {| which_context := 0; train_long := false; label_context := "true";
     all_fullrange := false; include_fillers := false; BPTT_len := 120 |}.

Definition short_filler_args : args :=
  {| which_context := 0; train_long := false; label_context := "true";
     all_fullrange := false; include_fillers := true; BPTT_len := 120 |}.

(** The low range of a context-1 training block, and the variables as a
    block of context 1 starts. *)
Definition low_range : list Z :=
  zrange_incl Const.LOWR_LLIM Const.LOWR_ULIM.

Definition low_block_vars : vars :=
  {| judgementValue := None; context := Some 1 |}.

Definition identity_permutation : list nat := seq 0 30.

(** Two streams of raw random draws. *)
Definition cycling_draws : list nat :=
  concat (repeat [0; 1; 2; 3]%nat 100).

Definition repeating_draws : list nat :=
  [0; 1; 1; 1; 2; 4; 3; 3]%nat
  ++ concat (repeat [0; 1; 2; 3; 4; 5; 6; 7]%nat 40).

(** A small long-sequence configuration: two training sequences in one
    block, one test sequence in each of the 24 test blocks. *)
Definition long_args : args :=
  {| which_context := 0; train_long := true; label_context := "true";
     all_fullrange := false; include_fillers := false; BPTT_len := 120 |}.

Definition small_long_constants : long_constants :=
  {| NTRAIN_LONG := 2; NTEST_LONG := 24; MBLOCKS_LONG := 1 |}.

Definition long_permutations : list (list nat) :=
  repeat identity_permutation 50.

Definition long_draws : list nat :=
  concat (repeat [0; 1; 2; 3]%nat 3000).

(** ** Further statements about trial sequences *)

Definition is_compare (t : trial_type) : bool :=
  match t with compare => true | filler => false end.

(** The number of compare trials of a trial-type sequence. *)
Definition n_compare (ts : list trial_type) : nat :=
  length (filter is_compare ts).

(** A compare trial followed by [k] filler trials. *)
Definition filler_run (k : nat) : list trial_type :=
  compare :: repeat filler k.

(** ** Further statements about generated data *)

(** A one-hot coded stimulus: the code of a number between 1 and
    TOTALMAXNUM. *)
Definition is_stimulus (v : list Z) : Prop :=
  exists j, 1 <= j <= Z.of_nat Const.TOTALMAXNUM /\
            turn_one_hot j Const.TOTALMAXNUM = Some v.

(** The arrays of one sequence are aligned: [n] positions each, stimulus
    rows of TOTALMAXNUM entries and context-input rows of NCONTEXTS. *)
Definition seq_shape (n : nat) (sd : seq_data) : Prop :=
  length (sd_input sd) = n /\
  length (sd_contextdigits sd) = n /\
  length (sd_contextinputs sd) = n /\
  length (sd_target sd) = n /\
  length (sd_refValues sd) = n /\
  length (sd_judgementValues sd) = n /\
  length (sd_trialTypeInputs sd) = n /\
  Forall (fun row => length row = Const.TOTALMAXNUM) (sd_input sd) /\
  Forall (fun row => length row = Const.NCONTEXTS) (sd_contextinputs sd) /\
  Forall (fun row => length row = Const.TOTALMAXNUM) (sd_refValues sd) /\
  Forall (fun row => length row = Const.TOTALMAXNUM) (sd_judgementValues sd).

(** The stimulus of the latest filler trial before position [i] of a run of
    trials ([prev] if there is none): the value of [previousFillerNum] as
    trial [i] is generated. *)
Fixpoint filler_before (prev : option (list Z)) (trialtypeinput : list Z)
    (input_sequence : list (list Z)) (i : nat) : option (list Z) :=
  match i, trialtypeinput, input_sequence with
  | O, _, _ => prev
  | S i', trialtype :: ts, x :: xs =>
      filler_before (if trialtype =? 1 then prev else Some x) ts xs i'
  | _, _, _ => None
  end.

(** The small long-sequence configuration with filler trials, and a stream
    of raw draws for it. *)
Definition long_filler_args : args :=
  {| which_context := 0; train_long := true; label_context := "true";
     all_fullrange := false; include_fillers := true; BPTT_len := 120 |}.

Definition filler_draws : list nat :=
  concat (repeat [0; 1; 2; 3; 5; 4; 7]%nat 2000).

(** ** Statements about context blocks *)

(** The number ranges a block draws its compare trials from: the low
    range (context 1), the high range (context 2), the linking pair 4..5,
    the full range, and the interleaved mixture of the three ranges. *)
Inductive block_kind : Type :=
| low_block
| high_block
| link_block
| full_block
| mixed_block.

Definition dist_of (k : block_kind) : list Z :=
  match k with
  | low_block => zrange_incl Const.LOWR_LLIM Const.LOWR_ULIM
  | high_block => zrange_incl Const.HIGHR_LLIM Const.HIGHR_ULIM
  | link_block => zrange_incl Const.LOWR_ULIM Const.HIGHR_LLIM
  | full_block => zrange_incl Const.FULLR_LLIM Const.FULLR_ULIM
  | mixed_block => zrange_incl Const.FULLR_LLIM Const.FULLR_ULIM
                   ++ zrange_incl Const.LOWR_LLIM Const.LOWR_ULIM
                   ++ zrange_incl Const.HIGHR_LLIM Const.HIGHR_ULIM
  end.

(** The context a block fixes for all of its trials, if it fixes one. *)
Definition context_of (k : block_kind) : option Z :=
  match k with
  | low_block => Some 1
  | high_block => Some 2
  | _ => None
  end.

(** The plan of a phase (lines 260-306): the kind of block number
    [block] out of [Mblocks]; [None] where the code binds no range. *)
Definition kind_of_block (a : args) (ph : phase) (Mblocks block : Z)
  : option block_kind :=
  match ph with
  | test => Some (if all_fullrange a then mixed_block else full_block)
  | train =>
      if train_long a then Some link_block
      else if all_fullrange a then Some mixed_block
      else if which_context a =? 0 then
             if Z.of_nat Const.NCONTEXTS * block <? Mblocks
             then Some low_block
             else if block <? Mblocks then Some high_block else None
      else if which_context a =? 1 then Some low_block
      else if which_context a =? 2 then Some high_block
      else None
  end.

(** A sequence belongs to a block of kind [k]: every stored context digit
    is 1 or 2 (the one the block fixes, if it fixes one); at a compare
    trial the stimulus is a number of the block's range and the context
    digit names the sub-range of that number; and the context input is the
    code of the context digit under the policy "true", the code of 1 under
    the policy "constant". *)
Definition seq_in_block (label_context : string) (k : block_kind)
    (sd : seq_data) : Prop :=
  forall (i : nat) (t : Z) (x : list Z) (c : Z) (ci : list Z),
    nth_error (sd_trialTypeInputs sd) i = Some t ->
    nth_error (sd_input sd) i = Some x ->
    nth_error (sd_contextdigits sd) i = Some c ->
    nth_error (sd_contextinputs sd) i = Some ci ->
    (c = 1 \/ c = 2) /\
    (forall c0, context_of k = Some c0 -> c = c0) /\
    (t = 1 ->
     exists j, decode x = Done j /\ In j (dist_of k) /\
               c = turn_index_to_context j) /\
    (label_context = "true"%string ->
     turn_one_hot c Const.NCONTEXTS = Some ci) /\
    (label_context = "constant"%string ->
     turn_one_hot 1 Const.NCONTEXTS = Some ci).

(** The variable [context], when bound, holds 1 or 2. *)
Definition context_known (v : vars) : Prop :=
  forall c, context v = Some c -> c = 1 \/ c = 2.

(** The variables between two trials of a block of kind [k]. *)
Definition vars_in_block (k : block_kind) (v : vars) : Prop :=
  context_known v /\
  forall c0, context_of k = Some c0 -> context v = Some c0.

(** Compare trials recompute [context] from their number exactly when the
    block fixes none. *)
Definition kind_fits (a : args) (ph : phase) (k : block_kind) : Prop :=
  if all_fullrange a || train_long a || is_test ph
  then context_of k = None
  else exists c, context_of k = Some c /\
                 Forall (fun x => turn_index_to_context x = c) (dist_of k).

(** The block loop binds a range in every block of the phase. *)
Definition setup_defined (a : args) (ph : phase) : bool :=
  is_test ph || train_long a || all_fullrange a
  || (which_context a =? 0) || (which_context a =? 1)
  || (which_context a =? 2).

Definition start_ok (a : args) (ph : phase) (bv : block_vars) : Prop :=
  setup_defined a ph = true \/ minNumerosity bv = None.

(** A short-sequence run of two blocks of two sequences each. *)
Definition short_permutations : list (list nat) :=
  repeat identity_permutation 4.

(** ** define_dataset.py: view_dataset_index_info *)

(** [for ind in range(len(row)): if row[ind] == 1: value = ind + 1]:
    the number a row is read as, [value] when no entry is 1. *)
Fixpoint read_row (ind : nat) (value : Z) (row : list Z) : Z :=
  match row with
  | [] => value
  | x :: rest =>
      read_row (S ind) (if x =? 1 then Z.of_nat ind + 1 else value) rest
  end.

(** What the function prints after the line of one trial. *)
Inductive complaint : Type :=
| no_complaint
| WRONG_label
| WRONG_context
| WRONG_label_not_NaN.

(** [label == z] for a float label (false for NaN). *)
Definition label_eqb (l : label) (z : Z) : bool :=
  match l with
  | LNum y => y =? z
  | LNaN => false
  end.

(** The checks on trial [i] of the inspected sequence, from its rows of
    [judgementValue], [refValue], [label] and [context].  The third check
    is made in the loop over the training set only. *)
Definition view_trial (trainset_loop train_long : bool)
    (jrow rrow : list Z) (lab : label) (crow : list Z) : complaint :=
  let judgementValue := read_row 0 0 jrow in
  let refValue := read_row 0 0 rrow in
  let context := read_row 0 (-1) crow in
  if ((judgementValue <? refValue) && label_eqb lab 1)
     || ((judgementValue >? refValue) && label_eqb lab 0)
  then WRONG_label
  else if (((judgementValue <=? Const.LOWR_ULIM) && (context =? 2))
           || ((judgementValue >=? Const.HIGHR_LLIM) && (context =? 1)))
          && negb train_long
  then WRONG_context
  else if trainset_loop
          && (((judgementValue <=? Const.LOWR_ULIM)
               && (refValue >=? Const.HIGHR_LLIM))
              || ((judgementValue >=? Const.HIGHR_LLIM)
                  && (refValue <=? Const.LOWR_ULIM)))
          && (label_eqb lab 1 || label_eqb lab 0)
  then (if negb train_long then WRONG_label_not_NaN else no_complaint)
  else no_complaint.

(** ** From the data set to the loops *)

(** The positions a loader of batch size 1 yields for one sequence of a
    split (CreateDataset and batch_to_torch).  A label that was never
    written holds what [np.empty] left there: [uninitialised i] at
    position [i]. *)
Definition positions_of (uninitialised : nat -> label) (sd : seq_data)
  : list position :=
  map (fun i =>
         {| p_input := nth i (sd_input sd) [];
            p_contextinput := nth i (sd_contextinputs sd) [];
            p_context :=
              match turn_one_hot (nth i (sd_contextdigits sd) 0)
                                 Const.NCONTEXTS with
              | Some row => row
              | None => []
              end;
            p_trialtype := nth i (sd_trialTypeInputs sd) 0;
            p_label := match nth i (sd_target sd) None with
                       | Some l => l
                       | None => uninitialised i
                       end |})
      (seq 0 (length (sd_input sd))).

(* ================================================================== *)
(** * Part II.  Theorems                                               *)
(* ================================================================== *)

Section OneHot.

Lemma list_set_length {A : Type} (i : nat) (v : A) (l : list A) :
  length (list_set i v l) = length l.
Proof.
  revert i; induction l as [|h t IH]; intros [|j]; simpl; auto.
Qed.

Lemma list_set_nth_same {A : Type} (i : nat) (v : A) (l : list A) :
  (i < length l)%nat -> nth_error (list_set i v l) i = Some v.
Proof.
  revert i; induction l as [|h t IH]; intros [|j] Hlt; simpl in *;
    try lia; auto.
  apply IH; lia.
Qed.

Lemma list_set_nth_other {A : Type} (i j : nat) (v : A) (l : list A) :
  i <> j -> nth_error (list_set i v l) j = nth_error l j.
Proof.
  revert i j; induction l as [|h t IH]; intros [|i] [|j] Hne; simpl;
    try congruence; auto.
Qed.

Lemma nonzero_from_zeros (k n : nat) : nonzero_from k (zeros n) = [].
Proof.
  revert k; induction n as [|n IH]; intro k; simpl; auto.
Qed.

Lemma nonzero_from_set (k i n : nat) :
  (i < n)%nat ->
  nonzero_from k (list_set i 1 (zeros n)) = [(k + i)%nat].
Proof.
  revert k i; induction n as [|n IH]; intros k [|i] Hlt; simpl; try lia.
  - rewrite nonzero_from_zeros. f_equal. lia.
  - change (repeat 0 n) with (zeros n).
    rewrite IH by lia. f_equal. lia.
Qed.

Lemma nth_error_zeros (n j : nat) :
  (j < n)%nat -> nth_error (zeros n) j = Some 0.
Proof.
  revert j; induction n as [|n IH]; intros [|j] Hlt; simpl; try lia; auto.
  apply IH; lia.
Qed.

Lemma turn_one_hot_in_range (n : Z) (maxSize : nat) :
  1 <= n <= Z.of_nat maxSize ->
  turn_one_hot n maxSize
  = Some (list_set (Z.to_nat (n - 1)) 1 (zeros maxSize)).
Proof.
  intros Hn. unfold turn_one_hot, py_index. simpl Z.of_nat.
  replace (n - (2 - 1)) with (n - 1) by lia.
  destruct (0 <=? n - 1) eqn:E1; [|apply Z.leb_gt in E1; lia].
  destruct (n - 1 <? Z.of_nat maxSize) eqn:E2; [|apply Z.ltb_ge in E2; lia].
  reflexivity.
Qed.

End OneHot.

(** C10. One-hot round trip: for 1 <= n <= maxSize, [turn_one_hot] succeeds,
    puts its single 1 at index n-1 (every other entry is 0), and
    [turn_one_hot_to_integer] returns the index of the nonzero entry plus
    one, which recovers n. *)
Theorem turn_one_hot_roundtrip (n : Z) (maxSize : nat) :
  1 <= n <= Z.of_nat maxSize ->
  exists v,
    turn_one_hot n maxSize = Some v /\
    length v = maxSize /\
    nth_error v (Z.to_nat (n - 1)) = Some 1 /\
    (forall j, (j < maxSize)%nat -> j <> Z.to_nat (n - 1) ->
               nth_error v j = Some 0) /\
    nonzero v = [Z.to_nat (n - 1)] /\
    turn_one_hot_to_integer v = [n].
Proof.
  intros Hn.
  exists (list_set (Z.to_nat (n - 1)) 1 (zeros maxSize)).
  assert (Hi : (Z.to_nat (n - 1) < maxSize)%nat) by lia.
  split; [apply turn_one_hot_in_range; exact Hn|].
  split; [rewrite list_set_length; apply repeat_length|].
  split; [apply list_set_nth_same; unfold zeros; rewrite repeat_length; exact Hi|].
  split.
  { intros j Hj Hne. rewrite list_set_nth_other by congruence.
    apply nth_error_zeros; exact Hj. }
  assert (Hnz : nonzero (list_set (Z.to_nat (n - 1)) 1 (zeros maxSize))
                = [Z.to_nat (n - 1)]).
  { unfold nonzero. rewrite nonzero_from_set by exact Hi. reflexivity. }
  split; [exact Hnz|].
  unfold turn_one_hot_to_integer. rewrite Hnz. simpl. f_equal. lia.
Qed.

Lemma turn_one_hot_roundtrip_witness :
  1 <= 3 <= Z.of_nat 8 /\
  exists v,
    turn_one_hot 3 8 = Some v /\
    length v = 8%nat /\
    nth_error v (Z.to_nat (3 - 1)) = Some 1 /\
    (forall j, (j < 8)%nat -> j <> Z.to_nat (3 - 1) ->
               nth_error v j = Some 0) /\
    nonzero v = [Z.to_nat (3 - 1)] /\
    turn_one_hot_to_integer v = [3].
Proof.
  assert (Hn : 1 <= 3 <= Z.of_nat 8) by (simpl; lia).
  split; [exact Hn|].
  apply (turn_one_hot_roundtrip 3 8 Hn).
Defined.

(** ** Dataset construction: the divisibility check *)

Lemma allocate_indivisible (N Mblocks : Z) :
  0 <= N -> ~ (Mblocks | N) ->
  exists e, allocate N Mblocks = Fail e /\
            (0 < Mblocks ->
             e = ValueError_reshape N (Mblocks, Z.quot N Mblocks, 1)).
Proof.
  intros HN Hnd. unfold allocate, py_int_div.
  destruct (Mblocks =? 0) eqn:E0.
  { exists ZeroDivisionError. split; [reflexivity|]. apply Z.eqb_eq in E0. lia. }
  apply Z.eqb_neq in E0.
  destruct (Mblocks <? 0) eqn:Eneg.
  { simpl. exists ValueError_negative_dimensions. split; [reflexivity|].
    apply Z.ltb_lt in Eneg. lia. }
  apply Z.ltb_ge in Eneg.
  assert (Hpos : 0 < Mblocks) by lia.
  assert (Hk : 0 <= Z.quot N Mblocks) by (apply Z.quot_pos; lia).
  destruct (Z.quot N Mblocks <? 0) eqn:Ek; [apply Z.ltb_lt in Ek; lia|].
  simpl. rewrite Z.max_l by lia.
  destruct (Mblocks * Z.quot N Mblocks * 1 =? N) eqn:Eq.
  { exfalso. apply Hnd. apply Z.eqb_eq in Eq.
    exists (Z.quot N Mblocks). lia. }
  eexists. split; [reflexivity|]. intros _. reflexivity.
Qed.

(** C7. In every phase, when the requested number of sequences N (N >= 0)
    is not a multiple of Mblocks, the assembler raises before it draws a
    single random number, whatever the random stream: for Mblocks > 0 the
    error is numpy's "cannot reshape array of size N into shape
    (Mblocks, int(N/Mblocks), 1)", so no data set with a truncated sample
    count is ever returned. *)
Theorem gen_phase_indivisible_raises (a : args) (ph : phase) (N Mblocks : Z)
    (perms : list (list nat)) (bv : block_vars) (d : list nat) :
  0 <= N -> ~ (Mblocks | N) ->
  exists e, gen_phase a ph N Mblocks perms bv d = Raise e /\
            (0 < Mblocks ->
             e = ValueError_reshape N (Mblocks, Z.quot N Mblocks, 1)).
Proof.
  intros HN Hnd.
  destruct (allocate_indivisible N Mblocks HN Hnd) as [e [He Hshape]].
  exists e. split; [|exact Hshape].
  unfold gen_phase, bind, lift_result. rewrite He. reflexivity.
Qed.

Lemma gen_phase_indivisible_raises_witness :
  0 <= 2881 /\ ~ (24 | 2881) /\
  exists e,
    gen_phase {| which_context := 0; train_long := false;
                 label_context := "true"; all_fullrange := false;
                 include_fillers := false; BPTT_len := 120 |}
              train 2881 24 [] unbound [] = Raise e /\
    (0 < 24 -> e = ValueError_reshape 2881 (24, Z.quot 2881 24, 1)).
Proof.
  assert (H0 : 0 <= 2881) by lia.
  assert (Hnd : ~ (24 | 2881)) by (intros [z Hz]; lia).
  split; [exact H0|]. split; [exact Hnd|].
  apply (gen_phase_indivisible_raises _ train 2881 24 [] unbound [] H0 Hnd).
Defined.

(** ** The hand-coded baselines *)

Lemma global_response_rule (number context : Z) (lab : label) :
  get_global_model_response number context lab
  = response_correct (if Qgt_bool (inject_Z number) (Qmake 9 2) then 1 else 0)
                     lab.
Proof. reflexivity. Qed.

(** C9 (the code departs from the claim). The local baseline reads
    [localmedians[context-1]] from the table [full, low, high]: for context 1
    it compares with the full-range mean 4.5 and for context 2 with the
    low-range mean 2.5.  At stimulus 3 in context 1 with label 1 the code
    scores the baseline wrong, where the rule of the claim (3 exceeds the
    low-range mean 2.5) scores it right; likewise at stimulus 6 in context 2
    with label 0.  The global baseline follows the claim. *)
Theorem local_baseline_reads_shifted_table :
  get_local_model_response 3 1 (LNum 1) = Done 0 /\
  spec_local_model_response 3 1 (LNum 1) = Done 1 /\
  get_local_model_response 6 2 (LNum 0) = Done 0 /\
  spec_local_model_response 6 2 (LNum 0) = Done 1 /\
  py_get localmedians (1 - 1) = Some Const.CONTEXT_FULL_MEAN /\
  py_get localmedians (2 - 1) = Some Const.CONTEXT_LOW_MEAN.
Proof. repeat split; reflexivity. Qed.

(** ** Normalisation by the qualifying-trials counter *)

Section Unguarded.

Variables W H O : Type.
Variable forward : W -> list Z -> H -> O * H.
Variable exceeds_half : O -> bool.
Variable criterion : O -> label -> Q.
Variable zeros_hidden : H.
Variable add_noise : nat -> H -> H.
Variable optimizer_step : W -> list (list Z) -> H -> nat -> list position -> W.
Variable random_random : nat -> Q.

(** C8 (the code departs from the claim). Neither loop guards the final
    division.  A training epoch over an empty loader ends in
    ZeroDivisionError, for every model and configuration.  So does, once the
    constants module defines a trials directory, an evaluation epoch whose
    only compare trial has an undefined label, and an evaluation epoch over
    an empty loader.  With constants.py as it stands an evaluation epoch
    stops at line 230 with AttributeError; no default is substituted there
    either. *)
Theorem normalisation_divides_by_zero (a : net_args) (w : W) (rc nc : nat)
    (dir : string) :
  recurrent_test forward exceeds_half criterion zeros_hidden add_noise
                 (Some dir) a w nc [[unlabelled_compare_trial]]
  = Fail ZeroDivisionError /\
  recurrent_test forward exceeds_half criterion zeros_hidden add_noise
                 (Some dir) a w nc []
  = Fail ZeroDivisionError /\
  recurrent_train forward exceeds_half criterion zeros_hidden add_noise
                  optimizer_step random_random a w rc nc []
  = Fail ZeroDivisionError /\
  (forall test_loader : list (list position),
     recurrent_test forward exceeds_half criterion zeros_hidden add_noise
                    None a w nc test_loader
     = Fail AttributeError).
Proof.
  repeat split; try reflexivity.
  unfold recurrent_test, test_batches, test_batch. simpl.
  destruct (forward w _ _) as [o h]. reflexivity.
Qed.

End Unguarded.

(** ** The context input on filler trials *)

Lemma full_like_0_length (t : list Z) : length (full_like_0 t) = length t.
Proof. apply repeat_length. Qed.

Lemma slices_of_concat (A B C : list Z) :
  length A = Const.TOTALMAXNUM -> length B = Const.NCONTEXTS ->
  stimulus_slice (A ++ B ++ C) = A /\ context_slice (A ++ B ++ C) = B.
Proof.
  intros HA HB. unfold stimulus_slice, context_slice. split.
  - rewrite firstn_app, HA, Nat.sub_diag. simpl firstn at 2.
    rewrite app_nil_r. rewrite <- HA. apply firstn_all.
  - rewrite skipn_app, HA, Nat.sub_diag. simpl skipn at 2.
    rewrite <- HA at 1. rewrite skipn_all. simpl app.
    rewrite firstn_app, HB, Nat.sub_diag. simpl firstn at 2.
    rewrite app_nil_r. rewrite <- HB. apply firstn_all.
Qed.

Lemma train_inputs_nth (random_random : nat -> Q) (retrain : bool) (freq : Q)
    (ps : list position) :
  forall (alternate : bool) (rc i : nat) (p : position),
    nth_error ps i = Some p ->
    exists lesioned : bool,
      (p_trialtype p = 0 -> lesioned = false) /\
      nth_error (fst (fst (train_inputs random_random retrain freq ps
                                        alternate rc))) i
      = Some ((if lesioned then full_like_0 (p_input p) else p_input p)
              ++ context_in p ++ [p_trialtype p]).
Proof.
  induction ps as [|q rest IH]; intros alternate rc i p Hi.
  - destruct i; discriminate.
  - simpl.
    destruct (if p_trialtype q =? 0 then (false, rc)
              else if retrain then (alternate, rc)
                   else (Qlt_bool (random_random rc) freq, S rc))
      as [lesioned rc'] eqn:El.
    destruct (train_inputs random_random retrain freq rest (negb alternate) rc')
      as [[xs record] rc''] eqn:Er.
    destruct i as [|i].
    + simpl in Hi. injection Hi as <-. simpl. exists lesioned. split; auto.
      intros H0. rewrite H0 in El. simpl in El. congruence.
    + simpl in Hi. simpl.
      destruct (IH (negb alternate) rc' i p Hi) as [l [Hl Hn]].
      rewrite Er in Hn. simpl in Hn. exists l. split; assumption.
Qed.

Lemma context_in_filler (p : position) :
  p_trialtype p = 0 -> context_in p = full_like_0 (p_contextinput p).
Proof. intros H0. unfold context_in. rewrite H0. reflexivity. Qed.

Lemma apply_lesion_context_zero (whichLesion : string) (A B C : list Z) :
  length A = Const.TOTALMAXNUM -> length B = Const.NCONTEXTS ->
  context_slice (A ++ B ++ C) = zeros Const.NCONTEXTS ->
  context_slice (apply_lesion whichLesion (A ++ B ++ C)) = zeros Const.NCONTEXTS.
Proof.
  intros HA HB Hz.
  destruct (slices_of_concat A B C HA HB) as [Hs Hc].
  assert (Hskip : skipn Const.TOTALMAXNUM (A ++ B ++ C) = B ++ C).
  { rewrite skipn_app, HA, Nat.sub_diag. simpl skipn at 2.
    rewrite <- HA at 1. rewrite skipn_all. reflexivity. }
  unfold apply_lesion. destruct (String.eqb whichLesion "number").
  - fold (stimulus_slice (A ++ B ++ C)). rewrite Hs, Hskip.
    assert (HA' : length (full_like_0 A) = Const.TOTALMAXNUM)
      by (rewrite full_like_0_length; exact HA).
    destruct (slices_of_concat (full_like_0 A) B C HA' HB) as [_ Hc'].
    rewrite Hc'. rewrite <- Hc. exact Hz.
  - fold (stimulus_slice (A ++ B ++ C)).
    fold (context_slice (A ++ B ++ C)). rewrite Hs, Hc.
    assert (HB' : length (full_like_0 B) = Const.NCONTEXTS)
      by (rewrite full_like_0_length; exact HB).
    destruct (slices_of_concat A (full_like_0 B)
                (skipn (Const.TOTALMAXNUM + Const.NCONTEXTS) (A ++ B ++ C))
                HA HB') as [_ Hc'].
    rewrite Hc'. unfold full_like_0. rewrite HB. reflexivity.
Qed.

(** C5. At a filler position (trial-type flag 0) the context slice of the
    input vector built for the model is all zeros, whatever context input
    the data set stores there (so for every labelling policy): in the train
    loop, the evaluate loop, the lesion-evaluation loop (also after a lesion
    of either kind is applied to that vector) and activation extraction. *)
Theorem filler_context_input_is_zero (random_random : nat -> Q)
    (retrain : bool) (freq : Q) (ps : list position) (alternate : bool)
    (rc i : nat) (p : position) :
  nth_error ps i = Some p ->
  p_trialtype p = 0 ->
  length (p_input p) = Const.TOTALMAXNUM ->
  length (p_contextinput p) = Const.NCONTEXTS ->
  (exists x,
     nth_error (fst (fst (train_inputs random_random retrain freq ps
                                       alternate rc))) i = Some x /\
     context_slice x = zeros Const.NCONTEXTS) /\
  (exists x, nth_error (test_inputs ps) i = Some x /\
             context_slice x = zeros Const.NCONTEXTS) /\
  (exists x, nth_error (lesion_test_inputs ps) i = Some x /\
             context_slice x = zeros Const.NCONTEXTS /\
             forall whichLesion,
               context_slice (apply_lesion whichLesion x)
               = zeros Const.NCONTEXTS) /\
  (exists x, nth_error (get_activations_inputs ps) i = Some x /\
             context_slice x = zeros Const.NCONTEXTS).
Proof.
  intros Hi H0 Hin Hctx.
  assert (Hz : length (full_like_0 (p_contextinput p)) = Const.NCONTEXTS)
    by (rewrite full_like_0_length; exact Hctx).
  assert (Hzeros : full_like_0 (p_contextinput p) = zeros Const.NCONTEXTS)
    by (unfold full_like_0; rewrite Hctx; reflexivity).
  assert (Hslice : context_slice (p_input p ++ full_like_0 (p_contextinput p)
                                  ++ [p_trialtype p])
                   = zeros Const.NCONTEXTS).
  { destruct (slices_of_concat (p_input p) (full_like_0 (p_contextinput p))
                [p_trialtype p] Hin Hz) as [_ Hc].
    rewrite Hc. exact Hzeros. }
  repeat split.
  - destruct (train_inputs_nth random_random retrain freq ps alternate rc i p Hi)
      as [lesioned [Hl Hn]].
    rewrite (Hl H0) in Hn. rewrite (context_in_filler p H0) in Hn.
    eexists. split; [exact Hn | exact Hslice].
  - unfold test_inputs. rewrite nth_error_map, Hi. simpl.
    rewrite (context_in_filler p H0).
    eexists. split; [reflexivity | exact Hslice].
  - unfold lesion_test_inputs. rewrite nth_error_map, Hi. simpl.
    rewrite H0 in Hslice |- *. simpl.
    eexists. split; [reflexivity|]. split; [exact Hslice|].
    intros whichLesion.
    apply apply_lesion_context_zero; [exact Hin | exact Hz | exact Hslice].
  - unfold get_activations_inputs. rewrite nth_error_map, Hi. simpl.
    rewrite H0 in Hslice |- *. simpl.
    eexists. split; [reflexivity | exact Hslice].
Qed.

Lemma filler_context_input_is_zero_witness :
  nth_error [unlabelled_compare_trial; filler_trial_6] 1 = Some filler_trial_6 /\
  p_trialtype filler_trial_6 = 0 /\
  length (p_input filler_trial_6) = Const.TOTALMAXNUM /\
  length (p_contextinput filler_trial_6) = Const.NCONTEXTS /\
  exists x,
    nth_error (test_inputs [unlabelled_compare_trial; filler_trial_6]) 1
    = Some x /\
    context_slice x = zeros Const.NCONTEXTS.
Proof.
  repeat (split; [reflexivity|]).
  refine (proj1 (proj2 (filler_context_input_is_zero
                          (fun _ => 0%Q) false 0%Q
                          [unlabelled_compare_trial; filler_trial_6] true 0 1
                          filler_trial_6 _ _ _ _))); reflexivity.
Defined.

(** ** Lesions applied during lesion evaluation *)

Lemma replace_head_slices (n : nat) (Zs x : list Z) :
  length Zs = length (firstn n x) ->
  firstn n (Zs ++ skipn n x) = Zs /\ skipn n (Zs ++ skipn n x) = skipn n x.
Proof.
  intros HZ. rewrite length_firstn in HZ.
  destruct (Nat.le_gt_cases n (length x)) as [Hle|Hgt].
  - rewrite Nat.min_l in HZ by exact Hle. split.
    + rewrite firstn_app, HZ, Nat.sub_diag. simpl firstn at 2.
      rewrite app_nil_r. rewrite <- HZ. apply firstn_all.
    + rewrite skipn_app, HZ, Nat.sub_diag. simpl skipn at 2.
      rewrite <- HZ at 1. rewrite skipn_all. reflexivity.
  - rewrite Nat.min_r in HZ by lia.
    rewrite (skipn_all2 x) by lia. rewrite app_nil_r. split.
    + apply firstn_all2. lia.
    + apply skipn_all2. lia.
Qed.

Lemma keep_head_slices (n : nat) (x R : list Z) :
  (length x < n -> R = [])%nat ->
  firstn n (firstn n x ++ R) = firstn n x /\ skipn n (firstn n x ++ R) = R.
Proof.
  intros HR.
  destruct (Nat.le_gt_cases n (length x)) as [Hle|Hgt].
  - assert (HA : length (firstn n x) = n)
      by (rewrite length_firstn; apply Nat.min_l; exact Hle).
    split.
    + rewrite firstn_app, HA, Nat.sub_diag. simpl firstn at 2.
      rewrite app_nil_r. rewrite <- HA at 1. apply firstn_all.
    + rewrite skipn_app, HA, Nat.sub_diag. simpl skipn at 2.
      rewrite <- HA at 1. rewrite skipn_all. reflexivity.
  - rewrite (HR Hgt), app_nil_r. split.
    + apply firstn_all2. rewrite length_firstn. lia.
    + apply skipn_all2. rewrite length_firstn. lia.
Qed.

Lemma apply_lesion_number (x : list Z) :
  stimulus_slice (apply_lesion "number" x) = zeros (length (stimulus_slice x)) /\
  context_slice (apply_lesion "number" x) = context_slice x /\
  skipn Const.TOTALMAXNUM (apply_lesion "number" x) = skipn Const.TOTALMAXNUM x.
Proof.
  unfold apply_lesion. simpl String.eqb. cbv iota.
  destruct (replace_head_slices Const.TOTALMAXNUM
              (full_like_0 (firstn Const.TOTALMAXNUM x)) x
              (full_like_0_length _)) as [Hf Hs].
  unfold stimulus_slice, context_slice. rewrite Hf, Hs.
  repeat split; reflexivity.
Qed.

Lemma apply_lesion_context (whichLesion : string) (x : list Z) :
  String.eqb whichLesion "number" = false ->
  stimulus_slice (apply_lesion whichLesion x) = stimulus_slice x /\
  context_slice (apply_lesion whichLesion x) = zeros (length (context_slice x)) /\
  skipn (Const.TOTALMAXNUM + Const.NCONTEXTS) (apply_lesion whichLesion x)
  = skipn (Const.TOTALMAXNUM + Const.NCONTEXTS) x.
Proof.
  intros Hne. unfold apply_lesion. rewrite Hne.
  set (R := skipn Const.TOTALMAXNUM x).
  assert (Htail : skipn (Const.TOTALMAXNUM + Const.NCONTEXTS) x
                  = skipn Const.NCONTEXTS R).
  { unfold R. rewrite skipn_skipn. reflexivity. }
  rewrite Htail.
  destruct (replace_head_slices Const.NCONTEXTS
              (full_like_0 (firstn Const.NCONTEXTS R)) R
              (full_like_0_length _)) as [Hf Hs].
  set (R' := full_like_0 (firstn Const.NCONTEXTS R) ++ skipn Const.NCONTEXTS R)
    in *.
  assert (HR' : (length x < Const.TOTALMAXNUM)%nat -> R' = []).
  { intros Hlt. unfold R', R. rewrite (skipn_all2 x) by lia. reflexivity. }
  destruct (keep_head_slices Const.TOTALMAXNUM x R' HR') as [Hk1 Hk2].
  unfold stimulus_slice, context_slice.
  split; [exact Hk1|]. split.
  - rewrite Hk2. exact Hf.
  - change (Const.TOTALMAXNUM + Const.NCONTEXTS)%nat
      with (Const.NCONTEXTS + Const.TOTALMAXNUM)%nat.
    rewrite <- skipn_skipn. rewrite Hk2. exact Hs.
Qed.

Lemma last_cons_default {A : Type} (a d : A) (l : list A) :
  last (a :: l) d = last l a.
Proof.
  revert a d; induction l as [|b l IH]; intros a d; [reflexivity|].
  change (last (a :: b :: l) d) with (last (b :: l) d).
  rewrite IH. symmetry. apply IH.
Qed.

Section LesionEvaluation.

Variables W H O : Type.
Variable forward : W -> list Z -> H -> O * H.
Variable exceeds_half : O -> bool.
Variable zeros_hidden : H.
Variable add_noise : nat -> H -> H.
Variable random_random : nat -> Q.

Local Abbreviation trace := (forward_trace forward add_noise).

Lemma lesion_marks_length (f : Q) (l : list position) :
  forall (b : bool) (rc : nat),
    length (fst (lesion_marks random_random f l b rc)) = length l.
Proof.
  induction l as [|p rest IH]; intros b rc; simpl; [reflexivity|].
  destruct ((p_trialtype p =? 1) && b).
  - specialize (IH false rc).
    destruct (lesion_marks random_random f rest false rc). simpl in *. lia.
  - destruct (p_trialtype p =? 1).
    + specialize (IH b (S rc)).
      destruct (lesion_marks random_random f rest b (S rc)). simpl in *. lia.
    + specialize (IH b rc).
      destruct (lesion_marks random_random f rest b rc). simpl in *. lia.
Qed.

Lemma lesionRecord_of_length (f : Q) (ps : list position) (assess_idx rc : nat) :
  (assess_idx <= length ps)%nat ->
  length (fst (lesionRecord_of random_random f ps assess_idx rc)) = length ps.
Proof.
  intros Hle. unfold lesionRecord_of.
  pose proof (lesion_marks_length f (rev (firstn assess_idx ps)) true rc) as Hm.
  destruct (lesion_marks random_random f (rev (firstn assess_idx ps)) true rc)
    as [m rc'].
  simpl in *. rewrite length_app, length_rev, Hm, length_rev, length_firstn.
  unfold zeros. rewrite repeat_length. lia.
Qed.

(** One step of an assessment pass, in the form the pass takes whether or
    not the trial is flagged. *)
Lemma lesion_steps_step (whichLesion : string) (w : W) (assess_idx : nat)
    (n trial : nat) (x : list Z) (xs : list (list Z)) (r : Z) (rs : list Z)
    (p : position) (ps : list position) (st st' : lesion_acc H)
    (tmp : list (list Z)) :
  lesion_steps forward exceeds_half add_noise whichLesion w assess_idx
               (S n) trial (x :: xs) (r :: rs) (p :: ps) st
  = Done (tmp, st') ->
  exists (lesion_number : option (list Z)) (rest : list (list Z)),
    let x' := if r =? 1 then apply_lesion whichLesion x else x in
    let output := fst (forward w x' (add_noise (l_noise st) (l_hidden st))) in
    let hidden := snd (forward w x' (add_noise (l_noise st) (l_hidden st))) in
    tmp = x' :: rest /\
    lesion_steps forward exceeds_half add_noise whichLesion w assess_idx
                 n (S trial) xs rs ps
                 {| l_hidden := hidden;
                    l_overallperf :=
                      if p_trialtype p =? 1
                      then l_overallperf st
                           + answer_correct exceeds_half output (p_label p)
                      else l_overallperf st;
                    l_ncomparetrials :=
                      if p_trialtype p =? 1 then l_ncomparetrials st + 1
                      else l_ncomparetrials st;
                    l_lesionperf :=
                      if (p_trialtype p =? 1) && (trial =? assess_idx)%nat
                      then Some (answer_correct exceeds_half output (p_label p))
                      else l_lesionperf st;
                    l_lesion_number := lesion_number;
                    l_noise := S (l_noise st) |}
    = Done (rest, st') /\
    (r = 1 -> exists ln, lesion_number = Some ln) /\
    (r <> 1 -> lesion_number = l_lesion_number st).
Proof.
  intros Hrun. cbn [lesion_steps] in Hrun. cbv zeta.
  destruct (r =? 1) eqn:Er.
  - destruct (turn_one_hot_to_integer_tensor (firstn Const.TOTALMAXNUM x))
      as [ln|e]; [|discriminate].
    destruct (forward w (apply_lesion whichLesion x)
                      (add_noise (l_noise st) (l_hidden st)))
      as [output hidden].
    cbn [fst snd].
    match type of Hrun with
    | match ?e with _ => _ end = _ =>
        destruct e as [[rest st'']|e'] eqn:Erec; [|discriminate]
    end.
    injection Hrun as <- <-.
    exists (Some ln), rest. split; [reflexivity|]. split; [exact Erec|].
    split; [intros _; exists ln; reflexivity|].
    intros Hne. apply Z.eqb_eq in Er. contradiction.
  - destruct (forward w x (add_noise (l_noise st) (l_hidden st)))
      as [output hidden].
    cbn [fst snd].
    match type of Hrun with
    | match ?e with _ => _ end = _ =>
        destruct e as [[rest st'']|e'] eqn:Erec; [|discriminate]
    end.
    injection Hrun as <- <-.
    exists (l_lesion_number st), rest.
    split; [reflexivity|]. split; [exact Erec|].
    split; [intros ->; discriminate Er | reflexivity].
Qed.

(** An assessment pass steps the model through the entries of [tmpinputs]
    as the lesions leave them, and reads its figures off the outputs. *)
Lemma lesion_steps_spec (whichLesion : string) (w : W) (assess_idx : nat) :
  forall (n trial : nat) (xs : list (list Z)) (rs : list Z)
         (ps : list position) (st st' : lesion_acc H) (tmp : list (list Z)),
    (n <= length xs)%nat -> (n <= length rs)%nat -> (n <= length ps)%nat ->
    lesion_steps forward exceeds_half add_noise whichLesion w assess_idx
                 n trial xs rs ps st = Done (tmp, st') ->
    let tr := trace w (l_noise st) (l_hidden st) (firstn n tmp) in
    length tmp = length xs /\
    skipn n tmp = skipn n xs /\
    (forall (k : nat) (x : list Z) (r : Z),
       (k < n)%nat -> nth_error xs k = Some x -> nth_error rs k = Some r ->
       nth_error tmp k
       = Some (if r =? 1 then apply_lesion whichLesion x else x)) /\
    l_hidden st' = last (map snd tr) (l_hidden st) /\
    l_noise st' = (l_noise st + n)%nat /\
    l_overallperf st'
    = fold_left (fun c op => c + correct_at exceeds_half op)
                (compared (map fst tr) ps) (l_overallperf st) /\
    l_ncomparetrials st'
    = l_ncomparetrials st + Z.of_nat (length (compared (map fst tr) ps)) /\
    (forall pa : position,
       (trial <= assess_idx < trial + n)%nat ->
       nth_error ps (assess_idx - trial) = Some pa ->
       p_trialtype pa = 1 ->
       exists output,
         nth_error (map fst tr) (assess_idx - trial) = Some output /\
         l_lesionperf st'
         = Some (answer_correct exceeds_half output (p_label pa))) /\
    ((assess_idx < trial)%nat -> l_lesionperf st' = l_lesionperf st) /\
    ((exists (k : nat), (k < n)%nat /\ nth_error rs k = Some 1) ->
     exists ln, l_lesion_number st' = Some ln) /\
    ((exists ln, l_lesion_number st = Some ln) ->
     exists ln, l_lesion_number st' = Some ln).
Proof.
  induction n as [|n IH]; intros trial xs rs ps st st' tmp Hxs Hrs Hps Hrun.
  - cbn [lesion_steps] in Hrun. injection Hrun as <- <-.
    cbn [firstn forward_trace map last skipn compared combine filter
         fold_left length].
    repeat split; try reflexivity; try lia; try (intros; lia);
      try (intros; assumption).
    intros (k & Hk & _). lia.
  - destruct xs as [|x xs]; [cbn [length] in Hxs; lia|].
    destruct rs as [|r rs]; [cbn [length] in Hrs; lia|].
    destruct ps as [|p ps]; [cbn [length] in Hps; lia|].
    cbn [length] in Hxs, Hrs, Hps.
    destruct (lesion_steps_step _ _ _ _ _ _ _ _ _ _ _ _ _ _ Hrun)
      as (lesion_number & rest & Htmp & Hrec & Hbound & Hsame).
    cbv zeta in Htmp, Hrec. subst tmp.
    set (x' := if r =? 1 then apply_lesion whichLesion x else x) in *.
    destruct (forward w x' (add_noise (l_noise st) (l_hidden st)))
      as [output hidden] eqn:Ef.
    cbn [fst snd] in Hrec.
    apply IH in Hrec; try lia.
    cbv zeta in Hrec. cbn [l_hidden l_noise l_overallperf l_ncomparetrials
                           l_lesionperf l_lesion_number] in Hrec.
    destruct Hrec as (Hlen & Hskip & Hnth & Hh & Hn & Hperf & Hcnt & Hfind
                      & Hkeep & Hmark & Hprev).
    cbv zeta. cbn [firstn forward_trace]. rewrite Ef.
    cbn [map fst snd length skipn].
    rewrite last_cons_default.
    unfold compared in *. cbn [combine filter snd].
    split; [rewrite Hlen; reflexivity|].
    split; [exact Hskip|].
    split.
    { intros k x0 r0 Hk Hx0 Hr0. destruct k as [|k].
      - cbn [nth_error] in *. injection Hx0 as <-. injection Hr0 as <-.
        reflexivity.
      - cbn [nth_error] in *. apply Hnth; [lia | exact Hx0 | exact Hr0]. }
    split; [exact Hh|].
    split; [rewrite Hn; lia|].
    split.
    { rewrite Hperf. destruct (p_trialtype p =? 1); reflexivity. }
    split.
    { rewrite Hcnt. destruct (p_trialtype p =? 1); cbn [length]; lia. }
    split.
    { intros pa Hrange Hpa Htt.
      destruct (Nat.eq_dec trial assess_idx) as [Heq|Hne].
      - subst trial. rewrite Nat.sub_diag in Hpa |- *.
        cbn [nth_error] in Hpa |- *. injection Hpa as <-.
        exists output. split; [reflexivity|].
        rewrite Hkeep by lia.
        rewrite Htt, Nat.eqb_refl. reflexivity.
      - replace (assess_idx - trial)%nat with (S (assess_idx - S trial))
          in Hpa |- * by lia.
        cbn [nth_error] in Hpa |- *.
        apply (Hfind pa); [lia | exact Hpa | exact Htt]. }
    split.
    { intros Hlt. rewrite Hkeep by lia.
      destruct (trial =? assess_idx)%nat eqn:E;
        [apply Nat.eqb_eq in E; lia|].
      rewrite andb_false_r. reflexivity. }
    split.
    { intros (k & Hk & Hrk). destruct k as [|k].
      - cbn [nth_error] in Hrk. injection Hrk as ->.
        apply Hprev. apply Hbound. reflexivity.
      - cbn [nth_error] in Hrk. apply Hmark. exists k. split; [lia|exact Hrk]. }
    { intros Hln. apply Hprev.
      destruct (Z.eq_dec r 1) as [Hr|Hr]; [exact (Hbound Hr)|].
      rewrite (Hsame Hr). exact Hln. }
Qed.


Lemma hand_off_steps_trace (w : W) :
  forall (xs : list (list Z)) (hidden : H) (nc : nat),
    hand_off_steps forward add_noise w xs hidden nc
    = (last (map snd (trace w nc hidden xs)) hidden, (nc + length xs)%nat).
Proof.
  induction xs as [|x xs IH]; intros hidden nc.
  - cbn [hand_off_steps forward_trace map last length].
    rewrite Nat.add_0_r. reflexivity.
  - cbn [hand_off_steps forward_trace].
    destruct (forward w x (add_noise nc hidden)) as [output hidden'].
    rewrite IH. cbn [map snd length]. rewrite last_cons_default.
    f_equal. lia.
Qed.

Lemma lesioned_as_recorded (whichLesion : string) (lesionRecord : list Z)
    (original tmp : list (list Z)) (n : nat) :
  (forall (k : nat) (x : list Z) (r : Z),
     (k < n)%nat -> nth_error original k = Some x ->
     nth_error lesionRecord k = Some r ->
     nth_error tmp k
     = Some (if r =? 1 then apply_lesion whichLesion x else x)) ->
  fed_as_recorded whichLesion lesionRecord original (firstn n tmp).
Proof.
  intros Hnth trial x x' flag Hx Hx' Hflag.
  rewrite nth_error_firstn in Hx'.
  destruct (Nat.ltb_spec trial n) as [Hlt|Hge]; [|discriminate Hx'].
  rewrite (Hnth trial x flag Hlt Hx Hflag) in Hx'. injection Hx' as <-.
  split; [|split].
  - intros Hne. apply Z.eqb_neq in Hne. rewrite Hne. reflexivity.
  - intros -> ->. cbn [Z.eqb Pos.eqb]. apply apply_lesion_number.
  - intros -> Hne. cbn [Z.eqb Pos.eqb]. apply apply_lesion_context.
    apply String.eqb_neq. exact Hne.
Qed.

(** One assessment: the pass steps the model through the inputs lesioned
    as the record says, and the figures of the record are read off the
    outputs of that pass. *)
Lemma assess_trial_spec (whichLesion : string) (lesionFrequency : Q)
    (a : net_args) (w : W) (ps : list position) (assess_idx : nat)
    (pa : position) (context : Z) (v v1 : lesion_vars H) (hidden : H)
    (rec : assessment) :
  nth_error ps assess_idx = Some pa ->
  p_trialtype pa = 1 ->
  assess_trial forward exceeds_half zeros_hidden add_noise random_random
               whichLesion lesionFrequency a w ps assess_idx pa context v
  = Done (v1, hidden, rec) ->
  exists fed : list (list Z),
    length fed = S assess_idx /\
    lv_lesionRecord v1
    = fst (lesionRecord_of random_random lesionFrequency ps assess_idx
                           (lv_random v)) /\
    fed_as_recorded whichLesion (lv_lesionRecord v1) (lesion_test_inputs ps)
                    fed /\
    lv_tmpinputs v1
    = Some (fed ++ skipn (S assess_idx) (lesion_test_inputs ps)) /\
    lv_noise v1 = (lv_noise v + S assess_idx)%nat /\
    let tr := trace w (lv_noise v) (lesion_start_hidden zeros_hidden a v)
                    fed in
    hidden = last (map snd tr) (lesion_start_hidden zeros_hidden a v) /\
    (exists output : O,
       nth_error (map fst tr) assess_idx = Some output /\
       as_lesion_perf rec
       = Some (answer_correct exceeds_half output (p_label pa))) /\
    as_overall_perf rec
    = fold_left (fun c op => c + correct_at exceeds_half op)
                (compared (map fst tr) ps) 0.
Proof.
  intros Hpa Htt Hrun. unfold assess_trial in Hrun.
  assert (Hlen : (assess_idx < length ps)%nat)
    by (apply nth_error_Some; congruence).
  pose proof (lesionRecord_of_length lesionFrequency ps assess_idx
                (lv_random v) (Nat.lt_le_incl _ _ Hlen)) as Hrec.
  destruct (lesionRecord_of random_random lesionFrequency ps assess_idx
                            (lv_random v)) as [lesionRecord rc].
  cbn [fst] in Hrec |- *.
  destruct (turn_one_hot_to_integer (p_input pa)) as [|assess_number ns];
    [discriminate|].
  match type of Hrun with
  | match ?e with _ => _ end = _ =>
      destruct e as [[tmp st]|e'] eqn:Hsteps; [|discriminate]
  end.
  assert (Hin : length (lesion_test_inputs ps) = length ps)
    by (unfold lesion_test_inputs; apply length_map).
  apply lesion_steps_spec in Hsteps; try lia.
  cbv zeta in Hsteps.
  cbn [l_hidden l_noise l_overallperf l_ncomparetrials l_lesionperf
       l_lesion_number] in Hsteps.
  destruct Hsteps as (Htmp & Hskip & Hnth & Hh & Hn & Hperf & _ & Hfind & _).
  destruct (get_local_model_response assess_number context (p_label pa));
    [|discriminate].
  destruct (l_lesion_number st) as [lesion_number|]; [|discriminate].
  destruct (l_lesionperf st) as [lesionperf|] eqn:Elp; [|discriminate].
  injection Hrun as <- <- <-.
  cbn [lv_lesionRecord lv_tmpinputs lv_noise as_lesion_perf as_overall_perf].
  exists (firstn (S assess_idx) tmp).
  split; [rewrite length_firstn; lia|].
  split; [reflexivity|].
  split; [apply lesioned_as_recorded; exact Hnth|].
  split; [rewrite <- Hskip, firstn_skipn; reflexivity|].
  split; [exact Hn|].
  cbv zeta. split; [exact Hh|]. split; [|exact Hperf].
  destruct (Hfind pa ltac:(lia) ltac:(rewrite Nat.sub_0_r; exact Hpa) Htt)
    as (output & Hout & Hlp).
  rewrite Nat.sub_0_r in Hout.
  exists output. split; [exact Hout | exact Hlp].
Qed.

(** C6 (as amended). The iteration of lesion evaluation at one position.  When
    the trial is assessed, the model is stepped through the trials up to
    it on inputs that follow the lesion record of this assessment: flagged
    1 and whichLesion == 'number', the stimulus slice is all zeros and the
    rest is the original input; flagged 1 and any other whichLesion, the
    context slice is all zeros and the rest is the original input; not
    flagged, the original input.  The record's figures are those of the
    model's outputs on these inputs.  At the second-to-last position the
    hand-off pass steps the model through [tmpinputs] once more: after an
    assessment through the same lesioned inputs, from the hidden state the
    assessment ended in; without one through the inputs as an earlier
    assessment left them, while the lesion record is all zeros. *)
Theorem lesion_evaluation_inputs (whichLesion : string) (lesionFrequency : Q)
    (a : net_args) (w : W) (ps : list position) (assess_idx : nat)
    (v v' : lesion_vars H) (r : option assessment) :
  assess forward exceeds_half zeros_hidden add_noise random_random
         whichLesion lesionFrequency a w ps assess_idx v = Done (v', r) ->
  (forall rec : assessment,
     r = Some rec ->
     exists (pa : position) (fed : list (list Z)),
       nth_error ps assess_idx = Some pa /\
       length fed = S assess_idx /\
       lv_lesionRecord v'
       = fst (lesionRecord_of random_random lesionFrequency ps assess_idx
                              (lv_random v)) /\
       fed_as_recorded whichLesion (lv_lesionRecord v')
                       (lesion_test_inputs ps) fed /\
       lv_tmpinputs v'
       = Some (fed ++ skipn (S assess_idx) (lesion_test_inputs ps)) /\
       let start := lesion_start_hidden zeros_hidden a v in
       let tr := trace w (lv_noise v) start fed in
       let after := last (map snd tr) start in
       (exists output : O,
          nth_error (map fst tr) assess_idx = Some output /\
          as_lesion_perf rec
          = Some (answer_correct exceeds_half output (p_label pa))) /\
       as_overall_perf rec
       = fold_left (fun c op => c + correct_at exceeds_half op)
                   (compared (map fst tr) ps) 0 /\
       ((assess_idx + 2 = length ps)%nat ->
        lv_latentstate v'
        = last (map snd (trace w (lv_noise v + S assess_idx) after fed))
               after)) /\
  (r = None ->
   (assess_idx + 2 = length ps)%nat ->
   exists tmpinputs : list (list Z),
     lv_tmpinputs v = Some tmpinputs /\
     (S assess_idx <= length tmpinputs)%nat /\
     lv_lesionRecord v' = zeros (length ps) /\
     lv_latentstate v'
     = last (map snd (trace w (lv_noise v)
                            (lesion_start_hidden zeros_hidden a v)
                            (firstn (S assess_idx) tmpinputs)))
            (lesion_start_hidden zeros_hidden a v)).
Proof.
  intros Hrun. unfold assess in Hrun.
  destruct (nth_error ps assess_idx) as [pa|] eqn:Hpa; [|discriminate].
  destruct (turn_one_hot_to_integer (p_context pa)) as [|context cs];
    [discriminate|].
  destruct ((p_trialtype pa =? 1) && (0 <? assess_idx)%nat) eqn:Ecmp.
  - apply andb_true_iff in Ecmp. destruct Ecmp as [Ett _].
    apply Z.eqb_eq in Ett.
    destruct (assess_trial forward exceeds_half zeros_hidden add_noise
                random_random whichLesion lesionFrequency a w ps assess_idx
                pa context v) as [[[v1 hidden] rec0]|e] eqn:Htrial;
      [|discriminate].
    destruct (assess_trial_spec _ _ _ _ _ _ _ _ _ _ _ _ Hpa Ett Htrial)
      as (fed & Hlen & Hrec & Hfed & Htmp & Hnc & Hspec).
    cbv zeta in Hspec. destruct Hspec as (Hh & Hperf & Hoverall).
    split; [|intros ->;
              destruct (assess_idx + 2 =? length ps)%nat;
              [destruct (lv_tmpinputs v1);
               [destruct (length _ <? S assess_idx)%nat;
                [discriminate|];
                destruct (hand_off_steps _ _ _ _ _ _); discriminate
               |discriminate]
              |discriminate]].
    intros rec ->. exists pa, fed. cbv zeta.
    destruct (assess_idx + 2 =? length ps)%nat eqn:Ehand.
    + rewrite Htmp in Hrun.
      destruct (length (fed ++ skipn (S assess_idx) (lesion_test_inputs ps))
                <? S assess_idx)%nat; [discriminate|].
      rewrite firstn_app, Hlen, Nat.sub_diag, firstn_O, app_nil_r in Hrun.
      rewrite <- Hlen in Hrun at 1. rewrite firstn_all in Hrun.
      rewrite hand_off_steps_trace in Hrun.
      injection Hrun as <- <-.
      cbn [lv_lesionRecord lv_tmpinputs lv_latentstate].
      split; [reflexivity|]. split; [exact Hlen|]. split; [exact Hrec|].
      split; [exact Hfed|]. split; [first [exact Htmp | reflexivity]|].
      split; [exact Hperf|]. split; [exact Hoverall|].
      intros _. rewrite Hnc, Hh. reflexivity.
    + injection Hrun as <- <-.
      split; [reflexivity|]. split; [exact Hlen|]. split; [exact Hrec|].
      split; [exact Hfed|]. split; [exact Htmp|].
      split; [exact Hperf|]. split; [exact Hoverall|].
      intros Hc. apply Nat.eqb_neq in Ehand. contradiction.
  - split; [|intros _ Hhand].
    + intros rec ->.
      destruct (assess_idx + 2 =? length ps)%nat;
        [|discriminate].
      cbn [lv_tmpinputs lv_noise] in Hrun.
      destruct (lv_tmpinputs v); [|discriminate].
      destruct (length _ <? S assess_idx)%nat; [discriminate|].
      destruct (hand_off_steps _ _ _ _ _ _); discriminate.
    + apply Nat.eqb_eq in Hhand. rewrite Hhand in Hrun.
      cbn [lv_tmpinputs lv_noise lv_lesionRecord] in Hrun.
      destruct (lv_tmpinputs v) as [tmpinputs|]; [|discriminate].
      destruct (Nat.ltb_spec (length tmpinputs) (S assess_idx)) as [Hlt|Hge];
        [discriminate|].
      rewrite hand_off_steps_trace in Hrun.
      injection Hrun as <- _.
      exists tmpinputs. cbn [lv_lesionRecord lv_latentstate].
      repeat split; try reflexivity. exact Hge.
Qed.

End LesionEvaluation.

(** C6 as stated fails in the hand-off pass.  Sequence of four trials,
    whichLesion 'number', hidden state reset between passes, position 2 (the
    second-to-last) a filler: the assessment at position 1 has lesioned
    trial 0; the iteration at position 2 resets the lesion record to zeros
    and marks nothing, and its hand-off pass steps the model through trials
    0..2 as that assessment left them.  The network's hidden state lists
    what it received: trial 0 with a zeroed stimulus slice, though it is
    not flagged. *)
Lemma hand_off_feeds_stale_lesion :
  exists v2 recs,
    assess_from logging_forward (fun b : bool => b) [] (fun _ h => h)
                (fun _ => 0%Q) "number" 1%Q reset_args tt lesion_example
                3 0 (lesion_init [] 0 0) = Done (v2, recs) /\
    lv_lesionRecord v2 = [0; 0; 0; 0] /\
    nth_error (lesion_test_inputs lesion_example) 0
    = Some [0; 0; 1; 0; 0; 0; 0; 0; 1; 0; 1] /\
    lv_latentstate v2
    = [[0; 0; 0; 0; 0; 0; 0; 0; 1; 0; 1];
       [0; 0; 0; 0; 1; 0; 0; 0; 0; 1; 1];
       [0; 0; 0; 0; 0; 1; 0; 0; 0; 0; 0]] /\
    ~ fed_as_recorded "number" (lv_lesionRecord v2)
                      (lesion_test_inputs lesion_example)
                      (lv_latentstate v2).
Proof.
  do 2 eexists. split; [vm_compute; reflexivity|].
  split; [reflexivity|]. split; [reflexivity|]. split; [reflexivity|].
  intros Hclaim.
  destruct (Hclaim 0%nat [0; 0; 1; 0; 0; 0; 0; 0; 1; 0; 1]
                   [0; 0; 0; 0; 0; 0; 0; 0; 1; 0; 1] 0
                   eq_refl eq_refl eq_refl) as [Hsame _].
  specialize (Hsame ltac:(discriminate)). discriminate Hsame.
Qed.

Lemma lesion_evaluation_inputs_witness :
  exists v' rec,
    assess logging_forward (fun b : bool => b) [] (fun _ h => h)
           (fun _ => 0%Q) "number" 1%Q reset_args tt graded_sequence 1
           (lesion_init [] 0 0) = Done (v', Some rec) /\
    lv_latentstate v'
    = [[0; 0; 0; 0; 0; 0; 0; 0; 1; 0; 1];
       [0; 1; 0; 0; 0; 0; 0; 0; 1; 0; 1];
       [0; 0; 0; 0; 0; 0; 0; 0; 1; 0; 1];
       [0; 1; 0; 0; 0; 0; 0; 0; 1; 0; 1]] /\
    exists fed,
      length fed = 2%nat /\
      lv_lesionRecord v' = [1; 0; 0] /\
      fed_as_recorded "number" (lv_lesionRecord v')
                      (lesion_test_inputs graded_sequence) fed /\
      lv_tmpinputs v'
      = Some (fed ++ skipn 2 (lesion_test_inputs graded_sequence)).
Proof.
  do 2 eexists. split; [vm_compute; reflexivity|].
  split; [reflexivity|].
  destruct (proj1 (lesion_evaluation_inputs unit (list (list Z)) bool
                     logging_forward (fun b : bool => b) [] (fun _ h => h)
                     (fun _ => 0%Q) "number" 1%Q reset_args tt
                     graded_sequence 1 (lesion_init [] 0 0) _ _ eq_refl)
                  _ eq_refl)
    as (pa & fed & _ & Hlen & Hrec & Hfed & Htmp & _).
  exists fed. split; [exact Hlen|]. split; [exact Hrec|].
  split; [exact Hfed | exact Htmp].
Defined.

(** ** The train and evaluate loops *)

Lemma train_inputs_length (random_random : nat -> Q) (retrain : bool) (freq : Q)
    (ps : list position) :
  forall (alternate : bool) (rc : nat),
    length (fst (fst (train_inputs random_random retrain freq ps alternate rc)))
    = length ps.
Proof.
  induction ps as [|q rest IH]; intros alternate rc; [reflexivity|].
  simpl.
  destruct (if p_trialtype q =? 0 then (false, rc)
            else if retrain then (alternate, rc)
                 else (Qlt_bool (random_random rc) freq, S rc))
    as [lesioned rc'].
  specialize (IH (negb alternate) rc').
  destruct (train_inputs random_random retrain freq rest (negb alternate) rc')
    as [[xs record] rc''].
  simpl in *. congruence.
Qed.

Section Loops.

Variables W H O : Type.
Variable forward : W -> list Z -> H -> O * H.
Variable exceeds_half : O -> bool.
Variable criterion : O -> label -> Q.
Variable zeros_hidden : H.
Variable add_noise : nat -> H -> H.
Variable optimizer_step : W -> list (list Z) -> H -> nat -> list position -> W.
Variable random_random : nat -> Q.

Local Abbreviation trace := (forward_trace forward add_noise).
Local Abbreviation tsteps := (train_steps forward exceeds_half criterion add_noise).
Local Abbreviation esteps := (test_steps forward exceeds_half criterion add_noise).

Lemma train_steps_spec (w : W) (L : nat) :
  forall (xs : list (list Z)) (ps : list position) (idx : nat)
         (st : train_acc H),
    length xs = length ps ->
    let tr := trace w (a_noise st) (a_hidden st) xs in
    let qs := qualifying (map fst tr) ps in
    let r := tsteps w L idx xs ps st in
    a_loss r = fold_left (fun l op => add_loss l (loss_at criterion op)) qs
                         (a_loss st) /\
    a_correct r = fold_left (fun c op => c + correct_at exceeds_half op) qs
                            (a_correct st) /\
    a_trials_counter r = a_trials_counter st + Z.of_nat (length qs) /\
    a_all_trials_counter r = a_all_trials_counter st + Z.of_nat (length ps) /\
    a_hidden r = last (map snd tr) (a_hidden st) /\
    a_noise r = (a_noise st + length xs)%nat.
Proof.
  induction xs as [|x xs IH]; intros ps idx st Hlen.
  - destruct ps; [|discriminate]. simpl.
    repeat split; try reflexivity; lia.
  - destruct ps as [|p ps]; [discriminate|].
    injection Hlen as Hlen.
    cbn [train_steps forward_trace].
    destruct (forward w x (add_noise (a_noise st) (a_hidden st)))
      as [output hidden] eqn:Ef.
    cbn zeta.
    match goal with
    | |- context [train_steps _ _ _ _ _ _ _ _ _ ?s'] =>
        specialize (IH ps (S idx) s' Hlen)
    end.
    cbn [a_noise a_hidden a_loss a_correct a_trials_counter
         a_all_trials_counter] in IH.
    destruct IH as (Hl & Hc & Ht & Ha & Hh & Hn).
    cbn [map fst snd].
    unfold qualifying. cbn [combine filter snd].
    fold (qualifying (map fst (trace w (S (a_noise st)) hidden xs)) ps) in *.
    rewrite last_cons_default.
    destruct (qualifies p) eqn:Eq.
    + cbn [fold_left length]. unfold loss_at at 2, correct_at at 2.
      cbn [fst snd].
      repeat split; try assumption.
      * rewrite Ht. lia.
      * rewrite Ha. cbn [length]. lia.
      * rewrite Hn. cbn [length]. lia.
    + repeat split; try assumption.
      * rewrite Ha. cbn [length]. lia.
      * rewrite Hn. cbn [length]. lia.
Qed.

Lemma forward_trace_length (w : W) :
  forall (xs : list (list Z)) (nc : nat) (h : H),
    length (trace w nc h xs) = length xs.
Proof.
  induction xs as [|x xs IH]; intros nc h; [reflexivity|].
  cbn [forward_trace]. destruct (forward w x (add_noise nc h)) as [o h'].
  cbn [length]. rewrite IH. reflexivity.
Qed.

Lemma test_steps_spec (w : W) (L : nat) :
  forall (xs : list (list Z)) (ps : list position) (idx : nat)
         (st st' : test_acc H),
    length xs = length ps ->
    esteps w L idx xs ps st = Done st' ->
    let tr := trace w (t_noise st) (t_hidden st) xs in
    let qs := qualifying (map fst tr) ps in
    t_test_loss st' = fold_left (fun l op => (l + loss_at criterion op)%Q) qs
                                (t_test_loss st) /\
    t_correct st' = fold_left (fun c op => c + correct_at exceeds_half op) qs
                              (t_correct st) /\
    t_trials_counter st' = t_trials_counter st + Z.of_nat (length qs) /\
    t_hidden st' = last (map snd tr) (t_hidden st) /\
    t_noise st' = (t_noise st + length xs)%nat.
Proof.
  induction xs as [|x xs IH]; intros ps idx st st' Hlen Hrun.
  - destruct ps; [|discriminate]. simpl in Hrun. injection Hrun as <-.
    simpl. repeat split; try reflexivity; lia.
  - destruct ps as [|p ps]; [discriminate|].
    injection Hlen as Hlen.
    cbn [test_steps] in Hrun. cbn [forward_trace].
    destruct (forward w x (add_noise (t_noise st) (t_hidden st)))
      as [output hidden] eqn:Ef.
    cbn zeta.
    cbn [map fst snd].
    unfold qualifying. cbn [combine filter snd].
    fold (qualifying (map fst (trace w (S (t_noise st)) hidden xs)) ps).
    rewrite last_cons_default.
    destruct (qualifies p) eqn:Eq.
    + destruct (ones_from 0 (firstn Const.TOTALMAXNUM x)); [discriminate|].
      specialize (IH ps (S idx) _ st' Hlen Hrun).
      cbn [t_noise t_hidden t_test_loss t_correct t_trials_counter] in IH.
      destruct IH as (Hl & Hc & Ht & Hh & Hn).
      cbn [fold_left length]. unfold loss_at at 2, correct_at at 2.
      cbn [fst snd].
      repeat split; try assumption.
      * rewrite Ht. lia.
      * rewrite Hn. cbn [length]. lia.
    + specialize (IH ps (S idx) _ st' Hlen Hrun).
      cbn [t_noise t_hidden t_test_loss t_correct t_trials_counter] in IH.
      destruct IH as (Hl & Hc & Ht & Hh & Hn).
      repeat split; try assumption.
      rewrite Hn. cbn [length]. lia.
Qed.

Lemma train_steps_latent_keep (w : W) (L : nat) :
  forall (xs : list (list Z)) (ps : list position) (idx : nat)
         (st : train_acc H),
    (L < idx + 2)%nat ->
    a_latentstate (tsteps w L idx xs ps st) = a_latentstate st.
Proof.
  induction xs as [|x xs IH]; intros ps idx st Hlt; [reflexivity|].
  destruct ps as [|p ps]; [reflexivity|].
  cbn [train_steps].
  destruct (forward w x (add_noise (a_noise st) (a_hidden st)))
    as [output hidden].
  rewrite IH by lia. cbn [a_latentstate].
  destruct (idx + 2 =? L)%nat eqn:E; [apply Nat.eqb_eq in E; lia|reflexivity].
Qed.

Lemma train_steps_latent (w : W) (L : nat) :
  forall (xs : list (list Z)) (ps : list position) (idx : nat)
         (st : train_acc H) (k : nat) (h : H),
    length xs = length ps ->
    (idx + k + 2 = L)%nat ->
    nth_error (map snd (trace w (a_noise st) (a_hidden st) xs)) k = Some h ->
    a_latentstate (tsteps w L idx xs ps st) = h.
Proof.
  induction xs as [|x xs IH]; intros ps idx st k h Hlen HL Hnth.
  - destruct k; discriminate.
  - destruct ps as [|p ps]; [discriminate|]. injection Hlen as Hlen.
    cbn [train_steps]. cbn [forward_trace] in Hnth.
    destruct (forward w x (add_noise (a_noise st) (a_hidden st)))
      as [output hidden].
    cbn [map snd] in Hnth.
    destruct k as [|k].
    + simpl in Hnth. injection Hnth as <-.
      rewrite train_steps_latent_keep by lia. cbn [a_latentstate].
      replace (idx + 2 =? L)%nat with true
        by (symmetry; apply Nat.eqb_eq; lia).
      reflexivity.
    + simpl in Hnth.
      apply (IH ps (S idx) _ k h Hlen); [lia|]. exact Hnth.
Qed.

Lemma test_steps_latent_keep (w : W) (L : nat) :
  zero_noise add_noise ->
  forall (xs : list (list Z)) (ps : list position) (idx : nat)
         (st st' : test_acc H),
    alias_sound st ->
    (L < idx + 2)%nat ->
    esteps w L idx xs ps st = Done st' ->
    t_latentstate st' = t_latentstate st.
Proof.
  intros Hz.
  induction xs as [|x xs IH]; intros ps idx st st' Hal Hlt Hrun.
  - simpl in Hrun. injection Hrun as <-. reflexivity.
  - destruct ps as [|p ps]; [simpl in Hrun; injection Hrun as <-; reflexivity|].
    cbn [test_steps] in Hrun. cbn zeta in Hrun. rewrite !Hz in Hrun.
    destruct (forward w x (t_hidden st)) as [output hidden].
    assert (Hne : (idx + 2 =? L)%nat = false) by (apply Nat.eqb_neq; lia).
    rewrite Hne in Hrun.
    assert (Hl1 : (if t_aliased st then t_hidden st else t_latentstate st)
                  = t_latentstate st).
    { destruct (t_aliased st) eqn:Ea; [symmetry; apply Hal; exact Ea|reflexivity]. }
    rewrite Hl1 in Hrun.
    destruct (qualifies p).
    + destruct (ones_from 0 (firstn Const.TOTALMAXNUM x)); [discriminate|].
      apply IH in Hrun; [exact Hrun| intro Hc; discriminate | lia].
    + apply IH in Hrun; [exact Hrun| intro Hc; discriminate | lia].
Qed.

Lemma test_steps_latent (w : W) (L : nat) :
  zero_noise add_noise ->
  forall (xs : list (list Z)) (ps : list position) (idx : nat)
         (st st' : test_acc H) (k : nat) (h : H),
    length xs = length ps ->
    (idx + k + 2 = L)%nat ->
    nth_error (map snd (trace w (t_noise st) (t_hidden st) xs)) k = Some h ->
    esteps w L idx xs ps st = Done st' ->
    t_latentstate st' = h.
Proof.
  intros Hz.
  induction xs as [|x xs IH]; intros ps idx st st' k h Hlen HL Hnth Hrun.
  - destruct k; discriminate.
  - destruct ps as [|p ps]; [discriminate|]. injection Hlen as Hlen.
    cbn [test_steps] in Hrun. cbn [forward_trace] in Hnth.
    cbn zeta in Hrun. rewrite !Hz in Hrun. rewrite Hz in Hnth.
    destruct (forward w x (t_hidden st)) as [output hidden].
    cbn [map snd] in Hnth.
    destruct k as [|k].
    + simpl in Hnth. injection Hnth as <-.
      assert (He : (idx + 2 =? L)%nat = true) by (apply Nat.eqb_eq; lia).
      rewrite He in Hrun.
      destruct (qualifies p).
      * destruct (ones_from 0 (firstn Const.TOTALMAXNUM x)); [discriminate|].
        apply (test_steps_latent_keep w L Hz) in Hrun;
          [exact Hrun | intros _; reflexivity | lia].
      * apply (test_steps_latent_keep w L Hz) in Hrun;
          [exact Hrun | intros _; reflexivity | lia].
    + simpl in Hnth.
      destruct (qualifies p).
      * destruct (ones_from 0 (firstn Const.TOTALMAXNUM x)); [discriminate|].
        apply (IH ps (S idx) _ st' k h Hlen) in Hrun;
          [exact Hrun | lia | exact Hnth].
      * apply (IH ps (S idx) _ st' k h Hlen) in Hrun;
          [exact Hrun | lia | exact Hnth].
Qed.

Lemma qualifying_nil (ps : list position) :
  forall outs : list O,
    length outs = length ps ->
    (qualifying outs ps = [] <-> existsb qualifies ps = false).
Proof.
  induction ps as [|p ps IH]; intros outs Hlen.
  - destruct outs; [|discriminate]. split; reflexivity.
  - destruct outs as [|o outs]; [discriminate|]. injection Hlen as Hlen.
    unfold qualifying. cbn [combine filter snd existsb].
    fold (qualifying outs ps).
    destruct (qualifies p); cbn [orb].
    + split; intro Hc; discriminate Hc.
    + apply IH. exact Hlen.
Qed.

Lemma fold_add_loss_sum (qs : list (O * position)) :
  forall l : Q,
    fold_left (fun l op => add_loss l (loss_at criterion op)) qs (Some l)
    = Some (fold_left (fun l op => (l + loss_at criterion op)%Q) qs l).
Proof.
  induction qs as [|q qs IH]; intros l; [reflexivity|].
  cbn [fold_left add_loss]. apply IH.
Qed.

(** One pass of the train loop over a sequence, in full: it returns exactly
    when the sequence holds a labelled compare trial, and then with these
    accumulators. *)
Lemma train_batch_result (a : net_args) (st : train_state W H)
    (ps : list position) :
  let xs := fst (fst (train_inputs random_random (retrain_decoder a)
                                   (train_lesion_freq a) ps true
                                   (ts_random st))) in
  let tr := trace (ts_weights st) (ts_noise st)
                  (train_start_hidden zeros_hidden a st) xs in
  let qs := qualifying (map fst tr) ps in
  if existsb qualifies ps
  then exists st' : train_state W H,
         train_batch forward exceeds_half criterion zeros_hidden add_noise
                     optimizer_step random_random a st ps = Done st' /\
         ts_train_loss st'
         = (ts_train_loss st
            + fold_left (fun l op => (l + loss_at criterion op)%Q) qs 0)%Q /\
         ts_correct st'
         = fold_left (fun c op => c + correct_at exceeds_half op) qs
                     (ts_correct st) /\
         ts_trials_counter st' = ts_trials_counter st + Z.of_nat (length qs) /\
         ts_all_trials_counter st'
         = ts_all_trials_counter st + Z.of_nat (length ps) /\
         ts_hidden st'
         = last (map snd tr) (train_start_hidden zeros_hidden a st)
  else train_batch forward exceeds_half criterion zeros_hidden add_noise
                   optimizer_step random_random a st ps
       = Fail AttributeError.
Proof.
  cbv zeta. unfold train_batch.
  pose proof (train_inputs_length random_random (retrain_decoder a)
                (train_lesion_freq a) ps true (ts_random st)) as Hxs.
  destruct (train_inputs random_random (retrain_decoder a)
              (train_lesion_freq a) ps true (ts_random st))
    as [[xs record] rc] eqn:Ein.
  cbn [fst] in *.
  pose proof (train_steps_spec (ts_weights st) (length ps) xs ps 0
                {| a_hidden := train_start_hidden zeros_hidden a st;
                   a_latentstate := ts_latentstate st; a_loss := None;
                   a_correct := ts_correct st;
                   a_trials_counter := ts_trials_counter st;
                   a_all_trials_counter := ts_all_trials_counter st;
                   a_noise := ts_noise st |} Hxs) as Hspec.
  cbn zeta in Hspec.
  cbn [a_noise a_hidden a_loss a_correct a_trials_counter
       a_all_trials_counter] in Hspec.
  destruct Hspec as (Hl & Hc & Ht & Ha & Hh & _).
  rewrite Hl.
  pose proof (qualifying_nil ps
                (map fst (trace (ts_weights st) (ts_noise st)
                                (train_start_hidden zeros_hidden a st) xs))
                ltac:(rewrite length_map, forward_trace_length; exact Hxs))
    as Hnil.
  remember (qualifying
              (map fst (trace (ts_weights st) (ts_noise st)
                              (train_start_hidden zeros_hidden a st) xs)) ps)
    as qs eqn:Eqs.
  destruct qs as [|q qs].
  - rewrite (proj1 Hnil eq_refl). reflexivity.
  - destruct (existsb qualifies ps) eqn:Ex;
      [|discriminate (proj2 Hnil eq_refl)].
    cbn [fold_left add_loss]. rewrite fold_add_loss_sum.
    eexists. split; [reflexivity|].
    cbn [ts_train_loss ts_correct ts_trials_counter ts_all_trials_counter
         ts_hidden].
    repeat split; assumption.
Qed.

Lemma train_batch_outcome (a : net_args) (st : train_state W H)
    (ps : list position) :
  if existsb qualifies ps
  then exists st' : train_state W H,
         train_batch forward exceeds_half criterion zeros_hidden add_noise
                     optimizer_step random_random a st ps = Done st'
  else train_batch forward exceeds_half criterion zeros_hidden add_noise
                   optimizer_step random_random a st ps
       = Fail AttributeError.
Proof.
  pose proof (train_batch_result a st ps) as Hres. cbv zeta in Hres.
  destruct (existsb qualifies ps); [|exact Hres].
  destruct Hres as (st' & Hrun & _). exists st'. exact Hrun.
Qed.

Lemma train_batch_carry_over (a : net_args) (ps : list position)
    (st st' : train_state W H) :
  retain_hidden_state a = true ->
  (2 <= length ps)%nat ->
  train_batch forward exceeds_half criterion zeros_hidden add_noise
              optimizer_step random_random a st ps = Done st' ->
  nth_error
    (map snd
       (trace (ts_weights st) (ts_noise st)
              (train_start_hidden zeros_hidden a st)
              (fst (fst (train_inputs random_random (retrain_decoder a)
                                      (train_lesion_freq a) ps true
                                      (ts_random st))))))
    (length ps - 2)
  = Some (train_start_hidden zeros_hidden a st').
Proof.
  intros Hret Hlen Hrun.
  unfold train_batch in Hrun.
  pose proof (train_inputs_length random_random (retrain_decoder a)
                (train_lesion_freq a) ps true (ts_random st)) as Hxs.
  destruct (train_inputs random_random (retrain_decoder a)
              (train_lesion_freq a) ps true (ts_random st))
    as [[xs record] rc] eqn:Ein.
  cbn [fst] in *.
  set (st0 := {| a_hidden := train_start_hidden zeros_hidden a st;
                 a_latentstate := ts_latentstate st; a_loss := None;
                 a_correct := ts_correct st;
                 a_trials_counter := ts_trials_counter st;
                 a_all_trials_counter := ts_all_trials_counter st;
                 a_noise := ts_noise st |}) in *.
  destruct (nth_error (map snd (trace (ts_weights st) (ts_noise st)
                                      (train_start_hidden zeros_hidden a st)
                                      xs)) (length ps - 2)) as [h|] eqn:Eh.
  2:{ apply nth_error_None in Eh.
      rewrite length_map, forward_trace_length in Eh. lia. }
  pose proof (train_steps_latent (ts_weights st) (length ps) xs ps 0 st0
                (length ps - 2) h Hxs ltac:(lia) Eh) as Hlat.
  destruct (a_loss (tsteps (ts_weights st) (length ps) 0 xs ps st0));
    [|discriminate].
  injection Hrun as <-.
  unfold train_start_hidden at 1. rewrite Hret. cbn [negb ts_latentstate].
  rewrite Hlat. reflexivity.
Qed.


Lemma qualifies_iff (p : position) :
  qualifies p = true <-> p_trialtype p = 1 /\ p_label p <> LNaN.
Proof.
  unfold qualifies. rewrite andb_true_iff, negb_true_iff, Z.eqb_eq.
  destruct (p_label p); simpl; split; intros [A B]; split;
    congruence || reflexivity || assumption.
Qed.

Lemma answer_correct_rule (output : O) (lab : label) :
  (answer_correct exceeds_half output lab = 1 <->
   lab = LNum (if exceeds_half output then 1 else 0)) /\
  (answer_correct exceeds_half output lab = 0 \/
   answer_correct exceeds_half output lab = 1).
Proof.
  unfold answer_correct. destruct lab as [|z].
  - split; [split; intro Hc; discriminate | left; reflexivity].
  - destruct ((if exceeds_half output then 1 else 0) =? z) eqn:E.
    + apply Z.eqb_eq in E. split; [|right; reflexivity].
      split; intros _; [rewrite E|]; reflexivity.
    + apply Z.eqb_neq in E. split; [|left; reflexivity].
      split; intro Hc; [discriminate|]. injection Hc as Hc. congruence.
Qed.

Lemma test_batch_result (a : net_args) (ps : list position) (w : W)
    (st st' : test_acc H) :
  test_batch forward exceeds_half criterion zeros_hidden add_noise
             a w st ps = Done st' ->
  let tr := trace w (t_noise st) (test_start_hidden zeros_hidden a st)
                  (test_inputs ps) in
  let qs := qualifying (map fst tr) ps in
  t_test_loss st'
  = fold_left (fun l op => (l + loss_at criterion op)%Q) qs
              (t_test_loss st) /\
  t_correct st'
  = fold_left (fun c op => c + correct_at exceeds_half op) qs
              (t_correct st) /\
  t_trials_counter st' = t_trials_counter st + Z.of_nat (length qs) /\
  t_hidden st' = last (map snd tr) (test_start_hidden zeros_hidden a st).
Proof.
  intros Hrun. unfold test_batch in Hrun.
  assert (Hxs : length (test_inputs ps) = length ps)
    by (unfold test_inputs; apply length_map).
  pose proof (test_steps_spec w (length ps) (test_inputs ps) ps 0
                {| t_hidden := test_start_hidden zeros_hidden a st;
                   t_latentstate := t_latentstate st;
                   t_aliased := retain_hidden_state a;
                   t_test_loss := t_test_loss st;
                   t_correct := t_correct st;
                   t_trials_counter := t_trials_counter st;
                   t_noise := t_noise st |} st' Hxs Hrun) as Hspec.
  cbn zeta in Hspec.
  cbn [t_noise t_hidden t_test_loss t_correct t_trials_counter] in Hspec.
  destruct Hspec as (Hl & Hc & Ht & Hh & _).
  cbv zeta. repeat split; assumption.
Qed.

End Loops.

Lemma output_exceeds_half_iff (output : Q) :
  output_exceeds_half output = true <-> (1 # 2 < output)%Q.
Proof.
  unfold output_exceeds_half, Qlt_bool. rewrite negb_true_iff.
  split.
  - intros Hle. apply Qnot_le_lt. intros Hc.
    apply Qle_bool_iff in Hc. congruence.
  - intros Hlt. destruct (Qle_bool output (1 # 2)) eqn:E; [|reflexivity].
    apply Qle_bool_iff in E. exfalso. exact (Qlt_not_le _ _ Hlt E).
Qed.

(** C4. In the train loop and in the evaluate loop, every input of the
    sequence is stepped through the model (the hidden state left behind is
    that of the whole sequence), and the loss, the correct counter and the
    trials counter grow by exactly the contributions of the positions whose
    trial type is compare and whose label is not NaN, in order; the train
    loop returns them whenever the sequence holds such a position.  At such
    a position the prediction is 1 iff the output, a number, is greater than
    0.5 (0 at exactly 0.5), and it counts as correct iff it equals the
    label. *)
Theorem loss_and_accuracy_accrual (W H : Type)
    (forward : W -> list Z -> H -> Q * H) (criterion : Q -> label -> Q)
    (zeros_hidden : H) (add_noise : nat -> H -> H)
    (optimizer_step : W -> list (list Z) -> H -> nat -> list position -> W)
    (random_random : nat -> Q) (a : net_args) (ps : list position) :
  (forall st : train_state W H,
     existsb qualifies ps = true ->
     let xs := fst (fst (train_inputs random_random (retrain_decoder a)
                                      (train_lesion_freq a) ps true
                                      (ts_random st))) in
     let tr := forward_trace forward add_noise (ts_weights st) (ts_noise st)
                             (train_start_hidden zeros_hidden a st) xs in
     let qs := qualifying (map fst tr) ps in
     exists st' : train_state W H,
       train_batch forward output_exceeds_half criterion zeros_hidden
                   add_noise optimizer_step random_random a st ps
       = Done st' /\
       ts_train_loss st'
       = (ts_train_loss st
          + fold_left (fun l op => (l + loss_at criterion op)%Q) qs 0)%Q /\
       ts_correct st'
       = fold_left (fun c op => c + correct_at output_exceeds_half op) qs
                   (ts_correct st) /\
       ts_trials_counter st' = ts_trials_counter st + Z.of_nat (length qs) /\
       ts_all_trials_counter st'
       = ts_all_trials_counter st + Z.of_nat (length ps) /\
       ts_hidden st'
       = last (map snd tr) (train_start_hidden zeros_hidden a st)) /\
  (forall (w : W) (st st' : test_acc H),
     test_batch forward output_exceeds_half criterion zeros_hidden add_noise
                a w st ps = Done st' ->
     let tr := forward_trace forward add_noise w (t_noise st)
                             (test_start_hidden zeros_hidden a st)
                             (test_inputs ps) in
     let qs := qualifying (map fst tr) ps in
     t_test_loss st'
     = fold_left (fun l op => (l + loss_at criterion op)%Q) qs
                 (t_test_loss st) /\
     t_correct st'
     = fold_left (fun c op => c + correct_at output_exceeds_half op) qs
                 (t_correct st) /\
     t_trials_counter st' = t_trials_counter st + Z.of_nat (length qs) /\
     t_hidden st' = last (map snd tr) (test_start_hidden zeros_hidden a st)) /\
  (forall p : position,
     qualifies p = true <-> p_trialtype p = 1 /\ p_label p <> LNaN) /\
  (forall (output : Q) (lab : label),
     ((1 # 2 < output)%Q ->
      (answer_correct output_exceeds_half output lab = 1 <-> lab = LNum 1)) /\
     (~ (1 # 2 < output)%Q ->
      (answer_correct output_exceeds_half output lab = 1 <-> lab = LNum 0)) /\
     (answer_correct output_exceeds_half output lab = 0 \/
      answer_correct output_exceeds_half output lab = 1)).
Proof.
  split; [|split; [|split]].
  - intros st Hq.
    pose proof (train_batch_result W H Q forward output_exceeds_half criterion
                  zeros_hidden add_noise optimizer_step random_random a st ps)
      as Hres.
    cbv zeta in Hres |- *. rewrite Hq in Hres. exact Hres.
  - intros w st st' Hrun.
    exact (test_batch_result W H Q forward output_exceeds_half criterion
             zeros_hidden add_noise a ps w st st' Hrun).
  - exact qualifies_iff.
  - intros output lab.
    pose proof (answer_correct_rule Q output_exceeds_half output lab)
      as [Hone H01].
    split; [|split; [|exact H01]].
    + intros Hgt. apply output_exceeds_half_iff in Hgt.
      rewrite Hgt in Hone. exact Hone.
    + intros Hle.
      destruct (output_exceeds_half output) eqn:E.
      * exfalso. apply Hle. apply output_exceeds_half_iff. exact E.
      * exact Hone.
Qed.


(** Why the noise has to be zero in the evaluate loop: the snapshot taken
    at the second-to-last position is the tensor that the last position's
    in-place noise is added to.  With noise 10 per step the counting network
    returns hidden state 22 at the second-to-last position, and the next
    sequence starts from 32. *)
Remark evaluate_snapshot_shares_last_noise :
  exists st',
    test_batch counting_forward (fun b : bool => b) (fun _ _ => 1%Q) 0
               (fun _ h => h + 10) retain_args tt (test_init 0 0)
               example_sequence = Done st' /\
    nth_error
      (map snd (forward_trace counting_forward (fun _ h => h + 10) tt 0
                              (test_start_hidden 0 retain_args (test_init 0 0))
                              (test_inputs example_sequence)))
      (length example_sequence - 2) = Some 22 /\
    test_start_hidden 0 retain_args st' = 32.
Proof.
  eexists. split; [vm_compute; reflexivity|].
  split; reflexivity.
Qed.

Lemma loss_and_accuracy_accrual_witness :
  existsb qualifies graded_sequence = true /\
  (exists st',
     train_batch ramp_forward output_exceeds_half (fun _ _ => 1%Q) 0
                 (fun _ h => h) (fun w _ _ _ _ => w) (fun _ => 0%Q)
                 retain_args (train_init 0 tt 0 0) graded_sequence
     = Done st' /\
     (ts_train_loss st' == 2)%Q /\
     ts_correct st' = 2 /\
     ts_trials_counter st' = 2 /\
     ts_all_trials_counter st' = 3 /\
     ts_hidden st' = 3) /\
  (exists st',
     test_batch ramp_forward output_exceeds_half (fun _ _ => 1%Q) 0
                (fun _ h => h) retain_args tt (test_init 0 0) graded_sequence
     = Done st' /\
     t_trials_counter st' = 2 /\
     t_correct st' = 2 /\
     t_hidden st' = 3) /\
  answer_correct output_exceeds_half (1 # 2) (LNum 0) = 1 /\
  answer_correct output_exceeds_half (3 # 4) (LNum 1) = 1.
Proof.
  assert (Hq : existsb qualifies graded_sequence = true) by reflexivity.
  destruct (loss_and_accuracy_accrual unit Z ramp_forward (fun _ _ => 1%Q) 0
              (fun _ h => h) (fun w _ _ _ _ => w) (fun _ => 0%Q)
              retain_args graded_sequence)
    as (Htrain & Htest & _ & Hrule).
  split; [exact Hq|]. split; [|split; [|split]].
  - destruct (Htrain (train_init 0 tt 0 0) Hq)
      as (st' & Hrun & Hl & Hc & Ht & Ha & Hh).
    exists st'. split; [exact Hrun|].
    rewrite Hl, Hc, Ht, Ha, Hh.
    repeat split; vm_compute; reflexivity.
  - eexists. split; [vm_compute; reflexivity|].
    destruct (Htest tt (test_init 0 0) _ ltac:(vm_compute; reflexivity))
      as (_ & Hc & Ht & Hh).
    rewrite Ht, Hc, Hh. repeat split; vm_compute; reflexivity.
  - apply (proj1 (proj2 (Hrule (1 # 2)%Q (LNum 0)))); [|reflexivity].
    intros Hlt. vm_compute in Hlt. discriminate Hlt.
  - apply (proj1 (Hrule (3 # 4)%Q (LNum 1))); reflexivity.
Defined.

(** ** Labels of generated sequences *)

Lemma bind_Ok {A B : Type} (m : Gen A) (k : A -> Gen B) (d : list nat)
    (b : B) (rest : list nat) :
  bind m k d = Ok b rest ->
  exists (a : A) (d' : list nat), m d = Ok a d' /\ k a d' = Ok b rest.
Proof.
  unfold bind. destruct (m d) as [a d'| |]; try discriminate.
  intros Hk. exists a, d'. split; [reflexivity | exact Hk].
Qed.

Lemma ret_Ok {A : Type} (a b : A) (d rest : list nat) :
  ret a d = Ok b rest -> a = b /\ d = rest.
Proof. unfold ret. intros Heq. injection Heq as -> ->. split; reflexivity. Qed.

Lemma lift_Ok {A : Type} (e : exn) (o : option A) (d : list nat) (a : A)
    (rest : list nat) :
  lift e o d = Ok a rest -> o = Some a /\ d = rest.
Proof.
  destruct o as [x|]; simpl; [|discriminate].
  intros Heq. apply ret_Ok in Heq. destruct Heq as [-> ->].
  split; reflexivity.
Qed.

Lemma lift_result_Ok {A : Type} (r : result A) (d : list nat) (a : A)
    (rest : list nat) :
  lift_result r d = Ok a rest -> r = Done a /\ d = rest.
Proof.
  destruct r as [x|e]; simpl; [|discriminate].
  intros Heq. apply ret_Ok in Heq. destruct Heq as [-> ->].
  split; reflexivity.
Qed.

Lemma decode_Done (x : list Z) (j : Z) :
  decode x = Done j -> as_scalar (turn_one_hot_to_integer x) = Some j.
Proof.
  unfold decode. destruct (as_scalar (turn_one_hot_to_integer x));
    simpl; congruence.
Qed.

Lemma compare_target_claimed (train_long : bool) (judged reference : Z) :
  compare_target train_long judged reference
  = claimed_label train_long judged reference.
Proof.
  unfold compare_target, claimed_label, crosses_ranges.
  change Const.LOWR_ULIM with 4. change Const.HIGHR_LLIM with 5.
  destruct train_long; simpl negb; cbv iota; [reflexivity|].
  rewrite andb_true_l. reflexivity.
Qed.

Lemma label_loop_target (train_long : bool) :
  forall (input_sequence : list (list Z)) (trialtypeinput : list Z)
         (rValue : option Z) (rows : list label_row),
    label_loop train_long rValue trialtypeinput input_sequence = Done rows ->
    forall (i : nat) (t : Z) (x : list Z),
      nth_error trialtypeinput i = Some t ->
      nth_error input_sequence i = Some x ->
      exists j,
        decode x = Done j /\
        nth_error (map lr_target rows) i
        = Some (if t =? 1
                then Some (match reference_at rValue trialtypeinput
                                              input_sequence i with
                           | Some r => compare_target train_long j r
                           | None => LNaN
                           end)
                else None).
Proof.
  induction input_sequence as [|x0 xs IH];
    intros trialtypeinput rValue rows Hrun i t x Ht Hx.
  - destruct i; discriminate.
  - destruct trialtypeinput as [|t0 ts]; [destruct i; discriminate|].
    cbn [label_loop] in Hrun.
    destruct (decode x0) as [judgeValue|e] eqn:Ed; [|discriminate].
    destruct (turn_one_hot judgeValue Const.TOTALMAXNUM) as [jrow|];
      [|discriminate].
    destruct (match rValue with
              | Some r => turn_one_hot r Const.TOTALMAXNUM
              | None => Some (zeros Const.TOTALMAXNUM)
              end) as [rrow|]; [|discriminate].
    destruct (label_loop train_long
                (if t0 =? 1 then Some judgeValue else rValue) ts xs)
      as [rows'|e] eqn:Erec; [|discriminate].
    injection Hrun as <-.
    destruct i as [|i].
    + simpl in Ht, Hx. injection Ht as <-. injection Hx as <-.
      exists judgeValue. split; [exact Ed|].
      simpl. destruct (t0 =? 1); [|reflexivity].
      destruct rValue; reflexivity.
    + simpl in Ht, Hx.
      destruct (IH ts _ rows' Erec i t x Ht Hx) as [j [Hj Hn]].
      exists j. split; [exact Hj|].
      cbn [map nth_error reference_at]. rewrite Hn.
      rewrite (decode_Done x0 judgeValue Ed). reflexivity.
Qed.

Lemma gen_sequence_labels (a : args) (ph : phase) (dist : list Z)
    (firstTrialInContext : bool) (permorder : list nat) (v : vars)
    (d : list nat) (sd : seq_data) (v' : vars) (first' : bool)
    (rest : list nat) :
  gen_sequence a ph dist firstTrialInContext permorder v d
  = Ok (sd, v', first') rest ->
  forall (i : nat) (x : list Z),
    nth_error (sd_trialTypeInputs sd) i = Some 1 ->
    nth_error (sd_input sd) i = Some x ->
    exists j,
      decode x = Done j /\
      nth_error (sd_target sd) i
      = Some (Some (match reference_at None (sd_trialTypeInputs sd)
                                       (sd_input sd) i with
                    | Some r => claimed_label (train_long a) j r
                    | None => LNaN
                    end)).
Proof.
  intros Hgen i x Ht Hx.
  unfold gen_sequence in Hgen.
  apply bind_Ok in Hgen. destruct Hgen as (type_sequence & d1 & _ & Hgen).
  apply bind_Ok in Hgen. destruct Hgen as ([items v1] & d2 & _ & Hgen).
  apply bind_Ok in Hgen. destruct Hgen as ([v2 f2] & d3 & _ & Hgen).
  apply bind_Ok in Hgen. destruct Hgen as (rows & d4 & Hrows & Hgen).
  apply lift_result_Ok in Hrows. destruct Hrows as [Hrows _].
  destruct (length type_sequence =? BPTT_len a)%nat; [|discriminate].
  apply ret_Ok in Hgen. destruct Hgen as [Hgen _].
  injection Hgen as <- _ _.
  cbn [sd_trialTypeInputs sd_input sd_target] in *.
  destruct (label_loop_target (train_long a) _ _ None rows Hrows i 1 x Ht Hx)
    as [j [Hj Hn]].
  exists j. split; [exact Hj|].
  rewrite Hn. simpl Z.eqb. cbv iota.
  destruct (reference_at None _ _ i); [|reflexivity].
  rewrite compare_target_claimed. reflexivity.
Qed.

(** C1 as stated fails.  Two sequences of one context-1 block, short-sequence
    regime: the first trial of the second sequence is a compare trial with
    judged value 2; the compare trial before it in the block (the last trial
    of the first sequence) has judged value 1, and both values are in the low
    range.  The claim gives label 1; the stored label is NaN. *)
Lemma label_claim_in_block_fails :
  exists blk perms v rest,
    gen_samples short_args train low_range 2 true
                [identity_permutation; identity_permutation]
                low_block_vars cycling_draws = Ok (blk, perms, v) rest /\
    nth_error (block_trialtypes blk) 120 = Some 1 /\
    nth_error (block_inputs blk) 120 = Some [0; 1; 0; 0; 0; 0; 0; 0] /\
    reference_at None (block_trialtypes blk) (block_inputs blk) 120 = Some 1 /\
    claimed_label (train_long short_args) 2 1 = LNum 1 /\
    nth_error (block_targets blk) 120 = Some (Some LNaN) /\
    ~ label_claim_in_block (train_long short_args) blk.
Proof.
  do 4 eexists. split; [vm_compute; reflexivity|].
  split; [vm_compute; reflexivity|]. split; [vm_compute; reflexivity|].
  split; [vm_compute; reflexivity|]. split; [reflexivity|].
  split; [vm_compute; reflexivity|].
  intros Hclaim.
  specialize (Hclaim 120%nat [0; 1; 0; 0; 0; 0; 0; 0] 2 1
                ltac:(vm_compute; reflexivity) ltac:(vm_compute; reflexivity)
                ltac:(vm_compute; reflexivity) ltac:(vm_compute; reflexivity)).
  vm_compute in Hclaim. discriminate Hclaim.
Qed.

(** ** Adjacent trials of generated sequences *)

Lemma turn_one_hot_inj (x y : Z) (maxSize : nat) :
  1 <= x <= Z.of_nat maxSize -> 1 <= y <= Z.of_nat maxSize ->
  turn_one_hot x maxSize = turn_one_hot y maxSize -> x = y.
Proof.
  intros Hx Hy Heq.
  rewrite (turn_one_hot_in_range x maxSize Hx) in Heq.
  rewrite (turn_one_hot_in_range y maxSize Hy) in Heq.
  injection Heq as Heq.
  apply (f_equal (nonzero_from 0)) in Heq.
  rewrite !nonzero_from_set in Heq by lia.
  injection Heq as Heq. lia.
Qed.

Lemma resample_judgement_ok (dist : list Z) (refValue : Z) :
  forall (d : list nat) (randind : nat) (jv : Z) (randind' : nat) (jv' : Z)
         (rest : list nat),
    nth_error dist randind = Some jv ->
    resample_judgement dist refValue randind jv d = Ok (randind', jv') rest ->
    jv' <> refValue /\ nth_error dist randind' = Some jv'.
Proof.
  induction d as [|r d IH]; intros randind jv randind' jv' rest Hnth Hrun.
  - cbn [resample_judgement] in Hrun.
    destruct (refValue =? jv) eqn:E; [discriminate|].
    injection Hrun as <- <- _. apply Z.eqb_neq in E.
    split; [congruence | exact Hnth].
  - cbn [resample_judgement] in Hrun.
    destruct (refValue =? jv) eqn:E.
    + destruct (nth_error dist (choice_of (length dist) r)) as [j|] eqn:Ej;
        [|discriminate].
      apply (IH _ _ _ _ _ Ej Hrun).
    + injection Hrun as <- <- _. apply Z.eqb_neq in E.
      split; [congruence | exact Hnth].
Qed.

Lemma gen_compare_ok (a : args) (ph : phase) (dist : list Z) (first : bool)
    (item : nat) (v : vars) (d : list nat) (input2 : list Z) (v' : vars)
    (rest : list nat) :
  gen_compare a ph dist first item v d = Ok (input2, v') rest ->
  exists jv,
    judgementValue v' = Some jv /\
    turn_one_hot jv Const.TOTALMAXNUM = Some input2 /\
    In jv dist /\
    (first && (item =? 0)%nat = false -> judgementValue v <> Some jv).
Proof.
  intros Hgen. unfold gen_compare in Hgen.
  apply bind_Ok in Hgen. destruct Hgen as (refValue & d1 & Href & Hgen).
  apply bind_Ok in Hgen. destruct Hgen as (randind & d2 & _ & Hgen).
  apply bind_Ok in Hgen. destruct Hgen as (jv0 & d3 & Hjv0 & Hgen).
  apply lift_Ok in Hjv0. destruct Hjv0 as [Hjv0 _].
  apply bind_Ok in Hgen. destruct Hgen as ([randind' jv] & d4 & Hres & Hgen).
  destruct (resample_judgement_ok dist refValue d3 randind jv0 randind' jv d4
              Hjv0 Hres) as [Hne Hin].
  apply bind_Ok in Hgen. destruct Hgen as (oh & d5 & Hoh & Hgen).
  apply lift_Ok in Hoh. destruct Hoh as [Hoh _].
  apply bind_Ok in Hgen. destruct Hgen as (ctx & d6 & _ & Hgen).
  apply ret_Ok in Hgen. destruct Hgen as [Hgen _].
  injection Hgen as <- <-.
  exists jv. cbn [judgementValue].
  split; [reflexivity|]. split; [exact Hoh|].
  split; [apply (nth_error_In _ _ Hin)|].
  intros Hfirst. rewrite Hfirst in Href.
  apply lift_Ok in Href. destruct Href as [Href _].
  rewrite Href. congruence.
Qed.

Lemma gen_item_compare_ok (a : args) (ph : phase) (dist : list Z)
    (first : bool) (item : nat) (v : vars) (pf : option (list Z))
    (pt : option trial_type) (d : list nat) (r : item_result)
    (rest : list nat) :
  gen_item a ph dist first item compare v pf pt d = Ok r rest ->
  exists jv,
    judgementValue (ir_vars r) = Some jv /\
    turn_one_hot jv Const.TOTALMAXNUM = Some (ir_input2 r) /\
    In jv dist /\
    (first && (item =? 0)%nat = false -> judgementValue v <> Some jv).
Proof.
  intros Hgen. unfold gen_item in Hgen.
  apply bind_Ok in Hgen. destruct Hgen as ([[input2 v1] pf1] & d1 & Hc & Hgen).
  apply bind_Ok in Hc. destruct Hc as ([input2' v1'] & d0 & Hc & Hret).
  apply ret_Ok in Hret. destruct Hret as [Hret _].
  injection Hret as -> -> _.
  apply bind_Ok in Hgen. destruct Hgen as (ci & d2 & _ & Hgen).
  apply bind_Ok in Hgen. destruct Hgen as (c & d3 & _ & Hgen).
  apply ret_Ok in Hgen. destruct Hgen as [<- _].
  cbn [ir_vars ir_input2].
  apply (gen_compare_ok _ _ _ _ _ _ _ _ _ _ Hc).
Qed.

Lemma gen_items_adjacent (a : args) (ph : phase) (dist : list Z)
    (first : bool) (ts : list trial_type) :
  in_stimulus_range dist ->
  forall (n item : nat) (v : vars) (pf : option (list Z))
         (pt : option trial_type) (d : list nat) (rs : list item_result)
         (v' : vars) (rest : list nat),
    gen_items a ph dist first ts n item v pf pt d = Ok (rs, v') rest ->
    (forall r jprev oh,
       nth_error rs 0 = Some r ->
       nth_error ts item = Some compare ->
       first && (item =? 0)%nat = false ->
       judgementValue v = Some jprev ->
       1 <= jprev <= Z.of_nat Const.TOTALMAXNUM ->
       turn_one_hot jprev Const.TOTALMAXNUM = Some oh ->
       ir_input2 r <> oh) /\
    (forall i r r',
       nth_error ts (item + i) = Some compare ->
       nth_error ts (item + S i) = Some compare ->
       nth_error rs i = Some r ->
       nth_error rs (S i) = Some r' ->
       ir_input2 r <> ir_input2 r').
Proof.
  intros Hdist.
  induction n as [|n IH]; intros item v pf pt d rs v' rest Hgen.
  - cbn [gen_items] in Hgen. apply ret_Ok in Hgen. destruct Hgen as [Hgen _].
    injection Hgen as <- _.
    split; intros; [discriminate | destruct i; discriminate].
  - cbn [gen_items] in Hgen.
    apply bind_Ok in Hgen. destruct Hgen as (tt & d1 & Htt & Hgen).
    apply lift_Ok in Htt. destruct Htt as [Htt _].
    apply bind_Ok in Hgen. destruct Hgen as (r0 & d2 & Hitem & Hgen).
    apply bind_Ok in Hgen. destruct Hgen as ([rs' v''] & d3 & Hrec & Hgen).
    apply ret_Ok in Hgen. destruct Hgen as [Hgen _].
    injection Hgen as <- _.
    destruct (IH _ _ _ _ _ _ _ _ Hrec) as [IHhead IHadj].
    split.
    + intros r jprev oh Hr Hcmp Hfirst Hprev Hrange Hoh.
      simpl in Hr. injection Hr as <-.
      rewrite Hcmp in Htt. injection Htt as <-.
      destruct (gen_item_compare_ok _ _ _ _ _ _ _ _ _ _ _ Hitem)
        as (jv & _ & Hjv & Hin & Hne).
      intros Heq. rewrite Heq, <- Hoh in Hjv.
      apply turn_one_hot_inj in Hjv;
        [| exact (proj1 (Forall_forall _ _) Hdist jv Hin) | exact Hrange].
      apply (Hne Hfirst). rewrite Hprev, Hjv. reflexivity.
    + intros i r r' Hti Htsi Hr Hr'.
      destruct i as [|i].
      * rewrite Nat.add_0_r in Hti. simpl in Hr. injection Hr as <-.
        rewrite Hti in Htt. injection Htt as <-.
        destruct (gen_item_compare_ok _ _ _ _ _ _ _ _ _ _ _ Hitem)
          as (jv & Hst & Hjv & Hin & _).
        simpl in Hr'. intros Heq.
        apply (IHhead r' jv (ir_input2 r0) Hr'); try assumption.
        -- replace (S item) with (item + 1)%nat by lia. exact Htsi.
        -- apply andb_false_r.
        -- exact (proj1 (Forall_forall _ _) Hdist jv Hin).
        -- symmetry. exact Heq.
      * simpl in Hr, Hr'.
        apply (IHadj i r r'); try assumption.
        -- replace (S item + i)%nat with (item + S i)%nat by lia. exact Hti.
        -- replace (S item + S i)%nat with (item + S (S i))%nat by lia.
           exact Htsi.
Qed.

Lemma trialtypeinput_compare (ts : list trial_type) (n i : nat) :
  nth_error (trialtypeinput_of ts n) i = Some 1 ->
  nth_error ts i = Some compare.
Proof.
  unfold trialtypeinput_of. intros Hn.
  destruct (Nat.lt_ge_cases i (length (map trialtype_flag (firstn n ts))))
    as [Hlt|Hge].
  - rewrite nth_error_app1 in Hn by exact Hlt.
    rewrite nth_error_map in Hn.
    destruct (nth_error (firstn n ts) i) as [tt|] eqn:Ef; [|discriminate].
    simpl in Hn.
    assert (Hi : (i < n)%nat).
    { rewrite length_map, length_firstn in Hlt. lia. }
    rewrite nth_error_firstn in Ef.
    replace (i <? n)%nat with true in Ef by (symmetry; apply Nat.ltb_lt; lia).
    rewrite Ef. destruct tt; [reflexivity | discriminate].
  - rewrite nth_error_app2 in Hn by exact Hge. exfalso.
    apply nth_error_In in Hn. apply repeat_spec in Hn. discriminate.
Qed.

Lemma gen_sequence_adjacent_compare (a : args) (ph : phase) (dist : list Z)
    (firstTrialInContext : bool) (permorder : list nat) (v : vars)
    (d : list nat) (sd : seq_data) (v' : vars) (first' : bool)
    (rest : list nat) :
  in_stimulus_range dist ->
  gen_sequence a ph dist firstTrialInContext permorder v d
  = Ok (sd, v', first') rest ->
  forall (i : nat) (u u' : list Z),
    nth_error (sd_trialTypeInputs sd) i = Some 1 ->
    nth_error (sd_trialTypeInputs sd) (S i) = Some 1 ->
    nth_error (sd_input sd) i = Some u ->
    nth_error (sd_input sd) (S i) = Some u' ->
    u <> u'.
Proof.
  intros Hdist Hgen i u u' Ht Ht' Hu Hu'.
  unfold gen_sequence in Hgen.
  apply bind_Ok in Hgen. destruct Hgen as (type_sequence & d1 & _ & Hgen).
  apply bind_Ok in Hgen. destruct Hgen as ([items v1] & d2 & Hitems & Hgen).
  apply bind_Ok in Hgen. destruct Hgen as ([v2 f2] & d3 & _ & Hgen).
  apply bind_Ok in Hgen. destruct Hgen as (rows & d4 & _ & Hgen).
  destruct (length type_sequence =? BPTT_len a)%nat; [|discriminate].
  apply ret_Ok in Hgen. destruct Hgen as [Hgen _].
  injection Hgen as <- _ _.
  cbn [sd_trialTypeInputs sd_input] in *.
  apply trialtypeinput_compare in Ht. apply trialtypeinput_compare in Ht'.
  rewrite nth_error_map in Hu, Hu'.
  destruct (nth_error items i) as [r|] eqn:Er; [|discriminate].
  destruct (nth_error items (S i)) as [r'|] eqn:Er'; [|discriminate].
  simpl in Hu, Hu'. injection Hu as <-. injection Hu' as <-.
  destruct (gen_items_adjacent a ph dist firstTrialInContext type_sequence
              Hdist _ _ _ _ _ _ _ _ _ Hitems) as [_ Hadj].
  apply (Hadj i r r'); assumption.
Qed.

Lemma low_range_in_stimulus_range : in_stimulus_range low_range.
Proof.
  unfold in_stimulus_range.
  change low_range with [1; 2; 3; 4].
  change (Z.of_nat Const.TOTALMAXNUM) with 8.
  repeat (apply Forall_cons; [lia|]). apply Forall_nil.
Qed.

(** C2 as stated fails.  A sequence generated with fillers from the low
    range: trial 0 is a compare trial and trial 1 a filler, both with
    stimulus 2; trials 1 and 2 are fillers, both with stimulus 2; trial 5 is
    a filler and trial 6 a compare trial, both with stimulus 4. *)
Lemma adjacent_repeats_with_fillers :
  exists sd v' first' rest,
    gen_sequence short_filler_args train low_range true identity_permutation
                 low_block_vars repeating_draws = Ok (sd, v', first') rest /\
    firstn 7 (sd_trialTypeInputs sd) = [1; 0; 0; 1; 0; 0; 1] /\
    nth_error (sd_input sd) 0 = Some [0; 1; 0; 0; 0; 0; 0; 0] /\
    nth_error (sd_input sd) 1 = Some [0; 1; 0; 0; 0; 0; 0; 0] /\
    nth_error (sd_input sd) 2 = Some [0; 1; 0; 0; 0; 0; 0; 0] /\
    nth_error (sd_input sd) 5 = Some [0; 0; 0; 1; 0; 0; 0; 0] /\
    nth_error (sd_input sd) 6 = Some [0; 0; 0; 1; 0; 0; 0; 0] /\
    ~ no_adjacent_repeat sd.
Proof.
  do 4 eexists. split; [vm_compute; reflexivity|].
  split; [vm_compute; reflexivity|].
  split; [vm_compute; reflexivity|]. split; [vm_compute; reflexivity|].
  split; [vm_compute; reflexivity|]. split; [vm_compute; reflexivity|].
  split; [vm_compute; reflexivity|].
  intros Hclaim.
  apply (Hclaim 0%nat [0; 1; 0; 0; 0; 0; 0; 0] [0; 1; 0; 0; 0; 0; 0; 0]);
    vm_compute; reflexivity.
Qed.

(** ** From sequences to data sets *)

Lemma zrange_incl_bounds (lo hi x : Z) :
  In x (zrange_incl lo hi) -> lo <= x <= hi.
Proof.
  unfold zrange_incl. intros Hin. apply in_map_iff in Hin.
  destruct Hin as (k & <- & Hk). apply in_seq in Hk. lia.
Qed.

Lemma zrange_incl_in_range (lo hi : Z) :
  1 <= lo -> hi <= Z.of_nat Const.TOTALMAXNUM ->
  in_stimulus_range (zrange_incl lo hi).
Proof.
  intros Hlo Hhi. apply Forall_forall. intros x Hx.
  apply zrange_incl_bounds in Hx. lia.
Qed.

Lemma set_range_ok (bv : block_vars) (c : option Z) (lo hi : Z) :
  1 <= lo -> hi <= Z.of_nat Const.TOTALMAXNUM ->
  range_ok (set_range bv c lo hi).
Proof.
  intros Hlo Hhi lo' hi' Hmin Hmax. simpl in Hmin, Hmax.
  injection Hmin as <-. injection Hmax as <-. split; assumption.
Qed.

Ltac const_bound := vm_compute; let Hc := fresh "Hc" in intro Hc; discriminate Hc.

Lemma block_setup_range_ok (a : args) (ph : phase) (Mblocks block : Z)
    (bv : block_vars) :
  range_ok bv -> range_ok (block_setup a ph Mblocks block bv).
Proof.
  intros Hbv. unfold block_setup.
  destruct ph; [|apply set_range_ok; const_bound].
  destruct (negb (train_long a)); [|apply set_range_ok; const_bound].
  destruct (which_context a =? 0).
  - destruct (Z.of_nat Const.NCONTEXTS * block <? Mblocks);
      [apply set_range_ok; const_bound|].
    destruct (block <? Mblocks); [apply set_range_ok; const_bound | exact Hbv].
  - destruct (which_context a =? 1); [apply set_range_ok; const_bound|].
    destruct (which_context a =? 2); [apply set_range_ok; const_bound|].
    exact Hbv.
Qed.

Lemma randNumDistribution_in_range (a : args) (ph : phase) (bv : block_vars)
    (dist : list Z) :
  range_ok bv -> randNumDistribution a ph bv = Done dist ->
  in_stimulus_range dist.
Proof.
  intros Hbv Hd. unfold randNumDistribution in Hd.
  destruct (train_long a && negb (is_test ph)).
  { assert (Heq : dist = zrange_incl Const.LOWR_ULIM Const.HIGHR_LLIM)
      by congruence.
    rewrite Heq. apply zrange_incl_in_range; const_bound. }
  destruct (all_fullrange a).
  { assert (Heq : dist
                  = zrange_incl Const.FULLR_LLIM Const.FULLR_ULIM
                    ++ zrange_incl Const.LOWR_LLIM Const.LOWR_ULIM
                    ++ zrange_incl Const.HIGHR_LLIM Const.HIGHR_ULIM)
      by congruence.
    rewrite Heq. unfold in_stimulus_range.
    apply Forall_app; split; [|apply Forall_app; split];
      apply zrange_incl_in_range; const_bound. }
  destruct (minNumerosity bv) as [lo|] eqn:Emin; [|discriminate].
  destruct (maxNumerosity bv) as [hi|] eqn:Emax; [|discriminate].
  assert (Heq : dist = zrange_incl lo hi) by congruence.
  rewrite Heq.
  destruct (Hbv lo hi Emin Emax) as [Hlo Hhi].
  apply zrange_incl_in_range; assumption.
Qed.

Section Lifting.

Variable a : args.
Variable P : seq_data -> Prop.
Hypothesis Hseq :
  forall ph dist first permorder v d sd v' first' rest,
    in_stimulus_range dist ->
    gen_sequence a ph dist first permorder v d = Ok (sd, v', first') rest ->
    P sd.

Lemma gen_samples_Forall (ph : phase) (dist : list Z) :
  in_stimulus_range dist ->
  forall n first perms v d sds perms' v' rest,
    gen_samples a ph dist n first perms v d = Ok (sds, perms', v') rest ->
    Forall P sds.
Proof.
  intros Hdist.
  induction n as [|n IH]; intros first perms v d sds perms' v' rest Hgen.
  - cbn [gen_samples] in Hgen. apply ret_Ok in Hgen.
    destruct Hgen as [Hgen _]. injection Hgen as <- _ _. constructor.
  - cbn [gen_samples] in Hgen.
    destruct perms as [|permorder perms0]; [discriminate|].
    apply bind_Ok in Hgen. destruct Hgen as ([[sd v1] f1] & d1 & Hs & Hgen).
    apply bind_Ok in Hgen. destruct Hgen as ([[sds0 p0] v2] & d2 & Hr & Hgen).
    apply ret_Ok in Hgen. destruct Hgen as [Hgen _].
    injection Hgen as <- _ _.
    constructor; [apply (Hseq _ _ _ _ _ _ _ _ _ _ Hdist Hs)|].
    apply (IH _ _ _ _ _ _ _ _ Hr).
Qed.

Lemma gen_blocks_Forall (ph : phase) (Mblocks : Z) (nsamples : nat) :
  forall n block perms bv d blocks perms' bv' rest,
    range_ok bv ->
    gen_blocks a ph Mblocks nsamples n block perms bv d
    = Ok (blocks, perms', bv') rest ->
    Forall (Forall P) blocks /\ range_ok bv'.
Proof.
  induction n as [|n IH];
    intros block perms bv d blocks perms' bv' rest Hbv Hgen.
  - cbn [gen_blocks] in Hgen. apply ret_Ok in Hgen.
    destruct Hgen as [Hgen _]. injection Hgen as <- _ <-.
    split; [constructor | exact Hbv].
  - cbn [gen_blocks] in Hgen.
    pose proof (block_setup_range_ok a ph Mblocks block bv Hbv) as Hbv1.
    apply bind_Ok in Hgen. destruct Hgen as (dist & d1 & Hd & Hgen).
    apply lift_result_Ok in Hd. destruct Hd as [Hd _].
    pose proof (randNumDistribution_in_range _ _ _ _ Hbv1 Hd) as Hdist.
    apply bind_Ok in Hgen. destruct Hgen as ([[sds p1] v1] & d2 & Hs & Hgen).
    apply bind_Ok in Hgen. destruct Hgen as ([[bl p2] bv3] & d3 & Hr & Hgen).
    apply ret_Ok in Hgen. destruct Hgen as [Hgen _].
    injection Hgen as <- _ <-.
    assert (Hbv2 : range_ok
                     {| bv_vars := v1;
                        minNumerosity :=
                          minNumerosity (block_setup a ph Mblocks block bv);
                        maxNumerosity :=
                          maxNumerosity (block_setup a ph Mblocks block bv) |})
      by (intros lo hi Hmin Hmax; apply (Hbv1 lo hi); assumption).
    destruct (IH _ _ _ _ _ _ _ _ Hbv2 Hr) as [Hall Hbv3].
    split; [|exact Hbv3].
    constructor; [|exact Hall].
    apply (gen_samples_Forall ph dist Hdist _ _ _ _ _ _ _ _ _ Hs).
Qed.

Lemma gen_phase_Forall (ph : phase) (N Mblocks : Z) :
  forall perms bv d sds perms' bv' rest,
    range_ok bv ->
    gen_phase a ph N Mblocks perms bv d = Ok (sds, perms', bv') rest ->
    Forall P sds /\ range_ok bv'.
Proof.
  intros perms bv d sds perms' bv' rest Hbv Hgen. unfold gen_phase in Hgen.
  apply bind_Ok in Hgen. destruct Hgen as (k & d1 & _ & Hgen).
  apply bind_Ok in Hgen. destruct Hgen as ([[bl p1] bv1] & d2 & Hb & Hgen).
  apply ret_Ok in Hgen. destruct Hgen as [Hgen _].
  injection Hgen as <- _ <-.
  destruct (gen_blocks_Forall _ _ _ _ _ _ _ _ _ _ _ _ Hbv Hb) as [Hall Hbv1].
  split; [|exact Hbv1].
  apply Forall_concat. exact Hall.
Qed.

Lemma create_separate_input_data_Forall (lc : long_constants)
    (perms : list (list nat)) (d : list nat) (ds : dataset) (rest : list nat) :
  create_separate_input_data lc a perms d = Ok ds rest ->
  Forall P (all_sequences ds).
Proof.
  intros Hgen. unfold create_separate_input_data in Hgen.
  assert (Hunbound : range_ok unbound) by (intros lo hi Hmin; discriminate).
  apply bind_Ok in Hgen. destruct Hgen as ([[tr p1] bv1] & d1 & Htr & Hgen).
  destruct (gen_phase_Forall _ _ _ _ _ _ _ _ _ _ Hunbound Htr) as [Hp1 Hbv1].
  apply bind_Ok in Hgen. destruct Hgen as ([[te p2] bv2] & d2 & Hte & Hgen).
  destruct (gen_phase_Forall _ _ _ _ _ _ _ _ _ _ Hbv1 Hte) as [Hp2 Hbv2].
  apply bind_Ok in Hgen. destruct Hgen as ([[cv p3] bv3] & d3 & Hcv & Hgen).
  destruct (gen_phase_Forall _ _ _ _ _ _ _ _ _ _ Hbv2 Hcv) as [Hp3 _].
  apply ret_Ok in Hgen. destruct Hgen as [<- _].
  unfold all_sequences. cbn [trainset testset crossval_testset].
  apply Forall_app; split; [|apply Forall_app; split]; assumption.
Qed.

End Lifting.

(** C1 (as amended). The labelling pass runs sequence by sequence and
    starts each sequence without a reference.  In every sequence of every
    split of a generated data set, a compare trial with an earlier compare
    trial in the same sequence is labelled 1 if its judged value is strictly
    greater than that trial's judged value and 0 otherwise, except that the
    label is NaN when one value is <= 4, the other >= 5 and train_long is
    false; the first compare trial of the sequence is labelled NaN. *)
Theorem labels_within_sequence (lc : long_constants) (a : args)
    (perms : list (list nat)) (d : list nat) (ds : dataset)
    (rest : list nat) :
  create_separate_input_data lc a perms d = Ok ds rest ->
  forall sd : seq_data,
    In sd (all_sequences ds) ->
    forall (i : nat) (x : list Z),
      nth_error (sd_trialTypeInputs sd) i = Some 1 ->
      nth_error (sd_input sd) i = Some x ->
      exists j,
        decode x = Done j /\
        nth_error (sd_target sd) i
        = Some (Some (match reference_at None (sd_trialTypeInputs sd)
                                         (sd_input sd) i with
                      | Some r => claimed_label (train_long a) j r
                      | None => LNaN
                      end)).
Proof.
  intros Hgen. rewrite <- Forall_forall.
  refine (create_separate_input_data_Forall a _ _ lc perms d ds rest Hgen).
  intros ph dist first permorder v d0 sd0 v' first' rest0 _ Hseq.
  exact (gen_sequence_labels a ph dist first permorder v d0 sd0 v' first'
           rest0 Hseq).
Qed.

Lemma labels_within_sequence_witness :
  exists ds rest sd,
    create_separate_input_data small_long_constants long_args
                               long_permutations long_draws = Ok ds rest /\
    In sd (all_sequences ds) /\
    nth_error (sd_trialTypeInputs sd) 1 = Some 1 /\
    nth_error (sd_input sd) 1 = Some [0; 0; 0; 1; 0; 0; 0; 0] /\
    nth_error (sd_target sd) 1 = Some (Some (LNum 0)) /\
    exists j,
      decode [0; 0; 0; 1; 0; 0; 0; 0] = Done j /\
      nth_error (sd_target sd) 1
      = Some (Some (match reference_at None (sd_trialTypeInputs sd)
                                       (sd_input sd) 1 with
                    | Some r => claimed_label (train_long long_args) j r
                    | None => LNaN
                    end)).
Proof.
  eassert (Hgen : create_separate_input_data small_long_constants long_args
                    long_permutations long_draws = Ok _ _)
    by (vm_compute; reflexivity).
  match type of Hgen with
  | _ = Ok ?ds _ => eassert (Hin : In _ (all_sequences ds))
  end.
  { unfold all_sequences. cbn [trainset app In]. right. left. reflexivity. }
  do 3 eexists. split; [exact Hgen|]. split; [exact Hin|].
  split; [reflexivity|]. split; [reflexivity|]. split; [reflexivity|].
  apply (labels_within_sequence _ _ _ _ _ _ Hgen _ Hin
           1%nat [0; 0; 0; 1; 0; 0; 0; 0] eq_refl eq_refl).
Defined.

(** C2 (as amended). In every sequence of every split of a generated data
    set, two temporally adjacent compare trials never carry the same
    stimulus value. *)
Theorem adjacent_compare_trials_differ (lc : long_constants) (a : args)
    (perms : list (list nat)) (d : list nat) (ds : dataset)
    (rest : list nat) :
  create_separate_input_data lc a perms d = Ok ds rest ->
  forall sd : seq_data,
    In sd (all_sequences ds) ->
    forall (i : nat) (u u' : list Z),
      nth_error (sd_trialTypeInputs sd) i = Some 1 ->
      nth_error (sd_trialTypeInputs sd) (S i) = Some 1 ->
      nth_error (sd_input sd) i = Some u ->
      nth_error (sd_input sd) (S i) = Some u' ->
      u <> u'.
Proof.
  intros Hgen. rewrite <- Forall_forall.
  refine (create_separate_input_data_Forall a _ _ lc perms d ds rest Hgen).
  intros ph dist first permorder v d0 sd0 v' first' rest0 Hdist Hseq.
  exact (gen_sequence_adjacent_compare a ph dist first permorder v d0 sd0 v'
           first' rest0 Hdist Hseq).
Qed.

Lemma adjacent_compare_trials_differ_witness :
  exists ds rest sd,
    create_separate_input_data small_long_constants long_args
                               long_permutations long_draws = Ok ds rest /\
    In sd (all_sequences ds) /\
    nth_error (sd_trialTypeInputs sd) 0 = Some 1 /\
    nth_error (sd_trialTypeInputs sd) 1 = Some 1 /\
    nth_error (sd_input sd) 0 = Some [0; 0; 0; 0; 1; 0; 0; 0] /\
    nth_error (sd_input sd) 1 = Some [0; 0; 0; 1; 0; 0; 0; 0] /\
    [0; 0; 0; 0; 1; 0; 0; 0] <> [0; 0; 0; 1; 0; 0; 0; 0].
Proof.
  eassert (Hgen : create_separate_input_data small_long_constants long_args
                    long_permutations long_draws = Ok _ _)
    by (vm_compute; reflexivity).
  match type of Hgen with
  | _ = Ok ?ds _ => eassert (Hin : In _ (all_sequences ds))
  end.
  { unfold all_sequences. cbn [trainset app In]. right. left. reflexivity. }
  do 3 eexists. split; [exact Hgen|]. split; [exact Hin|].
  split; [reflexivity|]. split; [reflexivity|].
  split; [reflexivity|]. split; [reflexivity|].
  apply (adjacent_compare_trials_differ _ _ _ _ _ _ Hgen _ Hin 0%nat
           [0; 0; 0; 0; 1; 0; 0; 0] [0; 0; 0; 1; 0; 0; 0; 0]
           eq_refl eq_refl eq_refl eq_refl).
Defined.

(* ================================================================== *)
(** * Part III.  Further properties of the code                        *)
(* ================================================================== *)

(** ** generate_trial_sequence *)

Lemma map_nth_seq {A : Type} (l : list A) (d : A) :
  map (fun i => nth i l d) (seq 0 (length l)) = l.
Proof.
  induction l as [|x l IH]; [reflexivity|].
  cbn [length seq map nth]. f_equal.
  rewrite <- seq_shift, map_map. exact IH.
Qed.

Lemma pick_all_in_range {A : Type} (l : list A) (d : A) (idx : list nat) :
  (forall i, In i idx -> (i < length l)%nat) ->
  pick_all l idx = Some (map (fun i => nth i l d) idx).
Proof.
  induction idx as [|i idx IH]; intros Hin; [reflexivity|].
  cbn [pick_all map].
  rewrite (nth_error_nth' l d (Hin i (or_introl eq_refl))).
  rewrite IH by (intros j Hj; apply Hin; right; exact Hj).
  reflexivity.
Qed.

Lemma pick_all_permutation {A : Type} (l : list A) (idx : list nat) :
  Permutation idx (seq 0 (length l)) ->
  exists l', pick_all l idx = Some l' /\ Permutation l' l.
Proof.
  intros Hperm.
  destruct l as [|x l].
  - apply Permutation_sym, Permutation_nil in Hperm. subst idx.
    exists []. split; [reflexivity | constructor].
  - exists (map (fun i => nth i (x :: l) x) idx). split.
    + apply pick_all_in_range. intros i Hi.
      apply (Permutation_in _ Hperm) in Hi. apply in_seq in Hi. lia.
    + pose proof (Permutation_map (fun i => nth i (x :: l) x) Hperm) as Hm.
      rewrite (map_nth_seq (x :: l) x) in Hm. exact Hm.
Qed.

Lemma Permutation_concat {A : Type} (l l' : list (list A)) :
  Permutation l l' -> Permutation (concat l) (concat l').
Proof.
  induction 1 as [|x l l' _ IH|x y l|l l' l'' _ IH1 _ IH2].
  - constructor.
  - cbn [concat]. apply Permutation_app_head. exact IH.
  - cbn [concat]. rewrite !app_assoc.
    apply Permutation_app_tail. apply Permutation_app_comm.
  - exact (Permutation_trans IH1 IH2).
Qed.

Lemma n_compare_permutation (ts ts' : list trial_type) :
  Permutation ts ts' -> n_compare ts = n_compare ts'.
Proof.
  unfold n_compare.
  induction 1 as [|x l l' _ IH|x y l|l l' l'' _ IH1 _ IH2].
  - reflexivity.
  - cbn [filter]. destruct (is_compare x); cbn [length]; congruence.
  - cbn [filter]. destruct (is_compare x), (is_compare y); reflexivity.
  - congruence.
Qed.

Lemma hd_error_concat_runs (runs : list (list trial_type)) :
  runs <> [] ->
  Forall (fun r => hd_error r = Some compare) runs ->
  hd_error (concat runs) = Some compare.
Proof.
  intros Hne Hall. destruct runs as [|r runs]; [congruence|].
  inversion Hall as [|r0 rs Hr _]; subst.
  destruct r as [|t r]; [discriminate|].
  simpl in Hr. injection Hr as ->. reflexivity.
Qed.

(** The thirty runs before they are permuted. *)
Lemma runs_start_with_compare (include_fillers : bool) :
  Forall (fun r => hd_error r = Some compare)
         (concat [L3_trialtype include_fillers; L4_trialtype include_fillers;
                  L5_trialtype include_fillers]).
Proof.
  destruct include_fillers; cbv [L3_trialtype L4_trialtype L5_trialtype];
    simpl; repeat (apply Forall_cons; [reflexivity|]); apply Forall_nil.
Qed.

Lemma runs_are_filler_runs :
  Forall (fun r => exists k, (2 <= k <= 4)%nat /\ r = filler_run k)
         (concat [L3_trialtype true; L4_trialtype true; L5_trialtype true]).
Proof.
  cbv [L3_trialtype L4_trialtype L5_trialtype]. simpl.
  repeat (apply Forall_cons;
          [first [ exists 2%nat; split; [lia | reflexivity]
                 | exists 3%nat; split; [lia | reflexivity]
                 | exists 4%nat; split; [lia | reflexivity] ] |]).
  apply Forall_nil.
Qed.

Lemma generate_trial_sequence_facts (include_fillers : bool)
    (permorder : list nat) :
  Permutation permorder (seq 0 30) ->
  exists ts,
    generate_trial_sequence include_fillers permorder = Some ts /\
    length ts = 120%nat /\
    hd_error ts = Some compare /\
    n_compare ts = if include_fillers then 30%nat else 120%nat.
Proof.
  intros Hperm. unfold generate_trial_sequence.
  set (runs := concat [L3_trialtype include_fillers;
                       L4_trialtype include_fillers;
                       L5_trialtype include_fillers]).
  assert (Hlen : length runs = 30%nat) by (destruct include_fillers; reflexivity).
  destruct (pick_all_permutation runs permorder) as (permuted & Hpick & Hp).
  { rewrite Hlen. exact Hperm. }
  rewrite Hpick. exists (concat permuted). split; [reflexivity|].
  pose proof (Permutation_concat _ _ Hp) as Hc.
  split; [|split].
  - rewrite (Permutation_length Hc). destruct include_fillers; reflexivity.
  - apply hd_error_concat_runs.
    + intros ->. apply Permutation_length in Hp. rewrite Hlen in Hp.
      discriminate.
    + apply (Permutation_Forall (Permutation_sym Hp)).
      apply runs_start_with_compare.
  - rewrite (n_compare_permutation _ _ Hc). destruct include_fillers; reflexivity.
Qed.

(** X1. For every permutation of the thirty runs, the trial-type sequence
    is returned, is 120 trials long, starts with a compare trial, and holds
    30 compare trials when fillers are included and 120 when they are
    not. *)
Theorem generate_trial_sequence_shape (include_fillers : bool)
    (permorder : list nat) :
  Permutation permorder (seq 0 30) ->
  exists ts,
    generate_trial_sequence include_fillers permorder = Some ts /\
    length ts = 120%nat /\
    hd_error ts = Some compare /\
    n_compare ts = if include_fillers then 30%nat else 120%nat.
Proof.
  exact (generate_trial_sequence_facts include_fillers permorder).
Qed.

Lemma generate_trial_sequence_shape_witness :
  Permutation identity_permutation (seq 0 30) /\
  exists ts,
    generate_trial_sequence true identity_permutation = Some ts /\
    length ts = 120%nat /\
    hd_error ts = Some compare /\
    n_compare ts = 30%nat.
Proof.
  assert (Hp : Permutation identity_permutation (seq 0 30))
    by apply Permutation_refl.
  split; [exact Hp|].
  apply (generate_trial_sequence_shape true identity_permutation Hp).
Defined.

(** X2. With fillers, the sequence is a concatenation of thirty runs, each
    one compare trial followed by two, three or four filler trials: compare
    trials are separated by between 2 and 4 fillers. *)
Theorem generate_trial_sequence_runs (permorder : list nat) :
  Permutation permorder (seq 0 30) ->
  exists runs,
    generate_trial_sequence true permorder = Some (concat runs) /\
    length runs = 30%nat /\
    Forall (fun r => exists k, (2 <= k <= 4)%nat /\ r = filler_run k) runs.
Proof.
  intros Hperm. unfold generate_trial_sequence.
  set (runs := concat [L3_trialtype true; L4_trialtype true;
                       L5_trialtype true]).
  assert (Hlen : length runs = 30%nat) by reflexivity.
  destruct (pick_all_permutation runs permorder) as (permuted & Hpick & Hp).
  { rewrite Hlen. exact Hperm. }
  rewrite Hpick. exists permuted. split; [reflexivity|]. split.
  - rewrite (Permutation_length Hp). exact Hlen.
  - apply (Permutation_Forall (Permutation_sym Hp)).
    apply runs_are_filler_runs.
Qed.

Lemma generate_trial_sequence_runs_witness :
  Permutation (rev (seq 0 30)) (seq 0 30) /\
  exists runs,
    generate_trial_sequence true (rev (seq 0 30)) = Some (concat runs) /\
    length runs = 30%nat /\
    Forall (fun r => exists k, (2 <= k <= 4)%nat /\ r = filler_run k) runs.
Proof.
  assert (Hp : Permutation (rev (seq 0 30)) (seq 0 30))
    by (apply Permutation_sym, Permutation_rev).
  split; [exact Hp|].
  apply (generate_trial_sequence_runs (rev (seq 0 30)) Hp).
Defined.

(** ** create_separate_input_data: what a generated sequence looks like *)

Lemma turn_one_hot_length (j : Z) (n : nat) (v : list Z) :
  turn_one_hot j n = Some v -> length v = n.
Proof.
  unfold turn_one_hot. destruct (py_index _ n); [|discriminate].
  intros Heq. injection Heq as <-.
  rewrite list_set_length. apply repeat_length.
Qed.

Lemma decode_one_hot (j : Z) (n : nat) (v : list Z) :
  1 <= j <= Z.of_nat n -> turn_one_hot j n = Some v -> decode v = Done j.
Proof.
  intros Hj Hv. rewrite (turn_one_hot_in_range j n Hj) in Hv.
  injection Hv as <-.
  unfold decode, turn_one_hot_to_integer, nonzero.
  rewrite nonzero_from_set by lia. simpl.
  replace (Z.of_nat (Z.to_nat (j - 1)) + 1) with j by lia. reflexivity.
Qed.

Lemma is_stimulus_length (v : list Z) :
  is_stimulus v -> length v = Const.TOTALMAXNUM.
Proof. intros (j & _ & Hv). exact (turn_one_hot_length _ _ _ Hv). Qed.

Lemma randint_of_bounds (lo hi : Z) (r : nat) :
  lo <= hi -> lo <= randint_of lo hi r <= hi.
Proof.
  intros Hle. unfold randint_of.
  pose proof (Z.mod_pos_bound (Z.of_nat r) (hi - lo + 1) ltac:(lia)). lia.
Qed.

Lemma resample_filler_ok (p : list Z) :
  forall (d : list nat) (input2 v : list Z) (rest : list nat),
    is_stimulus input2 ->
    resample_filler p input2 d = Ok v rest ->
    is_stimulus v /\ vec_eqb v p = false.
Proof.
  induction d as [|r d IH]; intros input2 v rest Hs Hrun;
    cbn [resample_filler] in Hrun;
    destruct (vec_eqb input2 p) eqn:E; try discriminate.
  - injection Hrun as <- _. split; assumption.
  - destruct (turn_one_hot (randint_of Const.FULLR_LLIM Const.FULLR_ULIM r)
                           Const.TOTALMAXNUM) as [w|] eqn:Ew; [|discriminate].
    apply (IH w v rest); [|exact Hrun].
    exists (randint_of Const.FULLR_LLIM Const.FULLR_ULIM r). split; [|exact Ew].
    apply (randint_of_bounds 1 8 r). lia.
  - injection Hrun as <- _. split; assumption.
Qed.

Lemma randint_Ok (lo hi : Z) (d : list nat) (x : Z) (rest : list nat) :
  randint lo hi d = Ok x rest -> lo <= x <= hi.
Proof.
  unfold randint. destruct (hi <? lo) eqn:E; [discriminate|].
  apply Z.ltb_ge in E. intros Hrun.
  apply bind_Ok in Hrun. destruct Hrun as (r & d1 & _ & Hret).
  apply ret_Ok in Hret. destruct Hret as [<- _].
  apply randint_of_bounds. exact E.
Qed.

Lemma gen_filler_ok (a : args) (v : vars) (pf : option (list Z))
    (pt : option trial_type) (d : list nat) (input2 : list Z) (v' : vars)
    (rest : list nat) :
  gen_filler a v pf pt d = Ok (input2, v') rest ->
  is_stimulus input2 /\
  judgementValue v' = judgementValue v /\
  (all_fullrange a = false -> context v' = context v) /\
  (all_fullrange a = true -> exists c, context v' = Some c /\ 1 <= c <= 2) /\
  (forall p, pf = Some p -> pt = Some compare -> vec_eqb input2 p = false).
Proof.
  intros Hgen. unfold gen_filler in Hgen.
  apply bind_Ok in Hgen. destruct Hgen as (x & d1 & Hx & Hgen).
  apply randint_Ok in Hx.
  apply bind_Ok in Hgen. destruct Hgen as (i0 & d2 & Hi0 & Hgen).
  apply lift_Ok in Hi0. destruct Hi0 as [Hi0 _].
  assert (Hs0 : is_stimulus i0) by (exists x; split; assumption).
  apply bind_Ok in Hgen. destruct Hgen as (i1 & d3 & Hi1 & Hgen).
  apply bind_Ok in Hgen. destruct Hgen as (ctx & d4 & Hctx & Hgen).
  apply ret_Ok in Hgen. destruct Hgen as [Hgen _].
  injection Hgen as <- <-. cbn [judgementValue context].
  assert (Hres : is_stimulus i1 /\
                 (forall p, pf = Some p -> pt = Some compare ->
                            vec_eqb i1 p = false)).
  { destruct pf as [p|].
    - destruct pt as [[|]|].
      + destruct (resample_filler_ok p _ _ _ _ Hs0 Hi1) as [Hs1 Hne].
        split; [exact Hs1|]. intros q Hp _. injection Hp as <-. exact Hne.
      + apply ret_Ok in Hi1. destruct Hi1 as [<- _].
        split; [exact Hs0|]. intros q _ Hc. discriminate.
      + apply ret_Ok in Hi1. destruct Hi1 as [<- _].
        split; [exact Hs0|]. intros q _ Hc. discriminate.
    - apply ret_Ok in Hi1. destruct Hi1 as [<- _].
      split; [exact Hs0|]. intros q Hc. discriminate. }
  destruct Hres as [Hs1 Hrule].
  split; [exact Hs1|]. split; [reflexivity|]. split; [|split; [|exact Hrule]].
  - intros Hf. rewrite Hf in Hctx. apply ret_Ok in Hctx.
    destruct Hctx as [<- _]. reflexivity.
  - intros Hf. rewrite Hf in Hctx.
    apply bind_Ok in Hctx. destruct Hctx as (c & d5 & Hc & Hret).
    apply randint_Ok in Hc. apply ret_Ok in Hret. destruct Hret as [<- _].
    exists c. split; [reflexivity | exact Hc].
Qed.

Lemma gen_contextinput_length (a : args) (v : vars) (d : list nat)
    (ci : list Z) (rest : list nat) :
  gen_contextinput a v d = Ok ci rest -> length ci = Const.NCONTEXTS.
Proof.
  unfold gen_contextinput. intros Hgen.
  destruct (String.eqb (label_context a) "true").
  { apply bind_Ok in Hgen. destruct Hgen as (c & d1 & _ & Hgen).
    apply lift_Ok in Hgen. destruct Hgen as [Hgen _].
    exact (turn_one_hot_length _ _ _ Hgen). }
  destruct (String.eqb (label_context a) "random").
  { apply bind_Ok in Hgen. destruct Hgen as (c & d1 & _ & Hgen).
    apply lift_Ok in Hgen. destruct Hgen as [Hgen _].
    exact (turn_one_hot_length _ _ _ Hgen). }
  destruct (String.eqb (label_context a) "constant"); [|discriminate].
  apply lift_Ok in Hgen. destruct Hgen as [Hgen _].
  exact (turn_one_hot_length _ _ _ Hgen).
Qed.

(** What one trial of a generated sequence holds. *)
Lemma gen_item_ok (a : args) (ph : phase) (dist : list Z) (first : bool)
    (item : nat) (tt : trial_type) (v : vars) (pf : option (list Z))
    (pt : option trial_type) (d : list nat) (r : item_result)
    (rest : list nat) :
  in_stimulus_range dist ->
  gen_item a ph dist first item tt v pf pt d = Ok r rest ->
  is_stimulus (ir_input2 r) /\
  length (ir_contextinput r) = Const.NCONTEXTS /\
  context (ir_vars r) = Some (ir_context r).
Proof.
  intros Hdist Hgen. unfold gen_item in Hgen.
  apply bind_Ok in Hgen. destruct Hgen as ([[input2 v1] pf1] & d1 & Hb & Hgen).
  apply bind_Ok in Hgen. destruct Hgen as (ci & d2 & Hci & Hgen).
  apply gen_contextinput_length in Hci.
  apply bind_Ok in Hgen. destruct Hgen as (c & d3 & Hc & Hgen).
  apply lift_Ok in Hc. destruct Hc as [Hc _].
  apply ret_Ok in Hgen. destruct Hgen as [<- _].
  cbn [ir_input2 ir_contextinput ir_vars ir_context].
  split; [|split; assumption].
  destruct tt.
  - apply bind_Ok in Hb. destruct Hb as ([i2 v2] & d0 & Hcmp & Hret).
    apply ret_Ok in Hret. destruct Hret as [Hret _].
    injection Hret as -> -> _.
    destruct (gen_compare_ok _ _ _ _ _ _ _ _ _ _ Hcmp)
      as (jv & _ & Hjv & Hin & _).
    exists jv. split; [|exact Hjv].
    exact (proj1 (Forall_forall _ _) Hdist jv Hin).
  - apply bind_Ok in Hb. destruct Hb as ([i2 v2] & d0 & Hfil & Hret).
    apply ret_Ok in Hret. destruct Hret as [Hret _].
    injection Hret as -> -> _.
    exact (proj1 (gen_filler_ok _ _ _ _ _ _ _ _ Hfil)).
Qed.

Lemma gen_items_ok (a : args) (ph : phase) (dist : list Z) (first : bool)
    (ts : list trial_type) :
  in_stimulus_range dist ->
  forall (n item : nat) (v : vars) (pf : option (list Z))
         (pt : option trial_type) (d : list nat) (rs : list item_result)
         (v' : vars) (rest : list nat),
    gen_items a ph dist first ts n item v pf pt d = Ok (rs, v') rest ->
    length rs = n /\
    Forall (fun r => is_stimulus (ir_input2 r) /\
                     length (ir_contextinput r) = Const.NCONTEXTS) rs.
Proof.
  intros Hdist.
  induction n as [|n IH]; intros item v pf pt d rs v' rest Hgen;
    cbn [gen_items] in Hgen.
  - apply ret_Ok in Hgen. destruct Hgen as [Hgen _]. injection Hgen as <- _.
    split; [reflexivity | constructor].
  - apply bind_Ok in Hgen. destruct Hgen as (tt & d1 & _ & Hgen).
    apply bind_Ok in Hgen. destruct Hgen as (r0 & d2 & Hitem & Hgen).
    apply bind_Ok in Hgen. destruct Hgen as ([rs0 v0] & d3 & Hrec & Hgen).
    apply ret_Ok in Hgen. destruct Hgen as [Hgen _]. injection Hgen as <- _.
    destruct (IH _ _ _ _ _ _ _ _ Hrec) as [Hlen Hall].
    destruct (gen_item_ok _ _ _ _ _ _ _ _ _ _ _ _ Hdist Hitem)
      as (Hs & Hc & _).
    split; [cbn [length]; congruence|].
    constructor; [split; assumption | exact Hall].
Qed.

Lemma label_loop_rows (train_long : bool) :
  forall (xs : list (list Z)) (ts : list Z) (rValue : option Z)
         (rows : list label_row),
    label_loop train_long rValue ts xs = Done rows ->
    length rows = length xs /\
    Forall (fun row => length row = Const.TOTALMAXNUM) (map lr_RValue rows) /\
    (Forall is_stimulus xs -> map lr_JValue rows = xs).
Proof.
  induction xs as [|x xs IH]; intros ts rValue rows Hrun.
  - assert (rows = []) by (destruct ts; simpl in Hrun; congruence).
    subst rows. repeat split; constructor.
  - destruct ts as [|t ts]; [simpl in Hrun; discriminate|].
    cbn [label_loop] in Hrun.
    destruct (decode x) as [judgeValue|e] eqn:Ed; [|discriminate].
    destruct (turn_one_hot judgeValue Const.TOTALMAXNUM) as [jrow|] eqn:Ej;
      [|discriminate].
    destruct (match rValue with
              | Some r => turn_one_hot r Const.TOTALMAXNUM
              | None => Some (zeros Const.TOTALMAXNUM)
              end) as [rrow|] eqn:Er; [|discriminate].
    destruct (label_loop train_long
                (if t =? 1 then Some judgeValue else rValue) ts xs)
      as [rows0|e] eqn:Erec; [|discriminate].
    injection Hrun as <-.
    destruct (IH _ _ _ Erec) as (Hlen & HR & HJ).
    split; [cbn [length]; congruence|]. split.
    + cbn [map lr_RValue]. constructor; [|exact HR].
      destruct rValue as [r|].
      * exact (turn_one_hot_length _ _ _ Er).
      * injection Er as <-. apply repeat_length.
    + intros Hall. inversion Hall as [|x0 xs0 Hx Hxs]; subst.
      cbn [map lr_JValue]. rewrite (HJ Hxs). f_equal.
      destruct Hx as (j & Hj & Hv).
      rewrite (decode_one_hot j _ x Hj Hv) in Ed. injection Ed as <-.
      congruence.
Qed.

Lemma trialtypeinput_of_full (ts : list trial_type) :
  trialtypeinput_of ts (length ts) = map trialtype_flag ts.
Proof.
  unfold trialtypeinput_of.
  rewrite firstn_all, Nat.sub_diag. apply app_nil_r.
Qed.

Lemma gen_items_length (a : args) (ph : phase) (dist : list Z) (first : bool)
    (ts : list trial_type) :
  forall (n item : nat) (v : vars) (pf : option (list Z))
         (pt : option trial_type) (d : list nat) (rs : list item_result)
         (v' : vars) (rest : list nat),
    gen_items a ph dist first ts n item v pf pt d = Ok (rs, v') rest ->
    length rs = n.
Proof.
  induction n as [|n IH]; intros item v pf pt d rs v' rest Hgen;
    cbn [gen_items] in Hgen.
  - apply ret_Ok in Hgen. destruct Hgen as [Hgen _]. injection Hgen as <- _.
    reflexivity.
  - apply bind_Ok in Hgen. destruct Hgen as (tt & d2 & _ & Hgen).
    apply bind_Ok in Hgen. destruct Hgen as (r0 & d3 & _ & Hgen).
    apply bind_Ok in Hgen. destruct Hgen as ([rs0 v0] & d4 & Hrec & Hgen).
    apply ret_Ok in Hgen. destruct Hgen as [Hgen _]. injection Hgen as <- _.
    cbn [length]. f_equal. exact (IH _ _ _ _ _ _ _ _ Hrec).
Qed.

(** The parts of a sequence that was generated. *)
Lemma gen_sequence_inv (a : args) (ph : phase) (dist : list Z)
    (first : bool) (permorder : list nat) (v : vars) (d : list nat)
    (sd : seq_data) (v' : vars) (first' : bool) (rest : list nat) :
  gen_sequence a ph dist first permorder v d = Ok (sd, v', first') rest ->
  exists ts items v1 d1 rows,
    generate_trial_sequence (include_fillers a) permorder = Some ts /\
    length ts = BPTT_len a /\
    gen_items a ph dist first ts (BPTT_len a) 0 v None None d
    = Ok (items, v1) d1 /\
    label_loop (train_long a) None (map trialtype_flag ts)
               (map ir_input2 items) = Done rows /\
    sd = {| sd_input := map ir_input2 items;
            sd_contextdigits := map ir_context items;
            sd_contextinputs := map ir_contextinput items;
            sd_target := map lr_target rows;
            sd_refValues := map lr_RValue rows;
            sd_judgementValues := map lr_JValue rows;
            sd_trialTypeInputs := map trialtype_flag ts |}.
Proof.
  intros Hgen. unfold gen_sequence in Hgen.
  apply bind_Ok in Hgen. destruct Hgen as (ts & d0 & Hts & Hgen).
  apply lift_Ok in Hts. destruct Hts as [Hts <-].
  apply bind_Ok in Hgen. destruct Hgen as ([items v1] & d1 & Hitems & Hgen).
  apply bind_Ok in Hgen. destruct Hgen as ([v2 f2] & d2 & _ & Hgen).
  apply bind_Ok in Hgen. destruct Hgen as (rows & d3 & Hrows & Hgen).
  apply lift_result_Ok in Hrows. destruct Hrows as [Hrows _].
  destruct (length ts =? BPTT_len a)%nat eqn:El; [|discriminate].
  apply Nat.eqb_eq in El.
  apply ret_Ok in Hgen. destruct Hgen as [Hgen _].
  injection Hgen as <- _ _.
  assert (Htti : trialtypeinput_of ts (BPTT_len a) = map trialtype_flag ts)
    by (rewrite <- El; apply trialtypeinput_of_full).
  rewrite Htti in Hrows |- *.
  exists ts, items, v1, d1, rows.
  repeat split; assumption.
Qed.

(** X3. The horizon has to be the length of a trial-type sequence: for any
    permutation of the runs, a sequence is generated only with
    BPTT_len = 120, and it then has 120 trials.  (With a longer horizon the
    trial-type sequence is indexed out of range, with a shorter one the
    trial types do not fit the array row.) *)
Theorem gen_sequence_horizon (a : args) (ph : phase) (dist : list Z)
    (first : bool) (permorder : list nat) (v : vars) (d : list nat)
    (sd : seq_data) (v' : vars) (first' : bool) (rest : list nat) :
  Permutation permorder (seq 0 30) ->
  gen_sequence a ph dist first permorder v d = Ok (sd, v', first') rest ->
  BPTT_len a = 120%nat /\ length (sd_input sd) = 120%nat.
Proof.
  intros Hperm Hgen.
  destruct (gen_sequence_inv _ _ _ _ _ _ _ _ _ _ _ Hgen)
    as (ts & items & v1 & d1 & rows & Hts & Hlen & Hitems & _ & ->).
  destruct (generate_trial_sequence_facts (include_fillers a) permorder Hperm)
    as (ts' & Hts' & Hlen' & _).
  rewrite Hts in Hts'. injection Hts' as <-.
  assert (HB : BPTT_len a = 120%nat) by congruence.
  split; [exact HB|].
  cbn [sd_input]. rewrite length_map, <- HB.
  exact (gen_items_length _ _ _ _ _ _ _ _ _ _ _ _ _ _ Hitems).
Qed.

Lemma gen_sequence_horizon_witness :
  Permutation identity_permutation (seq 0 30) /\
  exists sd v' first' rest,
    gen_sequence short_args train low_range true identity_permutation
                 low_block_vars cycling_draws = Ok (sd, v', first') rest /\
    BPTT_len short_args = 120%nat /\ length (sd_input sd) = 120%nat.
Proof.
  assert (Hp : Permutation identity_permutation (seq 0 30))
    by apply Permutation_refl.
  split; [exact Hp|].
  eassert (Hgen : gen_sequence short_args train low_range true
                                identity_permutation low_block_vars
                                cycling_draws = Ok (_, _, _) _)
    by (vm_compute; reflexivity).
  do 4 eexists. split; [exact Hgen|].
  exact (gen_sequence_horizon _ _ _ _ _ _ _ _ _ _ _ Hp Hgen).
Defined.

Lemma gen_sequence_shape (a : args) (ph : phase) (dist : list Z)
    (first : bool) (permorder : list nat) (v : vars) (d : list nat)
    (sd : seq_data) (v' : vars) (first' : bool) (rest : list nat) :
  in_stimulus_range dist ->
  gen_sequence a ph dist first permorder v d = Ok (sd, v', first') rest ->
  seq_shape (BPTT_len a) sd /\
  Forall is_stimulus (sd_input sd) /\
  sd_judgementValues sd = sd_input sd.
Proof.
  intros Hdist Hgen.
  destruct (gen_sequence_inv _ _ _ _ _ _ _ _ _ _ _ Hgen)
    as (ts & items & v1 & d1 & rows & Hts & Hlen & Hitems & Hrows & ->).
  destruct (gen_items_ok _ _ _ _ _ Hdist _ _ _ _ _ _ _ _ _ Hitems)
    as [Hn Hall].
  destruct (label_loop_rows _ _ _ _ _ Hrows) as (Hrl & HR & HJ).
  rewrite length_map in Hrl.
  assert (Hstim : Forall is_stimulus (map ir_input2 items)).
  { apply Forall_map. apply (Forall_impl _ (fun r H => proj1 H) Hall). }
  cbn [sd_input sd_judgementValues].
  split; [|split; [exact Hstim | exact (HJ Hstim)]].
  unfold seq_shape.
  cbn [sd_input sd_contextdigits sd_contextinputs sd_target sd_refValues
       sd_judgementValues sd_trialTypeInputs].
  rewrite !length_map, (HJ Hstim).
  repeat split; try congruence;
    first [ exact HR
          | apply (Forall_impl _ is_stimulus_length Hstim)
          | apply Forall_map;
            apply (Forall_impl _ (fun r H => proj2 H) Hall) ].
Qed.

Lemma gen_samples_length (a : args) (ph : phase) (dist : list Z) :
  forall n first perms v d sds perms' v' rest,
    gen_samples a ph dist n first perms v d = Ok (sds, perms', v') rest ->
    length sds = n.
Proof.
  induction n as [|n IH]; intros first perms v d sds perms' v' rest Hgen;
    cbn [gen_samples] in Hgen.
  - apply ret_Ok in Hgen. destruct Hgen as [Hgen _]. injection Hgen as <- _ _.
    reflexivity.
  - destruct perms as [|permorder perms0]; [discriminate|].
    apply bind_Ok in Hgen. destruct Hgen as ([[sd v1] f1] & d1 & _ & Hgen).
    apply bind_Ok in Hgen. destruct Hgen as ([[sds0 p0] v2] & d2 & Hr & Hgen).
    apply ret_Ok in Hgen. destruct Hgen as [Hgen _].
    injection Hgen as <- _ _. cbn [length]. f_equal.
    exact (IH _ _ _ _ _ _ _ _ Hr).
Qed.

Lemma gen_blocks_length (a : args) (ph : phase) (Mblocks : Z)
    (nsamples : nat) :
  forall n block perms bv d blocks perms' bv' rest,
    gen_blocks a ph Mblocks nsamples n block perms bv d
    = Ok (blocks, perms', bv') rest ->
    length (concat blocks) = (n * nsamples)%nat.
Proof.
  induction n as [|n IH];
    intros block perms bv d blocks perms' bv' rest Hgen;
    cbn [gen_blocks] in Hgen.
  - apply ret_Ok in Hgen. destruct Hgen as [Hgen _]. injection Hgen as <- _ _.
    reflexivity.
  - apply bind_Ok in Hgen. destruct Hgen as (dist & d1 & _ & Hgen).
    apply bind_Ok in Hgen. destruct Hgen as ([[sds p1] v1] & d2 & Hs & Hgen).
    apply bind_Ok in Hgen. destruct Hgen as ([[bl p2] bv3] & d3 & Hr & Hgen).
    apply ret_Ok in Hgen. destruct Hgen as [Hgen _].
    injection Hgen as <- _ _.
    cbn [concat]. rewrite length_app.
    rewrite (gen_samples_length _ _ _ _ _ _ _ _ _ _ _ _ Hs).
    rewrite (IH _ _ _ _ _ _ _ _ Hr). reflexivity.
Qed.

Lemma allocate_Done (N Mblocks k : Z) :
  allocate N Mblocks = Done k ->
  0 <= Mblocks /\ 0 <= k /\ Mblocks * k = Z.max N 0.
Proof.
  unfold allocate, py_int_div. intros Hal.
  destruct (Mblocks =? 0); [discriminate|].
  destruct (Mblocks <? 0) eqn:Em; [discriminate|].
  destruct (Z.quot N Mblocks <? 0) eqn:Ek; [discriminate|].
  simpl in Hal.
  destruct (Mblocks * Z.quot N Mblocks * 1 =? Z.max N 0) eqn:Eq;
    [|discriminate].
  injection Hal as <-.
  apply Z.ltb_ge in Em. apply Z.ltb_ge in Ek. apply Z.eqb_eq in Eq. lia.
Qed.

Lemma gen_phase_length (a : args) (ph : phase) (N Mblocks : Z) :
  forall perms bv d sds perms' bv' rest,
    gen_phase a ph N Mblocks perms bv d = Ok (sds, perms', bv') rest ->
    length sds = Z.to_nat N /\ (0 <= N -> (Mblocks | N)).
Proof.
  intros perms bv d sds perms' bv' rest Hgen. unfold gen_phase in Hgen.
  apply bind_Ok in Hgen. destruct Hgen as (k & d1 & Hk & Hgen).
  apply lift_result_Ok in Hk. destruct Hk as [Hk _].
  destruct (allocate_Done _ _ _ Hk) as (HM & Hk0 & Hmul).
  apply bind_Ok in Hgen. destruct Hgen as ([[bl p1] bv1] & d2 & Hb & Hgen).
  apply ret_Ok in Hgen. destruct Hgen as [Hgen _].
  injection Hgen as <- _ _.
  rewrite (gen_blocks_length _ _ _ _ _ _ _ _ _ _ _ _ _ Hb).
  split; [nia|].
  intros HN. exists k. lia.
Qed.

(** The run used below to exercise the data-set properties: a long-sequence
    set of 2 training and 24 + 24 test sequences is generated. *)
Lemma long_run_generates :
  exists ds rest,
    create_separate_input_data small_long_constants long_args
                               long_permutations long_draws = Ok ds rest.
Proof.
  do 2 eexists. vm_compute. reflexivity.
Qed.

(** X4. A data set that is returned has the requested sizes: each split
    holds exactly the requested number of sequences, which the block count
    divides, and every sequence has BPTT_len positions in each of its
    arrays, with stimulus, reference and judgement rows of TOTALMAXNUM
    entries and context-input rows of NCONTEXTS entries. *)
Theorem dataset_shapes (lc : long_constants) (a : args)
    (perms : list (list nat)) (d : list nat) (ds : dataset)
    (rest : list nat) :
  create_separate_input_data lc a perms d = Ok ds rest ->
  length (trainset ds) = Z.to_nat (phase_N lc a train) /\
  length (testset ds) = Z.to_nat (phase_N lc a test) /\
  length (crossval_testset ds) = Z.to_nat (phase_N lc a test) /\
  (0 <= phase_N lc a train -> (phase_Mblocks lc a train | phase_N lc a train)) /\
  (0 <= phase_N lc a test -> (phase_Mblocks lc a test | phase_N lc a test)) /\
  Forall (seq_shape (BPTT_len a)) (all_sequences ds).
Proof.
  intros Hgen.
  assert (Hshape : Forall (seq_shape (BPTT_len a)) (all_sequences ds)).
  { refine (create_separate_input_data_Forall a _ _ lc perms d ds rest Hgen).
    intros ph dist first permorder v d0 sd0 v' first' rest0 Hdist Hseq.
    exact (proj1 (gen_sequence_shape _ _ _ _ _ _ _ _ _ _ _ Hdist Hseq)). }
  unfold create_separate_input_data in Hgen.
  apply bind_Ok in Hgen. destruct Hgen as ([[tr p1] bv1] & d1 & Htr & Hgen).
  apply bind_Ok in Hgen. destruct Hgen as ([[te p2] bv2] & d2 & Hte & Hgen).
  apply bind_Ok in Hgen. destruct Hgen as ([[cv p3] bv3] & d3 & Hcv & Hgen).
  apply ret_Ok in Hgen. destruct Hgen as [<- _].
  cbn [trainset testset crossval_testset].
  destruct (gen_phase_length _ _ _ _ _ _ _ _ _ _ _ Htr) as [H1 H1'].
  destruct (gen_phase_length _ _ _ _ _ _ _ _ _ _ _ Hte) as [H2 H2'].
  destruct (gen_phase_length _ _ _ _ _ _ _ _ _ _ _ Hcv) as [H3 _].
  repeat split; assumption.
Qed.

Lemma dataset_shapes_witness :
  exists ds rest,
    create_separate_input_data small_long_constants long_args
                               long_permutations long_draws = Ok ds rest /\
    length (trainset ds) = 2%nat /\
    length (testset ds) = 24%nat /\
    Forall (seq_shape 120) (all_sequences ds).
Proof.
  destruct long_run_generates as (ds & rest & Hgen).
  exists ds, rest. split; [exact Hgen|].
  destruct (dataset_shapes _ _ _ _ _ _ Hgen) as (H1 & H2 & _ & _ & _ & H6).
  split; [exact H1|]. split; [exact H2 | exact H6].
Defined.

(** X5. Every stimulus row of a returned data set is the one-hot code of a
    number between 1 and TOTALMAXNUM, and the stored judgement values,
    which the labelling pass obtains by decoding each stimulus row and
    coding the result again, are the stimulus rows themselves. *)
Theorem stored_judgement_is_input (lc : long_constants) (a : args)
    (perms : list (list nat)) (d : list nat) (ds : dataset)
    (rest : list nat) :
  create_separate_input_data lc a perms d = Ok ds rest ->
  Forall (fun sd => Forall is_stimulus (sd_input sd) /\
                    sd_judgementValues sd = sd_input sd)
         (all_sequences ds).
Proof.
  intros Hgen.
  refine (create_separate_input_data_Forall a _ _ lc perms d ds rest Hgen).
  intros ph dist first permorder v d0 sd0 v' first' rest0 Hdist Hseq.
  exact (proj2 (gen_sequence_shape _ _ _ _ _ _ _ _ _ _ _ Hdist Hseq)).
Qed.

Lemma stored_judgement_is_input_witness :
  exists ds rest,
    create_separate_input_data small_long_constants long_args
                               long_permutations long_draws = Ok ds rest /\
    Forall (fun sd => Forall is_stimulus (sd_input sd) /\
                      sd_judgementValues sd = sd_input sd)
           (all_sequences ds).
Proof.
  destruct long_run_generates as (ds & rest & Hgen).
  exists ds, rest. split; [exact Hgen|].
  exact (stored_judgement_is_input _ _ _ _ _ _ Hgen).
Defined.

(** ** Edge behaviour of the one-hot code *)

(** X6. The one-hot code is defined beyond 1..maxSize: numpy's negative
    indexing makes [turn_one_hot] accept every integer from -maxSize+1 to
    maxSize, the integers from -maxSize+1 to 0 giving the code of the
    integer maxSize higher (0 codes as maxSize does); it raises IndexError
    exactly above maxSize and at or below -maxSize. *)
Theorem turn_one_hot_domain (n : Z) (maxSize : nat) :
  (turn_one_hot n maxSize = None <->
   Z.of_nat maxSize < n \/ n <= - Z.of_nat maxSize) /\
  (- Z.of_nat maxSize < n <= 0 ->
   turn_one_hot n maxSize = turn_one_hot (n + Z.of_nat maxSize) maxSize).
Proof.
  unfold turn_one_hot, py_index.
  change (Z.of_nat Const.NCONTEXTS - 1) with 1.
  split.
  - destruct (Z.leb_spec 0 (n - 1)); destruct (Z.ltb_spec (n - 1) (Z.of_nat maxSize));
      destruct (Z.leb_spec (- Z.of_nat maxSize) (n - 1));
      destruct (Z.ltb_spec (n - 1) 0); cbn [andb];
      (split; [intros Hn; first [discriminate Hn | lia]
              | intros Hn; first [reflexivity | lia]]).
  - intros Hn.
    destruct (Z.leb_spec 0 (n - 1)); [lia|].
    destruct (Z.leb_spec (- Z.of_nat maxSize) (n - 1)); [|lia].
    destruct (Z.ltb_spec (n - 1) 0); [|lia].
    destruct (Z.leb_spec 0 (n + Z.of_nat maxSize - 1)); [|lia].
    destruct (Z.ltb_spec (n + Z.of_nat maxSize - 1) (Z.of_nat maxSize)); [|lia].
    cbn [andb].
    replace (n + Z.of_nat maxSize - 1) with (n - 1 + Z.of_nat maxSize) by lia.
    reflexivity.
Qed.

Lemma turn_one_hot_domain_witness :
  turn_one_hot 9 8 = None /\
  turn_one_hot (-8) 8 = None /\
  turn_one_hot 0 8 = turn_one_hot 8 8 /\
  turn_one_hot 0 8 = Some [0; 0; 0; 0; 0; 0; 0; 1].
Proof.
  split; [apply (proj1 (turn_one_hot_domain 9 8)); vm_compute; left; reflexivity|].
  split; [apply (proj1 (turn_one_hot_domain (-8) 8)); right; vm_compute;
          intro Hc; discriminate Hc|].
  split; [|reflexivity].
  apply (proj2 (turn_one_hot_domain 0 8)). split; [reflexivity|].
  vm_compute. intro Hc; discriminate Hc.
Defined.

(** X7. Under the labelling policy "random" the context input is the code
    of [random.randint(1,3)] in NCONTEXTS entries: a draw of 1 or 2 gives the
    code of context 1 or 2, and a draw of 3 falls outside the two-entry
    vector, so generation stops with IndexError. *)
Theorem random_label_policy (a : args) (v : vars) (r : nat) (rest : list nat) :
  label_context a = "random"%string ->
  let x := randint_of 1 3 r in
  1 <= x <= 3 /\
  gen_contextinput a v (r :: rest)
  = if x =? 3 then Raise IndexError
    else Ok (if x =? 1 then [1; 0] else [0; 1]) rest.
Proof.
  intros Hpol x. subst x.
  assert (Hx : 1 <= randint_of 1 3 r <= 3) by (apply randint_of_bounds; lia).
  split; [exact Hx|].
  unfold gen_contextinput. rewrite Hpol. cbn [String.eqb Ascii.eqb Bool.eqb].
  unfold randint. change (3 <? 1) with false.
  cbv [bind draw ret].
  assert (Hc : randint_of 1 3 r = 1 \/ randint_of 1 3 r = 2
               \/ randint_of 1 3 r = 3) by lia.
  destruct Hc as [Hc | [Hc | Hc]]; rewrite Hc; reflexivity.
Qed.

Lemma random_label_policy_witness :
  gen_contextinput
    {| which_context := 0; train_long := false; label_context := "random";
       all_fullrange := false; include_fillers := false; BPTT_len := 120 |}
    low_block_vars [2%nat]
  = Raise IndexError.
Proof.
  exact (proj2 (random_label_policy
                  {| which_context := 0; train_long := false;
                     label_context := "random"; all_fullrange := false;
                     include_fillers := false; BPTT_len := 120 |}
                  low_block_vars 2%nat [] eq_refl)).
Defined.

(** ** Lesions during training *)

Lemma Qlt_bool_false (x y : Q) : (y <= x)%Q -> Qlt_bool x y = false.
Proof.
  intros Hle. unfold Qlt_bool.
  apply (proj2 (Qle_bool_iff y x)) in Hle. rewrite Hle. reflexivity.
Qed.

(** X8. When no value of [random.random()] falls below the lesion frequency
    (as with the default frequency 0.0) and the decoder is not being
    retrained, the train loop builds exactly the inputs of the evaluate
    loop, records no lesion, and has asked for one random number per
    non-filler trial. *)
Theorem train_inputs_without_lesions (random_random : nat -> Q) (freq : Q)
    (ps : list position) (alternate : bool) (rc : nat) :
  (forall k : nat, (freq <= random_random k)%Q) ->
  train_inputs random_random false freq ps alternate rc
  = (test_inputs ps, zeros (length ps),
     (rc + length (filter (fun p => negb (p_trialtype p =? 0)%Z) ps))%nat).
Proof.
  intros Hfreq. revert alternate rc.
  induction ps as [|p ps IH]; intros alternate rc.
  - cbn [train_inputs test_inputs map length filter zeros repeat].
    rewrite Nat.add_0_r. reflexivity.
  - cbn [train_inputs]. rewrite (Qlt_bool_false _ _ (Hfreq rc)).
    destruct (p_trialtype p =? 0) eqn:Et.
    + rewrite IH. cbn [test_inputs map length filter zeros repeat negb].
      rewrite Et. cbn [negb]. reflexivity.
    + rewrite IH. cbn [test_inputs map length filter zeros repeat negb].
      rewrite Et. cbn [negb length].
      rewrite Nat.add_succ_r. reflexivity.
Qed.

Lemma train_inputs_without_lesions_witness :
  train_inputs (fun _ => 0%Q) false 0%Q example_sequence true 0
  = (test_inputs example_sequence, [0; 0; 0], 2%nat).
Proof.
  apply (train_inputs_without_lesions (fun _ => 0%Q) 0%Q example_sequence
           true 0%nat).
  intros k. vm_compute. intro Hc; discriminate Hc.
Defined.

Lemma train_inputs_retrain_nth (random_random : nat -> Q) (freq : Q)
    (ps : list position) :
  forall (alternate : bool) (rc : nat),
    snd (train_inputs random_random true freq ps alternate rc) = rc /\
    forall (i : nat) (p : position),
      nth_error ps i = Some p ->
      let lesioned := negb (p_trialtype p =? 0)
                      && (if Nat.even i then alternate else negb alternate) in
      nth_error (snd (fst (train_inputs random_random true freq ps
                                        alternate rc))) i
      = Some (if lesioned then 1 else 0) /\
      nth_error (fst (fst (train_inputs random_random true freq ps
                                        alternate rc))) i
      = Some ((if lesioned then full_like_0 (p_input p) else p_input p)
              ++ context_in p ++ [p_trialtype p]).
Proof.
  induction ps as [|q ps IH]; intros alternate rc.
  - split; [reflexivity|]. intros i p Hi. destruct i; discriminate Hi.
  - cbn [train_inputs].
    destruct (IH (negb alternate) rc) as [Hrc Hnth].
    assert (Hpair : (if p_trialtype q =? 0 then (false, rc)
                     else (alternate, rc))
                    = (negb (p_trialtype q =? 0) && alternate, rc))
      by (destruct (p_trialtype q =? 0); reflexivity).
    rewrite Hpair.
    destruct (train_inputs random_random true freq ps (negb alternate) rc)
      as [[xs record] rc''] eqn:Er.
    cbn [fst snd] in *. split; [exact Hrc|].
    intros i p Hi. destruct i as [|i].
    + cbn [nth_error] in Hi. injection Hi as <-.
      cbn [Nat.even nth_error]. split; reflexivity.
    + cbn [nth_error] in Hi. cbn [nth_error].
      specialize (Hnth i p Hi). cbn zeta in Hnth.
      rewrite Nat.even_succ, <- Nat.negb_even.
      destruct (Nat.even i); cbn [negb] in *;
        rewrite ?negb_involutive in Hnth; exact Hnth.
Qed.

(** X9. When the decoder is retrained, the train loop flips its lesion
    switch at every position, filler or not, starting switched on: the
    stimulus is zeroed exactly at the non-filler trials in even positions
    (0, 2, 4, ...) of the sequence, the lesion record marks exactly those
    positions, and [random.random()] is never called. *)
Theorem retrain_decoder_lesions_alternate (random_random : nat -> Q)
    (freq : Q) (ps : list position) (rc : nat) :
  snd (train_inputs random_random true freq ps true rc) = rc /\
  forall (i : nat) (p : position),
    nth_error ps i = Some p ->
    let lesioned := negb (p_trialtype p =? 0) && Nat.even i in
    nth_error (snd (fst (train_inputs random_random true freq ps true rc))) i
    = Some (if lesioned then 1 else 0) /\
    nth_error (fst (fst (train_inputs random_random true freq ps true rc))) i
    = Some ((if lesioned then full_like_0 (p_input p) else p_input p)
            ++ context_in p ++ [p_trialtype p]).
Proof.
  destruct (train_inputs_retrain_nth random_random freq ps true rc)
    as [Hrc Hnth].
  split; [exact Hrc|].
  intros i p Hi. specialize (Hnth i p Hi). cbn zeta in Hnth.
  cbn zeta. destruct (Nat.even i); exact Hnth.
Qed.

Lemma retrain_decoder_lesions_alternate_witness :
  nth_error example_sequence 2 = Some compare_trial_5 /\
  nth_error (snd (fst (train_inputs (fun _ => 0%Q) true 0%Q example_sequence
                                    true 0))) 2 = Some 1 /\
  nth_error (fst (fst (train_inputs (fun _ => 0%Q) true 0%Q example_sequence
                                    true 0))) 2
  = Some [0; 0; 0; 0; 0; 0; 0; 0; 0; 1; 1].
Proof.
  split; [reflexivity|].
  exact (proj2 (retrain_decoder_lesions_alternate (fun _ => 0%Q) 0%Q
                  example_sequence 0%nat) 2%nat compare_trial_5 eq_refl).
Defined.

(** ** Outcomes of the train and evaluate loops *)

Section Outcomes.

Variables W H O : Type.
Variable forward : W -> list Z -> H -> O * H.
Variable exceeds_half : O -> bool.
Variable criterion : O -> label -> Q.
Variable zeros_hidden : H.
Variable add_noise : nat -> H -> H.
Variable optimizer_step : W -> list (list Z) -> H -> nat -> list position -> W.
Variable random_random : nat -> Q.

Local Abbreviation tbatch :=
  (train_batch forward exceeds_half criterion zeros_hidden add_noise
               optimizer_step random_random).
Local Abbreviation ebatch :=
  (test_batch forward exceeds_half criterion zeros_hidden add_noise).
Local Abbreviation ebatches :=
  (test_batches forward exceeds_half criterion zeros_hidden add_noise).
Local Abbreviation tbatches :=
  (train_batches forward exceeds_half criterion zeros_hidden add_noise
                 optimizer_step random_random).

(** X10. One pass of the train loop over a sequence succeeds exactly when
    the sequence holds a compare trial with a defined label.  Otherwise the
    loss is still the integer 0 when [loss.backward()] is called, and the
    pass stops with AttributeError. *)
Theorem train_batch_needs_labelled_trial (a : net_args)
    (st : train_state W H) (ps : list position) :
  if existsb qualifies ps
  then exists st' : train_state W H, tbatch a st ps = Done st'
  else tbatch a st ps = Fail AttributeError.
Proof.
  exact (train_batch_outcome W H O forward exceeds_half criterion
           zeros_hidden add_noise optimizer_step random_random a st ps).
Qed.

Lemma test_steps_unlabelled (w : W) (L : nat) :
  forall (xs : list (list Z)) (ps : list position) (idx : nat)
         (st : test_acc H),
    existsb qualifies ps = false ->
    exists st' : test_acc H,
      test_steps forward exceeds_half criterion add_noise w L idx xs ps st
      = Done st' /\
      t_trials_counter st' = t_trials_counter st.
Proof.
  induction xs as [|x xs IH]; intros ps idx st Hq.
  - exists st. split; reflexivity.
  - destruct ps as [|p ps]; [exists st; split; reflexivity|].
    cbn [existsb] in Hq. apply orb_false_iff in Hq. destruct Hq as [Hp Hq].
    cbn [test_steps].
    destruct (forward w x (add_noise (t_noise st) (t_hidden st)))
      as [output hidden].
    rewrite Hp.
    match goal with
    | |- context [test_steps _ _ _ _ _ _ _ _ _ ?s'] =>
        destruct (IH ps (S idx) s' Hq) as (st' & Hrun & Hc)
    end.
    exists st'. split; [exact Hrun | exact Hc].
Qed.

Lemma test_batches_unlabelled (a : net_args) (w : W) :
  forall (test_loader : list (list position)) (st : test_acc H),
    Forall (fun ps => existsb qualifies ps = false) test_loader ->
    exists st' : test_acc H,
      ebatches a w st test_loader = Done st' /\
      t_trials_counter st' = t_trials_counter st.
Proof.
  induction test_loader as [|ps rest IH]; intros st Hall.
  - exists st. split; reflexivity.
  - inversion Hall as [|? ? Hps Hrest]; subst.
    cbn [test_batches]. unfold test_batch.
    match goal with
    | |- context [test_steps _ _ _ _ _ _ _ ?xs _ ?s0] =>
        destruct (test_steps_unlabelled w (length ps) xs ps 0 s0 Hps)
          as (st1 & Hrun & Hc)
    end.
    rewrite Hrun. cbn [t_trials_counter] in Hc.
    destruct (IH st1 Hrest) as (st' & Hrun' & Hc').
    exists st'. split; [exact Hrun' | congruence].
Qed.

(** X11. Where the evaluation epoch stops without a labelled trial.  With
    constants.py as it stands (no TRIALS_DIRECTORY) it stops at line 230
    with AttributeError, before a sequence is stepped.  Once the constants
    module defines a trials directory, an epoch over any loader in which no
    sequence holds a compare trial with a defined label ends in
    ZeroDivisionError, for every model and configuration: every sequence is
    stepped through without error, the trials counter is still 0, and the
    loss is divided by it. *)
Theorem evaluation_without_labelled_trial (a : net_args) (w : W) (nc : nat)
    (test_loader : list (list position)) :
  Forall (fun ps => existsb qualifies ps = false) test_loader ->
  recurrent_test forward exceeds_half criterion zeros_hidden add_noise
                 None a w nc test_loader
  = Fail AttributeError /\
  forall dir : string,
    recurrent_test forward exceeds_half criterion zeros_hidden add_noise
                   (Some dir) a w nc test_loader
    = Fail ZeroDivisionError.
Proof.
  intros Hall. split; [reflexivity|]. intros dir. unfold recurrent_test.
  destruct (test_batches_unlabelled a w test_loader (test_init zeros_hidden nc)
              Hall) as (st' & Hrun & Hc).
  rewrite Hrun. cbn [test_init t_trials_counter] in Hc. rewrite Hc.
  reflexivity.
Qed.

Lemma fold_correct_bounds (qs : list (O * position)) :
  forall c : Z,
    c <= fold_left (fun c op => c + correct_at exceeds_half op) qs c
      <= c + Z.of_nat (length qs).
Proof.
  induction qs as [|q qs IH]; intros c.
  - cbn [fold_left length]. lia.
  - cbn [fold_left length]. specialize (IH (c + correct_at exceeds_half q)).
    unfold correct_at in *.
    destruct (proj2 (answer_correct_rule O exceeds_half (fst q)
                       (p_label (snd q)))) as [E|E];
      rewrite E in *; lia.
Qed.

Lemma test_batches_counts (a : net_args) (w : W) :
  forall (test_loader : list (list position)) (st st' : test_acc H),
    ebatches a w st test_loader = Done st' ->
    0 <= t_correct st <= t_trials_counter st ->
    0 <= t_correct st' <= t_trials_counter st'.
Proof.
  induction test_loader as [|ps rest IH]; intros st st' Hrun Hst.
  - cbn [test_batches] in Hrun. injection Hrun as <-. exact Hst.
  - cbn [test_batches] in Hrun.
    destruct (ebatch a w st ps) as [st1|e] eqn:Eb; [|discriminate].
    apply (IH st1 st' Hrun).
    unfold test_batch in Eb.
    assert (Hxs : length (test_inputs ps) = length ps)
      by (unfold test_inputs; apply length_map).
    pose proof (test_steps_spec W H O forward exceeds_half criterion add_noise
                  w (length ps) (test_inputs ps) ps 0 _ st1 Hxs Eb) as Hspec.
    cbn zeta in Hspec.
    cbn [t_noise t_hidden t_test_loss t_correct t_trials_counter] in Hspec.
    destruct Hspec as (_ & Hc & Ht & _).
    rewrite Hc, Ht.
    match goal with
    | |- context [fold_left _ ?qs _] =>
        pose proof (fold_correct_bounds qs (t_correct st))
    end.
    lia.
Qed.

Lemma train_batches_counts (a : net_args) :
  forall (train_loader : list (list position)) (st st' : train_state W H),
    tbatches a st train_loader = Done st' ->
    0 <= ts_correct st <= ts_trials_counter st ->
    0 <= ts_correct st' <= ts_trials_counter st'.
Proof.
  induction train_loader as [|ps rest IH]; intros st st' Hrun Hst.
  - cbn [train_batches] in Hrun. injection Hrun as <-. exact Hst.
  - cbn [train_batches] in Hrun.
    destruct (tbatch a st ps) as [st1|e] eqn:Eb; [|discriminate].
    apply (IH st1 st' Hrun).
    unfold train_batch in Eb.
    pose proof (train_inputs_length random_random (retrain_decoder a)
                  (train_lesion_freq a) ps true (ts_random st)) as Hxs.
    destruct (train_inputs random_random (retrain_decoder a)
                (train_lesion_freq a) ps true (ts_random st))
      as [[xs record] rc] eqn:Ein.
    cbn [fst] in Hxs.
    pose proof (train_steps_spec W H O forward exceeds_half criterion
                  add_noise (ts_weights st) (length ps) xs ps 0
                  {| a_hidden := train_start_hidden zeros_hidden a st;
                     a_latentstate := ts_latentstate st; a_loss := None;
                     a_correct := ts_correct st;
                     a_trials_counter := ts_trials_counter st;
                     a_all_trials_counter := ts_all_trials_counter st;
                     a_noise := ts_noise st |} Hxs) as Hspec.
    cbn zeta in Hspec.
    cbn [a_noise a_hidden a_loss a_correct a_trials_counter] in Hspec.
    destruct Hspec as (_ & Hc & Ht & _).
    match type of Eb with
    | context [a_loss ?r] => destruct (a_loss r) as [loss|]
    end; [|discriminate].
    injection Eb as <-. cbn [ts_correct ts_trials_counter].
    rewrite Hc, Ht.
    match goal with
    | |- context [fold_left _ ?qs _] =>
        pose proof (fold_correct_bounds qs (ts_correct st))
    end.
    lia.
Qed.

Lemma percentage_bounds (c t : Z) (acc : Q) :
  0 <= c <= t ->
  py_div (100 * inject_Z c)%Q t = Done acc ->
  (0 <= acc <= 100)%Q.
Proof.
  intros Hc Hdiv. unfold py_div in Hdiv.
  destruct (t =? 0) eqn:Et; [discriminate|].
  apply Z.eqb_neq in Et. injection Hdiv as <-.
  assert (Htpos : (0 < inject_Z t)%Q).
  { change 0%Q with (inject_Z 0). rewrite <- Zlt_Qlt. lia. }
  change 100%Q with (inject_Z 100). rewrite <- inject_Z_mult.
  split.
  - apply Qle_shift_div_l; [exact Htpos|].
    rewrite Qmult_0_l. change 0%Q with (inject_Z 0).
    rewrite <- Zle_Qle. lia.
  - apply Qle_shift_div_r; [exact Htpos|].
    rewrite <- inject_Z_mult, <- Zle_Qle. lia.
Qed.

(** X12. Whenever an evaluation epoch or a training epoch returns, the
    accuracy it returns is a percentage: between 0 and 100. *)
Theorem accuracy_is_a_percentage (a : net_args) (w : W) (rc nc : nat)
    (loader : list (list position)) :
  (forall (trials_directory : option string) (loss acc : Q),
     recurrent_test forward exceeds_half criterion zeros_hidden add_noise
                    trials_directory a w nc loader = Done (loss, acc) ->
     (0 <= acc <= 100)%Q) /\
  (forall (loss acc : Q) (w' : W),
     recurrent_train forward exceeds_half criterion zeros_hidden add_noise
                     optimizer_step random_random a w rc nc loader
     = Done (loss, acc, w') ->
     (0 <= acc <= 100)%Q).
Proof.
  split.
  - intros trials_directory loss acc Hrun. unfold recurrent_test in Hrun.
    destruct trials_directory as [dir|]; [|discriminate].
    destruct (ebatches a w (test_init zeros_hidden nc) loader)
      as [st|e] eqn:Eb; [|discriminate].
    pose proof (test_batches_counts a w loader _ st Eb) as Hcount.
    cbn [test_init t_correct t_trials_counter] in Hcount.
    specialize (Hcount ltac:(lia)).
    destruct (py_div (t_test_loss st) (t_trials_counter st)); [|discriminate].
    destruct (py_div (100 * inject_Z (t_correct st)) (t_trials_counter st))
      as [acc'|e] eqn:Ed; [|discriminate].
    injection Hrun as _ <-.
    exact (percentage_bounds _ _ _ Hcount Ed).
  - intros loss acc w' Hrun. unfold recurrent_train in Hrun.
    destruct (tbatches a (train_init zeros_hidden w rc nc) loader)
      as [st|e] eqn:Eb; [|discriminate].
    pose proof (train_batches_counts a loader _ st Eb) as Hcount.
    cbn [train_init ts_correct ts_trials_counter] in Hcount.
    specialize (Hcount ltac:(lia)).
    destruct (py_div (ts_train_loss st) (ts_trials_counter st));
      [|discriminate].
    destruct (py_div (100 * inject_Z (ts_correct st)) (ts_trials_counter st))
      as [acc'|e] eqn:Ed; [|discriminate].
    injection Hrun as _ <- _.
    exact (percentage_bounds _ _ _ Hcount Ed).
Qed.

End Outcomes.

Lemma evaluation_without_labelled_trial_witness :
  Forall (fun ps => existsb qualifies ps = false)
         [[unlabelled_compare_trial; filler_trial_6]; [filler_trial_6]] /\
  recurrent_test constant_forward (fun b : bool => b) (fun _ _ => 1%Q) tt
                 (fun _ h => h) None retain_args tt 0
                 [[unlabelled_compare_trial; filler_trial_6];
                  [filler_trial_6]]
  = Fail AttributeError /\
  recurrent_test constant_forward (fun b : bool => b) (fun _ _ => 1%Q) tt
                 (fun _ h => h) (Some "trials/"%string) retain_args tt 0
                 [[unlabelled_compare_trial; filler_trial_6];
                  [filler_trial_6]]
  = Fail ZeroDivisionError.
Proof.
  assert (Hall : Forall (fun ps => existsb qualifies ps = false)
                   [[unlabelled_compare_trial; filler_trial_6];
                    [filler_trial_6]])
    by (repeat constructor).
  split; [exact Hall|].
  destruct (evaluation_without_labelled_trial unit unit bool constant_forward
              (fun b : bool => b) (fun _ _ => 1%Q) tt (fun _ h => h)
              retain_args tt 0%nat _ Hall) as [Hnone Hsome].
  split; [exact Hnone | exact (Hsome "trials/"%string)].
Defined.

Lemma accuracy_is_a_percentage_witness :
  exists loss acc : Q,
    recurrent_test counting_forward (fun b : bool => b) (fun _ _ => 1%Q) 0
                   (fun _ h => h) (Some "trials/"%string) retain_args tt 0
                   [example_sequence]
    = Done (loss, acc) /\
    (0 <= acc <= 100)%Q.
Proof.
  eexists. eexists. split; [vm_compute; reflexivity|].
  apply (proj1 (accuracy_is_a_percentage unit Z bool counting_forward
                  (fun b : bool => b) (fun _ _ => 1%Q) 0 (fun _ h => h)
                  (fun w _ _ _ _ => w) (fun _ => 0%Q)
                  retain_args tt 0%nat 0%nat [example_sequence])
               (Some "trials/"%string) (1 # 1)%Q).
  vm_compute. reflexivity.
Defined.

(** ** The lesion record of an assessment *)

Lemma Qlt_bool_true (x y : Q) : (x < y)%Q -> Qlt_bool x y = true.
Proof.
  intros Hlt. unfold Qlt_bool.
  destruct (Qle_bool y x) eqn:E; [|reflexivity].
  apply Qle_bool_iff in E. exfalso. exact (Qlt_not_le _ _ Hlt E).
Qed.

Lemma lesion_marks_spec (random_random : nat -> Q) (f : Q) :
  forall (l : list position) (b : bool) (rc i : nat) (p : position) (m : Z),
    nth_error l i = Some p ->
    nth_error (fst (lesion_marks random_random f l b rc)) i = Some m ->
    (m = 0 \/ m = 1) /\
    (p_trialtype p <> 1 -> m = 0) /\
    (b = true -> p_trialtype p = 1 ->
     (forall (j : nat) (q : position),
        (j < i)%nat -> nth_error l j = Some q -> p_trialtype q <> 1) ->
     m = 1) /\
    (p_trialtype p = 1 ->
     (forall k : nat, (random_random k < f)%Q) -> m = 1).
Proof.
  induction l as [|p0 l IH]; intros b rc i p m Hp Hm.
  - destruct i; discriminate Hp.
  - cbn [lesion_marks] in Hm.
    destruct (p_trialtype p0 =? 1) eqn:Et.
    + apply Z.eqb_eq in Et. destruct b; cbn [andb] in Hm.
      * destruct (lesion_marks random_random f l false rc) as [ms rc'] eqn:El.
        cbn [fst] in Hm. destruct i as [|i].
        -- cbn [nth_error] in Hp, Hm. injection Hp as <-. injection Hm as <-.
           repeat split; auto. intros Hne. contradiction.
        -- cbn [nth_error] in Hp, Hm.
           pose proof (IH false rc i p m Hp) as IHi. rewrite El in IHi.
           destruct (IHi Hm) as (H01 & Hfill & _ & Hall).
           repeat split; auto.
           intros _ _ Hnone. exfalso.
           exact (Hnone 0%nat p0 (Nat.lt_0_succ i) eq_refl Et).
      * destruct (lesion_marks random_random f l false (S rc))
          as [ms rc'] eqn:El.
        cbn [fst] in Hm. destruct i as [|i].
        -- cbn [nth_error] in Hp, Hm. injection Hp as <-. injection Hm as <-.
           split; [destruct (Qlt_bool (random_random rc) f); auto|].
           split; [intros Hne; contradiction|].
           split; [intros Hb; discriminate Hb|].
           intros _ Hall. rewrite (Qlt_bool_true _ _ (Hall rc)). reflexivity.
        -- cbn [nth_error] in Hp, Hm.
           pose proof (IH false (S rc) i p m Hp) as IHi. rewrite El in IHi.
           destruct (IHi Hm) as (H01 & Hfill & _ & Hall).
           repeat split; auto.
           intros Hb; discriminate Hb.
    + apply Z.eqb_neq in Et. cbn [andb] in Hm.
      destruct (lesion_marks random_random f l b rc) as [ms rc'] eqn:El.
      cbn [fst] in Hm. destruct i as [|i].
      * cbn [nth_error] in Hp, Hm. injection Hp as <-. injection Hm as <-.
        repeat split; auto; intros; contradiction.
      * cbn [nth_error] in Hp, Hm.
        pose proof (IH b rc i p m Hp) as IHi. rewrite El in IHi.
        destruct (IHi Hm) as (H01 & Hfill & Hnear & Hall).
        repeat split; auto.
        intros Hb Hcmp Hnone. apply (Hnear Hb Hcmp).
        intros j q Hj Hq.
        apply (Hnone (S j) q); [lia | exact Hq].
Qed.

(** X13. The lesion record of an assessment marks only compare trials
    before the assessment trial: entries are 0 or 1, filler trials and
    every trial from the assessment trial on are never marked, the compare
    trial nearest before the assessment trial is always marked, and when
    every value of [random.random()] is below the lesion frequency (as with
    the default frequency 1) every earlier compare trial is marked. *)
Theorem lesion_record_marks (random_random : nat -> Q) (lesionFrequency : Q)
    (ps : list position) (assess_idx rc i : nat) (p : position) (m : Z) :
  nth_error ps i = Some p ->
  nth_error (fst (lesionRecord_of random_random lesionFrequency ps
                                  assess_idx rc)) i = Some m ->
  (m = 0 \/ m = 1) /\
  ((assess_idx <= i)%nat -> m = 0) /\
  (p_trialtype p <> 1 -> m = 0) /\
  ((i < assess_idx)%nat -> p_trialtype p = 1 ->
   (forall (j : nat) (q : position),
      (i < j < assess_idx)%nat -> nth_error ps j = Some q ->
      p_trialtype q <> 1) ->
   m = 1) /\
  ((i < assess_idx)%nat -> p_trialtype p = 1 ->
   (forall k : nat, (random_random k < lesionFrequency)%Q) -> m = 1).
Proof.
  intros Hp Hm.
  assert (Hi : (i < length ps)%nat) by (apply nth_error_Some; congruence).
  unfold lesionRecord_of in Hm.
  pose proof (lesion_marks_length random_random lesionFrequency
                (rev (firstn assess_idx ps)) true rc) as Hlen.
  pose proof (lesion_marks_spec random_random lesionFrequency
                (rev (firstn assess_idx ps)) true rc) as Hspec.
  destruct (lesion_marks random_random lesionFrequency
              (rev (firstn assess_idx ps)) true rc) as [marks rc'].
  cbn [fst] in Hm, Hlen, Hspec.
  rewrite length_rev, length_firstn in Hlen.
  destruct (Nat.lt_ge_cases i assess_idx) as [Hlt|Hge].
  - set (n := Nat.min assess_idx (length ps)) in *.
    assert (Hin : (i < n)%nat) by (unfold n; lia).
    rewrite nth_error_app1 in Hm by (rewrite length_rev; lia).
    rewrite nth_error_rev, Hlen in Hm.
    destruct (Nat.ltb_spec i n) as [_|Hc]; [|lia].
    assert (Hrev : forall j : nat,
               (j < n)%nat ->
               nth_error (rev (firstn assess_idx ps)) (n - S j)
               = nth_error ps j).
    { intros j Hj. rewrite nth_error_rev, length_firstn. fold n.
      destruct (Nat.ltb_spec (n - S j) n) as [_|Hc]; [|lia].
      replace (n - S (n - S j))%nat with j by lia.
      rewrite nth_error_firstn.
      destruct (Nat.ltb_spec j assess_idx) as [_|Hc]; [reflexivity|].
      unfold n in Hj. lia. }
    assert (Hp' : nth_error (rev (firstn assess_idx ps)) (n - S i) = Some p)
      by (rewrite (Hrev i Hin); exact Hp).
    destruct (Hspec (n - S i)%nat p m Hp' Hm) as (H01 & Hfill & Hnear & Hall).
    split; [exact H01|]. split; [intros Hc; lia|]. split; [exact Hfill|].
    split.
    + intros _ Hcmp Hnone. apply (Hnear eq_refl Hcmp).
      intros j q Hj Hq.
      assert (Hq' : nth_error ps (n - S j) = Some q).
      { rewrite <- (Hrev (n - S j)%nat) by lia.
        replace (n - S (n - S j))%nat with j by lia. exact Hq. }
      apply (Hnone (n - S j)%nat q); [unfold n; lia | exact Hq'].
    + intros _ Hcmp Hrand. exact (Hall Hcmp Hrand).
  - assert (Hmin : Nat.min assess_idx (length ps) = assess_idx) by lia.
    rewrite Hmin in Hlen.
    rewrite nth_error_app2 in Hm by (rewrite length_rev; lia).
    rewrite length_rev, Hlen in Hm. unfold zeros in Hm.
    rewrite nth_error_repeat in Hm by lia.
    injection Hm as <-.
    repeat split; auto; intros; lia.
Qed.

Lemma lesion_record_marks_witness :
  nth_error example_sequence 0 = Some unlabelled_compare_trial /\
  fst (lesionRecord_of (fun _ => 1%Q) 0%Q example_sequence 2 0) = [1; 0; 0] /\
  (1 = 0 \/ 1 = 1) /\
  (p_trialtype unlabelled_compare_trial = 1 -> 1 = 1).
Proof.
  split; [reflexivity|]. split; [reflexivity|].
  destruct (lesion_record_marks (fun _ => 1%Q) 0%Q example_sequence 2 0 0
              unlabelled_compare_trial 1 eq_refl eq_refl)
    as (H01 & _ & _ & Hnear & _).
  split; [exact H01|].
  intros Hcmp. apply (Hnear ltac:(lia) Hcmp).
  intros j q Hj Hq.
  assert (Hj1 : j = 1%nat) by lia. subst j.
  cbn [nth_error example_sequence] in Hq. injection Hq as <-.
  vm_compute. intro Hc; discriminate Hc.
Defined.

(** ** What the labelling pass stores *)

Lemma label_loop_refs (train_long : bool) :
  forall (xs : list (list Z)) (ts : list Z) (rValue : option Z)
         (rows : list label_row),
    label_loop train_long rValue ts xs = Done rows ->
    forall (i : nat) (row : list Z),
      nth_error (map lr_RValue rows) i = Some row ->
      match reference_at rValue ts xs i with
      | Some r => turn_one_hot r Const.TOTALMAXNUM = Some row
      | None => row = zeros Const.TOTALMAXNUM
      end.
Proof.
  induction xs as [|x0 xs IH]; intros ts rValue rows Hrun i row Hrow.
  - destruct ts; cbn [label_loop] in Hrun; injection Hrun as <-;
      destruct i; discriminate Hrow.
  - destruct ts as [|t0 ts]; [discriminate Hrun|].
    cbn [label_loop] in Hrun.
    destruct (decode x0) as [judgeValue|e] eqn:Ed; [|discriminate].
    destruct (turn_one_hot judgeValue Const.TOTALMAXNUM) as [jrow|];
      [|discriminate].
    destruct (match rValue with
              | Some r => turn_one_hot r Const.TOTALMAXNUM
              | None => Some (zeros Const.TOTALMAXNUM)
              end) as [rrow|] eqn:Er; [|discriminate].
    destruct (label_loop train_long
                (if t0 =? 1 then Some judgeValue else rValue) ts xs)
      as [rows'|e] eqn:Erec; [|discriminate].
    injection Hrun as <-.
    destruct i as [|i].
    + cbn [map nth_error lr_RValue] in Hrow. injection Hrow as <-.
      cbn [reference_at]. destruct rValue; [exact Er | congruence].
    + cbn [map nth_error] in Hrow. cbn [reference_at].
      rewrite (decode_Done x0 judgeValue Ed).
      exact (IH ts _ rows' Erec i row Hrow).
Qed.

Lemma gen_sequence_stores (a : args) (ph : phase) (dist : list Z)
    (first : bool) (permorder : list nat) (v : vars) (d : list nat)
    (sd : seq_data) (v' : vars) (first' : bool) (rest : list nat) :
  gen_sequence a ph dist first permorder v d = Ok (sd, v', first') rest ->
  (forall (i : nat) (row : list Z),
     nth_error (sd_refValues sd) i = Some row ->
     match reference_at None (sd_trialTypeInputs sd) (sd_input sd) i with
     | Some r => turn_one_hot r Const.TOTALMAXNUM = Some row
     | None => row = zeros Const.TOTALMAXNUM
     end) /\
  (forall i : nat,
     nth_error (sd_trialTypeInputs sd) i = Some 0 ->
     nth_error (sd_target sd) i = Some None).
Proof.
  intros Hgen.
  destruct (gen_sequence_inv _ _ _ _ _ _ _ _ _ _ _ Hgen)
    as (ts & items & v1 & d1 & rows & _ & Hlen & Hitems & Hrows & ->).
  cbn [sd_refValues sd_trialTypeInputs sd_input sd_target].
  split.
  - intros i row Hrow.
    exact (label_loop_refs _ _ _ _ _ Hrows i row Hrow).
  - intros i Ht.
    assert (Hi : (i < length (map ir_input2 items))%nat).
    { rewrite length_map, (gen_items_length _ _ _ _ _ _ _ _ _ _ _ _ _ _ Hitems),
        <- Hlen, <- (length_map trialtype_flag ts).
      apply nth_error_Some. congruence. }
    destruct (nth_error (map ir_input2 items) i) as [x|] eqn:Ex;
      [|apply nth_error_None in Ex; lia].
    destruct (label_loop_target _ _ _ _ _ Hrows i 0 x Ht Ex) as (j & _ & Hn).
    exact Hn.
Qed.

(** X14. In every sequence of a generated data set, the stored reference
    row of a position is the one-hot code of the stimulus of the latest
    earlier compare trial of the same sequence, and all zeros when there is
    none; and the label of a filler position is never written (it keeps
    what [np.empty] left there). *)
Theorem stored_references (lc : long_constants) (a : args)
    (perms : list (list nat)) (d : list nat) (ds : dataset)
    (rest : list nat) :
  create_separate_input_data lc a perms d = Ok ds rest ->
  forall sd : seq_data,
    In sd (all_sequences ds) ->
    (forall (i : nat) (row : list Z),
       nth_error (sd_refValues sd) i = Some row ->
       match reference_at None (sd_trialTypeInputs sd) (sd_input sd) i with
       | Some r => turn_one_hot r Const.TOTALMAXNUM = Some row
       | None => row = zeros Const.TOTALMAXNUM
       end) /\
    (forall i : nat,
       nth_error (sd_trialTypeInputs sd) i = Some 0 ->
       nth_error (sd_target sd) i = Some None).
Proof.
  intros Hgen. rewrite <- Forall_forall.
  refine (create_separate_input_data_Forall a _ _ lc perms d ds rest Hgen).
  intros ph dist first permorder v d0 sd0 v' first' rest0 _ Hseq.
  exact (gen_sequence_stores _ _ _ _ _ _ _ _ _ _ _ Hseq).
Qed.

(** A run with filler trials, and its first training sequence: compare
    trials at positions 0 and 3 (stimuli 5 and 4), filler trials at
    positions 1 and 2 (stimuli 3 and 4) and at position 4 (stimulus 8). *)
Lemma filler_run_generates :
  exists ds rest sd,
    create_separate_input_data small_long_constants long_filler_args
                               long_permutations filler_draws = Ok ds rest /\
    In sd (all_sequences ds) /\
    nth_error (sd_trialTypeInputs sd) 3 = Some 1 /\
    nth_error (sd_trialTypeInputs sd) 4 = Some 0 /\
    nth_error (sd_input sd) 3 = Some [0; 0; 0; 1; 0; 0; 0; 0] /\
    nth_error (sd_input sd) 4 = Some [0; 0; 0; 0; 0; 0; 0; 1] /\
    nth_error (sd_refValues sd) 4 = Some [0; 0; 0; 1; 0; 0; 0; 0] /\
    reference_at None (sd_trialTypeInputs sd) (sd_input sd) 3 = Some 5 /\
    filler_before None (sd_trialTypeInputs sd) (sd_input sd) 4
    = Some [0; 0; 0; 1; 0; 0; 0; 0].
Proof.
  eassert (Hgen : create_separate_input_data small_long_constants
                    long_filler_args long_permutations filler_draws = Ok _ _)
    by (vm_compute; reflexivity).
  match type of Hgen with
  | _ = Ok ?ds _ => eassert (Hin : In _ (all_sequences ds))
  end.
  { unfold all_sequences. cbn [trainset app In]. left. reflexivity. }
  do 3 eexists. split; [exact Hgen|]. split; [exact Hin|].
  repeat split; reflexivity.
Qed.

Lemma stored_references_witness :
  exists ds rest sd,
    create_separate_input_data small_long_constants long_filler_args
                               long_permutations filler_draws = Ok ds rest /\
    In sd (all_sequences ds) /\
    nth_error (sd_trialTypeInputs sd) 4 = Some 0 /\
    nth_error (sd_refValues sd) 4 = Some [0; 0; 0; 1; 0; 0; 0; 0] /\
    nth_error (sd_target sd) 4 = Some None.
Proof.
  destruct filler_run_generates
    as (ds & rest & sd & Hgen & Hin & _ & Ht & _ & _ & Href & _).
  exists ds, rest, sd.
  split; [exact Hgen|]. split; [exact Hin|]. split; [exact Ht|].
  split; [exact Href|].
  exact (proj2 (stored_references _ _ _ _ _ _ Hgen sd Hin) 4%nat Ht).
Defined.

(** ** Successive compare trials and successive fillers *)

Lemma vec_eqb_refl (u : list Z) : vec_eqb u u = true.
Proof.
  unfold vec_eqb. rewrite Nat.eqb_refl. cbn [andb].
  induction u as [|x u IH]; [reflexivity|].
  cbn [combine forallb fst snd]. rewrite Z.eqb_refl. exact IH.
Qed.

Lemma skipn_nth_error {A : Type} (l : list A) :
  forall (n : nat) (x : A),
    nth_error l n = Some x -> skipn n l = x :: skipn (S n) l.
Proof.
  induction l as [|y l IH]; intros n x Hn.
  - destruct n; discriminate Hn.
  - destruct n as [|n].
    + cbn [nth_error] in Hn. injection Hn as <-. reflexivity.
    + cbn [nth_error] in Hn. cbn [skipn]. exact (IH n x Hn).
Qed.

Lemma reference_at_0 (r : option Z) (ts : list Z) (xs : list (list Z)) :
  reference_at r ts xs 0 = r.
Proof. destruct ts; reflexivity. Qed.

Lemma reference_at_from_None :
  forall (i : nat) (ts : list Z) (xs : list (list Z)) (r : Z),
    reference_at None ts xs i = Some r ->
    forall r0 : option Z, reference_at r0 ts xs i = Some r.
Proof.
  induction i as [|i IH]; intros ts xs r Hr r0.
  - rewrite reference_at_0 in Hr. discriminate Hr.
  - destruct ts as [|t ts]; [discriminate Hr|].
    destruct xs as [|x xs]; [discriminate Hr|].
    cbn [reference_at] in Hr |- *.
    destruct (t =? 1); [exact Hr|].
    exact (IH ts xs r Hr r0).
Qed.

(** What a filler trial and a compare trial leave behind. *)
Lemma gen_item_filler_ok (a : args) (ph : phase) (dist : list Z)
    (first : bool) (item : nat) (v : vars) (pf : option (list Z))
    (pt : option trial_type) (d : list nat) (r : item_result)
    (rest : list nat) :
  gen_item a ph dist first item filler v pf pt d = Ok r rest ->
  judgementValue (ir_vars r) = judgementValue v /\
  ir_previousFillerNum r = Some (ir_input2 r) /\
  (forall p, pf = Some p -> pt = Some compare -> ir_input2 r <> p).
Proof.
  intros Hgen. unfold gen_item in Hgen.
  apply bind_Ok in Hgen. destruct Hgen as ([[input2 v1] pf1] & d1 & Hb & Hgen).
  apply bind_Ok in Hb. destruct Hb as ([i2 v2] & d0 & Hfil & Hret).
  apply ret_Ok in Hret. destruct Hret as [Hret _].
  injection Hret as -> -> <-.
  apply bind_Ok in Hgen. destruct Hgen as (ci & d2 & _ & Hgen).
  apply bind_Ok in Hgen. destruct Hgen as (c & d3 & _ & Hgen).
  apply ret_Ok in Hgen. destruct Hgen as [<- _].
  cbn [ir_vars ir_input2 ir_previousFillerNum].
  destruct (gen_filler_ok _ _ _ _ _ _ _ _ Hfil) as (_ & Hjv & _ & _ & Hne).
  split; [exact Hjv|]. split; [reflexivity|].
  intros p Hp Hpt Heq. specialize (Hne p Hp Hpt).
  rewrite Heq, vec_eqb_refl in Hne. discriminate Hne.
Qed.

Lemma gen_item_compare_keeps_filler (a : args) (ph : phase) (dist : list Z)
    (first : bool) (item : nat) (v : vars) (pf : option (list Z))
    (pt : option trial_type) (d : list nat) (r : item_result)
    (rest : list nat) :
  gen_item a ph dist first item compare v pf pt d = Ok r rest ->
  ir_previousFillerNum r = pf.
Proof.
  intros Hgen. unfold gen_item in Hgen.
  apply bind_Ok in Hgen. destruct Hgen as ([[input2 v1] pf1] & d1 & Hb & Hgen).
  apply bind_Ok in Hb. destruct Hb as ([i2 v2] & d0 & _ & Hret).
  apply ret_Ok in Hret. destruct Hret as [Hret _].
  injection Hret as _ _ <-.
  apply bind_Ok in Hgen. destruct Hgen as (ci & d2 & _ & Hgen).
  apply bind_Ok in Hgen. destruct Hgen as (c & d3 & _ & Hgen).
  apply ret_Ok in Hgen. destruct Hgen as [<- _].
  reflexivity.
Qed.

Lemma gen_items_reference (a : args) (ph : phase) (dist : list Z)
    (first : bool) (ts : list trial_type) :
  in_stimulus_range dist ->
  forall (n item : nat) (v : vars) (pf : option (list Z))
         (pt : option trial_type) (d : list nat) (rs : list item_result)
         (v' : vars) (rest : list nat),
    gen_items a ph dist first ts n item v pf pt d = Ok (rs, v') rest ->
    forall (i : nat) (r : item_result) (jref : Z),
      nth_error rs i = Some r ->
      nth_error ts (item + i) = Some compare ->
      first && (item + i =? 0)%nat = false ->
      reference_at (judgementValue v)
                   (map trialtype_flag (skipn item ts))
                   (map ir_input2 rs) i = Some jref ->
      decode (ir_input2 r) <> Done jref.
Proof.
  intros Hdist.
  induction n as [|n IH]; intros item v pf pt d rs v' rest Hgen;
    cbn [gen_items] in Hgen.
  - apply ret_Ok in Hgen. destruct Hgen as [Hgen _]. injection Hgen as <- _.
    intros i r jref Hr. destruct i; discriminate Hr.
  - apply bind_Ok in Hgen. destruct Hgen as (tt & d1 & Htt & Hgen).
    apply lift_Ok in Htt. destruct Htt as [Htt _].
    apply bind_Ok in Hgen. destruct Hgen as (r0 & d2 & Hitem & Hgen).
    apply bind_Ok in Hgen. destruct Hgen as ([rs0 v0] & d3 & Hrec & Hgen).
    apply ret_Ok in Hgen. destruct Hgen as [Hgen _]. injection Hgen as <- _.
    intros i r jref Hr Hcmp Hfirst Href.
    rewrite (skipn_nth_error ts item tt Htt) in Href.
    destruct i as [|i].
    + cbn [nth_error] in Hr. injection Hr as <-.
      rewrite Nat.add_0_r in Hcmp, Hfirst.
      rewrite Hcmp in Htt. injection Htt as <-.
      cbn [reference_at] in Href.
      destruct (gen_item_compare_ok _ _ _ _ _ _ _ _ _ _ _ Hitem)
        as (jv & _ & Hjv & Hin & Hne).
      rewrite (decode_one_hot jv _ _
                 (proj1 (Forall_forall _ _) Hdist jv Hin) Hjv).
      intros Heq. injection Heq as ->.
      exact (Hne Hfirst Href).
    + cbn [nth_error] in Hr. cbn [map reference_at] in Href.
      apply (IH _ _ _ _ _ _ _ _ Hrec i r jref Hr).
      * replace (S item + i)%nat with (item + S i)%nat by lia. exact Hcmp.
      * apply andb_false_r.
      * destruct tt; cbn [trialtype_flag Z.eqb] in Href.
        -- destruct (gen_item_compare_ok _ _ _ _ _ _ _ _ _ _ _ Hitem)
             as (jv & Hst & Hjv & Hin & _).
           rewrite (decode_Done _ _
                      (decode_one_hot jv _ _
                         (proj1 (Forall_forall _ _) Hdist jv Hin) Hjv))
             in Href.
           rewrite Hst. exact Href.
        -- destruct (gen_item_filler_ok _ _ _ _ _ _ _ _ _ _ _ Hitem)
             as (Hjv & _ & _).
           rewrite Hjv. exact Href.
Qed.

Lemma gen_items_fillers (a : args) (ph : phase) (dist : list Z)
    (first : bool) (ts : list trial_type) :
  forall (n item : nat) (v : vars) (pf : option (list Z))
         (pt : option trial_type) (d : list nat) (rs : list item_result)
         (v' : vars) (rest : list nat),
    gen_items a ph dist first ts n item v pf pt d = Ok (rs, v') rest ->
    forall (i : nat) (r : item_result) (p : list Z),
      nth_error rs i = Some r ->
      nth_error ts (item + i) = Some filler ->
      match i with
      | O => pt = Some compare
      | S i' => nth_error ts (item + i') = Some compare
      end ->
      filler_before pf (map trialtype_flag (skipn item ts))
                    (map ir_input2 rs) i = Some p ->
      ir_input2 r <> p.
Proof.
  induction n as [|n IH]; intros item v pf pt d rs v' rest Hgen;
    cbn [gen_items] in Hgen.
  - apply ret_Ok in Hgen. destruct Hgen as [Hgen _]. injection Hgen as <- _.
    intros i r p Hr. destruct i; discriminate Hr.
  - apply bind_Ok in Hgen. destruct Hgen as (tt & d1 & Htt & Hgen).
    apply lift_Ok in Htt. destruct Htt as [Htt _].
    apply bind_Ok in Hgen. destruct Hgen as (r0 & d2 & Hitem & Hgen).
    apply bind_Ok in Hgen. destruct Hgen as ([rs0 v0] & d3 & Hrec & Hgen).
    apply ret_Ok in Hgen. destruct Hgen as [Hgen _]. injection Hgen as <- _.
    intros i r p Hr Hfil Hprev Hbefore.
    rewrite (skipn_nth_error ts item tt Htt) in Hbefore.
    destruct i as [|i].
    + cbn [nth_error] in Hr. injection Hr as <-.
      rewrite Nat.add_0_r in Hfil.
      rewrite Hfil in Htt. injection Htt as <-.
      cbn [filler_before] in Hbefore.
      destruct (gen_item_filler_ok _ _ _ _ _ _ _ _ _ _ _ Hitem)
        as (_ & _ & Hne).
      exact (Hne p Hbefore Hprev).
    + cbn [nth_error] in Hr. cbn [map filler_before] in Hbefore.
      apply (IH _ _ _ _ _ _ _ _ Hrec i r p Hr).
      * replace (S item + i)%nat with (item + S i)%nat by lia. exact Hfil.
      * destruct i as [|i'].
        -- rewrite Nat.add_0_r in Hprev. congruence.
        -- replace (S item + i')%nat with (item + S i')%nat by lia.
           exact Hprev.
      * destruct tt; cbn [trialtype_flag Z.eqb] in Hbefore.
        -- rewrite (gen_item_compare_keeps_filler _ _ _ _ _ _ _ _ _ _ _ Hitem).
           exact Hbefore.
        -- destruct (gen_item_filler_ok _ _ _ _ _ _ _ _ _ _ _ Hitem)
             as (_ & Hpf & _).
           rewrite Hpf. exact Hbefore.
Qed.

Lemma nth_error_flag (ts : list trial_type) (i : nat) (tt : trial_type) :
  nth_error (map trialtype_flag ts) i = Some (trialtype_flag tt) ->
  nth_error ts i = Some tt.
Proof.
  rewrite nth_error_map.
  destruct (nth_error ts i) as [t|]; [|discriminate].
  destruct t, tt; cbn; intros Heq; first [reflexivity | discriminate Heq].
Qed.

Lemma gen_sequence_successive (a : args) (ph : phase) (dist : list Z)
    (first : bool) (permorder : list nat) (v : vars) (d : list nat)
    (sd : seq_data) (v' : vars) (first' : bool) (rest : list nat) :
  in_stimulus_range dist ->
  gen_sequence a ph dist first permorder v d = Ok (sd, v', first') rest ->
  (forall (i : nat) (x : list Z) (j r : Z),
     nth_error (sd_trialTypeInputs sd) i = Some 1 ->
     nth_error (sd_input sd) i = Some x ->
     decode x = Done j ->
     reference_at None (sd_trialTypeInputs sd) (sd_input sd) i = Some r ->
     j <> r) /\
  (forall (i : nat) (x p : list Z),
     nth_error (sd_trialTypeInputs sd) i = Some 1 ->
     nth_error (sd_trialTypeInputs sd) (S i) = Some 0 ->
     nth_error (sd_input sd) (S i) = Some x ->
     filler_before None (sd_trialTypeInputs sd) (sd_input sd) (S i) = Some p ->
     x <> p).
Proof.
  intros Hdist Hgen.
  destruct (gen_sequence_inv _ _ _ _ _ _ _ _ _ _ _ Hgen)
    as (ts & items & v1 & d1 & rows & _ & Hlen & Hitems & _ & ->).
  cbn [sd_trialTypeInputs sd_input].
  split.
  - intros i x j r Ht Hx Hj Hr.
    apply (nth_error_flag ts i compare) in Ht.
    rewrite nth_error_map in Hx.
    destruct (nth_error items i) as [it|] eqn:Eit; [|discriminate].
    cbn [option_map] in Hx. injection Hx as <-.
    assert (Hi : i <> 0%nat)
      by (intros ->; rewrite reference_at_0 in Hr; discriminate Hr).
    pose proof (gen_items_reference a ph dist first ts Hdist _ _ _ _ _ _ _ _ _
                  Hitems i it r Eit Ht) as Hne.
    cbn [skipn Nat.add] in Hne.
    intros ->. apply Hne; [| |exact Hj].
    + replace (i =? 0)%nat with false
        by (symmetry; apply Nat.eqb_neq; exact Hi).
      apply andb_false_r.
    + exact (reference_at_from_None i _ _ r Hr _).
  - intros i x p Ht Ht' Hx Hp.
    apply (nth_error_flag ts i compare) in Ht.
    apply (nth_error_flag ts (S i) filler) in Ht'.
    rewrite nth_error_map in Hx.
    destruct (nth_error items (S i)) as [it|] eqn:Eit; [|discriminate].
    cbn [option_map] in Hx. injection Hx as <-.
    exact (gen_items_fillers a ph dist first ts _ _ _ _ _ _ _ _ _ Hitems
             (S i) it p Eit Ht' Ht Hp).
Qed.

(** X15. In every sequence of a generated data set, the stimulus of a
    compare trial differs from the stimulus of the latest earlier compare
    trial of the sequence, also when filler trials lie between the two: no
    label is the outcome of comparing a number with itself. *)
Theorem compared_values_differ (lc : long_constants) (a : args)
    (perms : list (list nat)) (d : list nat) (ds : dataset)
    (rest : list nat) :
  create_separate_input_data lc a perms d = Ok ds rest ->
  forall sd : seq_data,
    In sd (all_sequences ds) ->
    forall (i : nat) (x : list Z) (j r : Z),
      nth_error (sd_trialTypeInputs sd) i = Some 1 ->
      nth_error (sd_input sd) i = Some x ->
      decode x = Done j ->
      reference_at None (sd_trialTypeInputs sd) (sd_input sd) i = Some r ->
      j <> r.
Proof.
  intros Hgen. rewrite <- Forall_forall.
  refine (create_separate_input_data_Forall a _ _ lc perms d ds rest Hgen).
  intros ph dist first permorder v d0 sd0 v' first' rest0 Hdist Hseq.
  exact (proj1 (gen_sequence_successive _ _ _ _ _ _ _ _ _ _ _ Hdist Hseq)).
Qed.

(** X16. In every sequence of a generated data set, a filler trial that
    directly follows a compare trial differs in its stimulus from the latest
    earlier filler trial of the sequence. *)
Theorem filler_after_compare_differs (lc : long_constants) (a : args)
    (perms : list (list nat)) (d : list nat) (ds : dataset)
    (rest : list nat) :
  create_separate_input_data lc a perms d = Ok ds rest ->
  forall sd : seq_data,
    In sd (all_sequences ds) ->
    forall (i : nat) (x p : list Z),
      nth_error (sd_trialTypeInputs sd) i = Some 1 ->
      nth_error (sd_trialTypeInputs sd) (S i) = Some 0 ->
      nth_error (sd_input sd) (S i) = Some x ->
      filler_before None (sd_trialTypeInputs sd) (sd_input sd) (S i)
      = Some p ->
      x <> p.
Proof.
  intros Hgen. rewrite <- Forall_forall.
  refine (create_separate_input_data_Forall a _ _ lc perms d ds rest Hgen).
  intros ph dist first permorder v d0 sd0 v' first' rest0 Hdist Hseq.
  exact (proj2 (gen_sequence_successive _ _ _ _ _ _ _ _ _ _ _ Hdist Hseq)).
Qed.

Lemma compared_values_differ_witness :
  exists ds rest sd,
    create_separate_input_data small_long_constants long_filler_args
                               long_permutations filler_draws = Ok ds rest /\
    In sd (all_sequences ds) /\
    nth_error (sd_trialTypeInputs sd) 3 = Some 1 /\
    nth_error (sd_input sd) 3 = Some [0; 0; 0; 1; 0; 0; 0; 0] /\
    decode [0; 0; 0; 1; 0; 0; 0; 0] = Done 4 /\
    reference_at None (sd_trialTypeInputs sd) (sd_input sd) 3 = Some 5 /\
    4 <> 5.
Proof.
  destruct filler_run_generates
    as (ds & rest & sd & Hgen & Hin & Ht & _ & Hx & _ & _ & Hr & _).
  exists ds, rest, sd.
  split; [exact Hgen|]. split; [exact Hin|]. split; [exact Ht|].
  split; [exact Hx|]. split; [reflexivity|]. split; [exact Hr|].
  exact (compared_values_differ _ _ _ _ _ _ Hgen sd Hin 3%nat
           [0; 0; 0; 1; 0; 0; 0; 0] 4 5 Ht Hx eq_refl Hr).
Defined.

Lemma filler_after_compare_differs_witness :
  exists ds rest sd,
    create_separate_input_data small_long_constants long_filler_args
                               long_permutations filler_draws = Ok ds rest /\
    In sd (all_sequences ds) /\
    nth_error (sd_trialTypeInputs sd) 3 = Some 1 /\
    nth_error (sd_trialTypeInputs sd) 4 = Some 0 /\
    nth_error (sd_input sd) 4 = Some [0; 0; 0; 0; 0; 0; 0; 1] /\
    filler_before None (sd_trialTypeInputs sd) (sd_input sd) 4
    = Some [0; 0; 0; 1; 0; 0; 0; 0] /\
    [0; 0; 0; 0; 0; 0; 0; 1] <> [0; 0; 0; 1; 0; 0; 0; 0].
Proof.
  destruct filler_run_generates
    as (ds & rest & sd & Hgen & Hin & Ht & Ht' & _ & Hx & _ & _ & Hp).
  exists ds, rest, sd.
  split; [exact Hgen|]. split; [exact Hin|]. split; [exact Ht|].
  split; [exact Ht'|]. split; [exact Hx|]. split; [exact Hp|].
  exact (filler_after_compare_differs _ _ _ _ _ _ Hgen sd Hin 3%nat
           [0; 0; 0; 0; 0; 0; 0; 1] [0; 0; 0; 1; 0; 0; 0; 0] Ht Ht' Hx Hp).
Defined.

(** ** Context blocks *)

Lemma turn_index_to_context_cases (x : Z) :
  (x <= 4 /\ turn_index_to_context x = 1) \/
  (5 <= x /\ turn_index_to_context x = 2).
Proof.
  unfold turn_index_to_context. change Const.LOWR_ULIM with 4.
  destruct (Z.leb_spec x 4); [left | right]; split; first [lia | reflexivity].
Qed.

Lemma dist_of_in_range (k : block_kind) : in_stimulus_range (dist_of k).
Proof.
  unfold in_stimulus_range. change (Z.of_nat Const.TOTALMAXNUM) with 8.
  destruct k; vm_compute dist_of;
    repeat (apply Forall_cons; [lia|]); apply Forall_nil.
Qed.

Lemma kind_of_block_fits (a : args) (ph : phase) (Mblocks block : Z)
    (k : block_kind) :
  kind_of_block a ph Mblocks block = Some k -> kind_fits a ph k.
Proof.
  assert (Hlow : exists c, context_of low_block = Some c /\
                   Forall (fun x => turn_index_to_context x = c)
                          (dist_of low_block)).
  { exists 1. split; [reflexivity|]. vm_compute dist_of.
    repeat (apply Forall_cons; [reflexivity|]). apply Forall_nil. }
  assert (Hhigh : exists c, context_of high_block = Some c /\
                    Forall (fun x => turn_index_to_context x = c)
                           (dist_of high_block)).
  { exists 2. split; [reflexivity|]. vm_compute dist_of.
    repeat (apply Forall_cons; [reflexivity|]). apply Forall_nil. }
  unfold kind_of_block, kind_fits. destruct ph.
  - destruct (train_long a); cbn [orb is_test].
    { rewrite orb_true_r. intros Hk. injection Hk as <-. reflexivity. }
    destruct (all_fullrange a); cbn [orb].
    { intros Hk. injection Hk as <-. reflexivity. }
    destruct (which_context a =? 0).
    { destruct (Z.of_nat Const.NCONTEXTS * block <? Mblocks).
      { intros Hk. injection Hk as <-. exact Hlow. }
      destruct (block <? Mblocks); [|discriminate].
      intros Hk. injection Hk as <-. exact Hhigh. }
    destruct (which_context a =? 1).
    { intros Hk. injection Hk as <-. exact Hlow. }
    destruct (which_context a =? 2); [|discriminate].
    intros Hk. injection Hk as <-. exact Hhigh.
  - cbn [is_test]. rewrite !orb_true_r.
    intros Hk. injection Hk as <-. destruct (all_fullrange a); reflexivity.
Qed.

(** The range and the context a block starts with. *)
Lemma block_dist (a : args) (ph : phase) (Mblocks block : Z)
    (bv : block_vars) (dist : list Z) :
  0 <= block < Mblocks ->
  start_ok a ph bv ->
  context_known (bv_vars bv) ->
  randNumDistribution a ph (block_setup a ph Mblocks block bv) = Done dist ->
  exists k,
    kind_of_block a ph Mblocks block = Some k /\
    dist = dist_of k /\
    vars_in_block k (bv_vars (block_setup a ph Mblocks block bv)) /\
    setup_defined a ph = true.
Proof.
  intros Hblock Hstart Hctx.
  assert (Hset : forall c lo hi,
             (c = 1 \/ c = 2) ->
             context_known (bv_vars (set_range bv (Some c) lo hi))).
  { intros c lo hi Hc c' Hc'. cbn in Hc'. injection Hc' as <-. exact Hc. }
  assert (Hkeep : forall lo hi,
             context_known (bv_vars (set_range bv None lo hi))).
  { intros lo hi c' Hc'. cbn in Hc'. exact (Hctx c' Hc'). }
  unfold randNumDistribution, block_setup, kind_of_block, setup_defined.
  destruct ph; cbn [is_test negb andb orb].
  - destruct (train_long a) eqn:Elong; cbn [negb andb orb].
    { intros Hd. exists link_block.
      split; [reflexivity|]. split; [cbn [dist_of]; congruence|].
      split; [|reflexivity].
      split; [apply Hkeep | intros c0 Hc0; discriminate Hc0]. }
    destruct (all_fullrange a) eqn:Efull; cbn [orb].
    { intros Hd. exists mixed_block.
      split; [reflexivity|]. split; [cbn [dist_of]; congruence|].
      split; [|reflexivity].
      split; [|intros c0 Hc0; discriminate Hc0].
      destruct (which_context a =? 0).
      { destruct (Z.of_nat Const.NCONTEXTS * block <? Mblocks);
          [apply Hset; auto|].
        destruct (block <? Mblocks); [apply Hset; auto | exact Hctx]. }
      destruct (which_context a =? 1); [apply Hset; auto|].
      destruct (which_context a =? 2); [apply Hset; auto | exact Hctx]. }
    destruct (which_context a =? 0) eqn:E0; cbn [orb].
    { destruct (Z.of_nat Const.NCONTEXTS * block <? Mblocks).
      { cbn [set_range minNumerosity maxNumerosity]. intros Hd.
        exists low_block. split; [reflexivity|].
        split; [cbn [dist_of]; congruence|]. split; [|reflexivity].
        split; [apply Hset; auto|].
        intros c0 Hc0. cbn in Hc0 |- *. exact Hc0. }
      destruct (Z.ltb_spec block Mblocks) as [_|Hc]; [|lia].
      cbn [set_range minNumerosity maxNumerosity]. intros Hd.
      exists high_block. split; [reflexivity|].
      split; [cbn [dist_of]; congruence|]. split; [|reflexivity].
      split; [apply Hset; auto|].
      intros c0 Hc0. cbn in Hc0 |- *. exact Hc0. }
    destruct (which_context a =? 1) eqn:E1; cbn [orb].
    { cbn [set_range minNumerosity maxNumerosity]. intros Hd.
      exists low_block. split; [reflexivity|].
      split; [cbn [dist_of]; congruence|]. split; [|reflexivity].
      split; [apply Hset; auto|].
      intros c0 Hc0. cbn in Hc0 |- *. exact Hc0. }
    destruct (which_context a =? 2) eqn:E2; cbn [orb].
    { cbn [set_range minNumerosity maxNumerosity]. intros Hd.
      exists high_block. split; [reflexivity|].
      split; [cbn [dist_of]; congruence|]. split; [|reflexivity].
      split; [apply Hset; auto|].
      intros c0 Hc0. cbn in Hc0 |- *. exact Hc0. }
    intros Hd. exfalso.
    destruct Hstart as [Hdef|Hnone].
    + unfold setup_defined in Hdef.
      rewrite Elong, Efull, E0, E1, E2 in Hdef. discriminate Hdef.
    + rewrite Hnone in Hd. discriminate Hd.
  - cbn [set_range minNumerosity maxNumerosity].
    rewrite andb_false_r. intros Hd.
    exists (if all_fullrange a then mixed_block else full_block).
    split; [reflexivity|].
    split; [destruct (all_fullrange a); cbn [dist_of]; congruence|].
    split; [|reflexivity].
    split; [apply Hkeep|].
    intros c0 Hc0. destruct (all_fullrange a); discriminate Hc0.
Qed.

Lemma gen_compare_context (a : args) (ph : phase) (dist : list Z)
    (first : bool) (item : nat) (v : vars) (d : list nat) (input2 : list Z)
    (v' : vars) (rest : list nat) :
  gen_compare a ph dist first item v d = Ok (input2, v') rest ->
  exists jv,
    turn_one_hot jv Const.TOTALMAXNUM = Some input2 /\
    In jv dist /\
    context v' = if all_fullrange a || train_long a || is_test ph
                 then Some (turn_index_to_context jv)
                 else context v.
Proof.
  intros Hgen. unfold gen_compare in Hgen.
  apply bind_Ok in Hgen. destruct Hgen as (refValue & d1 & _ & Hgen).
  apply bind_Ok in Hgen. destruct Hgen as (randind & d2 & _ & Hgen).
  apply bind_Ok in Hgen. destruct Hgen as (jv0 & d3 & Hjv0 & Hgen).
  apply lift_Ok in Hjv0. destruct Hjv0 as [Hjv0 _].
  apply bind_Ok in Hgen. destruct Hgen as ([randind' jv] & d4 & Hres & Hgen).
  destruct (resample_judgement_ok dist refValue d3 randind jv0 randind' jv d4
              Hjv0 Hres) as [_ Hin].
  apply bind_Ok in Hgen. destruct Hgen as (oh & d5 & Hoh & Hgen).
  apply lift_Ok in Hoh. destruct Hoh as [Hoh _].
  apply bind_Ok in Hgen. destruct Hgen as (ctx & d6 & Hctx & Hgen).
  apply ret_Ok in Hgen. destruct Hgen as [Hgen _].
  injection Hgen as <- <-. cbn [context].
  exists jv. split; [exact Hoh|]. split; [exact (nth_error_In _ _ Hin)|].
  destruct (all_fullrange a || train_long a || is_test ph).
  - apply bind_Ok in Hctx. destruct Hctx as (x & d7 & Hx & Hret).
    apply lift_Ok in Hx. destruct Hx as [Hx _].
    apply ret_Ok in Hret. destruct Hret as [<- _].
    congruence.
  - apply ret_Ok in Hctx. destruct Hctx as [<- _]. reflexivity.
Qed.

Lemma gen_contextinput_policy (a : args) (v : vars) (d : list nat)
    (ci : list Z) (rest : list nat) :
  gen_contextinput a v d = Ok ci rest ->
  (label_context a = "true"%string ->
   exists c, context v = Some c /\
             turn_one_hot c Const.NCONTEXTS = Some ci) /\
  (label_context a = "constant"%string ->
   turn_one_hot 1 Const.NCONTEXTS = Some ci).
Proof.
  intros Hgen. unfold gen_contextinput in Hgen. split; intros Hpol;
    rewrite Hpol in Hgen.
  - rewrite String.eqb_refl in Hgen.
    apply bind_Ok in Hgen. destruct Hgen as (c & d1 & Hc & Hgen).
    apply lift_Ok in Hc. destruct Hc as [Hc _].
    apply lift_Ok in Hgen. destruct Hgen as [Hgen _].
    exists c. split; assumption.
  - change (String.eqb "constant" "true") with false in Hgen.
    change (String.eqb "constant" "random") with false in Hgen.
    rewrite String.eqb_refl in Hgen. cbv iota in Hgen.
    apply lift_Ok in Hgen. destruct Hgen as [Hgen _]. exact Hgen.
Qed.

(** One trial of a block. *)
Lemma gen_item_in_block (a : args) (ph : phase) (k : block_kind)
    (first : bool) (item : nat) (tt : trial_type) (v : vars)
    (pf : option (list Z)) (pt : option trial_type) (d : list nat)
    (r : item_result) (rest : list nat) :
  kind_fits a ph k ->
  vars_in_block k v ->
  gen_item a ph (dist_of k) first item tt v pf pt d = Ok r rest ->
  vars_in_block k (ir_vars r) /\
  context (ir_vars r) = Some (ir_context r) /\
  (tt = compare ->
   exists j, turn_one_hot j Const.TOTALMAXNUM = Some (ir_input2 r) /\
             In j (dist_of k) /\
             ir_context r = turn_index_to_context j) /\
  (label_context a = "true"%string ->
   turn_one_hot (ir_context r) Const.NCONTEXTS = Some (ir_contextinput r)) /\
  (label_context a = "constant"%string ->
   turn_one_hot 1 Const.NCONTEXTS = Some (ir_contextinput r)).
Proof.
  intros Hfit [Hknown Hfixed] Hgen. unfold gen_item in Hgen.
  apply bind_Ok in Hgen. destruct Hgen as ([[input2 v1] pf1] & d1 & Hb & Hgen).
  apply bind_Ok in Hgen. destruct Hgen as (ci & d2 & Hci & Hgen).
  destruct (gen_contextinput_policy _ _ _ _ _ Hci) as [Htrue Hconst].
  apply bind_Ok in Hgen. destruct Hgen as (c & d3 & Hc & Hgen).
  apply lift_Ok in Hc. destruct Hc as [Hc _].
  apply ret_Ok in Hgen. destruct Hgen as [<- _].
  cbn [ir_input2 ir_contextinput ir_vars ir_context].
  assert (Hpol : (label_context a = "true"%string ->
                  turn_one_hot c Const.NCONTEXTS = Some ci) /\
                 (label_context a = "constant"%string ->
                  turn_one_hot 1 Const.NCONTEXTS = Some ci)).
  { split; [|exact Hconst].
    intros Hp. destruct (Htrue Hp) as (c' & Hc' & Hoh). congruence. }
  unfold kind_fits in Hfit.
  destruct tt.
  - apply bind_Ok in Hb. destruct Hb as ([i2 v2] & d0 & Hcmp & Hret).
    apply ret_Ok in Hret. destruct Hret as [Hret _].
    injection Hret as -> -> _.
    destruct (gen_compare_context _ _ _ _ _ _ _ _ _ _ Hcmp)
      as (jv & Hjv & Hin & Hctx).
    destruct (all_fullrange a || train_long a || is_test ph).
    + assert (Hcj : c = turn_index_to_context jv) by congruence.
      split; [split|].
      * intros c' Hc'. rewrite Hc in Hc'. injection Hc' as <-. rewrite Hcj.
        destruct (turn_index_to_context_cases jv) as [[_ ->]|[_ ->]]; auto.
      * intros c0 Hc0. rewrite Hfit in Hc0. discriminate Hc0.
      * split; [exact Hc|]. split; [|exact Hpol].
        intros _. exists jv. repeat split; assumption.
    + destruct Hfit as (c0 & Hc0 & Hall).
      assert (Hcc : c = c0).
      { pose proof (Hfixed c0 Hc0) as Hv. congruence. }
      split; [split|].
      * intros c' Hc'. rewrite Hctx in Hc'. exact (Hknown c' Hc').
      * intros c1 Hc1. rewrite Hctx. exact (Hfixed c1 Hc1).
      * split; [exact Hc|]. split; [|exact Hpol].
        intros _. exists jv. split; [exact Hjv|]. split; [exact Hin|].
        rewrite Hcc. symmetry.
        exact (proj1 (Forall_forall _ _) Hall jv Hin).
  - apply bind_Ok in Hb. destruct Hb as ([i2 v2] & d0 & Hfil & Hret).
    apply ret_Ok in Hret. destruct Hret as [Hret _].
    injection Hret as -> -> _.
    destruct (gen_filler_ok _ _ _ _ _ _ _ _ Hfil)
      as (_ & _ & Hkeep & Hrand & _).
    split; [|split; [exact Hc | split; [discriminate | exact Hpol]]].
    destruct (all_fullrange a) eqn:Efull.
    + cbn [orb] in Hfit.
      destruct (Hrand eq_refl) as (c' & Hc' & Hrange).
      split.
      * intros c1 Hc1. rewrite Hc' in Hc1. injection Hc1 as <-. lia.
      * intros c0 Hc0. rewrite Hfit in Hc0. discriminate Hc0.
    + pose proof (Hkeep eq_refl) as Hsame. split.
      * intros c1 Hc1. rewrite Hsame in Hc1. exact (Hknown c1 Hc1).
      * intros c0 Hc0. rewrite Hsame. exact (Hfixed c0 Hc0).
Qed.

Lemma gen_items_in_block (a : args) (ph : phase) (k : block_kind)
    (first : bool) (ts : list trial_type) :
  kind_fits a ph k ->
  forall (n item : nat) (v : vars) (pf : option (list Z))
         (pt : option trial_type) (d : list nat) (rs : list item_result)
         (v' : vars) (rest : list nat),
    vars_in_block k v ->
    gen_items a ph (dist_of k) first ts n item v pf pt d = Ok (rs, v') rest ->
    vars_in_block k v' /\
    forall (i : nat) (r : item_result) (tt : trial_type),
      nth_error rs i = Some r ->
      nth_error ts (item + i) = Some tt ->
      (ir_context r = 1 \/ ir_context r = 2) /\
      (forall c0, context_of k = Some c0 -> ir_context r = c0) /\
      (tt = compare ->
       exists j, turn_one_hot j Const.TOTALMAXNUM = Some (ir_input2 r) /\
                 In j (dist_of k) /\
                 ir_context r = turn_index_to_context j) /\
      (label_context a = "true"%string ->
       turn_one_hot (ir_context r) Const.NCONTEXTS
       = Some (ir_contextinput r)) /\
      (label_context a = "constant"%string ->
       turn_one_hot 1 Const.NCONTEXTS = Some (ir_contextinput r)).
Proof.
  intros Hfit.
  induction n as [|n IH]; intros item v pf pt d rs v' rest Hv Hgen;
    cbn [gen_items] in Hgen.
  - apply ret_Ok in Hgen. destruct Hgen as [Hgen _]. injection Hgen as <- <-.
    split; [exact Hv|]. intros i r tt Hr. destruct i; discriminate Hr.
  - apply bind_Ok in Hgen. destruct Hgen as (tt0 & d1 & Htt & Hgen).
    apply lift_Ok in Htt. destruct Htt as [Htt _].
    apply bind_Ok in Hgen. destruct Hgen as (r0 & d2 & Hitem & Hgen).
    apply bind_Ok in Hgen. destruct Hgen as ([rs0 v0] & d3 & Hrec & Hgen).
    apply ret_Ok in Hgen. destruct Hgen as [Hgen _]. injection Hgen as <- <-.
    destruct (gen_item_in_block _ _ _ _ _ _ _ _ _ _ _ _ Hfit Hv Hitem)
      as (Hv0 & Hc0 & Hcmp & Hpol).
    destruct (IH _ _ _ _ _ _ _ _ Hv0 Hrec) as [Hv' Hall].
    split; [exact Hv'|].
    intros i r tt Hr Htt'. destruct i as [|i].
    + cbn [nth_error] in Hr. injection Hr as <-.
      rewrite Nat.add_0_r, Htt in Htt'. injection Htt' as <-.
      destruct Hv0 as [Hknown Hfixed].
      split; [exact (Hknown _ Hc0)|].
      split; [intros c1 Hc1; pose proof (Hfixed c1 Hc1); congruence|].
      split; [exact Hcmp | exact Hpol].
    + cbn [nth_error] in Hr. apply (Hall i r tt Hr).
      replace (S item + i)%nat with (item + S i)%nat by lia. exact Htt'.
Qed.

(** The parts of a generated sequence, with the variables it leaves. *)
Lemma gen_sequence_inv_vars (a : args) (ph : phase) (dist : list Z)
    (first : bool) (permorder : list nat) (v : vars) (d : list nat)
    (sd : seq_data) (v' : vars) (first' : bool) (rest : list nat) :
  gen_sequence a ph dist first permorder v d = Ok (sd, v', first') rest ->
  exists ts items v1 d1,
    length ts = BPTT_len a /\
    gen_items a ph dist first ts (BPTT_len a) 0 v None None d
    = Ok (items, v1) d1 /\
    context v' = context v1 /\
    sd_input sd = map ir_input2 items /\
    sd_contextdigits sd = map ir_context items /\
    sd_contextinputs sd = map ir_contextinput items /\
    sd_trialTypeInputs sd = map trialtype_flag ts.
Proof.
  intros Hgen. unfold gen_sequence in Hgen.
  apply bind_Ok in Hgen. destruct Hgen as (ts & d0 & Hts & Hgen).
  apply lift_Ok in Hts. destruct Hts as [Hts <-].
  apply bind_Ok in Hgen. destruct Hgen as ([items v1] & d1 & Hitems & Hgen).
  apply bind_Ok in Hgen. destruct Hgen as ([v2 f2] & d2 & Hv2 & Hgen).
  apply bind_Ok in Hgen. destruct Hgen as (rows & d3 & _ & Hgen).
  destruct (length ts =? BPTT_len a)%nat eqn:El; [|discriminate].
  apply Nat.eqb_eq in El.
  apply ret_Ok in Hgen. destruct Hgen as [Hgen _].
  injection Hgen as <- <- _.
  assert (Htti : trialtypeinput_of ts (BPTT_len a) = map trialtype_flag ts)
    by (rewrite <- El; apply trialtypeinput_of_full).
  assert (Hctx2 : context v2 = context v1).
  { destruct first.
    - apply bind_Ok in Hv2. destruct Hv2 as (lastin & d4 & _ & Hv2).
      apply bind_Ok in Hv2. destruct Hv2 as (jv & d5 & _ & Hv2).
      apply ret_Ok in Hv2. destruct Hv2 as [Hv2 _].
      injection Hv2 as <- _. reflexivity.
    - apply ret_Ok in Hv2. destruct Hv2 as [Hv2 _].
      injection Hv2 as <- _. reflexivity. }
  exists ts, items, v1, d1.
  cbn [sd_input sd_contextdigits sd_contextinputs sd_trialTypeInputs].
  split; [exact El|]. split; [exact Hitems|].
  split; [destruct f2; cbn [context]; exact Hctx2|].
  repeat split; try reflexivity. exact Htti.
Qed.

Lemma gen_sequence_in_block (a : args) (ph : phase) (k : block_kind)
    (first : bool) (permorder : list nat) (v : vars) (d : list nat)
    (sd : seq_data) (v' : vars) (first' : bool) (rest : list nat) :
  kind_fits a ph k ->
  vars_in_block k v ->
  gen_sequence a ph (dist_of k) first permorder v d
  = Ok (sd, v', first') rest ->
  seq_in_block (label_context a) k sd /\ vars_in_block k v'.
Proof.
  intros Hfit Hv Hgen.
  destruct (gen_sequence_inv_vars _ _ _ _ _ _ _ _ _ _ _ Hgen)
    as (ts & items & v1 & d1 & Hlen & Hitems & Hctx & Hin & Hcd & Hci & Htt).
  destruct (gen_items_in_block a ph k first ts Hfit _ _ _ _ _ _ _ _ _ Hv
              Hitems) as [[Hknown Hfixed] Hall].
  split.
  - intros i t x c ci Ht Hx Hc Hcin.
    rewrite Htt, nth_error_map in Ht. rewrite Hin, nth_error_map in Hx.
    rewrite Hcd, nth_error_map in Hc. rewrite Hci, nth_error_map in Hcin.
    destruct (nth_error ts i) as [tt|] eqn:Ett; [|discriminate].
    destruct (nth_error items i) as [r|] eqn:Er; [|discriminate].
    cbn [option_map] in Ht, Hx, Hc, Hcin.
    injection Ht as <-. injection Hx as <-. injection Hc as <-.
    injection Hcin as <-.
    destruct (Hall i r tt Er Ett) as (H12 & Hfix & Hcmp & Hpol).
    split; [exact H12|]. split; [exact Hfix|]. split; [|exact Hpol].
    intros Hflag.
    assert (Hcompare : tt = compare)
      by (destruct tt; [reflexivity | discriminate Hflag]).
    destruct (Hcmp Hcompare) as (j & Hj & Hjin & Hcj).
    exists j. split; [|split; assumption].
    apply (decode_one_hot j Const.TOTALMAXNUM); [|exact Hj].
    exact (proj1 (Forall_forall _ _) (dist_of_in_range k) j Hjin).
  - split.
    + intros c Hc. rewrite Hctx in Hc. exact (Hknown c Hc).
    + intros c0 Hc0. rewrite Hctx. exact (Hfixed c0 Hc0).
Qed.

Lemma gen_samples_in_block (a : args) (ph : phase) (k : block_kind) :
  kind_fits a ph k ->
  forall (n : nat) (first : bool) (perms : list (list nat)) (v : vars)
         (d : list nat) (sds : list seq_data) (perms' : list (list nat))
         (v' : vars) (rest : list nat),
    vars_in_block k v ->
    gen_samples a ph (dist_of k) n first perms v d
    = Ok (sds, perms', v') rest ->
    Forall (seq_in_block (label_context a) k) sds /\
    length sds = n /\
    vars_in_block k v'.
Proof.
  intros Hfit.
  induction n as [|n IH]; intros first perms v d sds perms' v' rest Hv Hgen;
    cbn [gen_samples] in Hgen.
  - apply ret_Ok in Hgen. destruct Hgen as [Hgen _].
    injection Hgen as <- _ <-.
    split; [constructor|]. split; [reflexivity | exact Hv].
  - destruct perms as [|permorder perms0]; [discriminate|].
    apply bind_Ok in Hgen. destruct Hgen as ([[sd v1] f1] & d1 & Hs & Hgen).
    apply bind_Ok in Hgen. destruct Hgen as ([[sds0 p0] v2] & d2 & Hr & Hgen).
    apply ret_Ok in Hgen. destruct Hgen as [Hgen _].
    injection Hgen as <- _ <-.
    destruct (gen_sequence_in_block _ _ _ _ _ _ _ _ _ _ _ Hfit Hv Hs)
      as [Hsd Hv1].
    destruct (IH _ _ _ _ _ _ _ _ Hv1 Hr) as (Hall & Hlen & Hv2).
    split; [constructor; assumption|].
    split; [cbn [length]; congruence | exact Hv2].
Qed.

Lemma gen_blocks_in_blocks (a : args) (ph : phase) (Mblocks : Z)
    (nsamples : nat) :
  forall (n : nat) (block : Z) (perms : list (list nat)) (bv : block_vars)
         (d : list nat) (blocks : list (list seq_data))
         (perms' : list (list nat)) (bv' : block_vars) (rest : list nat),
    0 <= block ->
    block + Z.of_nat n = Mblocks ->
    start_ok a ph bv ->
    context_known (bv_vars bv) ->
    gen_blocks a ph Mblocks nsamples n block perms bv d
    = Ok (blocks, perms', bv') rest ->
    (forall (j : nat) (sds : list seq_data),
       nth_error blocks j = Some sds ->
       exists k,
         kind_of_block a ph Mblocks (block + Z.of_nat j) = Some k /\
         Forall (seq_in_block (label_context a) k) sds /\
         length sds = nsamples) /\
    context_known (bv_vars bv').
Proof.
  induction n as [|n IH];
    intros block perms bv d blocks perms' bv' rest Hb0 Hbn Hstart Hctx Hgen;
    cbn [gen_blocks] in Hgen.
  - apply ret_Ok in Hgen. destruct Hgen as [Hgen _].
    injection Hgen as <- _ <-.
    split; [|exact Hctx]. intros j sds Hj. destruct j; discriminate Hj.
  - apply bind_Ok in Hgen. destruct Hgen as (dist & d1 & Hd & Hgen).
    apply lift_result_Ok in Hd. destruct Hd as [Hd _].
    destruct (block_dist a ph Mblocks block bv dist ltac:(lia) Hstart Hctx Hd)
      as (k & Hk & -> & Hv & Hdef).
    pose proof (kind_of_block_fits _ _ _ _ _ Hk) as Hfit.
    apply bind_Ok in Hgen. destruct Hgen as ([[sds p1] v1] & d2 & Hs & Hgen).
    apply bind_Ok in Hgen. destruct Hgen as ([[bl p2] bv3] & d3 & Hr & Hgen).
    apply ret_Ok in Hgen. destruct Hgen as [Hgen _].
    injection Hgen as <- _ <-.
    destruct (gen_samples_in_block a ph k Hfit _ _ _ _ _ _ _ _ _ Hv Hs)
      as (Hall & Hlen & [Hknown1 _]).
    pose proof (fun A B C D => IH _ _ _ _ _ _ _ _ A B C D Hr) as Hrec.
    destruct (Hrec ltac:(lia) ltac:(lia) (or_introl Hdef) Hknown1)
      as [Hrest Hctx'].
    split; [|exact Hctx'].
    intros j sds0 Hj. destruct j as [|j].
    + cbn [nth_error] in Hj. injection Hj as <-.
      exists k. rewrite Z.add_0_r. repeat split; assumption.
    + cbn [nth_error] in Hj.
      destruct (Hrest j sds0 Hj) as (k' & Hk' & Hall' & Hlen').
      exists k'. split; [|split; assumption].
      replace (block + Z.of_nat (S j)) with (block + 1 + Z.of_nat j) by lia.
      exact Hk'.
Qed.

Lemma nth_error_concat_uniform {A : Type} (m : nat) :
  forall (blocks : list (list A)) (s : nat) (x : A),
    Forall (fun b => length b = m) blocks ->
    nth_error (concat blocks) s = Some x ->
    exists b, nth_error blocks (s / m) = Some b /\ In x b.
Proof.
  induction blocks as [|b blocks IH]; intros s x Hall Hs.
  - destruct s; discriminate Hs.
  - inversion Hall as [|? ? Hb Hrest]; subst.
    cbn [concat] in Hs.
    destruct (Nat.lt_ge_cases s (length b)) as [Hlt|Hge].
    + rewrite nth_error_app1 in Hs by exact Hlt.
      rewrite Nat.div_small by exact Hlt.
      exists b. split; [reflexivity | exact (nth_error_In _ _ Hs)].
    + rewrite nth_error_app2 in Hs by exact Hge.
      destruct (IH _ _ Hrest Hs) as (b' & Hb' & Hin).
      assert (Hpos : (0 < length b)%nat).
      { destruct b as [|y b0]; [|cbn [length]; lia].
        exfalso. cbn [length] in *. rewrite Nat.sub_0_r in Hb'.
        destruct blocks as [|b1 bs]; [destruct s; discriminate Hs|].
        inversion Hrest as [|? ? Hb1 _]; subst.
        destruct b1; [|discriminate Hb1].
        clear - Hs Hrest. revert s Hs.
        assert (Hnil : concat ([] :: bs) = [] :> list A).
        { cbn [concat app]. induction bs as [|c bs IHb]; [reflexivity|].
          inversion Hrest as [|? ? _ Hr]; subst.
          inversion Hr as [|? ? Hc Hr']; subst.
          destruct c; [|discriminate Hc]. cbn [concat app].
          apply IHb. constructor; [reflexivity | exact Hr']. }
        intros s Hs. rewrite Hnil in Hs. destruct s; discriminate Hs. }
      exists b'. split; [|exact Hin].
      replace s with ((s - length b) + 1 * length b)%nat at 1 by lia.
      rewrite Nat.div_add by lia.
      rewrite Nat.add_1_r. exact Hb'.
Qed.

Lemma allocate_blocks (N Mblocks k : Z) :
  allocate N Mblocks = Done k ->
  0 < Mblocks /\ 0 <= k /\ k = Z.quot N Mblocks.
Proof.
  unfold allocate, py_int_div.
  destruct (Mblocks =? 0) eqn:E0; [discriminate|].
  apply Z.eqb_neq in E0.
  destruct ((Mblocks <? 0) || (Z.quot N Mblocks <? 0)) eqn:Eneg;
    [discriminate|].
  apply orb_false_iff in Eneg. destruct Eneg as [Em Ek].
  apply Z.ltb_ge in Em, Ek.
  destruct (Mblocks * Z.quot N Mblocks * 1 =? Z.max N 0); [|discriminate].
  intros Hk. injection Hk as <-. repeat split; lia.
Qed.

(** The sequences of one phase, block by block. *)
Lemma gen_phase_in_blocks (a : args) (ph : phase) (N Mblocks : Z)
    (perms : list (list nat)) (bv : block_vars) (d : list nat)
    (sds : list seq_data) (perms' : list (list nat)) (bv' : block_vars)
    (rest : list nat) :
  start_ok a ph bv ->
  context_known (bv_vars bv) ->
  gen_phase a ph N Mblocks perms bv d = Ok (sds, perms', bv') rest ->
  (forall (s : nat) (sd : seq_data),
     nth_error sds s = Some sd ->
     exists k,
       kind_of_block a ph Mblocks
                     (Z.of_nat (s / Z.to_nat (Z.quot N Mblocks)))
       = Some k /\
       seq_in_block (label_context a) k sd) /\
  context_known (bv_vars bv').
Proof.
  intros Hstart Hctx Hgen. unfold gen_phase in Hgen.
  apply bind_Ok in Hgen. destruct Hgen as (k & d1 & Hk & Hgen).
  apply lift_result_Ok in Hk. destruct Hk as [Hk _].
  destruct (allocate_blocks _ _ _ Hk) as (Hm & Hk0 & ->).
  apply bind_Ok in Hgen. destruct Hgen as ([[bl p1] bv1] & d2 & Hb & Hgen).
  apply ret_Ok in Hgen. destruct Hgen as [Hgen _].
  injection Hgen as <- _ <-.
  pose proof (fun A B => gen_blocks_in_blocks a ph Mblocks _ _ _ _ _ _ _ _ _ _
                           A B Hstart Hctx Hb) as Hrec.
  destruct (Hrec ltac:(lia) ltac:(lia)) as [Hblocks Hctx'].
  split; [|exact Hctx'].
  intros s sd Hs.
  assert (Hlen : Forall (fun b => length b = Z.to_nat (Z.quot N Mblocks)) bl).
  { apply Forall_forall. intros b Hin.
    destruct (In_nth_error _ _ Hin) as [j Hj].
    destruct (Hblocks j b Hj) as (k' & _ & _ & Hl). exact Hl. }
  destruct (nth_error_concat_uniform _ bl s sd Hlen Hs) as (b & Hb' & Hin).
  destruct (Hblocks _ b Hb') as (k' & Hk' & Hall & _).
  exists k'. split; [exact Hk'|].
  exact (proj1 (Forall_forall _ _) Hall sd Hin).
Qed.

Lemma dataset_in_blocks (lc : long_constants) (a : args)
    (perms : list (list nat)) (d : list nat) (ds : dataset)
    (rest : list nat) :
  create_separate_input_data lc a perms d = Ok ds rest ->
  (forall (s : nat) (sd : seq_data),
     nth_error (trainset ds) s = Some sd ->
     exists k,
       kind_of_block a train (phase_Mblocks lc a train)
         (Z.of_nat (s / Z.to_nat (Z.quot (phase_N lc a train)
                                         (phase_Mblocks lc a train))))
       = Some k /\
       seq_in_block (label_context a) k sd) /\
  (forall sd : seq_data,
     In sd (testset ds ++ crossval_testset ds) ->
     seq_in_block (label_context a)
                  (if all_fullrange a then mixed_block else full_block) sd).
Proof.
  intros Hgen. unfold create_separate_input_data in Hgen.
  assert (Hunbound : context_known (bv_vars unbound))
    by (intros c Hc; discriminate Hc).
  assert (Htest : forall bv, start_ok a test bv)
    by (intros bv; left; reflexivity).
  apply bind_Ok in Hgen. destruct Hgen as ([[tr p1] bv1] & d1 & Htr & Hgen).
  assert (Hstart : start_ok a train unbound) by (right; reflexivity).
  destruct (gen_phase_in_blocks a train _ _ _ unbound _ _ _ _ _
              Hstart Hunbound Htr) as [Hp1 Hbv1].
  apply bind_Ok in Hgen. destruct Hgen as ([[te p2] bv2] & d2 & Hte & Hgen).
  destruct (gen_phase_in_blocks a test _ _ _ bv1 _ _ _ _ _
              (Htest bv1) Hbv1 Hte) as [Hp2 Hbv2].
  apply bind_Ok in Hgen. destruct Hgen as ([[cv p3] bv3] & d3 & Hcv & Hgen).
  destruct (gen_phase_in_blocks a test _ _ _ bv2 _ _ _ _ _
              (Htest bv2) Hbv2 Hcv) as [Hp3 _].
  apply ret_Ok in Hgen. destruct Hgen as [<- _].
  cbn [trainset testset crossval_testset].
  split; [exact Hp1|].
  intros sd Hin. apply in_app_or in Hin.
  destruct Hin as [Hin|Hin]; destruct (In_nth_error _ _ Hin) as [s Hs].
  - destruct (Hp2 s sd Hs) as (k & Hk & Hsd).
    cbn [kind_of_block] in Hk. injection Hk as <-. exact Hsd.
  - destruct (Hp3 s sd Hs) as (k & Hk & Hsd).
    cbn [kind_of_block] in Hk. injection Hk as <-. exact Hsd.
Qed.

Lemma dataset_in_some_block (lc : long_constants) (a : args)
    (perms : list (list nat)) (d : list nat) (ds : dataset)
    (rest : list nat) :
  create_separate_input_data lc a perms d = Ok ds rest ->
  forall sd : seq_data,
    In sd (all_sequences ds) ->
    exists k, seq_in_block (label_context a) k sd.
Proof.
  intros Hgen sd Hin.
  destruct (dataset_in_blocks _ _ _ _ _ _ Hgen) as [Htr Hte].
  unfold all_sequences in Hin. apply in_app_or in Hin.
  destruct Hin as [Hin|Hin].
  - destruct (In_nth_error _ _ Hin) as [s Hs].
    destruct (Htr s sd Hs) as (k & _ & Hsd). exists k. exact Hsd.
  - eexists. exact (Hte sd Hin).
Qed.

Lemma dataset_seq_shape (lc : long_constants) (a : args)
    (perms : list (list nat)) (d : list nat) (ds : dataset)
    (rest : list nat) :
  create_separate_input_data lc a perms d = Ok ds rest ->
  forall sd : seq_data,
    In sd (all_sequences ds) ->
    seq_shape (BPTT_len a) sd /\
    Forall is_stimulus (sd_input sd) /\
    sd_judgementValues sd = sd_input sd.
Proof.
  intros Hgen. rewrite <- Forall_forall.
  refine (create_separate_input_data_Forall a _ _ lc perms d ds rest Hgen).
  intros ph dist first permorder v d0 sd0 v' first' rest0 Hdist Hseq.
  exact (gen_sequence_shape _ _ _ _ _ _ _ _ _ _ _ Hdist Hseq).
Qed.

(** X17. The training phase follows the block plan.  Sequence number [s]
    of the training split lies in block [s div (N div Mblocks)]; that block
    has the kind the plan gives it (with all contexts and blocked short
    training: the low range in the first half of the blocks and the high
    range in the second half; the linking pair under train_long), and the
    sequence conforms to it: its context digits are the block's context,
    and its compare stimuli are numbers of the block's range. *)
Theorem training_blocks_follow_plan (a : args) (N Mblocks : Z)
    (perms : list (list nat)) (d : list nat) (sds : list seq_data)
    (perms' : list (list nat)) (bv' : block_vars) (rest : list nat) :
  gen_phase a train N Mblocks perms unbound d = Ok (sds, perms', bv') rest ->
  forall (s : nat) (sd : seq_data),
    nth_error sds s = Some sd ->
    exists k,
      kind_of_block a train Mblocks
                    (Z.of_nat (s / Z.to_nat (Z.quot N Mblocks))) = Some k /\
      seq_in_block (label_context a) k sd.
Proof.
  intros Hgen.
  assert (Hunbound : context_known (bv_vars unbound))
    by (intros c Hc; discriminate Hc).
  assert (Hstart : start_ok a train unbound) by (right; reflexivity).
  exact (proj1 (gen_phase_in_blocks a train _ _ _ unbound _ _ _ _ _
                  Hstart Hunbound Hgen)).
Qed.

(** A short blocked training phase of two blocks of two sequences. *)
Lemma short_run_generates :
  exists sds perms' bv' rest sd0 sd3,
    gen_phase short_args train 4 2 short_permutations unbound long_draws
    = Ok (sds, perms', bv') rest /\
    nth_error sds 0 = Some sd0 /\
    nth_error sds 3 = Some sd3 /\
    firstn 4 (sd_contextdigits sd0) = [1; 1; 1; 1] /\
    firstn 4 (sd_contextdigits sd3) = [2; 2; 2; 2].
Proof.
  eassert (Hgen : gen_phase short_args train 4 2 short_permutations unbound
                            long_draws = Ok (_, _, _) _)
    by (vm_compute; reflexivity).
  do 6 eexists. split; [exact Hgen|].
  repeat split; reflexivity.
Qed.

Lemma training_blocks_follow_plan_witness :
  exists sds perms' bv' rest sd0 sd3,
    gen_phase short_args train 4 2 short_permutations unbound long_draws
    = Ok (sds, perms', bv') rest /\
    nth_error sds 0 = Some sd0 /\
    nth_error sds 3 = Some sd3 /\
    seq_in_block "true" low_block sd0 /\
    seq_in_block "true" high_block sd3.
Proof.
  destruct short_run_generates
    as (sds & perms' & bv' & rest & sd0 & sd3 & Hgen & H0 & H3 & _).
  exists sds, perms', bv', rest, sd0, sd3.
  split; [exact Hgen|]. split; [exact H0|]. split; [exact H3|].
  split.
  - destruct (training_blocks_follow_plan _ _ _ _ _ _ _ _ _ Hgen 0%nat sd0 H0)
      as (k & Hk & Hsd).
    vm_compute in Hk. injection Hk as <-. exact Hsd.
  - destruct (training_blocks_follow_plan _ _ _ _ _ _ _ _ _ Hgen 3%nat sd3 H3)
      as (k & Hk & Hsd).
    vm_compute in Hk. injection Hk as <-. exact Hsd.
Defined.

(** X18. In every sequence of every split of a generated data set: each
    stored context digit is 1 or 2; at a compare trial the digit names
    the sub-range of the stimulus (1 exactly for the numbers up to 4, 2
    exactly for the numbers from 5); and the context input the network is
    given is the one-hot code of that digit under the policy "true" and
    the code of context 1 at every trial under the policy "constant". *)
Theorem context_follows_stimulus (lc : long_constants) (a : args)
    (perms : list (list nat)) (d : list nat) (ds : dataset)
    (rest : list nat) :
  create_separate_input_data lc a perms d = Ok ds rest ->
  forall sd : seq_data,
    In sd (all_sequences ds) ->
    forall (i : nat) (t : Z) (x : list Z) (c : Z) (ci : list Z),
      nth_error (sd_trialTypeInputs sd) i = Some t ->
      nth_error (sd_input sd) i = Some x ->
      nth_error (sd_contextdigits sd) i = Some c ->
      nth_error (sd_contextinputs sd) i = Some ci ->
      (c = 1 \/ c = 2) /\
      (t = 1 ->
       exists j, decode x = Done j /\
                 1 <= j <= Z.of_nat Const.TOTALMAXNUM /\
                 (c = 1 <-> j <= Const.LOWR_ULIM) /\
                 (c = 2 <-> Const.HIGHR_LLIM <= j)) /\
      (label_context a = "true"%string ->
       ci = if c =? 1 then [1; 0] else [0; 1]) /\
      (label_context a = "constant"%string -> ci = [1; 0]).
Proof.
  intros Hgen sd Hin i t x c ci Ht Hx Hc Hci.
  destruct (dataset_in_some_block _ _ _ _ _ _ Hgen sd Hin) as [k Hsd].
  destruct (Hsd i t x c ci Ht Hx Hc Hci) as (H12 & _ & Hcmp & Htrue & Hconst).
  split; [exact H12|]. split; [|split].
  - intros Ht1. destruct (Hcmp Ht1) as (j & Hj & Hjin & Hcj).
    exists j. split; [exact Hj|].
    split; [exact (proj1 (Forall_forall _ _) (dist_of_in_range k) j Hjin)|].
    change Const.LOWR_ULIM with 4. change Const.HIGHR_LLIM with 5.
    destruct (turn_index_to_context_cases j) as [[Hle Htic]|[Hge Htic]];
      rewrite Htic in Hcj; subst c; split; split; intros; lia.
  - intros Hpol. specialize (Htrue Hpol).
    destruct H12 as [-> | ->]; vm_compute in Htrue; injection Htrue as <-;
      reflexivity.
  - intros Hpol. specialize (Hconst Hpol). vm_compute in Hconst.
    injection Hconst as <-. reflexivity.
Qed.

(** The long-sequence run and its first training sequence, whose second
    trial is a compare trial with stimulus 4 in context 1. *)
Lemma long_run_sample :
  exists ds rest sd,
    create_separate_input_data small_long_constants long_args
                               long_permutations long_draws = Ok ds rest /\
    In sd (trainset ds) /\
    nth_error (sd_trialTypeInputs sd) 1 = Some 1 /\
    nth_error (sd_input sd) 1 = Some [0; 0; 0; 1; 0; 0; 0; 0] /\
    nth_error (sd_contextdigits sd) 1 = Some 1 /\
    nth_error (sd_contextinputs sd) 1 = Some [1; 0] /\
    nth_error (sd_target sd) 1 = Some (Some (LNum 0)) /\
    nth_error (sd_judgementValues sd) 1 = Some [0; 0; 0; 1; 0; 0; 0; 0] /\
    nth_error (sd_refValues sd) 1 = Some [0; 0; 0; 0; 1; 0; 0; 0].
Proof.
  eassert (Hgen : create_separate_input_data small_long_constants long_args
                    long_permutations long_draws = Ok _ _)
    by (vm_compute; reflexivity).
  match type of Hgen with
  | _ = Ok ?ds _ => eassert (Hin : In _ (trainset ds))
  end.
  { cbn [trainset In]. left. reflexivity. }
  do 3 eexists. split; [exact Hgen|]. split; [exact Hin|].
  repeat split; reflexivity.
Qed.

Lemma context_follows_stimulus_witness :
  exists ds rest sd,
    create_separate_input_data small_long_constants long_args
                               long_permutations long_draws = Ok ds rest /\
    In sd (all_sequences ds) /\
    nth_error (sd_trialTypeInputs sd) 1 = Some 1 /\
    nth_error (sd_input sd) 1 = Some [0; 0; 0; 1; 0; 0; 0; 0] /\
    nth_error (sd_contextdigits sd) 1 = Some 1 /\
    nth_error (sd_contextinputs sd) 1 = Some [1; 0] /\
    exists j, decode [0; 0; 0; 1; 0; 0; 0; 0] = Done j /\
              1 <= j <= Z.of_nat Const.TOTALMAXNUM /\
              (1 = 1 <-> j <= Const.LOWR_ULIM) /\
              (1 = 2 <-> Const.HIGHR_LLIM <= j).
Proof.
  destruct long_run_sample
    as (ds & rest & sd & Hgen & Hin & Ht & Hx & Hc & Hci & _).
  assert (Hall : In sd (all_sequences ds))
    by (unfold all_sequences; apply in_or_app; left; exact Hin).
  exists ds, rest, sd.
  split; [exact Hgen|]. split; [exact Hall|]. split; [exact Ht|].
  split; [exact Hx|]. split; [exact Hc|]. split; [exact Hci|].
  exact (proj1 (proj2 (context_follows_stimulus _ _ _ _ _ _ Hgen sd
                         Hall 1%nat 1 _ 1 _ Ht Hx Hc Hci)) eq_refl).
Defined.

(** X19. Under train_long every compare trial of the training split
    carries one of the two numbers of the linking pair, 4 or 5. *)
Theorem long_training_uses_linking_pair (lc : long_constants) (a : args)
    (perms : list (list nat)) (d : list nat) (ds : dataset)
    (rest : list nat) :
  train_long a = true ->
  create_separate_input_data lc a perms d = Ok ds rest ->
  forall sd : seq_data,
    In sd (trainset ds) ->
    forall (i : nat) (x : list Z),
      nth_error (sd_trialTypeInputs sd) i = Some 1 ->
      nth_error (sd_input sd) i = Some x ->
      decode x = Done Const.LOWR_ULIM \/ decode x = Done Const.HIGHR_LLIM.
Proof.
  intros Hlong Hgen sd Hin i x Ht Hx.
  destruct (dataset_in_blocks _ _ _ _ _ _ Hgen) as [Htr _].
  destruct (In_nth_error _ _ Hin) as [s Hs].
  destruct (Htr s sd Hs) as (k & Hk & Hsd).
  cbn [kind_of_block] in Hk. rewrite Hlong in Hk. injection Hk as <-.
  assert (Hall : In sd (all_sequences ds))
    by (unfold all_sequences; apply in_or_app; left; exact Hin).
  destruct (dataset_seq_shape _ _ _ _ _ _ Hgen sd Hall)
    as ((Hl1 & Hl2 & Hl3 & _ & _ & _ & Hl7 & _) & _).
  assert (Hi : (i < BPTT_len a)%nat)
    by (rewrite <- Hl7; apply nth_error_Some; congruence).
  destruct (nth_error (sd_contextdigits sd) i) as [c|] eqn:Ec;
    [|apply nth_error_None in Ec; lia].
  destruct (nth_error (sd_contextinputs sd) i) as [ci|] eqn:Eci;
    [|apply nth_error_None in Eci; lia].
  destruct (Hsd i 1 x c ci Ht Hx Ec Eci) as (_ & _ & Hcmp & _).
  destruct (Hcmp eq_refl) as (j & Hj & Hjin & _).
  vm_compute dist_of in Hjin.
  destruct Hjin as [<- | [<- | []]]; [left | right]; exact Hj.
Qed.

Lemma long_training_uses_linking_pair_witness :
  exists ds rest sd,
    create_separate_input_data small_long_constants long_args
                               long_permutations long_draws = Ok ds rest /\
    In sd (trainset ds) /\
    nth_error (sd_trialTypeInputs sd) 1 = Some 1 /\
    nth_error (sd_input sd) 1 = Some [0; 0; 0; 1; 0; 0; 0; 0] /\
    (decode [0; 0; 0; 1; 0; 0; 0; 0] = Done Const.LOWR_ULIM \/
     decode [0; 0; 0; 1; 0; 0; 0; 0] = Done Const.HIGHR_LLIM).
Proof.
  destruct long_run_sample
    as (ds & rest & sd & Hgen & Hin & Ht & Hx & _).
  exists ds, rest, sd.
  split; [exact Hgen|]. split; [exact Hin|]. split; [exact Ht|].
  split; [exact Hx|].
  exact (long_training_uses_linking_pair small_long_constants long_args
           _ _ _ _ eq_refl Hgen sd Hin 1%nat _ Ht Hx).
Defined.

(** ** The data-set inspection *)

Lemma read_row_one_hot (j : Z) (n : nat) (value : Z) (v : list Z) :
  (n <= 8)%nat ->
  1 <= j <= Z.of_nat n ->
  turn_one_hot j n = Some v ->
  read_row 0 value v = j.
Proof.
  intros Hn Hj Hv.
  assert (Hn' : (n = 0 \/ n = 1 \/ n = 2 \/ n = 3 \/ n = 4 \/ n = 5 \/ n = 6
                 \/ n = 7 \/ n = 8)%nat) by lia.
  assert (Hj' : j = 1 \/ j = 2 \/ j = 3 \/ j = 4 \/ j = 5 \/ j = 6 \/ j = 7
                \/ j = 8) by lia.
  repeat (destruct Hn' as [-> | Hn']; [| ]); try subst n;
    repeat (destruct Hj' as [-> | Hj']; [| ]); try subst j;
    try (exfalso; cbn in Hj; lia);
    vm_compute in Hv; injection Hv as <-; reflexivity.
Qed.

Lemma read_row_zeros (n : nat) (value : Z) :
  forall ind : nat, read_row ind value (zeros n) = value.
Proof.
  induction n as [|n IH]; intros ind; [reflexivity|].
  cbn [zeros repeat read_row]. apply IH.
Qed.

Lemma reference_is_earlier_compare :
  forall (i : nat) (ts : list Z) (xs : list (list Z)) (r : Z),
    reference_at None ts xs i = Some r ->
    exists (i' : nat) (x : list Z),
      (i' < i)%nat /\ nth_error ts i' = Some 1 /\ nth_error xs i' = Some x /\
      as_scalar (turn_one_hot_to_integer x) = Some r.
Proof.
  induction i as [|i IH]; intros ts xs r Hr.
  - rewrite reference_at_0 in Hr. discriminate Hr.
  - destruct ts as [|t ts]; [discriminate Hr|].
    destruct xs as [|x xs]; [discriminate Hr|].
    cbn [reference_at] in Hr.
    destruct (t =? 1) eqn:Et.
    + apply Z.eqb_eq in Et. subst t.
      destruct (reference_at None ts xs i) as [r'|] eqn:Er'.
      * rewrite (reference_at_from_None i ts xs r' Er') in Hr.
        injection Hr as <-.
        destruct (IH ts xs r' Er') as (i' & x' & Hi' & Ht' & Hx' & Hs).
        exists (S i'), x'. repeat split; try assumption. lia.
      * exists 0%nat, x. split; [lia|]. split; [reflexivity|].
        split; [reflexivity|].
        clear IH. revert ts xs Hr Er'.
        induction i as [|i IHi]; intros ts xs Hr Er'.
        -- rewrite reference_at_0 in Hr. exact Hr.
        -- destruct ts as [|t' ts]; [discriminate Hr|].
           destruct xs as [|x' xs]; [discriminate Hr|].
           cbn [reference_at] in Hr, Er'.
           destruct (t' =? 1).
           ++ rewrite Er' in Hr. discriminate Hr.
           ++ exact (IHi ts xs Hr Er').
    + destruct (IH ts xs r Hr) as (i' & x' & Hi' & Ht' & Hx' & Hs).
      exists (S i'), x'. repeat split; try assumption. lia.
Qed.

Lemma dataset_labels (lc : long_constants) (a : args)
    (perms : list (list nat)) (d : list nat) (ds : dataset)
    (rest : list nat) :
  create_separate_input_data lc a perms d = Ok ds rest ->
  forall sd : seq_data,
    In sd (all_sequences ds) ->
    (forall (i : nat) (x : list Z),
       nth_error (sd_trialTypeInputs sd) i = Some 1 ->
       nth_error (sd_input sd) i = Some x ->
       exists j,
         decode x = Done j /\
         nth_error (sd_target sd) i
         = Some (Some (match reference_at None (sd_trialTypeInputs sd)
                                          (sd_input sd) i with
                       | Some r => claimed_label (train_long a) j r
                       | None => LNaN
                       end))) /\
    (forall (i : nat) (row : list Z),
       nth_error (sd_refValues sd) i = Some row ->
       match reference_at None (sd_trialTypeInputs sd) (sd_input sd) i with
       | Some r => turn_one_hot r Const.TOTALMAXNUM = Some row
       | None => row = zeros Const.TOTALMAXNUM
       end).
Proof.
  intros Hgen. rewrite <- Forall_forall.
  refine (create_separate_input_data_Forall a _ _ lc perms d ds rest Hgen).
  intros ph dist first permorder v d0 sd0 v' first' rest0 _ Hseq.
  split.
  - exact (gen_sequence_labels _ _ _ _ _ _ _ _ _ _ _ Hseq).
  - exact (proj1 (gen_sequence_stores _ _ _ _ _ _ _ _ _ _ _ Hseq)).
Qed.

Lemma stimulus_decodes (x : list Z) :
  is_stimulus x ->
  exists j, 1 <= j <= Z.of_nat Const.TOTALMAXNUM /\
            turn_one_hot j Const.TOTALMAXNUM = Some x /\
            decode x = Done j.
Proof.
  intros (j & Hj & Hx). exists j. split; [exact Hj|]. split; [exact Hx|].
  exact (decode_one_hot j _ x Hj Hx).
Qed.

Lemma view_trial_consistent (trainset_loop train_long : bool) (j c : Z)
    (reference : option Z) :
  1 <= j <= 8 ->
  (forall r, reference = Some r -> 1 <= r <= 8) ->
  c = turn_index_to_context j ->
  forall (jrow rrow crow : list Z),
    read_row 0 0 jrow = j ->
    read_row 0 0 rrow = match reference with Some r => r | None => 0 end ->
    read_row 0 (-1) crow = c ->
    view_trial trainset_loop train_long jrow rrow
               (match reference with
                | Some r => claimed_label train_long j r
                | None => LNaN
                end) crow
    = no_complaint.
Proof.
  intros Hj Hr Hc jrow rrow crow Hjrow Hrrow Hcrow.
  unfold view_trial. rewrite Hjrow, Hrrow, Hcrow. clear Hjrow Hrrow Hcrow.
  change Const.LOWR_ULIM with 4. change Const.HIGHR_LLIM with 5.
  assert (Hctx : ((j <=? 4) && (c =? 2) || (j >=? 5) && (c =? 1)) = false).
  { subst c. rewrite Z.geb_leb.
    destruct (turn_index_to_context_cases j) as [[Hle ->]|[Hge ->]];
      destruct (Z.leb_spec j 4); destruct (Z.leb_spec 5 j);
      try lia; reflexivity. }
  rewrite Hctx. cbn [andb].
  destruct reference as [r|].
  - specialize (Hr r eq_refl). unfold claimed_label.
    rewrite !Z.geb_leb, !Z.gtb_ltb.
    destruct train_long; cbn [negb andb];
      destruct (Z.leb_spec j 4); destruct (Z.leb_spec 5 r);
      destruct (Z.leb_spec 5 j); destruct (Z.leb_spec r 4);
      destruct (Z.ltb_spec r j); destruct (Z.ltb_spec j r);
      cbn [andb orb label_eqb Z.eqb Pos.eqb negb];
      try reflexivity; try lia;
      rewrite ?andb_false_r, ?andb_true_r, ?orb_false_r; cbn;
      try reflexivity; try lia.
    all: destruct trainset_loop; reflexivity.
  - cbn [label_eqb]. rewrite !andb_false_r. cbn [orb andb].
    destruct trainset_loop; cbn [andb orb]; rewrite ?andb_false_r;
      reflexivity.
Qed.

(** X20. The inspection finds nothing wrong at a compare trial: for every
    sequence of a generated data set and every compare trial of it,
    neither the training-set loop nor the test-set loop of
    [view_dataset_index_info] prints a complaint after the trial's line. *)
Theorem view_accepts_compare_trials (lc : long_constants) (a : args)
    (perms : list (list nat)) (d : list nat) (ds : dataset)
    (rest : list nat) :
  create_separate_input_data lc a perms d = Ok ds rest ->
  forall sd : seq_data,
    In sd (all_sequences ds) ->
    forall (i : nat) (jrow rrow : list Z) (lab : label) (c : Z)
           (crow : list Z) (trainset_loop : bool),
      nth_error (sd_trialTypeInputs sd) i = Some 1 ->
      nth_error (sd_judgementValues sd) i = Some jrow ->
      nth_error (sd_refValues sd) i = Some rrow ->
      nth_error (sd_target sd) i = Some (Some lab) ->
      nth_error (sd_contextdigits sd) i = Some c ->
      turn_one_hot c Const.NCONTEXTS = Some crow ->
      view_trial trainset_loop (train_long a) jrow rrow lab crow
      = no_complaint.
Proof.
  intros Hgen sd Hin i jrow rrow lab c crow loop Ht Hjrow Hrrow Hlab Hc Hcrow.
  destruct (dataset_seq_shape _ _ _ _ _ _ Hgen sd Hin)
    as (Hshape & Hstim & Hjv).
  destruct (dataset_labels _ _ _ _ _ _ Hgen sd Hin) as [Hlabels Hrefs].
  destruct (dataset_in_some_block _ _ _ _ _ _ Hgen sd Hin) as [k Hsd].
  rewrite Hjv in Hjrow.
  destruct Hshape as (Hl1 & Hl2 & Hl3 & _ & _ & _ & Hl7 & _).
  assert (Hi : (i < BPTT_len a)%nat)
    by (rewrite <- Hl7; apply nth_error_Some; congruence).
  destruct (nth_error (sd_contextinputs sd) i) as [ci|] eqn:Eci;
    [|apply nth_error_None in Eci; lia].
  destruct (Hsd i 1 jrow c ci Ht Hjrow Hc Eci) as (H12 & _ & Hcmp & _).
  destruct (Hcmp eq_refl) as (j & Hj & Hjin & Hcj).
  pose proof (proj1 (Forall_forall _ _) (dist_of_in_range k) j Hjin) as Hjr.
  destruct (stimulus_decodes jrow
              (proj1 (Forall_forall _ _) Hstim jrow (nth_error_In _ _ Hjrow)))
    as (j' & Hj'r & Hj'oh & Hj'd).
  assert (j' = j) by congruence. subst j'.
  destruct (Hlabels i jrow Ht Hjrow) as (j' & Hj'' & Htarget).
  assert (j' = j) by congruence. subst j'.
  rewrite Hlab in Htarget. injection Htarget as ->.
  specialize (Hrefs i rrow Hrrow).
  change (Z.of_nat Const.TOTALMAXNUM) with 8 in Hjr.
  apply (view_trial_consistent loop (train_long a) j c
           (reference_at None (sd_trialTypeInputs sd) (sd_input sd) i)
           Hjr); [|exact Hcj| | |].
  - intros r Hr.
    destruct (reference_is_earlier_compare _ _ _ _ Hr)
      as (i' & x' & _ & _ & Hx' & Hs).
    destruct (stimulus_decodes x'
                (proj1 (Forall_forall _ _) Hstim x' (nth_error_In _ _ Hx')))
      as (r' & Hr'r & _ & Hr'd).
    rewrite (decode_Done _ _ Hr'd) in Hs. injection Hs as <-. exact Hr'r.
  - exact (read_row_one_hot j Const.TOTALMAXNUM 0 jrow (Nat.le_refl 8)
             Hjr Hj'oh).
  - destruct (reference_at None (sd_trialTypeInputs sd) (sd_input sd) i)
      as [r|] eqn:Er.
    + destruct (reference_is_earlier_compare _ _ _ _ Er)
        as (i' & x' & _ & _ & Hx' & Hs).
      destruct (stimulus_decodes x'
                  (proj1 (Forall_forall _ _) Hstim x' (nth_error_In _ _ Hx')))
        as (r' & Hr'r & _ & Hr'd).
      rewrite (decode_Done _ _ Hr'd) in Hs. injection Hs as <-.
      exact (read_row_one_hot r' Const.TOTALMAXNUM 0 rrow (Nat.le_refl 8)
               Hr'r Hrefs).
    + rewrite Hrefs. apply read_row_zeros.
  - apply (read_row_one_hot c Const.NCONTEXTS (-1) crow);
      [change Const.NCONTEXTS with 2%nat; lia | | exact Hcrow].
    change (Z.of_nat Const.NCONTEXTS) with 2. lia.
Qed.

Lemma view_accepts_compare_trials_witness :
  exists ds rest sd,
    create_separate_input_data small_long_constants long_args
                               long_permutations long_draws = Ok ds rest /\
    In sd (all_sequences ds) /\
    nth_error (sd_trialTypeInputs sd) 1 = Some 1 /\
    nth_error (sd_judgementValues sd) 1 = Some [0; 0; 0; 1; 0; 0; 0; 0] /\
    nth_error (sd_refValues sd) 1 = Some [0; 0; 0; 0; 1; 0; 0; 0] /\
    nth_error (sd_target sd) 1 = Some (Some (LNum 0)) /\
    nth_error (sd_contextdigits sd) 1 = Some 1 /\
    turn_one_hot 1 Const.NCONTEXTS = Some [1; 0] /\
    view_trial true (train_long long_args) [0; 0; 0; 1; 0; 0; 0; 0]
               [0; 0; 0; 0; 1; 0; 0; 0] (LNum 0) [1; 0] = no_complaint.
Proof.
  destruct long_run_sample
    as (ds & rest & sd & Hgen & Hin & Ht & _ & Hc & _ & Hlab & Hj & Hr).
  assert (Hall : In sd (all_sequences ds))
    by (unfold all_sequences; apply in_or_app; left; exact Hin).
  exists ds, rest, sd.
  split; [exact Hgen|]. split; [exact Hall|]. split; [exact Ht|].
  split; [exact Hj|]. split; [exact Hr|]. split; [exact Hlab|].
  split; [exact Hc|]. split; [reflexivity|].
  exact (view_accepts_compare_trials _ _ _ _ _ _ Hgen sd Hall 1%nat _ _ _ _ _
           true Ht Hj Hr Hlab Hc eq_refl).
Defined.

(** ** Generated data in the train and evaluate loops *)

Section PermLifting.

Variable a : args.
Variable P : seq_data -> Prop.
Hypothesis Hseq :
  forall ph dist first permorder v d sd v' first' rest,
    in_stimulus_range dist ->
    Permutation permorder (seq 0 30) ->
    gen_sequence a ph dist first permorder v d = Ok (sd, v', first') rest ->
    P sd.

Local Abbreviation permutations :=
  (Forall (fun p : list nat => Permutation p (seq 0 30))).

Lemma gen_samples_perm (ph : phase) (dist : list Z) :
  in_stimulus_range dist ->
  forall n first perms v d sds perms' v' rest,
    permutations perms ->
    gen_samples a ph dist n first perms v d = Ok (sds, perms', v') rest ->
    Forall P sds /\ permutations perms'.
Proof.
  intros Hdist.
  induction n as [|n IH]; intros first perms v d sds perms' v' rest Hp Hgen.
  - cbn [gen_samples] in Hgen. apply ret_Ok in Hgen.
    destruct Hgen as [Hgen _]. injection Hgen as <- <- _.
    split; [constructor | exact Hp].
  - cbn [gen_samples] in Hgen.
    destruct perms as [|permorder perms0]; [discriminate|].
    inversion Hp as [|? ? Hp0 Hps]; subst.
    apply bind_Ok in Hgen. destruct Hgen as ([[sd v1] f1] & d1 & Hs & Hgen).
    apply bind_Ok in Hgen. destruct Hgen as ([[sds0 p0] v2] & d2 & Hr & Hgen).
    apply ret_Ok in Hgen. destruct Hgen as [Hgen _].
    injection Hgen as <- <- _.
    destruct (IH _ _ _ _ _ _ _ _ Hps Hr) as [Hall Hp'].
    split; [|exact Hp'].
    constructor; [apply (Hseq _ _ _ _ _ _ _ _ _ _ Hdist Hp0 Hs) | exact Hall].
Qed.

Lemma gen_blocks_perm (ph : phase) (Mblocks : Z) (nsamples : nat) :
  forall n block perms bv d blocks perms' bv' rest,
    range_ok bv ->
    permutations perms ->
    gen_blocks a ph Mblocks nsamples n block perms bv d
    = Ok (blocks, perms', bv') rest ->
    Forall (Forall P) blocks /\ range_ok bv' /\ permutations perms'.
Proof.
  induction n as [|n IH];
    intros block perms bv d blocks perms' bv' rest Hbv Hp Hgen.
  - cbn [gen_blocks] in Hgen. apply ret_Ok in Hgen.
    destruct Hgen as [Hgen _]. injection Hgen as <- <- <-.
    split; [constructor | split; assumption].
  - cbn [gen_blocks] in Hgen.
    pose proof (block_setup_range_ok a ph Mblocks block bv Hbv) as Hbv1.
    apply bind_Ok in Hgen. destruct Hgen as (dist & d1 & Hd & Hgen).
    apply lift_result_Ok in Hd. destruct Hd as [Hd _].
    pose proof (randNumDistribution_in_range _ _ _ _ Hbv1 Hd) as Hdist.
    apply bind_Ok in Hgen. destruct Hgen as ([[sds p1] v1] & d2 & Hs & Hgen).
    apply bind_Ok in Hgen. destruct Hgen as ([[bl p2] bv3] & d3 & Hr & Hgen).
    apply ret_Ok in Hgen. destruct Hgen as [Hgen _].
    injection Hgen as <- <- <-.
    destruct (gen_samples_perm ph dist Hdist _ _ _ _ _ _ _ _ _ Hp Hs)
      as [Hsds Hp1].
    assert (Hbv2 : range_ok
                     {| bv_vars := v1;
                        minNumerosity :=
                          minNumerosity (block_setup a ph Mblocks block bv);
                        maxNumerosity :=
                          maxNumerosity (block_setup a ph Mblocks block bv) |})
      by (intros lo hi Hmin Hmax; apply (Hbv1 lo hi); assumption).
    destruct (IH _ _ _ _ _ _ _ _ Hbv2 Hp1 Hr) as (Hall & Hbv3 & Hp2).
    split; [constructor; assumption | split; assumption].
Qed.

Lemma gen_phase_perm (ph : phase) (N Mblocks : Z) :
  forall perms bv d sds perms' bv' rest,
    range_ok bv ->
    permutations perms ->
    gen_phase a ph N Mblocks perms bv d = Ok (sds, perms', bv') rest ->
    Forall P sds /\ range_ok bv' /\ permutations perms'.
Proof.
  intros perms bv d sds perms' bv' rest Hbv Hp Hgen. unfold gen_phase in Hgen.
  apply bind_Ok in Hgen. destruct Hgen as (k & d1 & _ & Hgen).
  apply bind_Ok in Hgen. destruct Hgen as ([[bl p1] bv1] & d2 & Hb & Hgen).
  apply ret_Ok in Hgen. destruct Hgen as [Hgen _].
  injection Hgen as <- <- <-.
  destruct (gen_blocks_perm _ _ _ _ _ _ _ _ _ _ _ _ Hbv Hp Hb)
    as (Hall & Hbv1 & Hp1).
  split; [apply Forall_concat; exact Hall | split; assumption].
Qed.

Lemma create_separate_input_data_perm (lc : long_constants)
    (perms : list (list nat)) (d : list nat) (ds : dataset) (rest : list nat) :
  permutations perms ->
  create_separate_input_data lc a perms d = Ok ds rest ->
  Forall P (all_sequences ds).
Proof.
  intros Hp Hgen. unfold create_separate_input_data in Hgen.
  assert (Hunbound : range_ok unbound) by (intros lo hi Hmin; discriminate).
  apply bind_Ok in Hgen. destruct Hgen as ([[tr p1] bv1] & d1 & Htr & Hgen).
  destruct (gen_phase_perm _ _ _ _ _ _ _ _ _ _ Hunbound Hp Htr)
    as (Hp1 & Hbv1 & Hq1).
  apply bind_Ok in Hgen. destruct Hgen as ([[te p2] bv2] & d2 & Hte & Hgen).
  destruct (gen_phase_perm _ _ _ _ _ _ _ _ _ _ Hbv1 Hq1 Hte)
    as (Hp2 & Hbv2 & Hq2).
  apply bind_Ok in Hgen. destruct Hgen as ([[cv p3] bv3] & d3 & Hcv & Hgen).
  destruct (gen_phase_perm _ _ _ _ _ _ _ _ _ _ Hbv2 Hq2 Hcv) as (Hp3 & _).
  apply ret_Ok in Hgen. destruct Hgen as [<- _].
  unfold all_sequences. cbn [trainset testset crossval_testset].
  apply Forall_app; split; [|apply Forall_app; split]; assumption.
Qed.

End PermLifting.

Lemma gen_sequence_trial_types (a : args) (ph : phase) (dist : list Z)
    (first : bool) (permorder : list nat) (v : vars) (d : list nat)
    (sd : seq_data) (v' : vars) (first' : bool) (rest : list nat) :
  in_stimulus_range dist ->
  Permutation permorder (seq 0 30) ->
  gen_sequence a ph dist first permorder v d = Ok (sd, v', first') rest ->
  exists ts,
    sd_trialTypeInputs sd = map trialtype_flag ts /\
    hd_error ts = Some compare /\
    n_compare ts = if include_fillers a then 30%nat else 120%nat.
Proof.
  intros _ Hperm Hgen.
  destruct (gen_sequence_inv _ _ _ _ _ _ _ _ _ _ _ Hgen)
    as (ts & items & v1 & d1 & rows & Hts & _ & _ & _ & ->).
  destruct (generate_trial_sequence_facts (include_fillers a) permorder Hperm)
    as (ts' & Hts' & _ & Hhd & Hn).
  rewrite Hts in Hts'. injection Hts' as <-.
  exists ts. cbn [sd_trialTypeInputs]. repeat split; assumption.
Qed.

Lemma reference_after_first :
  forall (i : nat) (ts : list Z) (xs : list (list Z)),
    nth_error ts 0 = Some 1 ->
    (0 < i)%nat ->
    (i <= length ts)%nat ->
    (i <= length xs)%nat ->
    Forall is_stimulus xs ->
    exists r, reference_at None ts xs i = Some r.
Proof.
  assert (Hgen : forall (i : nat) (ts : list Z) (xs : list (list Z)) (r0 : Z),
             (i <= length ts)%nat -> (i <= length xs)%nat ->
             Forall is_stimulus xs ->
             exists r, reference_at (Some r0) ts xs i = Some r).
  { induction i as [|i IH]; intros ts xs r0 Hts Hxs Hall.
    - exists r0. apply reference_at_0.
    - destruct ts as [|t ts]; [cbn [length] in Hts; lia|].
      destruct xs as [|x xs]; [cbn [length] in Hxs; lia|].
      cbn [length] in Hts, Hxs. inversion Hall as [|? ? Hx Hrest]; subst.
      cbn [reference_at].
      destruct (stimulus_decodes x Hx) as (j & _ & _ & Hd).
      rewrite (decode_Done _ _ Hd).
      destruct (t =? 1); apply IH; try lia; exact Hrest. }
  intros i ts xs H0 Hi Hts Hxs Hall.
  destruct i as [|i]; [lia|].
  destruct ts as [|t ts]; [discriminate H0|].
  destruct xs as [|x xs]; [cbn [length] in Hxs; lia|].
  cbn [nth_error] in H0. injection H0 as ->.
  cbn [length] in Hts, Hxs. inversion Hall as [|? ? Hx Hrest]; subst.
  cbn [reference_at Z.eqb Pos.eqb].
  destruct (stimulus_decodes x Hx) as (j & _ & _ & Hd).
  rewrite (decode_Done _ _ Hd).
  apply Hgen; try lia; exact Hrest.
Qed.

Lemma nth_error_positions_of (uninitialised : nat -> label) (sd : seq_data)
    (i : nat) :
  (i < length (sd_input sd))%nat ->
  exists p,
    nth_error (positions_of uninitialised sd) i = Some p /\
    p_input p = nth i (sd_input sd) [] /\
    p_trialtype p = nth i (sd_trialTypeInputs sd) 0 /\
    p_label p = match nth i (sd_target sd) None with
                | Some l => l
                | None => uninitialised i
                end.
Proof.
  intros Hi. unfold positions_of.
  rewrite nth_error_map, nth_error_seq.
  destruct (Nat.ltb_spec i (length (sd_input sd))) as [_|Hc]; [|lia].
  cbn [option_map Nat.add]. eexists. split; [reflexivity|].
  repeat split; reflexivity.
Qed.

Lemma same_range_is_labelled (train_long : bool) (k : block_kind) (j r : Z) :
  train_long = true \/ k = low_block \/ k = high_block ->
  In j (dist_of k) -> In r (dist_of k) ->
  exists z, claimed_label train_long j r = LNum z.
Proof.
  intros Hk Hj Hr. unfold claimed_label.
  destruct Hk as [-> | Hk].
  - cbn [negb andb]. destruct (j >? r); eexists; reflexivity.
  - assert (Hsame : ((j <=? 4) && (r >=? 5) || (j >=? 5) && (r <=? 4))
                    = false).
    { rewrite !Z.geb_leb.
      destruct Hk as [-> | ->]; vm_compute dist_of in Hj, Hr;
        cbn [In] in Hj, Hr;
        destruct (Z.leb_spec j 4); destruct (Z.leb_spec 5 r);
        destruct (Z.leb_spec 5 j); destruct (Z.leb_spec r 4);
        try reflexivity; exfalso; lia. }
    rewrite Hsame, andb_false_r. destruct (j >? r); eexists; reflexivity.
Qed.

Lemma test_steps_succeeds {W H O : Type} (forward : W -> list Z -> H -> O * H)
    (exceeds_half : O -> bool) (criterion : O -> label -> Q)
    (add_noise : nat -> H -> H) (w : W) (L : nat) :
  forall (ps : list position) (idx : nat) (st : test_acc H),
    Forall (fun p => is_stimulus (p_input p)) ps ->
    exists st' : test_acc H,
      test_steps forward exceeds_half criterion add_noise w L idx
                 (test_inputs ps) ps st = Done st'.
Proof.
  induction ps as [|p ps IH]; intros idx st Hall.
  - exists st. reflexivity.
  - inversion Hall as [|? ? Hp Hrest]; subst.
    cbn [test_inputs map test_steps]. fold (test_inputs ps).
    destruct (forward w (p_input p ++ context_in p ++ [p_trialtype p])
                      (add_noise (t_noise st) (t_hidden st)))
      as [output hidden].
    assert (Hones : ones_from 0 (firstn Const.TOTALMAXNUM
                                        (p_input p ++ context_in p
                                         ++ [p_trialtype p])) <> []).
    { destruct Hp as (j & Hj & Hoh).
      remember (p_input p) as x eqn:Ex. clear Ex.
      change (Z.of_nat Const.TOTALMAXNUM) with 8 in Hj.
      assert (Hj' : j = 1 \/ j = 2 \/ j = 3 \/ j = 4 \/ j = 5 \/ j = 6
                    \/ j = 7 \/ j = 8) by lia.
      repeat (destruct Hj' as [-> | Hj']; [| ]); try subst j;
        vm_compute in Hoh; injection Hoh as <-;
        cbn; intro Hc; discriminate Hc. }
    destruct (qualifies p).
    + destruct (ones_from 0 (firstn Const.TOTALMAXNUM
                                    (p_input p ++ context_in p
                                     ++ [p_trialtype p])));
        [contradiction|].
      apply IH. exact Hrest.
    + apply IH. exact Hrest.
Qed.

Lemma positions_of_stimuli (uninitialised : nat -> label) (sd : seq_data) :
  Forall is_stimulus (sd_input sd) ->
  Forall (fun p => is_stimulus (p_input p)) (positions_of uninitialised sd).
Proof.
  intros Hall. unfold positions_of. apply Forall_map, Forall_forall.
  intros i Hi. apply in_seq in Hi.
  change (is_stimulus (nth i (sd_input sd) [])).
  apply (proj1 (Forall_forall _ _) Hall). apply nth_In. lia.
Qed.

Lemma qualifying_length {O : Type} (ps : list position) :
  forall outs : list O,
    length outs = length ps ->
    length (qualifying outs ps) = length (filter qualifies ps).
Proof.
  induction ps as [|p ps IH]; intros outs Hlen.
  - destruct outs; [reflexivity | discriminate].
  - destruct outs as [|o outs]; [discriminate|]. injection Hlen as Hlen.
    unfold qualifying. cbn [combine filter snd].
    fold (qualifying outs ps).
    destruct (qualifies p); cbn [length]; rewrite (IH outs Hlen); reflexivity.
Qed.

Lemma filter_length_pointwise {A B : Type} (q : A -> bool) (r : B -> bool) :
  forall (l : list A) (l' : list B),
    length l = length l' ->
    (forall i x y, nth_error l i = Some x -> nth_error l' i = Some y ->
                   q x = r y) ->
    length (filter q l) = length (filter r l').
Proof.
  induction l as [|x l IH]; intros l' Hlen Hpt.
  - destruct l'; [reflexivity | discriminate].
  - destruct l' as [|y l']; [discriminate|]. injection Hlen as Hlen.
    cbn [filter]. rewrite (Hpt 0%nat x y eq_refl eq_refl).
    assert (Hrec : length (filter q l) = length (filter r l')).
    { apply IH; [exact Hlen|]. intros i x' y' Hx Hy.
      exact (Hpt (S i) x' y' Hx Hy). }
    destruct (r y); cbn [length]; rewrite Hrec; reflexivity.
Qed.

Lemma sequence_block_kind (lc : long_constants) (a : args)
    (perms : list (list nat)) (d : list nat) (ds : dataset)
    (rest : list nat) (sd : seq_data) :
  create_separate_input_data lc a perms d = Ok ds rest ->
  In sd (all_sequences ds) ->
  train_long a = true \/ (all_fullrange a = false /\ In sd (trainset ds)) ->
  exists k,
    seq_in_block (label_context a) k sd /\
    (train_long a = true \/ k = low_block \/ k = high_block).
Proof.
  intros Hgen Hall Hkind.
  destruct (train_long a) eqn:Elong.
  - destruct (dataset_in_some_block _ _ _ _ _ _ Hgen sd Hall) as [k Hk].
    exists k. split; [exact Hk | left; reflexivity].
  - destruct Hkind as [Hc | [Hfull Hin]]; [discriminate Hc|].
    destruct (dataset_in_blocks _ _ _ _ _ _ Hgen) as [Htr _].
    destruct (In_nth_error _ _ Hin) as [s Hs].
    destruct (Htr s sd Hs) as (k & Hk & Hsd).
    exists k. split; [exact Hsd | right].
    cbn [kind_of_block] in Hk. rewrite Elong, Hfull in Hk.
    destruct (which_context a =? 0).
    + destruct (Z.of_nat Const.NCONTEXTS * _ <? _);
        [injection Hk as <-; left; reflexivity|].
      destruct (_ <? _); [injection Hk as <-; right; reflexivity|].
      discriminate Hk.
    + destruct (which_context a =? 1);
        [injection Hk as <-; left; reflexivity|].
      destruct (which_context a =? 2);
        [injection Hk as <-; right; reflexivity | discriminate Hk].
Qed.

(** Which trials of a generated sequence the loops count: every compare
    trial but the first. *)
Lemma labelled_trials (lc : long_constants) (a : args)
    (perms : list (list nat)) (d : list nat) (ds : dataset)
    (rest : list nat) (uninitialised : nat -> label) (sd : seq_data) :
  create_separate_input_data lc a perms d = Ok ds rest ->
  In sd (all_sequences ds) ->
  train_long a = true \/ (all_fullrange a = false /\ In sd (trainset ds)) ->
  nth_error (sd_trialTypeInputs sd) 0 = Some 1 ->
  forall (i : nat) (p : position) (t : Z),
    nth_error (positions_of uninitialised sd) i = Some p ->
    nth_error (sd_trialTypeInputs sd) i = Some t ->
    qualifies p = (negb (i =? 0)%nat && (t =? 1)).
Proof.
  intros Hgen Hall Hkind H0 i p t Hp Ht.
  destruct (sequence_block_kind _ _ _ _ _ _ _ Hgen Hall Hkind)
    as (k & Hsd & Hk').
  destruct (dataset_seq_shape _ _ _ _ _ _ Hgen sd Hall)
    as ((Hl1 & Hl2 & Hl3 & Hl4 & _ & _ & Hl7 & _) & Hstim & _).
  destruct (dataset_labels _ _ _ _ _ _ Hgen sd Hall) as [Hlabels _].
  assert (Hfacts : forall i' : nat,
             nth_error (sd_trialTypeInputs sd) i' = Some 1 ->
             exists x j, nth_error (sd_input sd) i' = Some x /\
                         decode x = Done j /\ In j (dist_of k)).
  { intros i' Hti'.
    assert (Hi' : (i' < BPTT_len a)%nat)
      by (rewrite <- Hl7; apply nth_error_Some; congruence).
    destruct (nth_error (sd_input sd) i') as [x|] eqn:Ex;
      [|apply nth_error_None in Ex; lia].
    destruct (nth_error (sd_contextdigits sd) i') as [c|] eqn:Ec;
      [|apply nth_error_None in Ec; lia].
    destruct (nth_error (sd_contextinputs sd) i') as [ci|] eqn:Eci;
      [|apply nth_error_None in Eci; lia].
    destruct (Hsd i' 1 x c ci Hti' Ex Ec Eci) as (_ & _ & Hcmp & _).
    destruct (Hcmp eq_refl) as (j & Hj & Hjin & _).
    exists x, j. repeat split; assumption. }
  assert (Hilen : (i < BPTT_len a)%nat)
    by (rewrite <- Hl7; apply nth_error_Some; congruence).
  destruct (nth_error_positions_of uninitialised sd i ltac:(lia))
    as (p' & Hp' & _ & Hpt & Hpl).
  rewrite Hp in Hp'. injection Hp' as <-.
  rewrite (nth_error_nth _ _ 0 Ht) in Hpt.
  unfold qualifies. rewrite Hpt.
  destruct (Z.eqb_spec t 1) as [-> | Hne];
    [|rewrite !andb_false_r; reflexivity].
  rewrite !andb_true_r.
  destruct (Hfacts i Ht) as (x & j & Hx & Hj & Hjin).
  destruct (Hlabels i x Ht Hx) as (j' & Hj' & Htarget).
  assert (j' = j) by congruence. subst j'.
  destruct i as [|i].
  - rewrite reference_at_0 in Htarget.
    rewrite (nth_error_nth _ _ None Htarget) in Hpl. rewrite Hpl.
    reflexivity.
  - destruct (reference_after_first (S i) (sd_trialTypeInputs sd)
                (sd_input sd) H0 ltac:(lia) ltac:(lia) ltac:(lia) Hstim)
      as [r Hr].
    destruct (reference_is_earlier_compare _ _ _ _ Hr)
      as (i' & x' & _ & Hti' & Hx' & Hs').
    destruct (Hfacts i' Hti') as (x'' & r' & Hx'' & Hr' & Hrin).
    assert (x'' = x') by congruence. subst x''.
    rewrite (decode_Done _ _ Hr') in Hs'. injection Hs' as ->.
    rewrite Hr in Htarget.
    destruct (same_range_is_labelled (train_long a) k j r Hk' Hjin Hrin)
      as [z Hz].
    rewrite Hz in Htarget.
    rewrite (nth_error_nth _ _ None Htarget) in Hpl. rewrite Hpl.
    reflexivity.
Qed.

Lemma labelled_trials_count (lc : long_constants) (a : args)
    (perms : list (list nat)) (d : list nat) (ds : dataset)
    (rest : list nat) (uninitialised : nat -> label) (sd : seq_data) :
  Forall (fun p => Permutation p (seq 0 30)) perms ->
  create_separate_input_data lc a perms d = Ok ds rest ->
  In sd (all_sequences ds) ->
  train_long a = true \/ (all_fullrange a = false /\ In sd (trainset ds)) ->
  length (filter qualifies (positions_of uninitialised sd))
  = if include_fillers a then 29%nat else 119%nat.
Proof.
  intros Hperms Hgen Hall Hkind.
  pose proof (create_separate_input_data_perm a _
                (gen_sequence_trial_types a) lc perms d ds rest Hperms Hgen)
    as Htypes.
  destruct (proj1 (Forall_forall _ _) Htypes sd Hall) as (ts & Hts & Hhd & Hn).
  destruct (dataset_seq_shape _ _ _ _ _ _ Hgen sd Hall)
    as ((Hl1 & _ & _ & _ & _ & _ & Hl7 & _) & _ & _).
  destruct ts as [|t0 ts']; [discriminate Hhd|].
  cbn [hd_error] in Hhd. injection Hhd as ->.
  assert (H0 : nth_error (sd_trialTypeInputs sd) 0 = Some 1)
    by (rewrite Hts; reflexivity).
  pose proof (labelled_trials _ _ _ _ _ _ uninitialised sd Hgen Hall Hkind H0)
    as Hq.
  assert (Hplen : length (positions_of uninitialised sd)
                  = length (compare :: ts')).
  { unfold positions_of. rewrite length_map, length_seq, Hl1, <- Hl7, Hts.
    apply length_map. }
  destruct (positions_of uninitialised sd) as [|p0 ps'] eqn:Eps;
    [discriminate Hplen|].
  cbn [length] in Hplen. injection Hplen as Hplen.
  cbn [filter].
  rewrite (Hq 0%nat p0 1 eq_refl H0). cbn [Nat.eqb negb andb].
  rewrite (filter_length_pointwise qualifies is_compare ps' ts' Hplen).
  - unfold n_compare in Hn. cbn [filter is_compare length] in Hn.
    destruct (include_fillers a); lia.
  - intros i x y Hx Hy.
    rewrite (Hq (S i) x (trialtype_flag y) Hx).
    + cbn [Nat.eqb negb andb]. destruct y; reflexivity.
    + rewrite Hts. cbn [map nth_error]. rewrite nth_error_map, Hy.
      reflexivity.
Qed.

Section GeneratedData.

Variables W H O : Type.
Variable forward : W -> list Z -> H -> O * H.
Variable exceeds_half : O -> bool.
Variable criterion : O -> label -> Q.
Variable zeros_hidden : H.
Variable add_noise : nat -> H -> H.
Variable optimizer_step : W -> list (list Z) -> H -> nat -> list position -> W.
Variable random_random : nat -> Q.

Lemma train_batch_counter (a : net_args) (st st' : train_state W H)
    (ps : list position) :
  train_batch forward exceeds_half criterion zeros_hidden add_noise
              optimizer_step random_random a st ps = Done st' ->
  ts_trials_counter st'
  = ts_trials_counter st + Z.of_nat (length (filter qualifies ps)).
Proof.
  intros Eb. unfold train_batch in Eb.
  pose proof (train_inputs_length random_random (retrain_decoder a)
                (train_lesion_freq a) ps true (ts_random st)) as Hxs.
  destruct (train_inputs random_random (retrain_decoder a)
              (train_lesion_freq a) ps true (ts_random st))
    as [[xs record] rc] eqn:Ein.
  cbn [fst] in Hxs.
  pose proof (train_steps_spec W H O forward exceeds_half criterion
                add_noise (ts_weights st) (length ps) xs ps 0
                {| a_hidden := train_start_hidden zeros_hidden a st;
                   a_latentstate := ts_latentstate st; a_loss := None;
                   a_correct := ts_correct st;
                   a_trials_counter := ts_trials_counter st;
                   a_all_trials_counter := ts_all_trials_counter st;
                   a_noise := ts_noise st |} Hxs) as Hspec.
  cbn zeta in Hspec.
  cbn [a_noise a_hidden a_loss a_correct a_trials_counter] in Hspec.
  destruct Hspec as (_ & _ & Ht & _).
  match type of Eb with
  | context [a_loss ?r] => destruct (a_loss r) as [loss|]
  end; [|discriminate].
  injection Eb as <-. cbn [ts_trials_counter].
  rewrite Ht, qualifying_length; [reflexivity|].
  rewrite length_map, forward_trace_length. exact Hxs.
Qed.

Lemma test_batch_counter (a : net_args) (w : W) (st st' : test_acc H)
    (ps : list position) :
  test_batch forward exceeds_half criterion zeros_hidden add_noise
             a w st ps = Done st' ->
  t_trials_counter st'
  = t_trials_counter st + Z.of_nat (length (filter qualifies ps)).
Proof.
  intros Eb. unfold test_batch in Eb.
  assert (Hxs : length (test_inputs ps) = length ps)
    by (unfold test_inputs; apply length_map).
  pose proof (test_steps_spec W H O forward exceeds_half criterion add_noise
                w (length ps) (test_inputs ps) ps 0 _ st' Hxs Eb) as Hspec.
  cbn zeta in Hspec.
  cbn [t_noise t_hidden t_test_loss t_correct t_trials_counter] in Hspec.
  destruct Hspec as (_ & _ & Ht & _).
  rewrite Ht, qualifying_length; [reflexivity|].
  rewrite length_map, forward_trace_length. exact Hxs.
Qed.

(** X21. The train loop never stops on a training sequence of a generated
    long-sequence or blocked data set, and it counts every compare trial of
    the sequence but the first: for every permutation numpy can return, the
    pass adds 29 to the trials counter with filler trials and 119 without,
    so the loss is a tensor when [loss.backward()] is called. *)
Theorem training_pass_succeeds (lc : long_constants) (a : args)
    (perms : list (list nat)) (d : list nat) (ds : dataset)
    (rest : list nat) (na : net_args) (st : train_state W H)
    (uninitialised : nat -> label) (sd : seq_data) :
  Forall (fun p => Permutation p (seq 0 30)) perms ->
  train_long a = true \/ all_fullrange a = false ->
  create_separate_input_data lc a perms d = Ok ds rest ->
  In sd (trainset ds) ->
  exists st' : train_state W H,
    train_batch forward exceeds_half criterion zeros_hidden add_noise
                optimizer_step random_random na st
                (positions_of uninitialised sd) = Done st' /\
    ts_trials_counter st'
    = ts_trials_counter st + (if include_fillers a then 29 else 119).
Proof.
  intros Hperms Hkind Hgen Hin.
  assert (Hall : In sd (all_sequences ds))
    by (unfold all_sequences; apply in_or_app; left; exact Hin).
  assert (Hkind' : train_long a = true
                   \/ (all_fullrange a = false /\ In sd (trainset ds)))
    by (destruct Hkind as [Hl | Hf]; [left | right; split]; assumption).
  pose proof (labelled_trials_count lc a perms d ds rest uninitialised sd
                Hperms Hgen Hall Hkind') as Hcount.
  pose proof (train_batch_outcome W H O forward exceeds_half criterion
                zeros_hidden add_noise optimizer_step random_random na st
                (positions_of uninitialised sd)) as Hout.
  destruct (existsb qualifies (positions_of uninitialised sd)) eqn:Ex.
  - destruct Hout as [st' Hrun]. exists st'. split; [exact Hrun|].
    rewrite (train_batch_counter na st st' _ Hrun), Hcount.
    destruct (include_fillers a); reflexivity.
  - exfalso.
    destruct (filter qualifies (positions_of uninitialised sd))
      as [|p l] eqn:Ef;
      [destruct (include_fillers a); discriminate Hcount|].
    assert (Hp : In p (filter qualifies (positions_of uninitialised sd)))
      by (rewrite Ef; left; reflexivity).
    apply filter_In in Hp.
    assert (Hc : existsb qualifies (positions_of uninitialised sd) = true)
      by (apply existsb_exists; exists p; exact Hp).
    congruence.
Qed.

(** X22. The evaluate loop never stops on a sequence of a generated data
    set: every stimulus is a one-hot code, so the line that reads the
    judged value of a labelled compare trial always finds its 1. *)
Theorem evaluation_pass_succeeds (lc : long_constants) (a : args)
    (perms : list (list nat)) (d : list nat) (ds : dataset)
    (rest : list nat) (na : net_args) (w : W) (st : test_acc H)
    (uninitialised : nat -> label) (sd : seq_data) :
  create_separate_input_data lc a perms d = Ok ds rest ->
  In sd (all_sequences ds) ->
  exists st' : test_acc H,
    test_batch forward exceeds_half criterion zeros_hidden add_noise
               na w st (positions_of uninitialised sd) = Done st'.
Proof.
  intros Hgen Hin.
  destruct (dataset_seq_shape _ _ _ _ _ _ Hgen sd Hin) as (_ & Hstim & _).
  unfold test_batch. apply test_steps_succeeds.
  apply positions_of_stimuli. exact Hstim.
Qed.

(** X26. The evaluate loop counts every compare trial but the first, on
    any sequence of a long-sequence data set and on the training sequences
    of a blocked one: the pass returns and adds 29 to the trials counter
    with filler trials, 119 without. *)
Theorem evaluation_counts_comparisons (lc : long_constants) (a : args)
    (perms : list (list nat)) (d : list nat) (ds : dataset)
    (rest : list nat) (na : net_args) (w : W) (st : test_acc H)
    (uninitialised : nat -> label) (sd : seq_data) :
  Forall (fun p => Permutation p (seq 0 30)) perms ->
  train_long a = true \/ (all_fullrange a = false /\ In sd (trainset ds)) ->
  create_separate_input_data lc a perms d = Ok ds rest ->
  In sd (all_sequences ds) ->
  exists st' : test_acc H,
    test_batch forward exceeds_half criterion zeros_hidden add_noise
               na w st (positions_of uninitialised sd) = Done st' /\
    t_trials_counter st'
    = t_trials_counter st + (if include_fillers a then 29 else 119).
Proof.
  intros Hperms Hkind Hgen Hall.
  destruct (dataset_seq_shape _ _ _ _ _ _ Hgen sd Hall) as (_ & Hstim & _).
  destruct (test_steps_succeeds forward exceeds_half criterion add_noise w
              (length (positions_of uninitialised sd))
              (positions_of uninitialised sd) 0
              {| t_hidden := test_start_hidden zeros_hidden na st;
                 t_latentstate := t_latentstate st;
                 t_aliased := retain_hidden_state na;
                 t_test_loss := t_test_loss st;
                 t_correct := t_correct st;
                 t_trials_counter := t_trials_counter st;
                 t_noise := t_noise st |}
              (positions_of_stimuli uninitialised sd Hstim)) as [st' Hrun].
  exists st'. split; [exact Hrun|].
  rewrite (test_batch_counter na w st st' _ Hrun).
  rewrite (labelled_trials_count lc a perms d ds rest uninitialised sd
             Hperms Hgen Hall Hkind).
  destruct (include_fillers a); reflexivity.
Qed.

End GeneratedData.

Lemma long_permutations_are_permutations :
  Forall (fun p => Permutation p (seq 0 30)) long_permutations.
Proof.
  apply Forall_forall. intros p Hp. apply repeat_spec in Hp. subst p.
  apply Permutation_refl.
Qed.

Lemma training_pass_succeeds_witness :
  exists ds rest sd,
    Forall (fun p => Permutation p (seq 0 30)) long_permutations /\
    (train_long long_args = true \/ all_fullrange long_args = false) /\
    create_separate_input_data small_long_constants long_args
                               long_permutations long_draws = Ok ds rest /\
    In sd (trainset ds) /\
    exists st',
      train_batch constant_forward (fun b : bool => b) (fun _ _ => 1%Q) tt
                  (fun _ h => h) (fun w _ _ _ _ => w) (fun _ => 0%Q)
                  retain_args (train_init tt tt 0 0)
                  (positions_of (fun _ => LNaN) sd) = Done st' /\
      ts_trials_counter st' = 119.
Proof.
  destruct long_run_sample as (ds & rest & sd & Hgen & Hin & _).
  exists ds, rest, sd.
  split; [exact long_permutations_are_permutations|].
  split; [left; reflexivity|]. split; [exact Hgen|]. split; [exact Hin|].
  exact (training_pass_succeeds unit unit bool constant_forward
           (fun b : bool => b) (fun _ _ => 1%Q) tt (fun _ h => h)
           (fun w _ _ _ _ => w) (fun _ => 0%Q)
           small_long_constants long_args long_permutations long_draws
           ds rest retain_args (train_init tt tt 0 0) (fun _ => LNaN) sd
           long_permutations_are_permutations (or_introl eq_refl) Hgen Hin).
Defined.

Lemma evaluation_pass_succeeds_witness :
  exists ds rest sd,
    create_separate_input_data small_long_constants long_filler_args
                               long_permutations filler_draws = Ok ds rest /\
    In sd (all_sequences ds) /\
    exists st',
      test_batch constant_forward (fun b : bool => b) (fun _ _ => 1%Q) tt
                 (fun _ h => h) retain_args tt (test_init tt 0)
                 (positions_of (fun _ => LNum 1) sd) = Done st'.
Proof.
  destruct filler_run_generates as (ds & rest & sd & Hgen & Hin & _).
  exists ds, rest, sd.
  split; [exact Hgen|]. split; [exact Hin|].
  exact (evaluation_pass_succeeds unit unit bool constant_forward
           (fun b : bool => b) (fun _ _ => 1%Q) tt (fun _ h => h)
           small_long_constants long_filler_args long_permutations
           filler_draws ds rest retain_args tt (test_init tt 0)
           (fun _ => LNum 1) sd Hgen Hin).
Defined.

Lemma evaluation_counts_comparisons_witness :
  exists ds rest sd,
    Forall (fun p => Permutation p (seq 0 30)) long_permutations /\
    (train_long long_filler_args = true
     \/ (all_fullrange long_filler_args = false /\ In sd (trainset ds))) /\
    create_separate_input_data small_long_constants long_filler_args
                               long_permutations filler_draws = Ok ds rest /\
    In sd (all_sequences ds) /\
    exists st',
      test_batch constant_forward (fun b : bool => b) (fun _ _ => 1%Q) tt
                 (fun _ h => h) retain_args tt (test_init tt 0)
                 (positions_of (fun _ => LNum 1) sd) = Done st' /\
      t_trials_counter st' = 29.
Proof.
  destruct filler_run_generates as (ds & rest & sd & Hgen & Hin & _).
  exists ds, rest, sd.
  split; [exact long_permutations_are_permutations|].
  split; [left; reflexivity|]. split; [exact Hgen|]. split; [exact Hin|].
  exact (evaluation_counts_comparisons unit unit bool constant_forward
           (fun b : bool => b) (fun _ _ => 1%Q) tt (fun _ h => h)
           small_long_constants long_filler_args long_permutations
           filler_draws ds rest retain_args tt (test_init tt 0)
           (fun _ => LNum 1) sd long_permutations_are_permutations
           (or_introl eq_refl) Hgen Hin).
Defined.

(** ** Configurations that yield no data set *)

Lemma gen_blocks_step (a : args) (ph : phase) (Mblocks : Z)
    (nsamples n : nat) (block : Z) (perms : list (list nat))
    (bv : block_vars) (d : list nat) :
  gen_blocks a ph Mblocks nsamples (S n) block perms bv d
  = bind (lift_result (randNumDistribution a ph
                         (block_setup a ph Mblocks block bv)))
      (fun dist =>
         bind (gen_samples a ph dist nsamples true perms
                 (bv_vars (block_setup a ph Mblocks block bv)))
           (fun x =>
              match x with
              | (sds, perms1, v1) =>
                  bind (gen_blocks a ph Mblocks nsamples n (block + 1) perms1
                          {| bv_vars := v1;
                             minNumerosity :=
                               minNumerosity
                                 (block_setup a ph Mblocks block bv);
                             maxNumerosity :=
                               maxNumerosity
                                 (block_setup a ph Mblocks block bv) |})
                    (fun y =>
                       match y with
                       | (rest, perms2, bv3) => ret (sds :: rest, perms2, bv3)
                       end)
              end)) d.
Proof. reflexivity. Qed.

Lemma gen_samples_step (a : args) (ph : phase) (dist : list Z) (n : nat)
    (first : bool) (permorder : list nat) (perms : list (list nat))
    (v : vars) (d : list nat) :
  gen_samples a ph dist (S n) first (permorder :: perms) v d
  = bind (gen_sequence a ph dist first permorder v)
      (fun x =>
         match x with
         | (sd, v', first') =>
             bind (gen_samples a ph dist n first' perms v')
               (fun y =>
                  match y with
                  | (sds, perms'', v'') => ret (sd :: sds, perms'', v'')
                  end)
         end) d.
Proof. reflexivity. Qed.

Lemma allocate_standard : allocate Const.NTRAIN Const.MBLOCKS = Done 120.
Proof. reflexivity. Qed.

(** X23. A which_context other than 0, 1 and 2, with blocked
    short-sequence training, binds no range in the first training block:
    the function stops with NameError (an unbound local) before it
    draws a number, whatever the generator holds. *)
Theorem unknown_context_is_unbound (lc : long_constants) (a : args)
    (perms : list (list nat)) (d : list nat) :
  train_long a = false ->
  all_fullrange a = false ->
  which_context a <> 0 -> which_context a <> 1 -> which_context a <> 2 ->
  create_separate_input_data lc a perms d = Raise NameError.
Proof.
  intros Hlong Hfull H0 H1 H2.
  apply Z.eqb_neq in H0, H1, H2.
  unfold create_separate_input_data, phase_N, phase_Mblocks.
  rewrite Hlong. cbn [negb].
  unfold bind at 1. unfold gen_phase at 1. unfold bind at 1.
  rewrite allocate_standard. cbn [lift_result ret].
  change (Z.to_nat Const.MBLOCKS) with (S 23).
  unfold bind at 1. rewrite gen_blocks_step.
  assert (Hsetup : block_setup a train Const.MBLOCKS 0 unbound = unbound).
  { unfold block_setup. rewrite Hlong, H0, H1, H2. reflexivity. }
  rewrite Hsetup.
  assert (Hdist : randNumDistribution a train unbound = Fail NameError).
  { unfold randNumDistribution. rewrite Hlong, Hfull. reflexivity. }
  rewrite Hdist. reflexivity.
Qed.

Lemma unknown_context_is_unbound_witness :
  create_separate_input_data small_long_constants
    {| which_context := 3; train_long := false; label_context := "true";
       all_fullrange := false; include_fillers := false; BPTT_len := 120 |}
    long_permutations long_draws
  = Raise NameError.
Proof.
  apply unknown_context_is_unbound; try reflexivity;
    cbn [which_context]; intro Hc; discriminate Hc.
Defined.

Lemma gen_contextinput_unknown (a : args) (v : vars) (d : list nat) :
  label_context a <> "true"%string ->
  label_context a <> "random"%string ->
  label_context a <> "constant"%string ->
  gen_contextinput a v d = Raise NameError.
Proof.
  intros Ht Hr Hc. unfold gen_contextinput.
  apply String.eqb_neq in Ht, Hr, Hc. rewrite Ht, Hr, Hc. reflexivity.
Qed.

Lemma gen_sequence_first_unknown (a : args) (ph : phase) (dist : list Z)
    (permorder : list nat) (v : vars) (d : list nat) (res : seq_data * vars * bool)
    (rest : list nat) :
  label_context a <> "true"%string ->
  label_context a <> "random"%string ->
  label_context a <> "constant"%string ->
  gen_sequence a ph dist true permorder v d <> Ok res rest.
Proof.
  intros Ht Hr Hc Hgen. unfold gen_sequence in Hgen.
  apply bind_Ok in Hgen. destruct Hgen as (ts & d0 & _ & Hgen).
  apply bind_Ok in Hgen. destruct Hgen as ([items v1] & d1 & Hitems & Hgen).
  destruct (BPTT_len a) as [|n] eqn:En.
  - cbn [gen_items] in Hitems. apply ret_Ok in Hitems.
    destruct Hitems as [Hitems _]. injection Hitems as <- _.
    apply bind_Ok in Hgen. destruct Hgen as (x & d2 & Hx & _).
    apply bind_Ok in Hx. destruct Hx as (lastin & d3 & Hlast & _).
    discriminate Hlast.
  - cbn [gen_items] in Hitems.
    apply bind_Ok in Hitems. destruct Hitems as (tt & d2 & _ & Hitems).
    apply bind_Ok in Hitems. destruct Hitems as (r0 & d3 & Hitem & _).
    unfold gen_item in Hitem.
    apply bind_Ok in Hitem. destruct Hitem as ([[i2 v2] pf] & d4 & _ & Hitem).
    apply bind_Ok in Hitem. destruct Hitem as (ci & d5 & Hci & _).
    rewrite (gen_contextinput_unknown a v2 d4 Ht Hr Hc) in Hci.
    discriminate Hci.
Qed.

(** X24. With a labelling policy other than "true", "random" and
    "constant" no data set is ever returned under short-sequence training:
    the first trial of the first sequence leaves [contextinput] unbound. *)
Theorem unknown_policy_yields_no_data (lc : long_constants) (a : args)
    (perms : list (list nat)) (d : list nat) (ds : dataset)
    (rest : list nat) :
  label_context a <> "true"%string ->
  label_context a <> "random"%string ->
  label_context a <> "constant"%string ->
  train_long a = false ->
  create_separate_input_data lc a perms d <> Ok ds rest.
Proof.
  intros Ht Hr Hc Hlong Hgen.
  unfold create_separate_input_data, phase_N, phase_Mblocks in Hgen.
  rewrite Hlong in Hgen. cbn [negb] in Hgen.
  apply bind_Ok in Hgen. destruct Hgen as ([[tr p1] bv1] & d1 & Htr & _).
  unfold gen_phase in Htr.
  apply bind_Ok in Htr. destruct Htr as (k & d2 & Hk & Htr).
  rewrite allocate_standard in Hk.
  apply ret_Ok in Hk. destruct Hk as [<- _].
  apply bind_Ok in Htr. destruct Htr as ([[bl p2] bv2] & d3 & Hb & _).
  change (Z.to_nat Const.MBLOCKS) with (S 23) in Hb.
  change (Z.to_nat 120) with (S 119) in Hb.
  rewrite gen_blocks_step in Hb.
  apply bind_Ok in Hb. destruct Hb as (dist & d4 & _ & Hb).
  apply bind_Ok in Hb. destruct Hb as ([[sds p3] v3] & d5 & Hs & _).
  destruct perms as [|permorder perms0]; [discriminate Hs|].
  rewrite gen_samples_step in Hs.
  apply bind_Ok in Hs. destruct Hs as (res & d6 & Hseq & _).
  exact (gen_sequence_first_unknown _ _ _ _ _ _ _ _ Ht Hr Hc Hseq).
Qed.

Lemma unknown_policy_yields_no_data_witness :
  create_separate_input_data small_long_constants
    {| which_context := 0; train_long := false; label_context := "none";
       all_fullrange := false; include_fillers := false; BPTT_len := 120 |}
    long_permutations long_draws
  <> Ok {| trainset := []; testset := []; crossval_testset := [] |} [] /\
  train_long
    {| which_context := 0; train_long := false; label_context := "none";
       all_fullrange := false; include_fillers := false; BPTT_len := 120 |}
  = false.
Proof.
  split; [|reflexivity].
  apply unknown_policy_yields_no_data; try reflexivity;
    cbn [label_context]; intro Hc; discriminate Hc.
Defined.

(** ** What an assessment records *)

Section Assessment.

Variables W H O : Type.
Variable forward : W -> list Z -> H -> O * H.
Variable exceeds_half : O -> bool.
Variable zeros_hidden : H.
Variable add_noise : nat -> H -> H.
Variable random_random : nat -> Q.

Lemma assess_assessed (whichLesion : string) (lesionFrequency : Q)
    (a : net_args) (w : W) (ps : list position) (assess_idx : nat)
    (v v' : lesion_vars H) (r : assessment) :
  assess forward exceeds_half zeros_hidden add_noise random_random
         whichLesion lesionFrequency a w ps assess_idx v
  = Done (v', Some r) ->
  exists (pa : position) (context : Z) (v1 : lesion_vars H) (hidden : H),
    nth_error ps assess_idx = Some pa /\
    p_trialtype pa = 1 /\
    assess_trial forward exceeds_half zeros_hidden add_noise random_random
                 whichLesion lesionFrequency a w ps assess_idx pa context v
    = Done (v1, hidden, r).
Proof.
  intros Hrun. unfold assess in Hrun.
  destruct (nth_error ps assess_idx) as [pa|] eqn:Hpa; [|discriminate].
  destruct (turn_one_hot_to_integer (p_context pa)) as [|context cs];
    [discriminate|].
  destruct ((p_trialtype pa =? 1) && (0 <? assess_idx)%nat) eqn:Ecmp.
  - apply andb_true_iff in Ecmp. destruct Ecmp as [Ett _].
    apply Z.eqb_eq in Ett.
    destruct (assess_trial forward exceeds_half zeros_hidden add_noise
                random_random whichLesion lesionFrequency a w ps assess_idx
                pa context v) as [[[v1 hidden] rec0]|e] eqn:Htrial;
      [|discriminate].
    exists pa, context, v1, hidden.
    split; [reflexivity|]. split; [exact Ett|].
    destruct (assess_idx + 2 =? length ps)%nat.
    + destruct (lv_tmpinputs v1); [|discriminate].
      destruct (length _ <? S assess_idx)%nat; [discriminate|].
      destruct (hand_off_steps _ _ _ _ _ _).
      injection Hrun as _ <-. exact Htrial.
    + injection Hrun as _ <-. exact Htrial.
  - destruct (assess_idx + 2 =? length ps)%nat; [|discriminate].
    cbn [lv_tmpinputs] in Hrun.
    destruct (lv_tmpinputs v); [|discriminate].
    destruct (length _ <? S assess_idx)%nat; [discriminate|].
    destruct (hand_off_steps _ _ _ _ _ _). discriminate.
Qed.

Lemma compared_length (outputs : list O) (ps : list position) :
  (length (compared outputs ps) <= length outputs)%nat.
Proof.
  unfold compared.
  etransitivity; [apply filter_length_le|].
  rewrite length_combine. lia.
Qed.

(** X25. An assessment that is recorded always holds a lesion
    performance, 0 or 1 (the assessment trial is itself a compare trial, so
    the variable is bound when the record is built), and an overall
    performance between 0 and the number of trials fed. *)
Theorem assessment_records_performance (whichLesion : string)
    (lesionFrequency : Q) (a : net_args) (w : W) (ps : list position)
    (assess_idx : nat) (v v' : lesion_vars H) (r : assessment) :
  assess forward exceeds_half zeros_hidden add_noise random_random
         whichLesion lesionFrequency a w ps assess_idx v
  = Done (v', Some r) ->
  (as_lesion_perf r = Some 0 \/ as_lesion_perf r = Some 1) /\
  0 <= as_overall_perf r <= Z.of_nat (S assess_idx).
Proof.
  intros Hassess.
  destruct (assess_assessed _ _ _ _ _ _ _ _ _ Hassess)
    as (pa & context & v1 & hidden & Hpa & Ett & Htrial).
  destruct (assess_trial_spec W H O forward exceeds_half zeros_hidden
              add_noise random_random _ _ _ _ _ _ _ _ _ _ _ _
              Hpa Ett Htrial)
    as (fed & Hlen & _ & _ & _ & _ & Hspec).
  cbv zeta in Hspec. destruct Hspec as (_ & (output & _ & Hlp) & Hoverall).
  split.
  - rewrite Hlp.
    destruct (proj2 (answer_correct_rule O exceeds_half output (p_label pa)))
      as [-> | ->]; auto.
  - rewrite Hoverall.
    match goal with
    | |- context [fold_left _ ?qs 0] =>
        pose proof (fold_correct_bounds O exceeds_half qs 0) as Hb
    end.
    match type of Hb with
    | context [compared ?outs ps] =>
        pose proof (compared_length outs ps) as Hc;
        rewrite length_map, forward_trace_length, Hlen in Hc
    end.
    lia.
Qed.

End Assessment.

Lemma assessment_records_performance_witness :
  exists v' r,
    assess logging_forward (fun b : bool => b) [] (fun _ h => h)
           (fun _ => 0%Q) "number" 1%Q reset_args tt lesion_example 1
           (lesion_init [] 0 0) = Done (v', Some r) /\
    (as_lesion_perf r = Some 0 \/ as_lesion_perf r = Some 1) /\
    0 <= as_overall_perf r <= 2.
Proof.
  do 2 eexists. split; [vm_compute; reflexivity|].
  exact (assessment_records_performance unit (list (list Z)) bool
           logging_forward (fun b : bool => b) [] (fun _ h => h)
           (fun _ => 0%Q) "number" 1%Q reset_args tt lesion_example 1
           (lesion_init [] 0 0) _ _ eq_refl).
Defined.
